(** * ovn-controller: the OpenFlow flow reconciliation engine (controller/ofctrl.c)

    A shallow embedding of the connection state machine, the desired and
    installed flow tables and the reconciler [ofctrl_put], followed by the
    properties of the specification that are settled against it.

    Conventions of the embedding.
    - C integers are [Z]; the code below only compares them, or-s and shifts
      them inside their width, so no wrap-around is ever taken, with one
      exception that is written out: the conntrack zone, an [int], is
      converted to [uint16_t] at the call of [add_ct_flush_zone].
    - A heap-allocated struct is a record stored in a finite map from
      addresses ([ptr]) to records; a C pointer is a [ptr], a nullable
      pointer an [option ptr].
    - An [ovs_list] of intrusive nodes is the Coq list of the addresses of
      the structs that embed the node, front first.  [ovs_list_insert] on
      the list head appends at the back.
    - An [hmap] is the list of its nodes; an [HMAP_FOR_EACH_WITH_HASH] loop
      visits the nodes whose stored hash equals the given one, in the order
      of the list.  [hmap_insert] links the node at the head of its bucket
      chain, and the list puts it before the nodes of the other chains too.
      A walk of the whole map meets the chains in an order that depends on
      the hashes and on the size of the map, and an expansion changes it:
      the order of the list is one such order, not the one of a given run.
      The theorems about a map that gained a node are therefore about its
      nodes (membership, absence of duplicates, equality up to a
      permutation, what a lookup finds) and not about the place of a node
      in a walk; the lemmas that give the list as the model builds it are
      steps towards them.
    - A failed [ovs_assert], the dereference of a dangling pointer and the
      insertion of a list node that is already linked stop the model
      ([None]). *)

From stdpp Require Import gmap strings list fin_maps pretty.
From Stdlib Require Import ZArith Lia.

Local Open Scope Z_scope.

(** ** OpenFlow messages sent to the switch *)

Inductive ofp_flow_mod_command :=
  | OFPFC_ADD
  | OFPFC_MODIFY_STRICT
  | OFPFC_DELETE
  | OFPFC_DELETE_STRICT.

Inductive ofp_group_mod_command := OFPGC11_ADD | OFPGC11_DELETE.

Inductive ofp_meter_mod_command := OFPMC13_ADD | OFPMC13_DELETE.

Inductive nx_tlv_table_mod_command := NXTTMC_ADD.

(** struct ofputil_group_mod, with the buckets kept in textual form. *)
Record ofputil_group_mod := {
  gm_command : ofp_group_mod_command;
  gm_group_id : Z;
  gm_command_bucket_id : Z;
  gm_buckets : list string
}.

Record ofputil_meter_band := {
  mb_type : Z;
  mb_prec_level : Z;
  mb_rate : Z;
  mb_burst_size : Z
}.

Record ofputil_meter_mod := {
  mm_command : ofp_meter_mod_command;
  mm_meter_id : Z;
  mm_flags : Z;
  mm_bands : list ofputil_meter_band
}.

(** struct ofputil_tlv_map: one mapping of a tunnel option to a slot. *)
Record ofputil_tlv_map := {
  option_class : Z;   (* uint16_t *)
  option_type : Z;    (* uint8_t *)
  option_len : Z;     (* uint8_t *)
  index : Z           (* uint16_t *)
}.

Record ofputil_tlv_table_mod := {
  ttm_command : nx_tlv_table_mod_command;
  ttm_mappings : list ofputil_tlv_map
}.

(** OpenFlow 1.3 protocol constants used by the code (openflow headers). *)
Definition UINT32_MAX : Z := 4294967295.
Definition OFPTT_ALL : Z := 255.
Definition OFPP_ANY : Z := 4294967295.
Definition OFPG_ANY : Z := 4294967295.
Definition OFPG_ALL : Z := 4294967292.
Definition OFPG15_BUCKET_ALL : Z := 4294967295.
Definition OFPM13_ALL : Z := 4294967295.
Definition OFPMF13_KBPS : Z := 1.
Definition OFPMF13_PKTPS : Z := 2.
Definition OFPMF13_BURST : Z := 4.
Definition OFPMF13_STATS : Z := 8.
Definition OFPMBT13_DROP : Z := 1.

(** ** What the code takes from the Open vSwitch libraries *)

(** The match type with its equality and hash, the hash mixer, the field id
    of the first tunnel-metadata field, the Geneve option triple of OVN and
    the parsers of textual group and meter definitions ([None]: the parser
    reports an error) are declared outside controller/ofctrl.c; they are
    parameters here. *)
Class OvsLib := {
  minimatch : Type;
  minimatch_eq_dec :: EqDecision minimatch;
  minimatch_hash : minimatch → Z → Z;
  minimatch_catchall : minimatch;
  hash_2words : Z → Z → Z;
  MFF_TUN_METADATA0 : Z;
  OVN_GENEVE_CLASS : Z;
  OVN_GENEVE_TYPE : Z;
  OVN_GENEVE_LEN : Z;
  parse_ofp_group_mod_str :
    ofp_group_mod_command → string → option ofputil_group_mod;
  parse_ofp_meter_mod_str :
    string → ofp_meter_mod_command → option ofputil_meter_mod
}.

Abbreviation ptr := positive.

(** [TUN_METADATA_NUM_OPTS], fixed by the [BUILD_ASSERT] in
    [process_tlv_table_reply]. *)
Definition TUN_METADATA_NUM_OPTS : Z := 64.
Definition UINT64_MAX : Z := 2 ^ 64 - 1.

(** struct uuid: four 32-bit parts. *)
Inductive uuid := UUID (p0 p1 p2 p3 : Z).

#[global] Instance uuid_eq_dec : EqDecision uuid.
Proof. solve_decision. Defined.

Definition uuid_equals (a b : uuid) : bool := bool_decide (a = b).

#[global] Instance byte_eq_dec : EqDecision Byte.byte := Byte.byte_eq_dec.

(** ** Connection state machine: the states *)

Inductive ofctrl_state :=
  | S_NEW
  | S_TLV_TABLE_REQUESTED
  | S_TLV_TABLE_MOD_SENT
  | S_CLEAR_FLOWS
  | S_UPDATE_FLOWS.

#[global] Instance ofctrl_state_eq_dec : EqDecision ofctrl_state.
Proof. solve_decision. Defined.

(** struct ofctrl_flow_update: an in-flight update to the switch. *)
Record ofctrl_flow_update := {
  fup_xid : Z;       (* OpenFlow transaction ID for barrier. *)
  fup_nb_cfg : Z     (* Northbound database sequence number. *)
}.

(** struct ct_zone_pending_entry (ovn-controller.h), the fields used here. *)
Inductive ct_zone_pending_state :=
  | CT_ZONE_OF_QUEUED    (* Waiting to send conntrack flush command. *)
  | CT_ZONE_OF_SENT      (* Sent and waiting for confirmation on flush. *)
  | CT_ZONE_DB_QUEUED    (* Waiting for DB transaction to open. *)
  | CT_ZONE_DB_SENT.     (* Sent and waiting for confirmation from DB. *)

#[global] Instance ct_zone_pending_state_eq_dec :
  EqDecision ct_zone_pending_state.
Proof. solve_decision. Defined.

Record ct_zone_pending_entry := {
  zone : Z;
  of_xid : Z;
  ctzpe_state : ct_zone_pending_state
}.

(** struct sbrec_meter and struct sbrec_meter_band of the southbound
    schema, the columns used here. *)
Record sbrec_meter_band := {
  sb_action : string;
  sb_rate : Z;
  sb_burst_size : Z
}.

Record sbrec_meter := {
  sb_name : string;
  sb_unit : string;
  sb_bands : list sbrec_meter_band
}.

(** Received messages: the type found by [ofptype_decode], the header's xid
    and what the decoders of the library return on the body. *)
Inductive ofptype :=
  | OFPTYPE_ECHO_REQUEST
  | OFPTYPE_ERROR
  | OFPTYPE_BARRIER_REPLY
  | OFPTYPE_NXT_TLV_TABLE_REPLY
  | OFPTYPE_OTHER.

Inductive ofperr :=
  | OFPERR_NXTTMFC_ALREADY_MAPPED
  | OFPERR_NXTTMFC_DUP_ENTRY
  | OFPERR_OTHER.

Record ofp_header := {
  oh_xid : Z;
  (* ofputil_decode_tlv_table_reply: the mappings, or None on a decode
     error *)
  oh_tlv_table_reply : option (list ofputil_tlv_map);
  (* ofperr_decode_msg *)
  oh_error : ofperr
}.

#[global] Instance ofptype_eq_dec : EqDecision ofptype.
Proof. solve_decision. Defined.

#[global] Instance ofperr_eq_dec : EqDecision ofperr.
Proof. solve_decision. Defined.

(** ** Flows *)

Section Model.
Context `{OvsLib}.

(** struct ovn_flow. *)
Record ovn_flow := {
  (* Key. *)
  table_id : Z;                (* uint8_t *)
  priority : Z;                (* uint16_t *)
  match_ : minimatch;
  (* Hash. *)
  hash : Z;                    (* uint32_t *)
  (* Data. *)
  ofpacts : list Byte.byte;    (* ofpacts, ofpacts_len *)
  cookie : Z                   (* uint64_t *)
}.

(** struct sb_flow_ref: the link between a desired flow and an SB UUID; the
    same link lies on [d_references] of the flow and on [stf_flows] of the
    UUID's entry. *)
Record sb_flow_ref := {
  sfr_flow : ptr;
  sfr_sb_uuid : uuid
}.

(** struct desired_flow. *)
Record desired_flow := {
  d_flow : ovn_flow;
  d_references : list sb_flow_ref;   (* list of struct sb_flow_ref nodes *)
  d_installed_flow : option ptr      (* the corresponding installed flow *)
}.

(** struct sb_to_flow. *)
Record sb_to_flow := {
  stf_sb_uuid : uuid;
  stf_flows : list sb_flow_ref
}.

(** struct ovn_desired_flow_table: the two hmaps. *)
Record ovn_desired_flow_table := {
  match_flow_table : list ptr;
  uuid_flow_table : list sb_to_flow
}.

(** struct installed_flow. *)
Record installed_flow := {
  i_flow : ovn_flow;
  i_desired_refs : list ptr;       (* desired flows linked by their
                                      installed_ref_list_node *)
  i_desired_flow : option ptr      (* the one that is actually installed *)
}.

(** The heap: the desired and installed flows that are allocated. *)
Record memory := {
  desired_at : gmap positive desired_flow;
  installed_at : gmap positive installed_flow
}.

(** ** Messages *)

Record ofputil_flow_mod := {
  fm_match : minimatch;
  fm_priority : Z;
  fm_table_id : Z;
  fm_ofpacts : list Byte.byte;
  fm_new_cookie : Z;
  fm_modify_cookie : bool;
  fm_command : ofp_flow_mod_command;
  fm_buffer_id : Z;
  fm_out_port : Z;
  fm_out_group : Z
}.

Inductive ofp_msg :=
  | NXT_TLV_TABLE_REQUEST
  | NXT_TLV_TABLE_MOD (ttm : ofputil_tlv_table_mod)
  | OFPT_BARRIER_REQUEST
  | OFPT_FLOW_MOD (fm : ofputil_flow_mod)
  | OFPT_GROUP_MOD (gm : ofputil_group_mod)
  | OFPT_METER_MOD (mm : ofputil_meter_mod)
  | NXT_CT_FLUSH_ZONE (zone_id : Z)
  | OFPT_ECHO_REPLY.

(** A message buffer ready to be sent: the header's xid and the body. *)
Record ofpbuf := {
  msg_xid : Z;
  msg_body : ofp_msg
}.

(** ** The connection and the file-scope state *)

(** struct rconn, as far as the code observes it: the negotiated version
    (negative when there is none), the messages handed to [rconn_send] and
    the library's transaction-id allocator. *)
Record rconn := {
  version : Z;
  txq : list ofpbuf;
  next_xid : Z
}.

(** struct ovn_extend_table_info and struct ovn_extend_table
    (lib/extend-table.h). *)
Record ovn_extend_table_info := {
  eti_name : string;
  eti_table_id : Z
}.

Record ovn_extend_table := {
  et_desired : list ovn_extend_table_info;
  et_existing : list ovn_extend_table_info
}.

(** The file-scope variables of ofctrl.c, the two function-static variables
    of [ofctrl_put], and the heap. *)
Record ofctrl := {
  swconn : rconn;
  state : ofctrl_state;
  flow_updates : list ofctrl_flow_update;   (* front first *)
  cur_cfg : Z;                              (* int64_t *)
  xid : Z;
  xid2 : Z;
  tx_counter : Z;       (* rconn_packet_counter_n_packets (tx_counter) *)
  installed_flows : list ptr;
  groups : option ovn_extend_table;
  meters : option ovn_extend_table;
  mff_ovn_geneve : Z;
  need_reinstall_flows : bool;
  skipped_last_time : bool;
  old_nb_cfg : Z;
  mem : memory
}.

(** Field updates: the named field is replaced, the others are kept. *)
Definition set_desired_at (f : gmap positive desired_flow → gmap positive desired_flow)
    (m : memory) : memory :=
  {| desired_at := f (desired_at m); installed_at := installed_at m |}.

Definition set_installed_at
    (f : gmap positive installed_flow → gmap positive installed_flow)
    (m : memory) : memory :=
  {| desired_at := desired_at m; installed_at := f (installed_at m) |}.

Definition set_swconn (c : rconn) (s : ofctrl) : ofctrl :=
  let 'Build_ofctrl _ a1 a2 a3 a4 a5 a6 a7 a8 a9 a10 a11 a12 a13 a14 := s in
  Build_ofctrl c a1 a2 a3 a4 a5 a6 a7 a8 a9 a10 a11 a12 a13 a14.

Definition set_state (x : ofctrl_state) (s : ofctrl) : ofctrl :=
  let 'Build_ofctrl a0 _ a2 a3 a4 a5 a6 a7 a8 a9 a10 a11 a12 a13 a14 := s in
  Build_ofctrl a0 x a2 a3 a4 a5 a6 a7 a8 a9 a10 a11 a12 a13 a14.

Definition set_flow_updates (x : list ofctrl_flow_update) (s : ofctrl) : ofctrl :=
  let 'Build_ofctrl a0 a1 _ a3 a4 a5 a6 a7 a8 a9 a10 a11 a12 a13 a14 := s in
  Build_ofctrl a0 a1 x a3 a4 a5 a6 a7 a8 a9 a10 a11 a12 a13 a14.

Definition set_cur_cfg (x : Z) (s : ofctrl) : ofctrl :=
  let 'Build_ofctrl a0 a1 a2 _ a4 a5 a6 a7 a8 a9 a10 a11 a12 a13 a14 := s in
  Build_ofctrl a0 a1 a2 x a4 a5 a6 a7 a8 a9 a10 a11 a12 a13 a14.

Definition set_xid (x : Z) (s : ofctrl) : ofctrl :=
  let 'Build_ofctrl a0 a1 a2 a3 _ a5 a6 a7 a8 a9 a10 a11 a12 a13 a14 := s in
  Build_ofctrl a0 a1 a2 a3 x a5 a6 a7 a8 a9 a10 a11 a12 a13 a14.

Definition set_xid2 (x : Z) (s : ofctrl) : ofctrl :=
  let 'Build_ofctrl a0 a1 a2 a3 a4 _ a6 a7 a8 a9 a10 a11 a12 a13 a14 := s in
  Build_ofctrl a0 a1 a2 a3 a4 x a6 a7 a8 a9 a10 a11 a12 a13 a14.

Definition set_tx_counter (x : Z) (s : ofctrl) : ofctrl :=
  let 'Build_ofctrl a0 a1 a2 a3 a4 a5 _ a7 a8 a9 a10 a11 a12 a13 a14 := s in
  Build_ofctrl a0 a1 a2 a3 a4 a5 x a7 a8 a9 a10 a11 a12 a13 a14.

Definition set_installed_flows (x : list ptr) (s : ofctrl) : ofctrl :=
  let 'Build_ofctrl a0 a1 a2 a3 a4 a5 a6 _ a8 a9 a10 a11 a12 a13 a14 := s in
  Build_ofctrl a0 a1 a2 a3 a4 a5 a6 x a8 a9 a10 a11 a12 a13 a14.

Definition set_groups (x : option ovn_extend_table) (s : ofctrl) : ofctrl :=
  let 'Build_ofctrl a0 a1 a2 a3 a4 a5 a6 a7 _ a9 a10 a11 a12 a13 a14 := s in
  Build_ofctrl a0 a1 a2 a3 a4 a5 a6 a7 x a9 a10 a11 a12 a13 a14.

Definition set_meters (x : option ovn_extend_table) (s : ofctrl) : ofctrl :=
  let 'Build_ofctrl a0 a1 a2 a3 a4 a5 a6 a7 a8 _ a10 a11 a12 a13 a14 := s in
  Build_ofctrl a0 a1 a2 a3 a4 a5 a6 a7 a8 x a10 a11 a12 a13 a14.

Definition set_mff_ovn_geneve (x : Z) (s : ofctrl) : ofctrl :=
  let 'Build_ofctrl a0 a1 a2 a3 a4 a5 a6 a7 a8 a9 _ a11 a12 a13 a14 := s in
  Build_ofctrl a0 a1 a2 a3 a4 a5 a6 a7 a8 a9 x a11 a12 a13 a14.

Definition set_need_reinstall_flows (x : bool) (s : ofctrl) : ofctrl :=
  let 'Build_ofctrl a0 a1 a2 a3 a4 a5 a6 a7 a8 a9 a10 _ a12 a13 a14 := s in
  Build_ofctrl a0 a1 a2 a3 a4 a5 a6 a7 a8 a9 a10 x a12 a13 a14.

Definition set_skipped_last_time (x : bool) (s : ofctrl) : ofctrl :=
  let 'Build_ofctrl a0 a1 a2 a3 a4 a5 a6 a7 a8 a9 a10 a11 _ a13 a14 := s in
  Build_ofctrl a0 a1 a2 a3 a4 a5 a6 a7 a8 a9 a10 a11 x a13 a14.

Definition set_old_nb_cfg (x : Z) (s : ofctrl) : ofctrl :=
  let 'Build_ofctrl a0 a1 a2 a3 a4 a5 a6 a7 a8 a9 a10 a11 a12 _ a14 := s in
  Build_ofctrl a0 a1 a2 a3 a4 a5 a6 a7 a8 a9 a10 a11 a12 x a14.

Definition set_mem (x : memory) (s : ofctrl) : ofctrl :=
  let 'Build_ofctrl a0 a1 a2 a3 a4 a5 a6 a7 a8 a9 a10 a11 a12 a13 _ := s in
  Build_ofctrl a0 a1 a2 a3 a4 a5 a6 a7 a8 a9 a10 a11 a12 a13 x.

(** ** Lists, hash maps and allocation *)

(** A loop whose body may stop the program. *)
Fixpoint for_each {A S : Type} (l : list A) (body : A → S → option S)
    (s : S) : option S :=
  match l with
  | [] => Some s
  | x :: l' => s' ← body x s; for_each l' body s'
  end.

(** [xmalloc]: an address that is not allocated. *)
Definition xmalloc {A : Type} (h : gmap positive A) : ptr := fresh (dom h).

(** [hmap_insert]: the node goes to the head of its bucket chain.  Its place
    among the nodes of the other chains is the list's choice. *)
Definition hmap_insert {A : Type} (h : list A) (node : A) : list A :=
  node :: h.

(** [hmap_remove] of a node that is in the map. *)
Definition hmap_remove (h : list ptr) (node : ptr) : list ptr :=
  filter (λ x, x ≠ node) h.

(** [ovs_list_insert (&head, &node)]: the node is linked at the back.  A node
    that already lies on the list cannot be linked again. *)
Definition ovs_list_push_back (l : list ptr) (node : ptr)
    : option (list ptr) :=
  if decide (node ∈ l) then None else Some (l ++ [node]).

(** [ovs_list_remove (&node)] for a node on the list [l]. *)
Definition ovs_list_remove (l : list ptr) (node : ptr) : option (list ptr) :=
  if decide (node ∈ l) then Some (filter (λ x, x ≠ node) l) else None.

(** ** Flow operations *)

(** Returns a hash of the match key in [f]. *)
Definition ovn_flow_match_hash (f : ovn_flow) : Z :=
  hash_2words (Z.lor (Z.shiftl (table_id f) 16) (priority f))
              (minimatch_hash (match_ f) 0).

Definition ovn_flow_init (table_id' priority' cookie' : Z)
    (match' : minimatch) (actions : list Byte.byte) : ovn_flow :=
  let f := {| table_id := table_id'; priority := priority';
              match_ := match'; hash := 0; ofpacts := actions;
              cookie := 0 |} in
  {| table_id := table_id'; priority := priority'; match_ := match';
     hash := ovn_flow_match_hash f; ofpacts := actions;
     cookie := cookie' |}.

(** The key comparison shared by the two lookups, after the hash filter of
    [HMAP_FOR_EACH_WITH_HASH]. *)
Definition ovn_flow_key_match (f target : ovn_flow) : bool :=
  (hash f =? hash target)
  && (table_id f =? table_id target)
  && (priority f =? priority target)
  && bool_decide (match_ f = match_ target).

Definition desired_flow_alloc (table_id' priority' cookie' : Z)
    (match' : minimatch) (actions : list Byte.byte) (m : memory)
    : ptr * memory :=
  let f := xmalloc (desired_at m) in
  (f, set_desired_at
        (insert f {| d_flow := ovn_flow_init table_id' priority' cookie'
                                             match' actions;
                     d_references := [];
                     d_installed_flow := None |}) m).

Definition desired_flow_destroy (f : ptr) (m : memory) : option memory :=
  d ← desired_at m !! f;
  if bool_decide (d_references d = [])
     && bool_decide (d_installed_flow d = None)
  then Some (set_desired_at (delete f) m)
  else None.

Definition installed_flow_destroy (f : ptr) (m : memory) : option memory :=
  i ← installed_at m !! f;
  if bool_decide (i_desired_refs i = [])
     && bool_decide (i_desired_flow i = None)
  then Some (set_installed_at (delete f) m)
  else None.

(** Duplicate a desired flow to an installed flow. *)
Definition installed_flow_dup (src : ptr) (m : memory)
    : option (ptr * memory) :=
  d ← desired_at m !! src;
  let dst := xmalloc (installed_at m) in
  Some (dst,
        set_installed_at
          (insert dst
             {| i_flow := {| table_id := table_id (d_flow d);
                             priority := priority (d_flow d);
                             match_ := match_ (d_flow d);
                             hash := hash (d_flow d);
                             ofpacts := ofpacts (d_flow d);
                             cookie := cookie (d_flow d) |};
                i_desired_refs := [];
                i_desired_flow := None |}) m).

(** Finds a desired flow in [flow_table] whose key is identical to
    [target]'s key.  If [sb_uuid] is given, the flow found must also be
    referenced by it. *)
Fixpoint desired_flow_lookup_in (chain : list ptr) (target : ovn_flow)
    (sb_uuid : option uuid) (m : memory) : option (option ptr) :=
  match chain with
  | [] => Some None
  | d :: chain' =>
      df ← desired_at m !! d;
      if ovn_flow_key_match (d_flow df) target then
        match sb_uuid with
        | None => Some (Some d)
        | Some u =>
            if existsb (λ sfr, uuid_equals u (sfr_sb_uuid sfr))
                       (d_references df)
            then Some (Some d)
            else desired_flow_lookup_in chain' target sb_uuid m
        end
      else desired_flow_lookup_in chain' target sb_uuid m
  end.

Definition desired_flow_lookup (flow_table : ovn_desired_flow_table)
    (target : ovn_flow) (sb_uuid : option uuid) (m : memory)
    : option (option ptr) :=
  desired_flow_lookup_in (match_flow_table flow_table) target sb_uuid m.

(** Finds an installed flow whose key is identical to [target]'s key. *)
Fixpoint installed_flow_lookup_in (chain : list ptr) (target : ovn_flow)
    (m : memory) : option (option ptr) :=
  match chain with
  | [] => Some None
  | i :: chain' =>
      fi ← installed_at m !! i;
      if ovn_flow_key_match (i_flow fi) target then Some (Some i)
      else installed_flow_lookup_in chain' target m
  end.

Definition installed_flow_lookup (target : ovn_flow) (s : ofctrl)
    : option (option ptr) :=
  installed_flow_lookup_in (installed_flows s) target (mem s).

(** ** Links between installed and desired flows *)

(** [d->installed_flow = x]. *)
Definition d_with_installed_flow (x : option ptr) (fd : desired_flow)
    : desired_flow :=
  {| d_flow := d_flow fd; d_references := d_references fd;
     d_installed_flow := x |}.

(** The [desired_refs] list and the [desired_flow] pointer of an installed
    flow, rewritten. *)
Definition i_with_links (refs : list ptr) (primary : option ptr)
    (fi : installed_flow) : installed_flow :=
  {| i_flow := i_flow fi; i_desired_refs := refs;
     i_desired_flow := primary |}.

Definition link_installed_to_desired (i d : ptr) (m : memory)
    : option memory :=
  fi ← installed_at m !! i;
  if bool_decide (i_desired_flow fi = Some d) then Some m
  else
    fd ← desired_at m !! d;
    primary ←
      (if bool_decide (i_desired_refs fi = []) then
         (* ovs_assert(!i->desired_flow) *)
         if bool_decide (i_desired_flow fi = None) then Some (Some d)
         else None
       else Some (i_desired_flow fi));
    refs ← ovs_list_push_back (i_desired_refs fi) d;
    Some {| installed_at := <[i := i_with_links refs primary fi]>
                              (installed_at m);
            desired_at := <[d := d_with_installed_flow (Some i) fd]>
                            (desired_at m) |}.

Definition unlink_installed_to_desired (i d : ptr) (m : memory)
    : option memory :=
  fi ← installed_at m !! i;
  fd ← desired_at m !! d;
  (* the two ovs_assert *)
  if bool_decide (i_desired_flow fi ≠ None)
     && bool_decide (i_desired_refs fi ≠ [])
     && bool_decide (d_installed_flow fd = Some i)
  then
    refs ← ovs_list_remove (i_desired_refs fi) d;
    let primary := if bool_decide (i_desired_flow fi = Some d)
                   then head refs else i_desired_flow fi in
    Some {| installed_at := <[i := i_with_links refs primary fi]>
                              (installed_at m);
            desired_at := <[d := d_with_installed_flow None fd]>
                            (desired_at m) |}
  else None.

Definition unlink_all_refs_for_installed_flow (i : ptr) (m : memory)
    : option memory :=
  fi ← installed_at m !! i;
  for_each (i_desired_refs fi) (unlink_installed_to_desired i) m.

(** ** The desired flow table *)

Definition sb_to_flow_find (uuid_flow_table' : list sb_to_flow)
    (sb_uuid : uuid) : option sb_to_flow :=
  find (λ stf, uuid_equals sb_uuid (stf_sb_uuid stf)) uuid_flow_table'.

(** The entry returned by [sb_to_flow_find], updated in place. *)
Fixpoint sb_to_flow_update (uuid_flow_table' : list sb_to_flow)
    (sb_uuid : uuid) (g : sb_to_flow → sb_to_flow) : list sb_to_flow :=
  match uuid_flow_table' with
  | [] => []
  | stf :: t =>
      if uuid_equals sb_uuid (stf_sb_uuid stf) then g stf :: t
      else stf :: sb_to_flow_update t sb_uuid g
  end.

Definition link_flow_to_sb (flow_table : ovn_desired_flow_table) (f : ptr)
    (sb_uuid : uuid) (m : memory)
    : option (ovn_desired_flow_table * memory) :=
  fd ← desired_at m !! f;
  let sfr := {| sfr_flow := f; sfr_sb_uuid := sb_uuid |} in
  let m := set_desired_at
             (insert f {| d_flow := d_flow fd;
                          d_references := d_references fd ++ [sfr];
                          d_installed_flow := d_installed_flow fd |}) m in
  let uft :=
    match sb_to_flow_find (uuid_flow_table flow_table) sb_uuid with
    | Some _ => uuid_flow_table flow_table
    | None => hmap_insert (uuid_flow_table flow_table)
                          {| stf_sb_uuid := sb_uuid; stf_flows := [] |}
    end in
  let uft :=
    sb_to_flow_update uft sb_uuid
      (λ stf, {| stf_sb_uuid := stf_sb_uuid stf;
                 stf_flows := stf_flows stf ++ [sfr] |}) in
  Some ({| match_flow_table := match_flow_table flow_table;
           uuid_flow_table := uft |}, m).

(** Adds a flow to [flow_table], linked to the [sb_uuid] that generates it.
    [log_duplicate_flow] only selects whether a dropped duplicate is
    logged. *)
Definition ofctrl_check_and_add_flow (flow_table : ovn_desired_flow_table)
    (table_id' priority' cookie' : Z) (match' : minimatch)
    (actions : list Byte.byte) (sb_uuid : uuid) (log_duplicate_flow : bool)
    (m : memory) : option (ovn_desired_flow_table * memory) :=
  let '(f, m) := desired_flow_alloc table_id' priority' cookie' match'
                                    actions m in
  fd ← desired_at m !! f;
  found ← desired_flow_lookup flow_table (d_flow fd) (Some sb_uuid) m;
  match found with
  | Some _ =>
      m ← desired_flow_destroy f m;
      Some (flow_table, m)
  | None =>
      let flow_table :=
        {| match_flow_table := hmap_insert (match_flow_table flow_table) f;
           uuid_flow_table := uuid_flow_table flow_table |} in
      link_flow_to_sb flow_table f sb_uuid m
  end.

Definition ofctrl_add_flow (desired_flows : ovn_desired_flow_table)
    (table_id' priority' cookie' : Z) (match' : minimatch)
    (actions : list Byte.byte) (sb_uuid : uuid) (m : memory)
    : option (ovn_desired_flow_table * memory) :=
  ofctrl_check_and_add_flow desired_flows table_id' priority' cookie' match'
                            actions sb_uuid true m.

(** Either add a new flow, or append actions on an existing flow. *)
Definition ofctrl_add_or_append_flow (desired_flows : ovn_desired_flow_table)
    (table_id' priority' cookie' : Z) (match' : minimatch)
    (actions : list Byte.byte) (sb_uuid : uuid) (m : memory)
    : option (ovn_desired_flow_table * memory) :=
  let '(f, m) := desired_flow_alloc table_id' priority' cookie' match'
                                    actions m in
  fd ← desired_at m !! f;
  existing ← desired_flow_lookup desired_flows (d_flow fd) None m;
  match existing with
  | Some e =>
      fe ← desired_at m !! e;
      let compound := ofpacts (d_flow fe) ++ ofpacts (d_flow fd) in
      let m := set_desired_at
                 (insert e
                    {| d_flow := {| table_id := table_id (d_flow fe);
                                    priority := priority (d_flow fe);
                                    match_ := match_ (d_flow fe);
                                    hash := hash (d_flow fe);
                                    ofpacts := compound;
                                    cookie := cookie (d_flow fe) |};
                       d_references := d_references fe;
                       d_installed_flow := d_installed_flow fe |}) m in
      m ← desired_flow_destroy f m;
      link_flow_to_sb desired_flows e sb_uuid m
  | None =>
      let desired_flows :=
        {| match_flow_table :=
             hmap_insert (match_flow_table desired_flows) f;
           uuid_flow_table := uuid_flow_table desired_flows |} in
      link_flow_to_sb desired_flows f sb_uuid m
  end.

(** ** Sending *)

(** The library's encoders stamp a new message with the next transaction
    id. *)
Definition ofpbuf_new (body : ofp_msg) (s : ofctrl) : ofpbuf * ofctrl :=
  let c := swconn s in
  ({| msg_xid := next_xid c; msg_body := body |},
   set_swconn {| version := version c; txq := txq c;
                 next_xid := (next_xid c + 1) `mod` 2 ^ 32 |} s).

(** [queue_msg]: [rconn_send] takes the message and counts it in
    [tx_counter]; the xid of the message is returned. *)
Definition queue_msg (msg : ofpbuf) (s : ofctrl) : Z * ofctrl :=
  let c := swconn s in
  (msg_xid msg,
   set_tx_counter (tx_counter s + 1)
     (set_swconn {| version := version c; txq := txq c ++ [msg];
                    next_xid := next_xid c |} s)).

Definition encode_flow_mod (fm : ofputil_flow_mod) : ofp_msg :=
  OFPT_FLOW_MOD
    {| fm_match := fm_match fm; fm_priority := fm_priority fm;
       fm_table_id := fm_table_id fm; fm_ofpacts := fm_ofpacts fm;
       fm_new_cookie := fm_new_cookie fm;
       fm_modify_cookie := fm_modify_cookie fm;
       fm_command := fm_command fm;
       fm_buffer_id := UINT32_MAX; fm_out_port := OFPP_ANY;
       fm_out_group := OFPG_ANY |}.

Definition encode_group_mod (gm : ofputil_group_mod) : ofp_msg :=
  OFPT_GROUP_MOD gm.

Definition encode_meter_mod (mm : ofputil_meter_mod) : ofp_msg :=
  OFPT_METER_MOD mm.

(** The generic receive handler. *)
Definition ofctrl_recv (oh : ofp_header) (type : ofptype) (s : ofctrl)
    : ofctrl :=
  match type with
  | OFPTYPE_ECHO_REQUEST =>
      (queue_msg {| msg_xid := oh_xid oh; msg_body := OFPT_ECHO_REPLY |}
                 s).2
  | _ => s
  end.

(** ** State machine *)

(** S_NEW: sends NXT_TLV_TABLE_REQUEST and transitions to
    S_TLV_TABLE_REQUESTED. *)
Definition run_S_NEW (s : ofctrl) : ofctrl :=
  let '(buf, s) := ofpbuf_new NXT_TLV_TABLE_REQUEST s in
  let '(x, s) := queue_msg buf s in
  set_state S_TLV_TABLE_REQUESTED (set_xid x s).

(** Modelled from the spec: [rightmost_1bit_idx] (util.h of Open vSwitch) is
    not part of the sources at hand; the specification has the code "pick the
    lowest-index free slot (bitmap over 64 slots)", so it is the index of the
    lowest bit that is set among the 64. *)
Fixpoint rightmost_1bit_idx_from (n : nat) (i : Z) (x : Z) : Z :=
  match n with
  | O => i
  | S n' => if Z.testbit x i then i else rightmost_1bit_idx_from n' (i + 1) x
  end.

Definition rightmost_1bit_idx (x : Z) : Z :=
  rightmost_1bit_idx_from 64 0 x.

(** The test on a mapping in [process_tlv_table_reply]: it carries the
    Geneve option of OVN. *)
Definition is_ovn_geneve (map_ : ofputil_tlv_map) : bool :=
  (option_class map_ =? OVN_GENEVE_CLASS)
  && (option_type map_ =? OVN_GENEVE_TYPE)
  && (option_len map_ =? OVN_GENEVE_LEN).

(** The LIST_FOR_EACH loop of [process_tlv_table_reply]: the result of an
    early return, or [md_free] when the loop runs to its end. *)
Fixpoint process_tlv_table_reply_scan (mappings : list ofputil_tlv_map)
    (md_free : Z) (s : ofctrl) : (bool * ofctrl) + Z :=
  match mappings with
  | [] => inr md_free
  | map_ :: rest =>
      if is_ovn_geneve map_ then
        if index map_ >=? TUN_METADATA_NUM_OPTS then inl (false, s)
        else
          inl (true,
               set_state S_CLEAR_FLOWS
                 (set_mff_ovn_geneve (MFF_TUN_METADATA0 + index map_) s))
      else
        let md_free :=
          if index map_ <? TUN_METADATA_NUM_OPTS
          then Z.land md_free (Z.lnot (Z.shiftl 1 (index map_)))
          else md_free in
        process_tlv_table_reply_scan rest md_free s
  end.

Definition process_tlv_table_reply (reply : list ofputil_tlv_map)
    (s : ofctrl) : bool * ofctrl :=
  match process_tlv_table_reply_scan reply UINT64_MAX s with
  | inl r => r
  | inr md_free =>
      if md_free =? 0 then (false, s)
      else
        let index' := rightmost_1bit_idx md_free in
        let s := set_mff_ovn_geneve (MFF_TUN_METADATA0 + index') s in
        let tm := {| option_class := OVN_GENEVE_CLASS;
                     option_type := OVN_GENEVE_TYPE;
                     option_len := OVN_GENEVE_LEN;
                     index := index' |} in
        let ttm := {| ttm_command := NXTTMC_ADD; ttm_mappings := [tm] |} in
        let '(buf, s) := ofpbuf_new (NXT_TLV_TABLE_MOD ttm) s in
        let '(x, s) := queue_msg buf s in
        let s := set_xid x s in
        let '(buf, s) := ofpbuf_new OFPT_BARRIER_REQUEST s in
        let '(x, s) := queue_msg buf s in
        let s := set_xid2 x s in
        (true, set_state S_TLV_TABLE_MOD_SENT s)
  end.

Definition recv_S_TLV_TABLE_REQUESTED (oh : ofp_header) (type : ofptype)
    (s : ofctrl) : ofctrl :=
  let error_path (s : ofctrl) :=
    set_state S_CLEAR_FLOWS (set_mff_ovn_geneve 0 s) in
  if negb (oh_xid oh =? xid s) then ofctrl_recv oh type s
  else if bool_decide (type = OFPTYPE_NXT_TLV_TABLE_REPLY) then
    match oh_tlv_table_reply oh with
    | Some reply =>
        let '(ok, s) := process_tlv_table_reply reply s in
        if ok then s else error_path s
    | None => error_path s
    end
  else error_path s.

Definition recv_S_TLV_TABLE_MOD_SENT (oh : ofp_header) (type : ofptype)
    (s : ofctrl) : ofctrl :=
  if negb (oh_xid oh =? xid s) && negb (oh_xid oh =? xid2 s)
  then ofctrl_recv oh type s
  else if (oh_xid oh =? xid2 s) && bool_decide (type = OFPTYPE_BARRIER_REPLY)
  then set_state S_CLEAR_FLOWS s
  else if (oh_xid oh =? xid s) && bool_decide (type = OFPTYPE_ERROR)
  then
    if bool_decide (oh_error oh = OFPERR_NXTTMFC_ALREADY_MAPPED)
       || bool_decide (oh_error oh = OFPERR_NXTTMFC_DUP_ENTRY)
    then set_state S_NEW s
    else set_state S_CLEAR_FLOWS s
  else set_state S_CLEAR_FLOWS s.

(** Modelled from the spec: [ovn_extend_table_clear] (lib/extend-table.c) is
    not part of the sources at hand; by section 4.5 of the specification the
    call with [existing = true] clears the installed set of the table. *)
Definition ovn_extend_table_clear (table : ovn_extend_table)
    (existing : bool) : ovn_extend_table :=
  if existing
  then {| et_desired := et_desired table; et_existing := [] |}
  else {| et_desired := []; et_existing := et_existing table |}.

Definition with_mem (f : memory → option memory) (s : ofctrl)
    : option ofctrl :=
  m ← f (mem s); Some (set_mem m s).

(** The body of the loop of [ovn_installed_flow_table_clear]. *)
Definition installed_flow_table_clear_flow (f : ptr) (s : ofctrl)
    : option ofctrl :=
  let s := set_installed_flows (hmap_remove (installed_flows s) f) s in
  s ← with_mem (unlink_all_refs_for_installed_flow f) s;
  with_mem (installed_flow_destroy f) s.

Definition ovn_installed_flow_table_clear (s : ofctrl) : option ofctrl :=
  for_each (installed_flows s) installed_flow_table_clear_flow s.

(** S_CLEAR_FLOWS: sends the messages that clear the switch, clears the
    local tables and transitions to S_UPDATE_FLOWS. *)
Definition run_S_CLEAR_FLOWS (s : ofctrl) : option ofctrl :=
  let s := set_need_reinstall_flows true s in
  (* Send a flow_mod to delete all flows. *)
  let fm := {| fm_match := minimatch_catchall; fm_priority := 0;
               fm_table_id := OFPTT_ALL; fm_ofpacts := [];
               fm_new_cookie := 0; fm_modify_cookie := false;
               fm_command := OFPFC_DELETE; fm_buffer_id := 0;
               fm_out_port := 0; fm_out_group := 0 |} in
  let '(buf, s) := ofpbuf_new (encode_flow_mod fm) s in
  let s := (queue_msg buf s).2 in
  (* Send a group_mod to delete all groups. *)
  let gm := {| gm_command := OFPGC11_DELETE; gm_group_id := OFPG_ALL;
               gm_command_bucket_id := OFPG15_BUCKET_ALL;
               gm_buckets := [] |} in
  let '(buf, s) := ofpbuf_new (encode_group_mod gm) s in
  let s := (queue_msg buf s).2 in
  (* Clear installed_flows, to match the state of the switch. *)
  s ← ovn_installed_flow_table_clear s;
  (* Clear existing groups, to match the state of the switch. *)
  let s := match groups s with
           | Some g => set_groups (Some (ovn_extend_table_clear g true)) s
           | None => s
           end in
  (* Send a meter_mod to delete all meters. *)
  let mm := {| mm_command := OFPMC13_DELETE; mm_meter_id := OFPM13_ALL;
               mm_flags := 0; mm_bands := [] |} in
  let '(buf, s) := ofpbuf_new (encode_meter_mod mm) s in
  let s := (queue_msg buf s).2 in
  (* Clear existing meters, to match the state of the switch. *)
  let s := match meters s with
           | Some g => set_meters (Some (ovn_extend_table_clear g true)) s
           | None => s
           end in
  (* All flow updates are irrelevant now. *)
  let s := set_flow_updates [] s in
  Some (set_state S_UPDATE_FLOWS s).

Definition recv_S_CLEAR_FLOWS (oh : ofp_header) (type : ofptype)
    (s : ofctrl) : ofctrl :=
  ofctrl_recv oh type s.

(** S_UPDATE_FLOWS: a barrier reply advances the flow updates and the
    pending conntrack flushes. *)
Definition recv_S_UPDATE_FLOWS (oh : ofp_header) (type : ofptype)
    (pending_ct_zones : gmap string ct_zone_pending_entry) (s : ofctrl)
    : ofctrl * gmap string ct_zone_pending_entry :=
  if bool_decide (type = OFPTYPE_BARRIER_REPLY)
     && negb (bool_decide (flow_updates s = []))
  then
    let s :=
      match flow_updates s with
      | fup :: rest =>
          if fup_xid fup =? oh_xid oh then
            let s := if fup_nb_cfg fup >=? cur_cfg s
                     then set_cur_cfg (fup_nb_cfg fup) s else s in
            set_flow_updates rest s
          else s
      | [] => s
      end in
    (* If the barrier xid is associated with an outstanding conntrack
       flush, the flush succeeded. *)
    (s,
     (λ ctzpe,
        if bool_decide (ctzpe_state ctzpe = CT_ZONE_OF_SENT)
           && (of_xid ctzpe =? oh_xid oh)
        then {| zone := zone ctzpe; of_xid := of_xid ctzpe;
                ctzpe_state := CT_ZONE_DB_QUEUED |}
        else ctzpe) <$> pending_ct_zones)
  else (ofctrl_recv oh type s, pending_ct_zones).

(** ** ofctrl_can_put *)

Definition rconn_get_version (c : rconn) : Z := version c.

Definition ofctrl_can_put (s : ofctrl) : bool :=
  if bool_decide (state s ≠ S_UPDATE_FLOWS)
     || negb (tx_counter s =? 0)
     || (rconn_get_version (swconn s) <? 0)
  then false
  else true.

Definition ofctrl_get_cur_cfg (s : ofctrl) : Z := cur_cfg s.

(** ** Flow table update *)

(** The messages collected by [ofctrl_put] ([msgs]) travel with the state. *)
Definition add_msg (body : ofp_msg) (acc : list ofpbuf * ofctrl)
    : list ofpbuf * ofctrl :=
  let '(msg, s) := ofpbuf_new body acc.2 in (acc.1 ++ [msg], s).

Definition add_flow_mod (fm : ofputil_flow_mod) := add_msg (encode_flow_mod fm).
Definition add_group_mod (gm : ofputil_group_mod) :=
  add_msg (encode_group_mod gm).
Definition add_meter_mod (mm : ofputil_meter_mod) :=
  add_msg (encode_meter_mod mm).

(** The conversion of an integer to [uint16_t], as C makes it where an
    [int] is passed for a [uint16_t] parameter: the value modulo 2^16. *)
Definition uint16_t (z : Z) : Z := z mod 65536.

(** [add_ct_flush_zone]; [zone_id] is a [uint16_t]. *)
Definition add_ct_flush_zone (zone_id : Z) :=
  add_msg (NXT_CT_FLUSH_ZONE zone_id).

Definition add_meter_string (m_desired : ovn_extend_table_info)
    (acc : list ofpbuf * ofctrl) : list ofpbuf * ofctrl :=
  let name := eti_name m_desired in
  let meter_string :=
    "meter=" +:+ pretty (eti_table_id m_desired) +:+ "," +:+
    String.substring 52 (String.length name - 52) name in
  match parse_ofp_meter_mod_str meter_string OFPMC13_ADD with
  | Some mm => add_meter_mod mm acc
  | None => acc
  end.

Definition add_meter (m_desired : ovn_extend_table_info)
    (meter_table : list sbrec_meter) (acc : list ofpbuf * ofctrl)
    : list ofpbuf * ofctrl :=
  match find (λ sb_meter, bool_decide (eti_name m_desired = sb_name sb_meter))
             meter_table with
  | None => acc
  | Some sb_meter =>
      let flags :=
        Z.lor OFPMF13_STATS
              (if bool_decide (sb_unit sb_meter = "pktps")
               then OFPMF13_PKTPS else OFPMF13_KBPS) in
      let bands :=
        (λ sb_band,
           {| mb_type := if bool_decide (sb_action sb_band = "drop")
                         then OFPMBT13_DROP else 0;
              mb_prec_level := 0;
              mb_rate := sb_rate sb_band;
              mb_burst_size := sb_burst_size sb_band |})
        <$> sb_bands sb_meter in
      let flags :=
        foldl (λ flags mm_band,
                 if mb_burst_size mm_band =? 0 then flags
                 else Z.lor flags OFPMF13_BURST)
              flags bands in
      add_meter_mod {| mm_command := OFPMC13_ADD;
                       mm_meter_id := eti_table_id m_desired;
                       mm_flags := flags; mm_bands := bands |} acc
  end.

Definition installed_flow_add (d : ovn_flow) :=
  add_flow_mod {| fm_match := match_ d; fm_priority := priority d;
                  fm_table_id := table_id d; fm_ofpacts := ofpacts d;
                  fm_new_cookie := cookie d; fm_modify_cookie := false;
                  fm_command := OFPFC_ADD; fm_buffer_id := 0;
                  fm_out_port := 0; fm_out_group := 0 |}.

(** Sends the flow_mod and replaces the actions and cookie of the installed
    flow at [i] by those of [d]. *)
Definition installed_flow_mod (i : ptr) (d : ovn_flow)
    (acc : list ofpbuf * ofctrl) : option (list ofpbuf * ofctrl) :=
  fi ← installed_at (mem acc.2) !! i;
  let fl := i_flow fi in
  let changed := negb (cookie fl =? cookie d) in
  let '(msgs, s) :=
    add_flow_mod {| fm_match := match_ fl; fm_priority := priority fl;
                    fm_table_id := table_id fl; fm_ofpacts := ofpacts d;
                    fm_new_cookie := if changed then cookie d else 0;
                    fm_modify_cookie := changed;
                    fm_command := if changed then OFPFC_ADD
                                  else OFPFC_MODIFY_STRICT;
                    fm_buffer_id := 0; fm_out_port := 0;
                    fm_out_group := 0 |} acc in
  Some (msgs,
        set_mem
          (set_installed_at
             (insert i {| i_flow := {| table_id := table_id fl;
                                       priority := priority fl;
                                       match_ := match_ fl;
                                       hash := hash fl;
                                       ofpacts := ofpacts d;
                                       cookie := cookie d |};
                          i_desired_refs := i_desired_refs fi;
                          i_desired_flow := i_desired_flow fi |})
             (mem s)) s).

Definition installed_flow_del (i : ovn_flow) :=
  add_flow_mod {| fm_match := match_ i; fm_priority := priority i;
                  fm_table_id := table_id i; fm_ofpacts := [];
                  fm_new_cookie := 0; fm_modify_cookie := false;
                  fm_command := OFPFC_DELETE_STRICT; fm_buffer_id := 0;
                  fm_out_port := 0; fm_out_group := 0 |}.

Definition ofpacts_equal (a b : list Byte.byte) : bool := bool_decide (a = b).

(** Modelled from the spec: the extend-table collaborator (lib/extend-table.h)
    is not part of the sources at hand.  By section 4.4 of the specification
    it offers the iteration over the uninstalled entries (desired, not yet
    pushed), the iteration over the installed entries that are no longer
    desired, [remove_existing] and [sync], which promotes all desired
    entries to the installed set. *)
Definition ovn_extend_table_lookup (l : list ovn_extend_table_info)
    (target : ovn_extend_table_info) : bool :=
  existsb (λ e, bool_decide (eti_name e = eti_name target)
                && (eti_table_id e =? eti_table_id target)) l.

Definition extend_table_uninstalled (table : ovn_extend_table)
    : list ovn_extend_table_info :=
  filter (λ d, ovn_extend_table_lookup (et_existing table) d = false)
         (et_desired table).

Definition extend_table_installed (table : ovn_extend_table)
    : list ovn_extend_table_info :=
  filter (λ e, ovn_extend_table_lookup (et_desired table) e = false)
         (et_existing table).

Definition ovn_extend_table_remove_existing (table : ovn_extend_table)
    (existing : ovn_extend_table_info) : ovn_extend_table :=
  {| et_desired := et_desired table;
     et_existing :=
       filter (λ e, ovn_extend_table_lookup [existing] e = false)
              (et_existing table) |}.

Definition ovn_extend_table_sync (table : ovn_extend_table)
    : ovn_extend_table :=
  {| et_desired := et_desired table;
     et_existing := et_existing table ++ extend_table_uninstalled table |}.

(** The first loop over the pending conntrack zones. *)
Definition ct_zone_flush (ctzpe : ct_zone_pending_entry)
    : ct_zone_pending_entry :=
  if bool_decide (ctzpe_state ctzpe = CT_ZONE_OF_QUEUED)
  then {| zone := zone ctzpe; of_xid := 0; ctzpe_state := CT_ZONE_OF_SENT |}
  else ctzpe.

(** The second loop: store the barrier's xid with newly sent flushes. *)
Definition ct_zone_store_xid (xid_ : Z) (ctzpe : ct_zone_pending_entry)
    : ct_zone_pending_entry :=
  if bool_decide (ctzpe_state ctzpe = CT_ZONE_OF_SENT)
     && (of_xid ctzpe =? 0)
  then {| zone := zone ctzpe; of_xid := xid_;
          ctzpe_state := ctzpe_state ctzpe |}
  else ctzpe.

(** The LIST_FOR_EACH_REVERSE_SAFE loop that tracks the flow update,
    followed by the push_back that it may skip; [updates] is given back
    first. *)
Fixpoint track_flow_update (updates : list ofctrl_flow_update)
    (nb_cfg xid_ : Z) : list ofctrl_flow_update :=
  match updates with
  | [] => [{| fup_xid := xid_; fup_nb_cfg := nb_cfg |}]
  | fup :: prev =>
      if nb_cfg <? fup_nb_cfg fup then
        (* nb_cfg regressed: the update is removed *)
        track_flow_update prev nb_cfg xid_
      else if nb_cfg =? fup_nb_cfg fup then
        (* same configuration: advance the xid target; goto done *)
        {| fup_xid := xid_; fup_nb_cfg := fup_nb_cfg fup |} :: prev
      else
        (* break; add a flow update *)
        {| fup_xid := xid_; fup_nb_cfg := nb_cfg |} :: fup :: prev
  end.

(** The loop over the installed flows. *)
Definition put_installed_flow (flow_table : ovn_desired_flow_table) (i : ptr)
    (acc : list ofpbuf * ofctrl) : option (list ofpbuf * ofctrl) :=
  let '(msgs, s) := acc in
  s ← with_mem (unlink_all_refs_for_installed_flow i) s;
  fi ← installed_at (mem s) !! i;
  d ← desired_flow_lookup flow_table (i_flow fi) None (mem s);
  match d with
  | None =>
      (* Installed flow is no longer desirable. *)
      let '(msgs, s) := installed_flow_del (i_flow fi) (msgs, s) in
      let s := set_installed_flows (hmap_remove (installed_flows s) i) s in
      s ← with_mem (installed_flow_destroy i) s;
      Some (msgs, s)
  | Some d =>
      fd ← desired_at (mem s) !! d;
      '(msgs, s) ←
        (if negb (ofpacts_equal (ofpacts (i_flow fi)) (ofpacts (d_flow fd)))
            || negb (cookie (i_flow fi) =? cookie (d_flow fd))
         then installed_flow_mod i (d_flow fd) (msgs, s)
         else Some (msgs, s));
      s ← with_mem (link_installed_to_desired i d) s;
      Some (msgs, s)
  end.

(** The loop over the desired flows. *)
Definition put_desired_flow (d : ptr) (acc : list ofpbuf * ofctrl)
    : option (list ofpbuf * ofctrl) :=
  let '(msgs, s) := acc in
  fd ← desired_at (mem s) !! d;
  i ← installed_flow_lookup (d_flow fd) s;
  '(i, msgs, s) ←
    match i with
    | Some i => Some (i, msgs, s)
    | None =>
        let '(msgs, s) := installed_flow_add (d_flow fd) (msgs, s) in
        (* Copy 'd' from 'flow_table' to installed_flows. *)
        '(i, m) ← installed_flow_dup d (mem s);
        Some (i, msgs,
              set_installed_flows (hmap_insert (installed_flows s) i)
                                  (set_mem m s))
    end;
  s ← with_mem (link_installed_to_desired i d) s;
  Some (msgs, s).

Definition put_group_add (desired : ovn_extend_table_info)
    (acc : list ofpbuf * ofctrl) : list ofpbuf * ofctrl :=
  let group_string :=
    "group_id=" +:+ pretty (eti_table_id desired) +:+ "," +:+
    eti_name desired in
  match parse_ofp_group_mod_str OFPGC11_ADD group_string with
  | Some gm => add_group_mod gm acc
  | None => acc
  end.

Definition put_meter_add (meter_table : list sbrec_meter)
    (m_desired : ovn_extend_table_info) (acc : list ofpbuf * ofctrl)
    : list ofpbuf * ofctrl :=
  if String.prefix "__string: " (eti_name m_desired)
  then add_meter_string m_desired acc
  else add_meter m_desired meter_table acc.

Definition put_group_del (installed : ovn_extend_table_info)
    (acc : list ofpbuf * ofctrl) : list ofpbuf * ofctrl :=
  let group_string := "group_id=" +:+ pretty (eti_table_id installed) in
  match parse_ofp_group_mod_str OFPGC11_DELETE group_string with
  | Some gm => add_group_mod gm acc
  | None => acc
  end.

Definition put_meter_del (m_installed : ovn_extend_table_info)
    (acc : list ofpbuf * ofctrl) : list ofpbuf * ofctrl :=
  add_meter_mod {| mm_command := OFPMC13_DELETE;
                   mm_meter_id := eti_table_id m_installed;
                   mm_flags := 0; mm_bands := [] |} acc.

(** [ofctrl_put] is given in four parts, in the order of the source: the
    decision to run, the messages that bring the switch up to date, the
    barrier with the tracking of the flow update, and the function itself. *)

(** The head of [ofctrl_put]: whether a put is needed.  When only [nb_cfg]
    changed and the engine was up to date, [cur_cfg] follows it at once. *)
Definition put_needed (nb_cfg : Z) (flow_changed : bool) (s : ofctrl)
    : bool * ofctrl :=
  if flow_changed || skipped_last_time s || need_reinstall_flows s
  then (true, s)
  else if negb (nb_cfg =? old_nb_cfg s) then
    (* nb_cfg changed since last ofctrl_put() call *)
    if cur_cfg s =? old_nb_cfg s
    then (false, set_cur_cfg nb_cfg s)   (* we were up-to-date already *)
    else (true, s)
  else (false, s).

(** The messages of [ofctrl_put], from the conntrack flushes to the meter
    deletions, with the updates of the tables that go with them. *)
Definition put_messages (flow_table : ovn_desired_flow_table)
    (pending_ct_zones : gmap string ct_zone_pending_entry)
    (meter_table : list sbrec_meter) (s : ofctrl)
    : option (list ofpbuf * ofctrl * gmap string ct_zone_pending_entry) :=
  (* OpenFlow messages to send to the switch to bring it up-to-date. *)
  let acc : list ofpbuf * ofctrl := ([], s) in
  (* Iterate through ct zones that need to be flushed. *)
  let acc :=
    foldl (λ acc kv,
             if bool_decide (ctzpe_state kv.2 = CT_ZONE_OF_QUEUED)
             then add_ct_flush_zone (uint16_t (zone kv.2)) acc else acc)
          acc (map_to_list pending_ct_zones) in
  let pending_ct_zones := ct_zone_flush <$> pending_ct_zones in
  (* Iterate through all the desired groups. *)
  gs ← groups acc.2;
  let acc := foldl (λ acc desired, put_group_add desired acc) acc
                   (extend_table_uninstalled gs) in
  (* Iterate through all the desired meters. *)
  ms ← meters acc.2;
  let acc := foldl (λ acc m_desired,
                      put_meter_add meter_table m_desired acc) acc
                   (extend_table_uninstalled ms) in
  (* Iterate through all of the installed flows. *)
  acc ← for_each (installed_flows acc.2) (put_installed_flow flow_table) acc;
  (* Iterate through the desired flows and add those that aren't found
     in the installed flow table. *)
  acc ← for_each (match_flow_table flow_table) put_desired_flow acc;
  (* Iterate through the installed groups from previous runs. *)
  let acc := foldl (λ acc installed, put_group_del installed acc) acc
                   (extend_table_installed gs) in
  let gs := ovn_extend_table_sync
              (foldl ovn_extend_table_remove_existing gs
                     (extend_table_installed gs)) in
  (* Iterate through the installed meters from previous runs. *)
  let acc := foldl (λ acc m_installed, put_meter_del m_installed acc) acc
                   (extend_table_installed ms) in
  let ms := ovn_extend_table_sync
              (foldl ovn_extend_table_remove_existing ms
                     (extend_table_installed ms)) in
  Some (acc.1, set_meters (Some ms) (set_groups (Some gs) acc.2),
        pending_ct_zones).

(** The end of [ofctrl_put]: the barrier, the queueing of the messages and
    the tracking of the flow update. *)
Definition put_track (msgs : list ofpbuf) (nb_cfg : Z)
    (pending_ct_zones : gmap string ct_zone_pending_entry) (s : ofctrl)
    : ofctrl * gmap string ct_zone_pending_entry :=
  if negb (bool_decide (msgs = [])) then
    (* Add a barrier to the list of messages. *)
    let '(barrier, s) := ofpbuf_new OFPT_BARRIER_REQUEST s in
    let xid_ := msg_xid barrier in
    let msgs := msgs ++ [barrier] in
    (* Queue the messages. *)
    let s := foldl (λ s msg, (queue_msg msg s).2) s msgs in
    (* Store the barrier's xid with any newly sent ct flushes. *)
    let pending_ct_zones := ct_zone_store_xid xid_ <$> pending_ct_zones in
    (* Track the flow update. *)
    (set_flow_updates
       (reverse (track_flow_update (reverse (flow_updates s)) nb_cfg xid_))
       s,
     pending_ct_zones)
  else if negb (bool_decide (flow_updates s = [])) then
    (* Getting up-to-date with 'nb_cfg' didn't require any extra flow
       table changes. *)
    (set_flow_updates
       (match reverse (flow_updates s) with
        | fup :: prev =>
            reverse ({| fup_xid := fup_xid fup; fup_nb_cfg := nb_cfg |}
                     :: prev)
        | [] => []
        end) s,
     pending_ct_zones)
  else
    (* We were completely up-to-date before and still are. *)
    (set_cur_cfg nb_cfg s, pending_ct_zones).

(** Replaces the flow table on the switch, if possible, by the flows of
    [flow_table]; the result is the new state and the pending conntrack
    zones as the call leaves them. *)
Definition ofctrl_put (flow_table : ovn_desired_flow_table)
    (pending_ct_zones : gmap string ct_zone_pending_entry)
    (meter_table : list sbrec_meter) (nb_cfg : Z) (flow_changed : bool)
    (s : ofctrl) : option (ofctrl * gmap string ct_zone_pending_entry) :=
  let '(need_put, s) := put_needed nb_cfg flow_changed s in
  let s := set_old_nb_cfg nb_cfg s in
  if negb need_put then Some (s, pending_ct_zones)
  else if negb (ofctrl_can_put s)
  then Some (set_skipped_last_time true s, pending_ct_zones)
  else
    let s := set_skipped_last_time false s in
    let s := set_need_reinstall_flows false s in
    '(msgs, s, pending_ct_zones) ←
      put_messages flow_table pending_ct_zones meter_table s;
    Some (put_track msgs nb_cfg pending_ct_zones s).

(** ** Invariants of the two tables *)

(** The links of the installed flow at [i] are sound: its [desired_refs]
    holds each desired flow once, each of them points back to [i]
    (invariant I6), and [desired_flow] is one of them, or null when there is
    none (invariant I5). *)
Definition installed_flow_linked (m : memory) (i : ptr) : Prop :=
  ∃ fi, installed_at m !! i = Some fi
        ∧ NoDup (i_desired_refs fi)
        ∧ (∀ d, d ∈ i_desired_refs fi →
             ∃ fd, desired_at m !! d = Some fd
                   ∧ d_installed_flow fd = Some i)
        ∧ match i_desired_flow fi with
          | Some p => p ∈ i_desired_refs fi
          | None => i_desired_refs fi = []
          end.

(** The key of a flow, and two flows with the same key. *)
Definition flow_key (f : ovn_flow) : Z * Z * minimatch :=
  (table_id f, priority f, match_ f).

Definition ovn_flow_key_eq (a b : ovn_flow) : Prop :=
  flow_key a = flow_key b.

(** The stored hash of a flow is the hash of its key, as [ovn_flow_init]
    and [installed_flow_dup] leave it. *)
Definition ovn_flow_hashed (f : ovn_flow) : Prop :=
  hash f = ovn_flow_match_hash f.

(** The match index of a desired flow table: its nodes are distinct
    allocated desired flows with their hash in place. *)
Definition desired_table_wf (flow_table : ovn_desired_flow_table)
    (m : memory) : Prop :=
  NoDup (match_flow_table flow_table)
  ∧ ∀ d, d ∈ match_flow_table flow_table →
         ∃ fd, desired_at m !! d = Some fd ∧ ovn_flow_hashed (d_flow fd).

(** The SB UUIDs that reference a desired flow, in the order of its
    [references] list. *)
Definition d_sources (fd : desired_flow) : list uuid :=
  sfr_sb_uuid <$> d_references fd.

(** The installed flow at [i] has its hash in place and shares its key with
    every desired flow linked to it. *)
Definition installed_flow_keyed (m : memory) (i : ptr) : Prop :=
  ∀ fi, installed_at m !! i = Some fi →
        ovn_flow_hashed (i_flow fi)
        ∧ ∀ d, d ∈ i_desired_refs fi →
               ∃ fd, desired_at m !! d = Some fd
                     ∧ ovn_flow_key_eq (d_flow fd) (i_flow fi).

(** Invariant I4: the installed flows on [l] have distinct keys. *)
Definition installed_keys_unique (l : list ptr) (m : memory) : Prop :=
  ∀ i j fi fj, i ∈ l → j ∈ l →
               installed_at m !! i = Some fi → installed_at m !! j = Some fj →
               ovn_flow_key_eq (i_flow fi) (i_flow fj) → i = j.

(** The installed flow at [i] is in step with the desired table whose match
    index is [index]: it has a primary among its links, carries the actions
    and the cookie of the primary, and each of its links is a flow of the
    index with its key that is the primary or one of [seen]. *)
Definition installed_flow_synced (index seen : list ptr) (m : memory)
    (i : ptr) : Prop :=
  ∃ fi p fp,
    installed_at m !! i = Some fi
    ∧ ovn_flow_hashed (i_flow fi)
    ∧ NoDup (i_desired_refs fi)
    ∧ i_desired_flow fi = Some p
    ∧ p ∈ i_desired_refs fi
    ∧ desired_at m !! p = Some fp
    ∧ ofpacts (i_flow fi) = ofpacts (d_flow fp)
    ∧ cookie (i_flow fi) = cookie (d_flow fp)
    ∧ ∀ r, r ∈ i_desired_refs fi →
           (r = p ∨ r ∈ seen) ∧ r ∈ index
           ∧ ∃ fr, desired_at m !! r = Some fr
                   ∧ ovn_flow_key_eq (d_flow fr) (i_flow fi).

(** The state in which [ofctrl_put] finds the engine and the desired table
    it is given: both extend tables are set, the match index is well formed,
    and the installed flows are distinct, with distinct keys (I4), sound
    links (I5, I6) to desired flows of their key. *)
Definition engine_wf (flow_table : ovn_desired_flow_table) (s : ofctrl)
    : Prop :=
  is_Some (groups s) ∧ is_Some (meters s)
  ∧ desired_table_wf flow_table (mem s)
  ∧ NoDup (installed_flows s)
  ∧ installed_keys_unique (installed_flows s) (mem s)
  ∧ (∀ i, i ∈ installed_flows s →
          installed_flow_linked (mem s) i ∧ installed_flow_keyed (mem s) i).

(** The state [s] with another connection, installed-flow table and heap. *)
Definition with_flows (c : rconn) (t : Z) (l : list ptr) (m : memory)
    (s : ofctrl) : ofctrl :=
  set_mem m (set_installed_flows l (set_tx_counter t (set_swconn c s))).

(** The desired flows of [m'] are those of [m], up to their
    [installed_flow] pointers and their references. *)
Definition desired_same_flows (m m' : memory) : Prop :=
  ∀ d, d_flow <$> desired_at m' !! d = d_flow <$> desired_at m !! d.

(** What the loop over the installed flows of [ofctrl_put] maintains: the
    flows in [kept] have been visited and kept, those in [rest] are still to
    be visited. *)
Definition put_installed_inv (flow_table : ovn_desired_flow_table)
    (kept rest : list ptr) (m : memory) : Prop :=
  NoDup (kept ++ rest)
  ∧ desired_table_wf flow_table m
  ∧ installed_keys_unique (kept ++ rest) m
  ∧ (∀ i, i ∈ rest → installed_flow_linked m i ∧ installed_flow_keyed m i)
  ∧ (∀ i, i ∈ kept →
          installed_flow_synced (match_flow_table flow_table) [] m i).

(** What the loop over the desired flows of [ofctrl_put] maintains: the
    desired flows in [seen] have been visited, [installed] is the installed
    flow table. *)
Definition put_desired_inv (flow_table : ovn_desired_flow_table)
    (seen : list ptr) (installed : list ptr) (m : memory) : Prop :=
  NoDup installed
  ∧ desired_table_wf flow_table m
  ∧ installed_keys_unique installed m
  ∧ (∀ i, i ∈ installed →
          installed_flow_synced (match_flow_table flow_table) seen m i)
  ∧ (∀ d, d ∈ seen →
          ∃ fd i fi, desired_at m !! d = Some fd
                     ∧ i ∈ installed ∧ installed_at m !! i = Some fi
                     ∧ ovn_flow_key_eq (i_flow fi) (d_flow fd)).

(** Invariant I5 alone: with a non-empty [desired_refs], the primary is one
    of the flows on it. *)
Definition primary_among_refs (fi : installed_flow) : Prop :=
  i_desired_refs fi ≠ [] →
  ∃ p, i_desired_flow fi = Some p ∧ p ∈ i_desired_refs fi.

(** The flow-update queue read from its tail, as the backward scan of
    [ofctrl_put] reads it: the [nb_cfg] do not increase from the tail to the
    head. *)
Fixpoint nb_cfg_sorted_from_tail (l : list ofctrl_flow_update) : bool :=
  match l with
  | newer :: rest =>
      match rest with
      | older :: _ => fup_nb_cfg older <=? fup_nb_cfg newer
      | [] => true
      end && nb_cfg_sorted_from_tail rest
  | [] => true
  end.

(** The in-flight flow-update queue is sorted by [nb_cfg], not decreasing
    from head (oldest) to tail (newest). *)
Definition flow_updates_sorted (s : ofctrl) : bool :=
  nb_cfg_sorted_from_tail (reverse (flow_updates s)).

(** ** The driver of the state machine *)

(** [ofctrl_get_mf_field_id]; [connected] is what [rconn_is_connected]
    returns for the connection. *)
Definition ofctrl_get_mf_field_id (connected : bool) (s : ofctrl) : Z :=
  if negb connected then 0
  else if bool_decide (state s = S_CLEAR_FLOWS)
          || bool_decide (state s = S_UPDATE_FLOWS)
       then mff_ovn_geneve s
       else 0.

(** The two dispatches of [ofctrl_run] over the STATES.  [recv_S_NEW] is
    OVS_NOT_REACHED: the result is [None]. *)
Definition run_state (s : ofctrl) : option ofctrl :=
  match state s with
  | S_NEW => Some (run_S_NEW s)
  | S_TLV_TABLE_REQUESTED => Some s
  | S_TLV_TABLE_MOD_SENT => Some s
  | S_CLEAR_FLOWS => run_S_CLEAR_FLOWS s
  | S_UPDATE_FLOWS => Some s
  end.

Definition recv_state (oh : ofp_header) (type : ofptype)
    (pending_ct_zones : gmap string ct_zone_pending_entry) (s : ofctrl)
    : option (ofctrl * gmap string ct_zone_pending_entry) :=
  match state s with
  | S_NEW => None
  | S_TLV_TABLE_REQUESTED =>
      Some (recv_S_TLV_TABLE_REQUESTED oh type s, pending_ct_zones)
  | S_TLV_TABLE_MOD_SENT =>
      Some (recv_S_TLV_TABLE_MOD_SENT oh type s, pending_ct_zones)
  | S_CLEAR_FLOWS => Some (recv_S_CLEAR_FLOWS oh type s, pending_ct_zones)
  | S_UPDATE_FLOWS => Some (recv_S_UPDATE_FLOWS oh type pending_ct_zones s)
  end.

(** What the connection hands to one call of [ofctrl_run]: whether it is
    connected, its connection sequence number, and what the successive calls
    of [rconn_recv] return: no packet, or a packet with the result of
    [ofptype_decode] ([None] for a decode error).  Past the end of [rx]
    there is no packet. *)
Record rconn_input := {
  connected : bool;
  connection_seqno : Z;
  rx : list (option (ofp_header * option ofptype))
}.

(** What one call of [ofctrl_run] leaves: the file-scope [seqno], the
    engine, the pending conntrack zones, what is left of [rx], and whether
    [poll_immediate_wake] was called. *)
Record ofctrl_run_result := {
  run_seqno : Z;
  run_engine : ofctrl;
  run_ct_zones : gmap string ct_zone_pending_entry;
  run_rx : list (option (ofp_header * option ofptype));
  run_wake : bool
}.

(** The loop of [ofctrl_run], with [n] the iterations that are left of the
    50; the loop is entered with [progress] true. *)
Fixpoint ofctrl_run_loop (n : nat)
    (rx : list (option (ofp_header * option ofptype)))
    (pending_ct_zones : gmap string ct_zone_pending_entry) (seqno : Z)
    (s : ofctrl) : option ofctrl_run_result :=
  match n with
  | O =>
      (* We bailed out to limit the amount of work we do in one go. *)
      Some {| run_seqno := seqno; run_engine := s;
              run_ct_zones := pending_ct_zones; run_rx := rx;
              run_wake := true |}
  | S n' =>
      (* Allow the state machine to run. *)
      let old_state := state s in
      s ← run_state s;
      (* Try to process a received packet. *)
      let msg := default None (head rx) in
      let rx := tail rx in
      '(s, pending_ct_zones) ←
        match msg with
        | Some (oh, Some type) => recv_state oh type pending_ct_zones s
        | Some (oh, None) => Some (s, pending_ct_zones)
        | None => Some (s, pending_ct_zones)
        end;
      (* If we did some work, plan to go around again. *)
      if bool_decide (old_state ≠ state s) || bool_decide (msg ≠ None)
      then ofctrl_run_loop n' rx pending_ct_zones seqno s
      else Some {| run_seqno := seqno; run_engine := s;
                   run_ct_zones := pending_ct_zones; run_rx := rx;
                   run_wake := false |}
  end.

(** Reset the state of any outstanding ct flushes to resend them. *)
Definition ct_zone_resend (ctzpe : ct_zone_pending_entry)
    : ct_zone_pending_entry :=
  if bool_decide (ctzpe_state ctzpe = CT_ZONE_OF_SENT)
  then {| zone := zone ctzpe; of_xid := of_xid ctzpe;
          ctzpe_state := CT_ZONE_OF_QUEUED |}
  else ctzpe.

(** [ofctrl_run], from the call of [rconn_is_connected] on; the
    [rconn_connect] and the [rconn_run] before it act on the connection
    alone, and [input] is what the connection shows after them. *)
Definition ofctrl_run (input : rconn_input)
    (pending_ct_zones : gmap string ct_zone_pending_entry) (seqno : Z)
    (s : ofctrl) : option ofctrl_run_result :=
  if negb (connected input)
  then Some {| run_seqno := seqno; run_engine := s;
               run_ct_zones := pending_ct_zones; run_rx := rx input;
               run_wake := false |}
  else
    let reconnected := bool_decide (seqno ≠ connection_seqno input) in
    let seqno := if reconnected then connection_seqno input else seqno in
    let s := if reconnected then set_state S_NEW s else s in
    let pending_ct_zones :=
      if reconnected then ct_zone_resend <$> pending_ct_zones
      else pending_ct_zones in
    ofctrl_run_loop 50 (rx input) pending_ct_zones seqno s.

(** The installed flows are distinct and their links are sound: what the
    unlinking of [ovn_installed_flow_table_clear] relies on. *)
Definition installed_wf (s : ofctrl) : Prop :=
  NoDup (installed_flows s)
  ∧ ∀ i, i ∈ installed_flows s → installed_flow_linked (mem s) i.

(** The engine [s'] has the flow tables, the heap and the update tracking
    of [s], and has sent what [s] has sent, and possibly more. *)
Definition same_flow_state (s s' : ofctrl) : Prop :=
  installed_flows s' = installed_flows s ∧ mem s' = mem s
  ∧ cur_cfg s' = cur_cfg s ∧ flow_updates s' = flow_updates s
  ∧ txq (swconn s) `prefix_of` txq (swconn s').

(** What a step of the state machine keeps: the soundness of the installed
    flows, the order of [cur_cfg] and of the queue of updates, and the
    messages sent so far. *)
Definition run_keeps (s s' : ofctrl) : Prop :=
  installed_wf s'
  ∧ cur_cfg s ≤ cur_cfg s'
  ∧ (flow_updates_sorted s = true → flow_updates_sorted s' = true)
  ∧ txq (swconn s) `prefix_of` txq (swconn s').

(** No pending conntrack flush waits for its confirmation. *)
Definition no_flush_sent (pending_ct_zones : gmap string ct_zone_pending_entry)
    : Prop :=
  ∀ k ctzpe, pending_ct_zones !! k = Some ctzpe →
             ctzpe_state ctzpe ≠ CT_ZONE_OF_SENT.

(** Nothing was sent between [s] and [s']: the queue of the connection,
    its version, the in-flight counter, the tracking of the updates and the
    state of the machine are those of [s]. *)
Definition quiet (s s' : ofctrl) : Prop :=
  txq (swconn s') = txq (swconn s)
  ∧ version (swconn s') = version (swconn s)
  ∧ tx_counter s' = tx_counter s
  ∧ flow_updates s' = flow_updates s
  ∧ cur_cfg s' = cur_cfg s
  ∧ state s' = state s.

(** A step of [ofctrl_put] that collects messages: [msgs] grows at its end
    and nothing is sent. *)
Definition collects (acc acc' : list ofpbuf * ofctrl) : Prop :=
  acc.1 `prefix_of` acc'.1 ∧ quiet acc.2 acc'.2.

(** ** Removal of desired flows *)

#[global] Instance sb_flow_ref_eq_dec : EqDecision sb_flow_ref.
Proof. solve_decision. Defined.

(** [ovs_list_remove (&sfr->sb_list)]: the link [sfr] leaves the references
    of its flow.  The links of one source to one flow are equal as values;
    [link_flow_to_sb] appends a link to the references of the flow and to
    the list of the source in one go, so the links of a source are met on
    its list in the order they have on the references, and the one that is
    removed is the first that is left there.  A link that is not on the
    references gives [None]. *)
Fixpoint sb_flow_ref_remove (l : list sb_flow_ref) (sfr : sb_flow_ref)
    : option (list sb_flow_ref) :=
  match l with
  | [] => None
  | x :: l' =>
      if decide (x = sfr) then Some l'
      else (x ::.) <$> sb_flow_ref_remove l' sfr
  end.

(** The body of the loop of [remove_flows_from_sb_to_flow] for the link
    [sfr]: the link is removed; a flow that is left without references is
    taken out of the match index, unlinked from its installed flow and
    destroyed. *)
Definition remove_flow_ref (sfr : sb_flow_ref)
    (acc : ovn_desired_flow_table * memory)
    : option (ovn_desired_flow_table * memory) :=
  let '(flow_table, m) := acc in
  let f := sfr_flow sfr in
  fd ← desired_at m !! f;
  refs ← sb_flow_ref_remove (d_references fd) sfr;
  let m := set_desired_at
             (insert f {| d_flow := d_flow fd; d_references := refs;
                          d_installed_flow := d_installed_flow fd |}) m in
  if bool_decide (refs = []) then
    let flow_table :=
      {| match_flow_table := hmap_remove (match_flow_table flow_table) f;
         uuid_flow_table := uuid_flow_table flow_table |} in
    m ← match d_installed_flow fd with
        | Some i => unlink_installed_to_desired i f m
        | None => Some m
        end;
    m ← desired_flow_destroy f m;
    Some (flow_table, m)
  else Some (flow_table, m).

(** [hmap_remove] of the node of a source in the [uuid_flow_table]. *)
Fixpoint sb_to_flow_remove (uuid_flow_table' : list sb_to_flow)
    (sb_uuid : uuid) : list sb_to_flow :=
  match uuid_flow_table' with
  | [] => []
  | stf :: t =>
      if uuid_equals sb_uuid (stf_sb_uuid stf) then t
      else stf :: sb_to_flow_remove t sb_uuid
  end.

(** Remove the flows of the [sb_to_flow] node [stf] of the table. *)
Definition remove_flows_from_sb_to_flow
    (flow_table : ovn_desired_flow_table) (stf : sb_to_flow) (m : memory)
    : option (ovn_desired_flow_table * memory) :=
  '(flow_table, m) ← for_each (stf_flows stf) remove_flow_ref (flow_table, m);
  Some ({| match_flow_table := match_flow_table flow_table;
           uuid_flow_table :=
             sb_to_flow_remove (uuid_flow_table flow_table)
                               (stf_sb_uuid stf) |}, m).

(** The part of [ofctrl_remove_flows] that acts on the desired flows. *)
Definition remove_flows_of_sb_uuid (flow_table : ovn_desired_flow_table)
    (sb_uuid : uuid) (m : memory)
    : option (ovn_desired_flow_table * memory) :=
  match sb_to_flow_find (uuid_flow_table flow_table) sb_uuid with
  | Some stf => remove_flows_from_sb_to_flow flow_table stf m
  | None => Some (flow_table, m)
  end.

Section RemoveDesired.

(** [ovn_extend_table_remove_desired] (lib/extend-table.c) is not part of
    the sources at hand; it is taken as given. *)
Variable ovn_extend_table_remove_desired :
  ovn_extend_table → uuid → ovn_extend_table.

Definition ofctrl_remove_flows (flow_table : ovn_desired_flow_table)
    (sb_uuid : uuid) (s : ofctrl)
    : option (ovn_desired_flow_table * ofctrl) :=
  '(flow_table, m) ← remove_flows_of_sb_uuid flow_table sb_uuid (mem s);
  let s := set_mem m s in
  (* remove any related group and meter info *)
  gs ← groups s;
  let s := set_groups (Some (ovn_extend_table_remove_desired gs sb_uuid)) s in
  ms ← meters s;
  let s := set_meters (Some (ovn_extend_table_remove_desired ms sb_uuid)) s in
  Some (flow_table, s).

End RemoveDesired.

(** [ovn_desired_flow_table_clear]: the flows of every source are removed;
    the loop runs over the nodes the [uuid_flow_table] has at its start. *)
Definition ovn_desired_flow_table_clear (flow_table : ovn_desired_flow_table)
    (m : memory) : option (ovn_desired_flow_table * memory) :=
  for_each (uuid_flow_table flow_table)
           (λ stf '(flow_table, m),
              remove_flows_from_sb_to_flow flow_table stf m)
           (flow_table, m).

(** The links between the sources and the desired flows are sound, where
    [flows_of u] is the list of links of the node of source [u], if [u] has
    one: the links on the list of a source are distinct, carry the source,
    and lie on the references of their flow, which is in the match index;
    the references of a flow of the index are distinct, carry the flow, and
    lie on the list of their source. *)
Definition links_wf (flows_of : uuid → option (list sb_flow_ref))
    (index : list ptr) (m : memory) : Prop :=
  (∀ u l, flows_of u = Some l →
     NoDup l
     ∧ ∀ sfr, sfr ∈ l →
         sfr_sb_uuid sfr = u
         ∧ sfr_flow sfr ∈ index
         ∧ ∃ fd, desired_at m !! sfr_flow sfr = Some fd
                 ∧ sfr ∈ d_references fd)
  ∧ (∀ d fd, d ∈ index → desired_at m !! d = Some fd →
       NoDup (d_references fd)
       ∧ ∀ sfr, sfr ∈ d_references fd →
           sfr_flow sfr = d
           ∧ ∃ l, flows_of (sfr_sb_uuid sfr) = Some l ∧ sfr ∈ l).

(** The links of a table are sound: each source has one node in the
    [uuid_flow_table], and the lists of the nodes and the references of the
    flows of the match index agree, as [links_wf] says. *)
Definition sb_links_wf (flow_table : ovn_desired_flow_table) (m : memory)
    : Prop :=
  NoDup (stf_sb_uuid <$> uuid_flow_table flow_table)
  ∧ links_wf (λ u, stf_flows <$> sb_to_flow_find
                                   (uuid_flow_table flow_table) u)
             (match_flow_table flow_table) m.

(** A desired flow of the table that points to an installed flow is on the
    [desired_refs] of that flow, which has its primary among them. *)
Definition desired_back_linked (flow_table : ovn_desired_flow_table)
    (m : memory) : Prop :=
  ∀ d fd i, d ∈ match_flow_table flow_table →
            desired_at m !! d = Some fd →
            d_installed_flow fd = Some i →
            ∃ fi, installed_at m !! i = Some fi
                  ∧ d ∈ i_desired_refs fi
                  ∧ primary_among_refs fi.

(** What [unlink_installed_to_desired] leaves of an installed flow that
    had the desired flow [d] on its [desired_refs]: [d] is off the list, and
    when [d] was the primary the first of the remaining flows takes over. *)
Definition without_desired_ref (d : ptr) (fi : installed_flow)
    : installed_flow :=
  let refs := filter (λ x, x ≠ d) (i_desired_refs fi) in
  i_with_links refs
    (if bool_decide (i_desired_flow fi = Some d) then head refs
     else i_desired_flow fi) fi.

(** What the removal of the links [l] of one source changes, from the table
    and memory [flow_table], [m] to [flow_table'], [m'].  The
    [uuid_flow_table] is as it was and the match index loses flows only; a
    flow that no link of [l] is for is untouched; the flow of a link of [l]
    loses the link, and when this was its last one it is out of the index,
    freed, and off the [desired_refs] of the installed flow it pointed to;
    the installed flows stay allocated with their [flow], and their
    [desired_refs] lose flows only. *)
Definition removal_effect (l : list sb_flow_ref)
    (flow_table : ovn_desired_flow_table) (m : memory)
    (flow_table' : ovn_desired_flow_table) (m' : memory) : Prop :=
  uuid_flow_table flow_table' = uuid_flow_table flow_table
  ∧ sublist (match_flow_table flow_table') (match_flow_table flow_table)
  ∧ (∀ d, (∀ sfr, sfr ∈ l → sfr_flow sfr ≠ d) →
          desired_at m' !! d = desired_at m !! d
          ∧ ((d ∈ match_flow_table flow_table')
             ↔ (d ∈ match_flow_table flow_table)))
  ∧ (∀ sfr fd, sfr ∈ l → desired_at m !! sfr_flow sfr = Some fd →
       let d := sfr_flow sfr in
       let refs := filter (λ x, x ≠ sfr) (d_references fd) in
       if bool_decide (refs = []) then
         (d ∉ match_flow_table flow_table')
         ∧ desired_at m' !! d = None
         ∧ ∀ i, d_installed_flow fd = Some i →
                ∃ fi', installed_at m' !! i = Some fi'
                       ∧ d ∉ i_desired_refs fi'
       else
         d ∈ match_flow_table flow_table'
         ∧ desired_at m' !! d
           = Some {| d_flow := d_flow fd; d_references := refs;
                     d_installed_flow := d_installed_flow fd |})
  ∧ (∀ i fi, installed_at m !! i = Some fi →
       ∃ fi', installed_at m' !! i = Some fi'
              ∧ i_flow fi' = i_flow fi
              ∧ i_desired_refs fi' ⊆ i_desired_refs fi)
  ∧ (∀ i, installed_at m !! i = None → installed_at m' !! i = None).

(** The installed flows of [m'] are those of [m], each with its [flow] and
    with [desired_refs] that lost flows only; an installed flow whose
    primary was one of its links, or null without links, is still so. *)
Definition installed_flows_kept (m m' : memory) : Prop :=
  (∀ i, installed_at m !! i = None → installed_at m' !! i = None)
  ∧ ∀ i fi, installed_at m !! i = Some fi →
      ∃ fi', installed_at m' !! i = Some fi'
             ∧ i_flow fi' = i_flow fi
             ∧ sublist (i_desired_refs fi') (i_desired_refs fi)
             ∧ (match i_desired_flow fi with
                | Some p => p ∈ i_desired_refs fi
                | None => i_desired_refs fi = []
                end →
                match i_desired_flow fi' with
                | Some p => p ∈ i_desired_refs fi'
                | None => i_desired_refs fi' = []
                end).

(** ** An engine that is in sync with the desired table *)

(** The two memories hold the same flows: each desired flow and each
    installed flow is allocated in both or in neither, with the same
    [flow]; the links may differ. *)
Definition same_flow_contents (m m' : memory) : Prop :=
  (∀ d, d_flow <$> desired_at m' !! d = d_flow <$> desired_at m !! d)
  ∧ (∀ i, i_flow <$> installed_at m' !! i = i_flow <$> installed_at m !! i).

(** The installed flow [i] is in sync: the desired flow that
    [desired_flow_lookup] finds for its key has its actions and its
    cookie. *)
Definition installed_in_sync (flow_table : ovn_desired_flow_table)
    (m : memory) (i : ptr) : Prop :=
  ∀ fi, installed_at m !! i = Some fi →
        ∃ d fd, desired_flow_lookup flow_table (i_flow fi) None m
                = Some (Some d)
                ∧ desired_at m !! d = Some fd
                ∧ ofpacts (i_flow fi) = ofpacts (d_flow fd)
                ∧ cookie (i_flow fi) = cookie (d_flow fd).

(** The desired flow [d] is in sync: [installed_flow_lookup] finds an
    installed flow of its key. *)
Definition desired_in_sync (s : ofctrl) (d : ptr) : Prop :=
  ∀ fd, desired_at (mem s) !! d = Some fd →
        ∃ i, installed_flow_lookup (d_flow fd) s = Some (Some i).

Definition flows_in_sync (flow_table : ovn_desired_flow_table)
    (s : ofctrl) : Prop :=
  (∀ i, i ∈ installed_flows s → installed_in_sync flow_table (mem s) i)
  ∧ (∀ d, d ∈ match_flow_table flow_table → desired_in_sync s d).

(** A step of [ofctrl_put] that is silent: it adds no message, and it
    leaves the connection, the list of installed flows, the flows in
    memory, and the groups and meters as they are. *)
Definition silent (acc acc' : list ofpbuf * ofctrl) : Prop :=
  acc'.1 = acc.1
  ∧ quiet acc.2 acc'.2
  ∧ installed_flows acc'.2 = installed_flows acc.2
  ∧ same_flow_contents (mem acc.2) (mem acc'.2)
  ∧ groups acc'.2 = groups acc.2
  ∧ meters acc'.2 = meters acc.2.

(** The installed flow [k] is settled: the desired flows on its
    [desired_refs] point back to it, and it is in sync with the table. *)
Definition installed_flow_settled (flow_table : ovn_desired_flow_table)
    (m : memory) (k : ptr) : Prop :=
  (∀ fk, installed_at m !! k = Some fk →
         ∀ r, r ∈ i_desired_refs fk →
              ∃ fr, desired_at m !! r = Some fr
                    ∧ d_installed_flow fr = Some k)
  ∧ installed_in_sync flow_table m k.

(** The two memories hold the same links from desired flows to sources:
    each desired flow is allocated in both or in neither, with the same
    [references]. *)
Definition desired_same_sources (m m' : memory) : Prop :=
  ∀ d, d_references <$> desired_at m' !! d
       = d_references <$> desired_at m !! d.

(** The desired flows that have been visited are on the [desired_refs] of
    an installed flow of the list [l]. *)
Definition desired_flows_linked (seen l : list ptr) (m : memory) : Prop :=
  ∀ d, d ∈ seen →
       ∃ i fi, i ∈ l ∧ installed_at m !! i = Some fi
               ∧ d ∈ i_desired_refs fi.

(** ** The invariant of the module *)

(** What every entry point keeps, for a desired table [flow_table] and the
    engine [s]: the engine is well formed for the table; the links between
    the sources and the desired flows are sound; a desired flow that points
    to an installed flow is on the [desired_refs] of that flow; and every
    desired flow has a source. *)
Definition ofctrl_wf (flow_table : ovn_desired_flow_table) (s : ofctrl)
    : Prop :=
  engine_wf flow_table s
  ∧ sb_links_wf flow_table (mem s)
  ∧ desired_back_linked flow_table (mem s)
  ∧ (∀ d fd, d ∈ match_flow_table flow_table →
             desired_at (mem s) !! d = Some fd → d_references fd ≠ []).

(** The engine [s'] has the tables of [s]: the installed flows, the heap,
    and the two extend tables. *)
Definition same_tables (s s' : ofctrl) : Prop :=
  installed_flows s' = installed_flows s ∧ mem s' = mem s
  ∧ groups s' = groups s ∧ meters s' = meters s.

(** ** The module as its client drives it *)

(** [ofctrl_init].  [c] is the connection that [rconn_create] returns and
    [m] the heap at the time of the call; the packet counter is new, the
    installed-flow table and the list of flow updates are empty, and the
    two extend tables are the ones passed in.  The file-scope variables
    that the function does not assign have the zero of their static
    storage, and the two statics of [ofctrl_put] their initialisers. *)
Definition ofctrl_init (group_table meter_table : ovn_extend_table)
    (c : rconn) (m : memory) : ofctrl :=
  {| swconn := c; state := S_NEW; flow_updates := []; cur_cfg := 0;
     xid := 0; xid2 := 0; tx_counter := 0; installed_flows := [];
     groups := Some group_table; meters := Some meter_table;
     mff_ovn_geneve := 0; need_reinstall_flows := false;
     skipped_last_time := false; old_nb_cfg := 0; mem := m |}.

(** [ovn_desired_flow_table_init]: both hash maps are empty. *)
Definition ovn_desired_flow_table_init : ovn_desired_flow_table :=
  {| match_flow_table := []; uuid_flow_table := [] |}.

(** What a client of the module holds: its desired flow table, its pending
    conntrack zones, the module's connection sequence number (the static
    [seqno] of [ofctrl_run]) and the engine. *)
Record ofctrl_client := {
  c_flow_table : ovn_desired_flow_table;
  c_pending_ct_zones : gmap string ct_zone_pending_entry;
  c_seqno : Z;
  c_engine : ofctrl
}.

(** The calls of a client into the module, and the connection draining its
    send queue, after which the packet counter reads [n]. *)
Inductive ofctrl_call :=
  | Call_add_flow (table_id' priority' cookie' : Z) (match' : minimatch)
                  (actions : list Byte.byte) (sb_uuid : uuid)
  | Call_remove_flows (sb_uuid : uuid)
  | Call_table_clear
  | Call_put (meter_table : list sbrec_meter) (nb_cfg : Z)
             (flow_changed : bool)
  | Call_run (input : rconn_input)
  | Conn_sent (n : Z).

Definition ofctrl_call_do
    (remove_desired : ovn_extend_table → uuid → ovn_extend_table)
    (call : ofctrl_call) (cl : ofctrl_client) : option ofctrl_client :=
  let s := c_engine cl in
  match call with
  | Call_add_flow t p c mt a u =>
      '(flow_table, m) ← ofctrl_add_flow (c_flow_table cl) t p c mt a u
                                         (mem s);
      Some {| c_flow_table := flow_table;
              c_pending_ct_zones := c_pending_ct_zones cl;
              c_seqno := c_seqno cl; c_engine := set_mem m s |}
  | Call_remove_flows u =>
      '(flow_table, s) ← ofctrl_remove_flows remove_desired
                                             (c_flow_table cl) u s;
      Some {| c_flow_table := flow_table;
              c_pending_ct_zones := c_pending_ct_zones cl;
              c_seqno := c_seqno cl; c_engine := s |}
  | Call_table_clear =>
      '(flow_table, m) ← ovn_desired_flow_table_clear (c_flow_table cl)
                                                      (mem s);
      Some {| c_flow_table := flow_table;
              c_pending_ct_zones := c_pending_ct_zones cl;
              c_seqno := c_seqno cl; c_engine := set_mem m s |}
  | Call_put meter_table nb_cfg flow_changed =>
      '(s, pending_ct_zones) ←
        ofctrl_put (c_flow_table cl) (c_pending_ct_zones cl) meter_table
                   nb_cfg flow_changed s;
      Some {| c_flow_table := c_flow_table cl;
              c_pending_ct_zones := pending_ct_zones;
              c_seqno := c_seqno cl; c_engine := s |}
  | Call_run input =>
      r ← ofctrl_run input (c_pending_ct_zones cl) (c_seqno cl) s;
      Some {| c_flow_table := c_flow_table cl;
              c_pending_ct_zones := run_ct_zones r;
              c_seqno := run_seqno r; c_engine := run_engine r |}
  | Conn_sent n =>
      Some {| c_flow_table := c_flow_table cl;
              c_pending_ct_zones := c_pending_ct_zones cl;
              c_seqno := c_seqno cl; c_engine := set_tx_counter n s |}
  end.

(** A sequence of calls, in order. *)
Definition ofctrl_calls
    (remove_desired : ovn_extend_table → uuid → ovn_extend_table)
    (calls : list ofctrl_call) (cl : ofctrl_client) : option ofctrl_client :=
  for_each calls (ofctrl_call_do remove_desired) cl.

End Model.

(** ** A concrete instance of the library interface

    Matches are strings; used to run the model on concrete inputs. *)

#[local] Instance test_lib : OvsLib := {|
  minimatch := string;
  minimatch_hash := λ m basis, Z.of_nat (String.length m) + basis;
  minimatch_catchall := EmptyString;
  hash_2words := λ a b, (31 * a + b) `mod` 2 ^ 32;
  MFF_TUN_METADATA0 := 38;
  OVN_GENEVE_CLASS := 258;
  OVN_GENEVE_TYPE := 128;
  OVN_GENEVE_LEN := 4;
  parse_ofp_group_mod_str := λ command str,
    Some {| gm_command := command; gm_group_id := 0;
            gm_command_bucket_id := 0; gm_buckets := [str] |};
  parse_ofp_meter_mod_str := λ str command,
    Some {| mm_command := command; mm_meter_id := 0; mm_flags := 0;
            mm_bands := [] |}
|}.

Definition empty_table : ovn_extend_table :=
  {| et_desired := []; et_existing := [] |}.

Definition empty_memory : memory :=
  {| desired_at := ∅; installed_at := ∅ |}.

Definition empty_flow_table : ovn_desired_flow_table :=
  {| match_flow_table := []; uuid_flow_table := [] |}.

(** The engine in S_UPDATE_FLOWS on an idle OpenFlow 1.3 connection, with
    nothing installed. *)
Definition idle (updates : list ofctrl_flow_update) (cur old : Z) : ofctrl :=
  {| swconn := {| version := 4; txq := []; next_xid := 10 |};
     state := S_UPDATE_FLOWS; flow_updates := updates; cur_cfg := cur;
     xid := 0; xid2 := 0; tx_counter := 0; installed_flows := [];
     groups := Some empty_table; meters := Some empty_table;
     mff_ovn_geneve := 0; need_reinstall_flows := false;
     skipped_last_time := false; old_nb_cfg := old;
     mem := empty_memory |}.

(** Two sources of flows in the Southbound database. *)
Definition sb1 : uuid := UUID 1 0 0 0.
Definition sb2 : uuid := UUID 2 0 0 0.

(** The flow that the fixtures add: table 0, priority 100, match [ip]. *)
Definition flow_ip : ovn_flow := ovn_flow_init 0 100 7 "ip" [].

(** A stale installed flow: table 0, priority 100, match [tcp]. *)
Definition flow_tcp : ovn_flow := ovn_flow_init 0 100 9 "tcp" [].

(** The desired table after [flow_ip] was added from [sb1], and its heap. *)
Definition ip_table : ovn_desired_flow_table :=
  {| match_flow_table := [1%positive];
     uuid_flow_table :=
       [ {| stf_sb_uuid := sb1;
            stf_flows := [ {| sfr_flow := 1; sfr_sb_uuid := sb1 |} ] |} ] |}.

Definition ip_memory : memory :=
  {| desired_at :=
       {[ 1%positive :=
            {| d_flow := flow_ip;
               d_references := [ {| sfr_flow := 1; sfr_sb_uuid := sb1 |} ];
               d_installed_flow := None |} ]};
     installed_at := ∅ |}.

(** The engine with [flow_tcp] installed and no longer desired, while
    [ip_table] is desired. *)
Definition stale_engine : ofctrl :=
  set_installed_flows [1%positive]
    (set_mem
       {| desired_at := desired_at ip_memory;
          installed_at :=
            {[ 1%positive := {| i_flow := flow_tcp; i_desired_refs := [];
                                i_desired_flow := None |} ]} |}
       (idle [] 0 0)).

(** One installed flow shared by two desired flows of its key, the first of
    them its primary. *)
Definition shared_memory : memory :=
  {| desired_at :=
       {[ 1%positive :=
            {| d_flow := flow_ip;
               d_references := [ {| sfr_flow := 1; sfr_sb_uuid := sb1 |} ];
               d_installed_flow := Some 1%positive |};
          2%positive :=
            {| d_flow := flow_ip;
               d_references := [ {| sfr_flow := 2; sfr_sb_uuid := sb2 |} ];
               d_installed_flow := Some 1%positive |} ]};
     installed_at :=
       {[ 1%positive := {| i_flow := flow_ip;
                           i_desired_refs := [1%positive; 2%positive];
                           i_desired_flow := Some 1%positive |} ]} |}.

(** The engine with that flow installed and one update in flight. *)
Definition shared_engine : ofctrl :=
  set_installed_flows [1%positive]
    (set_mem shared_memory
       (idle [ {| fup_xid := 9; fup_nb_cfg := 1 |} ] 0 1)).

(** A pending conntrack flush that was sent with barrier 11. *)
Definition sent_zone : ct_zone_pending_entry :=
  {| zone := 1; of_xid := 11; ctzpe_state := CT_ZONE_OF_SENT |}.

(** The engine waiting for the reply to its TLV table request 10. *)
Definition tlv_requested : ofctrl :=
  set_state S_TLV_TABLE_REQUESTED (set_xid 10 (idle [] 0 0)).

Definition tlv_reply (index' : Z) : ofp_header :=
  {| oh_xid := 10;
     oh_tlv_table_reply :=
       Some [ {| option_class := OVN_GENEVE_CLASS;
                 option_type := OVN_GENEVE_TYPE;
                 option_len := OVN_GENEVE_LEN; index := index' |} ];
     oh_error := OFPERR_OTHER |}.

(** What the connection shows to [ofctrl_run]: connected, with connection
    sequence number 1 and the packets [packets] to deliver. *)
Definition switch_input
    (packets : list (option (ofp_header * option ofptype))) : rconn_input :=
  {| connected := true; connection_seqno := 1; rx := packets |}.

(** The barrier reply to the flow update in flight of [shared_engine]. *)
Definition barrier_reply_9 : ofp_header :=
  {| oh_xid := 9; oh_tlv_table_reply := None; oh_error := OFPERR_OTHER |}.

(** The desired table of [shared_memory]: both desired flows are in the
    match index, the newest first. *)
Definition shared_table : ovn_desired_flow_table :=
  {| match_flow_table := [2%positive; 1%positive];
     uuid_flow_table :=
       [ {| stf_sb_uuid := sb2;
            stf_flows := [ {| sfr_flow := 2; sfr_sb_uuid := sb2 |} ] |};
         {| stf_sb_uuid := sb1;
            stf_flows := [ {| sfr_flow := 1; sfr_sb_uuid := sb1 |} ] |} ] |}.

(** A pending conntrack flush that waits to be sent. *)
Definition queued_zone : ct_zone_pending_entry :=
  {| zone := 5; of_xid := 0; ctzpe_state := CT_ZONE_OF_QUEUED |}.

(** A pending conntrack flush whose zone does not fit 16 bits. *)
Definition wide_zone : ct_zone_pending_entry :=
  {| zone := 65541; of_xid := 0; ctzpe_state := CT_ZONE_OF_QUEUED |}.

(** * Properties *)

Section Properties.
Context `{OvsLib}.

(** ** The guard of the reconciler *)

(** C6. [ofctrl_can_put] returns true if and only if the state machine is in
    S_UPDATE_FLOWS, the in-flight packet counter of the connection is zero
    and the negotiated OpenFlow version is valid (not negative). *)
Theorem ofctrl_can_put_iff (s : ofctrl) :
  ofctrl_can_put s = true ↔
  state s = S_UPDATE_FLOWS ∧ tx_counter s = 0
  ∧ 0 ≤ rconn_get_version (swconn s).
Proof.
  unfold ofctrl_can_put.
  case_bool_decide as Hst; simpl.
  - split; [discriminate | intros (? & _); contradiction].
  - destruct (Z.eqb_spec (tx_counter s) 0) as [Hc | Hc]; simpl.
    + destruct (Z.ltb_spec (rconn_get_version (swconn s)) 0); split;
        try discriminate; try (intros (_ & _ & ?); lia); auto.
    + split; [discriminate | intros (_ & ? & _); contradiction].
Qed.

(** ** Barrier replies in S_UPDATE_FLOWS *)

(** C5, as the code has it.  On a barrier reply received while the
    flow-update queue is not empty: if the reply's xid equals the xid of the
    head of the queue, [cur_cfg] becomes the larger of its old value and the
    head's [nb_cfg] and the head is removed; if it differs, the queue and
    [cur_cfg] are unchanged, also when the xid is that of a later record;
    in both cases every pending conntrack entry in CT_ZONE_OF_SENT whose
    [of_xid] equals the reply's xid moves to CT_ZONE_DB_QUEUED and every other
    entry is unchanged.  With an empty queue the reply goes to the generic
    handler and neither [cur_cfg] nor any pending entry changes. *)
Theorem recv_S_UPDATE_FLOWS_barrier_reply (s : ofctrl) (oh : ofp_header)
    (pending_ct_zones : gmap string ct_zone_pending_entry) :
  let r := recv_S_UPDATE_FLOWS oh OFPTYPE_BARRIER_REPLY pending_ct_zones s in
  match flow_updates s with
  | fup :: rest =>
      (fup_xid fup = oh_xid oh →
         cur_cfg r.1 = Z.max (cur_cfg s) (fup_nb_cfg fup)
         ∧ flow_updates r.1 = rest)
      ∧ (fup_xid fup ≠ oh_xid oh →
           cur_cfg r.1 = cur_cfg s ∧ flow_updates r.1 = fup :: rest)
      ∧ (∀ k, pending_ct_zones !! k = None → r.2 !! k = None)
      ∧ (∀ k ctzpe, pending_ct_zones !! k = Some ctzpe →
           (ctzpe_state ctzpe = CT_ZONE_OF_SENT →
            of_xid ctzpe = oh_xid oh →
            r.2 !! k = Some {| zone := zone ctzpe; of_xid := of_xid ctzpe;
                               ctzpe_state := CT_ZONE_DB_QUEUED |})
           ∧ (¬ (ctzpe_state ctzpe = CT_ZONE_OF_SENT
                 ∧ of_xid ctzpe = oh_xid oh) →
              r.2 !! k = Some ctzpe))
  | [] =>
      cur_cfg r.1 = cur_cfg s ∧ flow_updates r.1 = []
      ∧ r.2 = pending_ct_zones
  end.
Proof.
  unfold recv_S_UPDATE_FLOWS.
  destruct s as [c st fu cc x x2 tc ifl g mt mff nr sk onb mm]; simpl.
  destruct fu as [|fup rest]; simpl.
  - auto.
  - split; [|split; [|split]].
    + intros Hx. apply Z.eqb_eq in Hx. rewrite Hx.
      destruct (Z.geb_spec (fup_nb_cfg fup) cc); simpl; split;
        auto; lia.
    + intros Hx. apply Z.eqb_neq in Hx. rewrite Hx. simpl. auto.
    + intros k Hk. by rewrite lookup_fmap, Hk.
    + intros k e Hk. rewrite lookup_fmap, Hk. simpl. split.
      * intros -> ->. rewrite bool_decide_eq_true_2, Z.eqb_refl; done.
      * intros Hn.
        case_bool_decide; [|done].
        destruct (Z.eqb_spec (of_xid e) (oh_xid oh)); [|done].
        naive_solver.
Qed.

(** ** Negotiation of the tunnel-metadata option *)

Lemma rightmost_1bit_idx_from_spec (n : nat) (i x : Z) :
  let r := rightmost_1bit_idx_from n i x in
  i ≤ r ≤ i + Z.of_nat n
  ∧ (∀ j, i ≤ j < r → Z.testbit x j = false)
  ∧ (r < i + Z.of_nat n → Z.testbit x r = true).
Proof.
  revert i. induction n as [|n IH]; intros i; simpl.
  - split; [lia|]. split; intros; lia.
  - destruct (Z.testbit x i) eqn:Hb.
    + split; [lia|]. split; [intros; lia | done].
    + destruct (IH (i + 1)) as (H1 & H2 & H3).
      split; [lia|]. split.
      * intros j Hj. destruct (decide (j = i)) as [->|]; [done|].
        apply H2. lia.
      * intros ?. apply H3. lia.
Qed.

Lemma testbit_clear_slot (md i j : Z) :
  0 ≤ j →
  Z.testbit (Z.land md (Z.lnot (Z.shiftl 1 i))) j
  = Z.testbit md j && negb (bool_decide (i = j)).
Proof.
  intros Hj. rewrite Z.land_spec, Z.lnot_spec, Z.shiftl_spec by done.
  f_equal. f_equal. case_bool_decide as Hij.
  - subst. by rewrite Z.sub_diag.
  - destruct (j - i) as [|p|p] eqn:Hd; [lia| |]; by destruct p.
Qed.

Lemma process_tlv_table_reply_scan_found (mappings : list ofputil_tlv_map)
    (md_free : Z) (s : ofctrl) (map_ : ofputil_tlv_map) :
  find is_ovn_geneve mappings = Some map_ →
  process_tlv_table_reply_scan mappings md_free s
  = inl (if index map_ >=? TUN_METADATA_NUM_OPTS then (false, s)
         else (true,
               set_state S_CLEAR_FLOWS
                 (set_mff_ovn_geneve (MFF_TUN_METADATA0 + index map_) s))).
Proof.
  revert md_free. induction mappings as [|m l IH]; intros md; simpl; [done|].
  destruct (is_ovn_geneve m); [|by auto].
  intros [= ->]. by destruct (index map_ >=? TUN_METADATA_NUM_OPTS).
Qed.

Lemma process_tlv_table_reply_scan_free (mappings : list ofputil_tlv_map)
    (md_free : Z) (s : ofctrl) :
  find is_ovn_geneve mappings = None →
  ∃ md, process_tlv_table_reply_scan mappings md_free s = inr md
        ∧ ∀ j, 0 ≤ j →
            Z.testbit md j = true ↔
            Z.testbit md_free j = true
            ∧ (j < TUN_METADATA_NUM_OPTS →
               ∀ m, m ∈ mappings → index m ≠ j).
Proof.
  revert md_free. induction mappings as [|m l IH]; intros md; simpl.
  - intros _. exists md. split; [done|]. intros j Hj.
    split; [|by intros [? _]]. split; [done|]. intros _ m Hm.
    by apply not_elem_of_nil in Hm.
  - destruct (is_ovn_geneve m); [done|]. intros Hf.
    destruct (IH (if index m <? TUN_METADATA_NUM_OPTS
                  then Z.land md (Z.lnot (Z.shiftl 1 (index m)))
                  else md) Hf) as (md' & -> & Hbits).
    exists md'. split; [done|]. intros j Hj. rewrite Hbits by done.
    destruct (Z.ltb_spec (index m) TUN_METADATA_NUM_OPTS) as [Hlt|Hge].
    + rewrite testbit_clear_slot, andb_true_iff, negb_true_iff,
        bool_decide_eq_false by done.
      split.
      * intros ((Hb & Hne) & Hl). split; [done|].
        intros Hj' m' [->|Hm']%elem_of_cons; [congruence | by apply Hl].
      * intros (Hb & Hl). split; [split; [done|]|].
        -- intros Heq. by eapply (Hl ltac:(lia) m); [left|].
        -- intros Hj' m' Hm'. apply Hl; [done | by right].
    + split.
      * intros (Hb & Hl). split; [done|].
        intros Hj' m' [->|Hm']%elem_of_cons; [lia | by apply Hl].
      * intros (Hb & Hl). split; [done|].
        intros Hj' m' Hm'. apply Hl; [done | by right].
Qed.

Lemma testbit_UINT64_MAX (j : Z) :
  0 ≤ j → Z.testbit UINT64_MAX j = true ↔ j < TUN_METADATA_NUM_OPTS.
Proof.
  intros Hj. change UINT64_MAX with (Z.ones 64).
  unfold TUN_METADATA_NUM_OPTS.
  destruct (Z.lt_ge_cases j 64).
  - rewrite Z.ones_spec_low by lia. done.
  - rewrite Z.ones_spec_high by lia. split; [done | lia].
Qed.

(** C7, as the code has it.  In S_TLV_TABLE_REQUESTED, on a TLV-table reply
    that carries the xid of the outstanding request and decodes: if the
    reply enumerates a mapping with the class, type and length of the OVN
    option, the first one decides: with an index below 64 the field id of
    that tunnel-metadata slot is recorded and the state becomes
    S_CLEAR_FLOWS, with an index of 64 or more tunnel metadata is disabled
    (field id 0) and the state becomes S_CLEAR_FLOWS; nothing is sent in
    either case.  Otherwise the lowest slot of the 64 that no mapping of the
    reply uses is chosen, a TLV-table-mod that adds the OVN option at that
    slot and a barrier request are sent, their xids are recorded in [xid]
    and [xid2], and the state becomes S_TLV_TABLE_MOD_SENT; when all 64
    slots are in use, tunnel metadata is disabled and the state becomes
    S_CLEAR_FLOWS.  A reply that does not decode and an error reply with
    that xid disable tunnel metadata and lead to S_CLEAR_FLOWS as well. *)
Theorem recv_S_TLV_TABLE_REQUESTED_reply (s : ofctrl) (oh : ofp_header) :
  oh_xid oh = xid s →
  (∀ reply,
     oh_tlv_table_reply oh = Some reply →
     let s' := recv_S_TLV_TABLE_REQUESTED oh OFPTYPE_NXT_TLV_TABLE_REPLY s in
     let used j := ∃ m, m ∈ reply ∧ index m = j in
     match find is_ovn_geneve reply with
     | Some map_ =>
         state s' = S_CLEAR_FLOWS
         ∧ mff_ovn_geneve s'
           = (if index map_ <? TUN_METADATA_NUM_OPTS
              then MFF_TUN_METADATA0 + index map_ else 0)
         ∧ swconn s' = swconn s
     | None =>
         (∃ i, 0 ≤ i < TUN_METADATA_NUM_OPTS ∧ ¬ used i
               ∧ (∀ j, 0 ≤ j < i → used j)
               ∧ state s' = S_TLV_TABLE_MOD_SENT
               ∧ mff_ovn_geneve s' = MFF_TUN_METADATA0 + i
               ∧ txq (swconn s')
                 = txq (swconn s)
                   ++ [ {| msg_xid := xid s';
                           msg_body :=
                             NXT_TLV_TABLE_MOD
                               {| ttm_command := NXTTMC_ADD;
                                  ttm_mappings :=
                                    [ {| option_class := OVN_GENEVE_CLASS;
                                         option_type := OVN_GENEVE_TYPE;
                                         option_len := OVN_GENEVE_LEN;
                                         index := i |} ] |} |};
                        {| msg_xid := xid2 s';
                           msg_body := OFPT_BARRIER_REQUEST |} ])
         ∨ ((∀ j, 0 ≤ j < TUN_METADATA_NUM_OPTS → used j)
            ∧ state s' = S_CLEAR_FLOWS ∧ mff_ovn_geneve s' = 0
            ∧ swconn s' = swconn s)
     end)
  ∧ (oh_tlv_table_reply oh = None →
     let s' := recv_S_TLV_TABLE_REQUESTED oh OFPTYPE_NXT_TLV_TABLE_REPLY s in
     state s' = S_CLEAR_FLOWS ∧ mff_ovn_geneve s' = 0)
  ∧ (let s' := recv_S_TLV_TABLE_REQUESTED oh OFPTYPE_ERROR s in
     state s' = S_CLEAR_FLOWS ∧ mff_ovn_geneve s' = 0).
Proof.
  intros Hxid. unfold recv_S_TLV_TABLE_REQUESTED.
  apply Z.eqb_eq in Hxid. rewrite Hxid. simpl.
  destruct s as [c st fu cc x x2 tc ifl g mt mff nr sk onb mm].
  simpl in *.
  split; [|split; [intros ->; done | done]].
  intros reply ->. unfold process_tlv_table_reply.
  destruct (find is_ovn_geneve reply) as [map_|] eqn:Hfind.
  - rewrite (process_tlv_table_reply_scan_found _ _ _ _ Hfind).
    unfold TUN_METADATA_NUM_OPTS.
    destruct (Z.geb_spec (index map_) 64), (Z.ltb_spec (index map_) 64);
      try lia; done.
  - edestruct (process_tlv_table_reply_scan_free reply UINT64_MAX)
      as (md & -> & Hbits); [done|].
    pose proof (rightmost_1bit_idx_from_spec 64 0 md) as (Hr & Hlow & Hset).
    fold (rightmost_1bit_idx md) in Hr, Hlow, Hset.
    generalize dependent (rightmost_1bit_idx md). intros r Hr Hlow Hset.
    assert (Hused : ∀ j, 0 ≤ j < TUN_METADATA_NUM_OPTS →
                         Z.testbit md j = false →
                         ∃ m, m ∈ reply ∧ index m = j).
    { intros j Hj Hb.
      destruct (decide (Exists (λ m, index m = j) reply)) as [He|Hn].
      - apply Exists_exists in He. naive_solver.
      - exfalso. rewrite Exists_exists in Hn.
        assert (Z.testbit md j = true); [|congruence].
        apply Hbits; [lia|]. split; [apply testbit_UINT64_MAX; lia|].
        intros _ m Hm Hi. apply Hn. eauto. }
    destruct (Z.eqb_spec md 0) as [-> | Hnz].
    + right. split; [|done]. intros j Hj. apply Hused; [done|].
      apply Z.bits_0.
    + left. exists r.
      assert (Hlt : r < 64).
      { destruct (decide (r < 64)); [done|].
        exfalso. apply Hnz. apply Z.bits_inj_0. intros j.
        destruct (Z.neg_nonneg_cases j); [by apply Z.testbit_neg_r|].
        destruct (Z.lt_ge_cases j 64); [apply Hlow; lia|].
        destruct (Z.testbit md j) eqn:Hb; [|done].
        apply Hbits in Hb as [Hb _]; [|done].
        apply testbit_UINT64_MAX in Hb; [|done].
        unfold TUN_METADATA_NUM_OPTS in Hb. lia. }
      unfold TUN_METADATA_NUM_OPTS in *.
      split; [lia|]. split; [|split]; [| |cbn; by rewrite <- app_assoc].
      * intros (m & Hm & Hi).
        specialize (Hset ltac:(lia)). apply Hbits in Hset as [_ Hfree]; [|lia].
        by eapply Hfree; [lia | |].
      * intros j Hj. apply Hused; [lia|]. apply Hlow. lia.
Qed.

(** ** Linking installed and desired flows *)

Lemma filter_ne_not_elem (l : list ptr) (d : ptr) :
  d ∉ l → filter (λ x, x ≠ d) l = l.
Proof.
  intros Hd. induction l as [|x l IH]; [done|].
  apply not_elem_of_cons in Hd as [Hne Hd].
  rewrite filter_cons_True by done. by rewrite IH.
Qed.

Lemma ovs_list_remove_head (l : list ptr) (d : ptr) :
  d ∉ l → ovs_list_remove (d :: l) d = Some l.
Proof.
  intros Hd. unfold ovs_list_remove.
  rewrite decide_True by left.
  by rewrite filter_cons_False, filter_ne_not_elem by auto.
Qed.

Lemma i_with_links_id (fi : installed_flow) :
  i_with_links (i_desired_refs fi) (i_desired_flow fi) fi = fi.
Proof. by destruct fi. Qed.

Lemma for_each_cons {A S : Type} (x : A) (l : list A)
    (body : A → S → option S) (s : S) :
  for_each (x :: l) body s = body x s ≫= for_each l body.
Proof. done. Qed.

Lemma unlink_installed_to_desired_eq (m : memory) (i d : ptr)
    (fi : installed_flow) (fd : desired_flow) :
  installed_at m !! i = Some fi →
  desired_at m !! d = Some fd →
  i_desired_flow fi ≠ None →
  d ∈ i_desired_refs fi →
  d_installed_flow fd = Some i →
  unlink_installed_to_desired i d m
  = Some {| installed_at :=
              <[i := i_with_links
                       (filter (λ x, x ≠ d) (i_desired_refs fi))
                       (if bool_decide (i_desired_flow fi = Some d)
                        then head (filter (λ x, x ≠ d) (i_desired_refs fi))
                        else i_desired_flow fi) fi]> (installed_at m);
            desired_at := <[d := d_with_installed_flow None fd]>
                            (desired_at m) |}.
Proof.
  intros Hi Hd Hp Hin Hdi. unfold unlink_installed_to_desired.
  rewrite Hi, Hd. simpl.
  assert (i_desired_refs fi ≠ []) as Hne.
  { intros Hnil. rewrite Hnil in Hin. by apply not_elem_of_nil in Hin. }
  rewrite !bool_decide_eq_true_2 by done.
  simpl. unfold ovs_list_remove. by rewrite decide_True.
Qed.

Lemma link_installed_to_desired_eq (m : memory) (i d : ptr)
    (fi : installed_flow) (fd : desired_flow) :
  installed_at m !! i = Some fi →
  desired_at m !! d = Some fd →
  i_desired_flow fi ≠ Some d →
  d ∉ i_desired_refs fi →
  (i_desired_refs fi = [] → i_desired_flow fi = None) →
  link_installed_to_desired i d m
  = Some {| installed_at :=
              <[i := i_with_links
                       (i_desired_refs fi ++ [d])
                       (if bool_decide (i_desired_refs fi = [])
                        then Some d else i_desired_flow fi) fi]>
                (installed_at m);
            desired_at := <[d := d_with_installed_flow (Some i) fd]>
                            (desired_at m) |}.
Proof.
  intros Hi Hd Hp Hin Hnil. unfold link_installed_to_desired.
  rewrite Hi. simpl. rewrite bool_decide_eq_false_2 by done.
  rewrite Hd. simpl. unfold ovs_list_push_back.
  rewrite decide_False by done.
  case_bool_decide as He; simpl; [|done].
  by rewrite bool_decide_eq_true_2 by auto.
Qed.

(** The loop of [unlink_all_refs_for_installed_flow] over the remaining
    links of [i]. *)
Lemma unlink_loop (i : ptr) (l : list ptr) :
  ∀ m fi,
    installed_at m !! i = Some fi →
    i_desired_refs fi = l →
    NoDup l →
    (∀ d, d ∈ l → ∃ fd, desired_at m !! d = Some fd
                        ∧ d_installed_flow fd = Some i) →
    match i_desired_flow fi with Some p => p ∈ l | None => l = [] end →
    ∃ m', for_each l (unlink_installed_to_desired i) m = Some m'
          ∧ installed_at m' = <[i := i_with_links [] None fi]> (installed_at m)
          ∧ (∀ d, d ∈ l →
               desired_at m' !! d
               = d_with_installed_flow None <$> desired_at m !! d)
          ∧ (∀ d, d ∉ l → desired_at m' !! d = desired_at m !! d).
Proof.
  induction l as [|d l IH]; intros m fi Hi Hrefs Hnd Hback Hprim.
  - exists m. split; [done|]. split; [|split; [|done]].
    + destruct (i_desired_flow fi) as [p|] eqn:Hp.
      * by apply not_elem_of_nil in Hprim.
      * rewrite <- Hrefs, <- Hp, i_with_links_id. by rewrite insert_id.
    + intros d Hd. by apply not_elem_of_nil in Hd.
  - apply NoDup_cons in Hnd as [Hdl Hnd].
    destruct (Hback d ltac:(left)) as (fd & Hd & Hdi).
    destruct (i_desired_flow fi) as [p|] eqn:Hp; [|done].
    rewrite for_each_cons.
    rewrite (unlink_installed_to_desired_eq m i d fi fd);
      [|done|done|by rewrite Hp|rewrite Hrefs; left|done].
    rewrite Hrefs, Hp, filter_cons_False, filter_ne_not_elem by auto.
    simpl.
    set (prim := if bool_decide (Some p = Some d) then head l else Some p).
    set (m1 := {| installed_at := _; desired_at := _ |}).
    destruct (IH m1 (i_with_links l prim fi)) as (m' & Hrun & Hia & Hin & Hout).
    + subst m1. simpl. by rewrite lookup_insert_eq.
    + done.
    + done.
    + intros d' Hd'. subst m1. simpl.
      rewrite lookup_insert_ne by (intros ->; done).
      apply Hback. by right.
    + subst prim. simpl. case_bool_decide as Hpd.
      * destruct l; simpl; [done | left].
      * apply elem_of_cons in Hprim as [->|]; done.
    + exists m'. split; [done|]. split; [|split].
      * rewrite Hia. subst m1. simpl. by rewrite insert_insert_eq.
      * intros d' [->|Hd']%elem_of_cons.
        -- rewrite Hout by done. subst m1. simpl.
           by rewrite lookup_insert_eq, Hd.
        -- rewrite Hin by done. subst m1. simpl.
           by rewrite lookup_insert_ne by (intros ->; done).
      * intros d' [Hne Hd']%not_elem_of_cons.
        rewrite Hout by done. subst m1. simpl.
        by rewrite lookup_insert_ne.
Qed.

Lemma unlink_all_refs_spec (m : memory) (i : ptr) (fi : installed_flow) :
  installed_at m !! i = Some fi →
  installed_flow_linked m i →
  ∃ m', unlink_all_refs_for_installed_flow i m = Some m'
        ∧ installed_at m' = <[i := i_with_links [] None fi]> (installed_at m)
        ∧ (∀ d, d ∈ i_desired_refs fi →
             desired_at m' !! d
             = d_with_installed_flow None <$> desired_at m !! d)
        ∧ (∀ d, d ∉ i_desired_refs fi →
             desired_at m' !! d = desired_at m !! d).
Proof.
  intros Hi (fi' & Hi' & Hnd & Hback & Hprim).
  assert (fi' = fi) as -> by congruence.
  unfold unlink_all_refs_for_installed_flow. rewrite Hi. simpl.
  by apply unlink_loop.
Qed.

(** C9, as the code has it.  Linking the desired flow that is already the
    primary of the installed flow changes nothing.  Linking a desired flow
    that is not on [desired_refs] appends it there and sets its back
    pointer; it becomes the primary when the installed flow had no link, and
    leaves the primary unchanged otherwise.  Unlinking removes the desired
    flow from [desired_refs] and clears its back pointer; when it was the
    primary, the head of the remaining list becomes the primary, or none if
    the list is empty.  Whenever a link or an unlink returns, an installed
    flow whose primary was among its [desired_refs] (when not empty) before
    still has this property. *)
Theorem link_unlink_installed_to_desired (m : memory) (i d : ptr)
    (fi : installed_flow) (fd : desired_flow) :
  installed_at m !! i = Some fi →
  desired_at m !! d = Some fd →
  (i_desired_flow fi = Some d → link_installed_to_desired i d m = Some m)
  ∧ (i_desired_refs fi = [] → i_desired_flow fi = None →
     ∃ m', link_installed_to_desired i d m = Some m'
           ∧ installed_at m' !! i = Some (i_with_links [d] (Some d) fi)
           ∧ desired_at m' !! d = Some (d_with_installed_flow (Some i) fd))
  ∧ (i_desired_refs fi ≠ [] → i_desired_flow fi ≠ Some d →
     d ∉ i_desired_refs fi →
     ∃ m', link_installed_to_desired i d m = Some m'
           ∧ installed_at m' !! i
             = Some (i_with_links (i_desired_refs fi ++ [d])
                                  (i_desired_flow fi) fi)
           ∧ desired_at m' !! d = Some (d_with_installed_flow (Some i) fd))
  ∧ (i_desired_flow fi ≠ None → d ∈ i_desired_refs fi →
     d_installed_flow fd = Some i →
     ∃ m' rest,
       unlink_installed_to_desired i d m = Some m'
       ∧ rest = filter (λ x, x ≠ d) (i_desired_refs fi)
       ∧ installed_at m' !! i
         = Some (i_with_links rest
                   (if bool_decide (i_desired_flow fi = Some d)
                    then head rest else i_desired_flow fi) fi)
       ∧ desired_at m' !! d = Some (d_with_installed_flow None fd))
  ∧ (∀ m' fi',
       link_installed_to_desired i d m = Some m'
       ∨ unlink_installed_to_desired i d m = Some m' →
       installed_at m' !! i = Some fi' →
       primary_among_refs fi → primary_among_refs fi').
Proof.
  intros Hi Hd. split; [|split; [|split; [|split]]].
  - intros Hp. unfold link_installed_to_desired. rewrite Hi. simpl.
    by rewrite bool_decide_eq_true_2.
  - intros Hnil Hp. eexists. split.
    + apply (link_installed_to_desired_eq m i d fi fd); try done.
      * by rewrite Hp.
      * rewrite Hnil. apply not_elem_of_nil.
    + simpl. by rewrite !lookup_insert_eq, Hnil.
  - intros Hne Hp Hin. eexists. split.
    + by apply (link_installed_to_desired_eq m i d fi fd).
    + simpl. rewrite !lookup_insert_eq.
      by rewrite bool_decide_eq_false_2.
  - intros Hp Hin Hdi. eexists _, _. split; [|split; [done|]].
    + by apply (unlink_installed_to_desired_eq m i d fi fd).
    + simpl. by rewrite !lookup_insert_eq.
  - intros m' fi' Hrun Hi' Hinv. destruct Hrun as [Hrun|Hrun].
    + unfold link_installed_to_desired in Hrun. rewrite Hi in Hrun.
      simpl in Hrun. case_bool_decide as Hp.
      { injection Hrun as <-. by assert (fi' = fi) as -> by congruence. }
      rewrite Hd in Hrun. simpl in Hrun.
      unfold ovs_list_push_back in Hrun.
      destruct (decide (d ∈ i_desired_refs fi)) as [|Hin];
        [by repeat case_bool_decide|].
      case_bool_decide as Hnil; [case_bool_decide as Hnone; [|done]|];
        simpl in Hrun; injection Hrun as <-; simpl in Hi';
        rewrite lookup_insert_eq in Hi'; injection Hi' as <-;
        intros _; simpl.
      * exists d. rewrite Hnil. split; [done | left].
      * destruct (Hinv Hnil) as (p & Hpp & Hpin).
        exists p. split; [done|]. apply elem_of_app. by left.
    + unfold unlink_installed_to_desired in Hrun. rewrite Hi, Hd in Hrun.
      simpl in Hrun.
      destruct (bool_decide (i_desired_flow fi ≠ None)) eqn:Hp;
        [|done].
      destruct (bool_decide (i_desired_refs fi ≠ [])) eqn:Hne; [|done].
      destruct (bool_decide (d_installed_flow fd = Some i)); [|done].
      apply bool_decide_eq_true_1 in Hp, Hne.
      simpl in Hrun. unfold ovs_list_remove in Hrun.
      destruct (decide (d ∈ i_desired_refs fi)); [|done].
      simpl in Hrun. injection Hrun as <-. simpl in Hi'.
      rewrite lookup_insert_eq in Hi'. injection Hi' as <-.
      unfold primary_among_refs. simpl.
      set (rest := filter (λ x, x ≠ d) (i_desired_refs fi)).
      intros Hrest. case_bool_decide as Hpd.
      * destruct rest as [|x rest'] eqn:Hr; [done|].
        exists x. split; [done | left].
      * destruct (Hinv Hne) as (p & Hpp & Hpin).
        exists p. split; [done|]. subst rest.
        apply list_elem_of_filter. split; [congruence | done].
Qed.

(** ** Clearing the installed flows *)

(** Unlinking and destroying the installed flow [i] leaves the links of the
    other installed flows sound. *)
Lemma installed_flow_linked_frame (m m' : memory) (i j : ptr)
    (fi : installed_flow) :
  installed_at m !! i = Some fi →
  installed_flow_linked m i →
  (∀ k, k ≠ i → installed_at m' !! k = installed_at m !! k) →
  (∀ d, d ∉ i_desired_refs fi → desired_at m' !! d = desired_at m !! d) →
  j ≠ i →
  installed_flow_linked m j → installed_flow_linked m' j.
Proof.
  intros Hi (fi' & Hi' & _ & Hbacki & _) Hinst Hdes Hne
         (fj & Hj & Hnd & Hback & Hprim).
  assert (fi' = fi) as -> by congruence.
  exists fj. split; [by rewrite Hinst|]. split; [done|]. split; [|done].
  intros d Hd. destruct (Hback d Hd) as (fd & Hfd & Hdj).
  exists fd. split; [|done]. rewrite Hdes; [done|].
  intros Hdi. destruct (Hbacki d Hdi) as (fd' & Hfd' & Hdi').
  congruence.
Qed.

Lemma hmap_remove_head (l : list ptr) (i : ptr) :
  i ∉ l → hmap_remove (i :: l) i = l.
Proof.
  intros Hi. unfold hmap_remove.
  by rewrite filter_cons_False, filter_ne_not_elem by auto.
Qed.

Lemma installed_flow_table_clear_flow_eq (s : ofctrl) (i : ptr)
    (l : list ptr) (fi : installed_flow) :
  installed_flows s = i :: l →
  i ∉ l →
  installed_at (mem s) !! i = Some fi →
  installed_flow_linked (mem s) i →
  ∃ m', installed_flow_table_clear_flow i s
        = Some (set_mem m' (set_installed_flows l s))
        ∧ installed_at m' = delete i (installed_at (mem s))
        ∧ (∀ d, d ∉ i_desired_refs fi →
             desired_at m' !! d = desired_at (mem s) !! d).
Proof.
  intros Hl Hil Hfi Hwi.
  destruct (unlink_all_refs_spec _ _ _ Hfi Hwi)
    as (m1 & Hun & Hinst & _ & Hout).
  exists (set_installed_at (delete i) m1).
  destruct s as [c st fu cc x x2 tc ifl g mt mff nr sk onb mm].
  simpl in *. subst ifl.
  unfold installed_flow_table_clear_flow, with_mem. simpl.
  rewrite Hun. simpl. unfold installed_flow_destroy.
  rewrite Hinst, lookup_insert_eq. simpl.
  rewrite hmap_remove_head by done.
  split; [done|]. split; [|done].
  by rewrite delete_insert_eq.
Qed.

Lemma ovn_installed_flow_table_clear_loop (l : list ptr) :
  ∀ s,
    installed_flows s = l →
    NoDup l →
    (∀ i, i ∈ l → installed_flow_linked (mem s) i) →
    ∃ m',
      for_each l installed_flow_table_clear_flow s
      = Some (set_mem m' (set_installed_flows [] s))
      ∧ (∀ i, i ∈ l → installed_at m' !! i = None)
      ∧ (∀ i, i ∉ l → installed_at m' !! i = installed_at (mem s) !! i).
Proof.
  induction l as [|i l IH]; intros s Hl Hnd Hwf.
  - exists (mem s). split; [|split; [|done]].
    + simpl. f_equal. destruct s; simpl in *; by subst.
    + intros i Hi. by apply not_elem_of_nil in Hi.
  - apply NoDup_cons in Hnd as [Hil Hnd].
    pose proof (Hwf i ltac:(left)) as Hwi.
    destruct (Hwi) as (fi & Hfi & _).
    destruct (installed_flow_table_clear_flow_eq s i l fi Hl Hil Hfi Hwi)
      as (m2 & Hstep & Hinst & Hout).
    rewrite for_each_cons, Hstep. simpl.
    destruct (IH (set_mem m2 (set_installed_flows l s)))
      as (m' & Hrun & Hnone & Hkeep);
      [by destruct s|done| |].
    + intros j Hj.
      replace (mem (set_mem m2 (set_installed_flows l s))) with m2
        by (by destruct s).
      eapply (installed_flow_linked_frame (mem s) m2 i j fi); try done.
      * intros k Hk. by rewrite Hinst, lookup_delete_ne.
      * intros ->. done.
      * apply Hwf. by right.
    + replace (mem (set_mem m2 (set_installed_flows l s))) with m2 in Hkeep
        by (by destruct s).
      exists m'. split; [|split].
      * rewrite Hrun. by destruct s.
      * intros j [->|Hj]%elem_of_cons; [|by apply Hnone].
        rewrite Hkeep by done. by rewrite Hinst, lookup_delete_eq.
      * intros j [Hne Hj]%not_elem_of_cons.
        rewrite Hkeep by done. by rewrite Hinst, lookup_delete_ne.
Qed.

(** C8.  On entering S_CLEAR_FLOWS, with sound links between the installed
    and the desired flows, the engine queues a flow-mod that deletes all
    flows, a group-mod that deletes all groups and a meter-mod that deletes
    all meters; it empties the installed-flow table and frees its flows,
    empties the installed sets of the group table and of the meter table,
    removes every in-flight flow-update record, sets
    [need_reinstall_flows], and transitions to S_UPDATE_FLOWS. *)
Theorem run_S_CLEAR_FLOWS_clears (s : ofctrl) :
  NoDup (installed_flows s) →
  (∀ i, i ∈ installed_flows s → installed_flow_linked (mem s) i) →
  ∃ s',
    run_S_CLEAR_FLOWS s = Some s'
    ∧ msg_body <$> txq (swconn s')
      = (msg_body <$> txq (swconn s))
        ++ [ OFPT_FLOW_MOD
               {| fm_match := minimatch_catchall; fm_priority := 0;
                  fm_table_id := OFPTT_ALL; fm_ofpacts := [];
                  fm_new_cookie := 0; fm_modify_cookie := false;
                  fm_command := OFPFC_DELETE; fm_buffer_id := UINT32_MAX;
                  fm_out_port := OFPP_ANY; fm_out_group := OFPG_ANY |};
             OFPT_GROUP_MOD
               {| gm_command := OFPGC11_DELETE; gm_group_id := OFPG_ALL;
                  gm_command_bucket_id := OFPG15_BUCKET_ALL;
                  gm_buckets := [] |};
             OFPT_METER_MOD
               {| mm_command := OFPMC13_DELETE; mm_meter_id := OFPM13_ALL;
                  mm_flags := 0; mm_bands := [] |} ]
    ∧ installed_flows s' = []
    ∧ (∀ i, i ∈ installed_flows s → installed_at (mem s') !! i = None)
    ∧ et_existing <$> groups s' = (λ _, []) <$> groups s
    ∧ et_existing <$> meters s' = (λ _, []) <$> meters s
    ∧ flow_updates s' = []
    ∧ need_reinstall_flows s' = true
    ∧ state s' = S_UPDATE_FLOWS.
Proof.
  intros Hnd Hwf. unfold run_S_CLEAR_FLOWS, ovn_installed_flow_table_clear.
  destruct s as [c st fu cc x x2 tc ifl g mt mff nr sk onb mm].
  simpl in Hnd, Hwf. cbn -[for_each].
  match goal with
  | |- context [for_each _ _ ?s1] =>
      destruct (ovn_installed_flow_table_clear_loop ifl s1)
        as (m' & Hrun & Hnone & _); [done|done|done|]
  end.
  rewrite Hrun. cbn.
  destruct g, mt; cbn;
    (eexists; split; [done|]; cbn;
     split; [by rewrite !fmap_app, <- !app_assoc|]; done).
Qed.

(** ** The desired flow table *)

Lemma ovn_flow_key_match_iff (a b : ovn_flow) :
  ovn_flow_hashed a → ovn_flow_hashed b →
  ovn_flow_key_match a b = true ↔ ovn_flow_key_eq a b.
Proof.
  unfold ovn_flow_hashed, ovn_flow_match_hash, ovn_flow_key_match,
    ovn_flow_key_eq.
  unfold flow_key. intros Ha Hb.
  rewrite !andb_true_iff, !Z.eqb_eq, bool_decide_eq_true.
  split; [intros (((_ & ?) & ?) & ?); congruence|]. intros [= Ht Hp Hm].
  rewrite Ha, Hb, Ht, Hp, Hm. done.
Qed.

Lemma ovn_flow_init_hashed (t p c : Z) (mt : minimatch)
    (a : list Byte.byte) :
  ovn_flow_hashed (ovn_flow_init t p c mt a).
Proof. done. Qed.

Lemma existsb_uuid_equals (u : uuid) (refs : list sb_flow_ref) :
  existsb (λ sfr, uuid_equals u (sfr_sb_uuid sfr)) refs = true
  ↔ u ∈ sfr_sb_uuid <$> refs.
Proof.
  rewrite existsb_exists, list_elem_of_fmap. unfold uuid_equals.
  split.
  - intros (sfr & Hin & Heq). apply bool_decide_eq_true in Heq.
    exists sfr. split; [done|]. by apply list_elem_of_In.
  - intros (sfr & -> & Hin). exists sfr.
    split; [by apply list_elem_of_In | by apply bool_decide_eq_true].
Qed.

(** What [desired_flow_lookup] returns on a chain of allocated flows. *)
Lemma desired_flow_lookup_in_spec (chain : list ptr) (target : ovn_flow)
    (sb_uuid : option uuid) (m : memory) :
  (∀ d, d ∈ chain → is_Some (desired_at m !! d)) →
  ∃ r, desired_flow_lookup_in chain target sb_uuid m = Some r
       ∧ match r with
         | Some d =>
             d ∈ chain
             ∧ ∃ fd, desired_at m !! d = Some fd
                     ∧ ovn_flow_key_match (d_flow fd) target = true
                     ∧ ∀ u, sb_uuid = Some u → u ∈ d_sources fd
         | None =>
             ∀ d fd, d ∈ chain → desired_at m !! d = Some fd →
                     ovn_flow_key_match (d_flow fd) target = true →
                     ∃ u, sb_uuid = Some u ∧ u ∉ d_sources fd
         end.
Proof.
  induction chain as [|d chain IH]; intros Hall; simpl.
  - exists None. split; [done|]. intros d fd Hd.
    by apply not_elem_of_nil in Hd.
  - destruct (Hall d ltac:(left)) as [fd Hfd]. rewrite Hfd. simpl.
    destruct IH as (r & Hr & Hspec); [intros; apply Hall; by right|].
    assert (Hrest :
      ∃ r', desired_flow_lookup_in chain target sb_uuid m = Some r'
      ∧ match r' with
        | Some d0 =>
            d0 ∈ d :: chain
            ∧ ∃ fd0, desired_at m !! d0 = Some fd0
                     ∧ ovn_flow_key_match (d_flow fd0) target = true
                     ∧ ∀ u, sb_uuid = Some u → u ∈ d_sources fd0
        | None =>
            ∀ d0 fd0, d0 ∈ chain → desired_at m !! d0 = Some fd0 →
                      ovn_flow_key_match (d_flow fd0) target = true →
                      ∃ u, sb_uuid = Some u ∧ u ∉ d_sources fd0
        end).
    { exists r. split; [done|]. destruct r as [d0|]; [|done].
      destruct Hspec as [Hin Hrest]. split; [by right | done]. }
    clear Hr Hspec.
    destruct (ovn_flow_key_match (d_flow fd) target) eqn:Hk.
    + destruct sb_uuid as [u|].
      * destruct (existsb _ _) eqn:He.
        -- exists (Some d). split; [done|]. split; [left|].
           exists fd. split; [done|]. split; [done|].
           intros u' [= <-]. by apply existsb_uuid_equals.
        -- destruct Hrest as (r' & Hr' & Hspec'). exists r'.
           split; [done|]. destruct r' as [d0|]; [done|].
           intros d0 fd0 [->|Hin]%elem_of_cons Hfd0 Hk0.
           ++ assert (fd0 = fd) as -> by congruence.
              exists u. split; [done|]. unfold d_sources.
              rewrite <- existsb_uuid_equals, He. done.
           ++ by eapply Hspec'.
      * exists (Some d). split; [done|]. split; [left|].
        exists fd. split; [done|]. split; [done|]. done.
    + destruct Hrest as (r' & Hr' & Hspec'). exists r'.
      split; [done|]. destruct r' as [d0|]; [done|].
      intros d0 fd0 [->|Hin]%elem_of_cons Hfd0 Hk0.
      * assert (fd0 = fd) as -> by congruence. congruence.
      * by eapply Hspec'.
Qed.

(** The lookup reads the flows of its chain only. *)
Lemma desired_flow_lookup_in_ext (chain : list ptr) (target : ovn_flow)
    (sb_uuid : option uuid) (m m' : memory) :
  (∀ d, d ∈ chain → desired_at m' !! d = desired_at m !! d) →
  desired_flow_lookup_in chain target sb_uuid m'
  = desired_flow_lookup_in chain target sb_uuid m.
Proof.
  induction chain as [|d chain IH]; intros Hagree; simpl; [done|].
  rewrite (Hagree d) by left.
  rewrite IH by (intros; apply Hagree; by right). done.
Qed.

Lemma xmalloc_fresh {A : Type} (h : gmap positive A) :
  h !! xmalloc h = None.
Proof. apply not_elem_of_dom. apply is_fresh. Qed.

Lemma sb_to_flow_find_update (t : list sb_to_flow) (u : uuid)
    (g : sb_to_flow → sb_to_flow) :
  (∀ stf, stf_sb_uuid (g stf) = stf_sb_uuid stf) →
  sb_to_flow_find (sb_to_flow_update t u g) u = g <$> sb_to_flow_find t u.
Proof.
  intros Hg. unfold sb_to_flow_find.
  induction t as [|stf t IH]; simpl; [done|].
  destruct (uuid_equals u (stf_sb_uuid stf)) eqn:He; simpl.
  - by rewrite Hg, He.
  - by rewrite He.
Qed.

(** [link_flow_to_sb] on an allocated flow: one more reference at the back
    of the flow's list and at the back of the list of the UUID's entry,
    which is created when missing. *)
Lemma link_flow_to_sb_eq (flow_table : ovn_desired_flow_table) (f : ptr)
    (u : uuid) (m : memory) (fd : desired_flow) :
  desired_at m !! f = Some fd →
  ∃ flow_table',
    link_flow_to_sb flow_table f u m
    = Some (flow_table',
            set_desired_at
              (insert f
                 {| d_flow := d_flow fd;
                    d_references :=
                      d_references fd
                      ++ [ {| sfr_flow := f; sfr_sb_uuid := u |} ];
                    d_installed_flow := d_installed_flow fd |}) m)
    ∧ match_flow_table flow_table' = match_flow_table flow_table
    ∧ sb_to_flow_find (uuid_flow_table flow_table') u
      = Some {| stf_sb_uuid := u;
                stf_flows :=
                  match sb_to_flow_find (uuid_flow_table flow_table) u with
                  | Some stf => stf_flows stf
                  | None => []
                  end ++ [ {| sfr_flow := f; sfr_sb_uuid := u |} ] |}.
Proof.
  intros Hf. unfold link_flow_to_sb. rewrite Hf. simpl.
  eexists. split; [done|]. split; [done|]. simpl.
  rewrite sb_to_flow_find_update by done.
  destruct (sb_to_flow_find (uuid_flow_table flow_table) u) as [stf|] eqn:Hfind;
    simpl.
  - rewrite Hfind. simpl. do 2 f_equal.
    unfold sb_to_flow_find in Hfind. apply find_some in Hfind as [_ He].
    unfold uuid_equals in He. by apply bool_decide_eq_true in He.
  - unfold sb_to_flow_find, hmap_insert. simpl. unfold uuid_equals.
    by rewrite bool_decide_eq_true_2.
Qed.

Lemma desired_flow_alloc_eq (t p c : Z) (mt : minimatch)
    (a : list Byte.byte) (m : memory) :
  desired_flow_alloc t p c mt a m
  = (xmalloc (desired_at m),
     set_desired_at
       (insert (xmalloc (desired_at m))
          {| d_flow := ovn_flow_init t p c mt a; d_references := [];
             d_installed_flow := None |}) m).
Proof. done. Qed.

(** The candidate of an add is not yet in the table, so looking the table
    up with the candidate allocated is looking it up before. *)
Lemma desired_flow_lookup_alloc (flow_table : ovn_desired_flow_table)
    (target : ovn_flow) (sb_uuid : option uuid) (m : memory)
    (fd : desired_flow) :
  desired_table_wf flow_table m →
  desired_flow_lookup flow_table target sb_uuid
    (set_desired_at (insert (xmalloc (desired_at m)) fd) m)
  = desired_flow_lookup flow_table target sb_uuid m.
Proof.
  intros [_ Hall]. apply desired_flow_lookup_in_ext. intros d Hd. simpl.
  apply lookup_insert_ne. intros <-.
  destruct (Hall _ Hd) as (fd' & Hfd' & _).
  by rewrite xmalloc_fresh in Hfd'.
Qed.

Lemma desired_flow_destroy_candidate (m : memory) (fl : ovn_flow) :
  desired_flow_destroy (xmalloc (desired_at m))
    (set_desired_at
       (insert (xmalloc (desired_at m))
          {| d_flow := fl; d_references := []; d_installed_flow := None |})
       m)
  = Some m.
Proof.
  unfold desired_flow_destroy. simpl. rewrite lookup_insert_eq. simpl.
  f_equal. unfold set_desired_at. simpl.
  rewrite delete_insert_eq, delete_id by apply xmalloc_fresh.
  by destruct m.
Qed.

(** C3, as the code has it.  [ofctrl_check_and_add_flow], and
    [ofctrl_add_flow], which is the same with duplicates logged: if a
    desired flow of the table with the same key already lists [sb_uuid]
    among its source references, the candidate is discarded and the table
    and the heap are unchanged.  Otherwise a new desired flow is allocated,
    inserted in the match index and linked to [sb_uuid] alone, behind the
    links that the node of [sb_uuid] had; the match index holds the new
    flow and the flows it held, which are untouched, so a flow with the
    same key added by another source is not shared: the two desired flows
    with equal keys are both in the match index.  Where a walk of the index
    meets the new flow is left open: it depends on the hash. *)
Theorem ofctrl_check_and_add_flow_cases
    (flow_table : ovn_desired_flow_table) (t p c : Z) (mt : minimatch)
    (a : list Byte.byte) (u : uuid) (log_duplicate_flow : bool)
    (m : memory) :
  desired_table_wf flow_table m →
  let target := ovn_flow_init t p c mt a in
  let listed :=
    ∃ d fd, d ∈ match_flow_table flow_table
            ∧ desired_at m !! d = Some fd
            ∧ ovn_flow_key_eq (d_flow fd) target
            ∧ u ∈ d_sources fd in
  let r := ofctrl_check_and_add_flow flow_table t p c mt a u
                                     log_duplicate_flow m in
  ofctrl_add_flow flow_table t p c mt a u m
  = ofctrl_check_and_add_flow flow_table t p c mt a u true m
  ∧ (listed → r = Some (flow_table, m))
  ∧ (¬ listed →
     ∃ f flow_table' m',
       r = Some (flow_table', m')
       ∧ desired_at m !! f = None
       ∧ match_flow_table flow_table' ≡ₚ f :: match_flow_table flow_table
       ∧ desired_at m'
         = <[f := {| d_flow := target;
                     d_references := [ {| sfr_flow := f; sfr_sb_uuid := u |} ];
                     d_installed_flow := None |}]> (desired_at m)
       ∧ installed_at m' = installed_at m
       ∧ sb_to_flow_find (uuid_flow_table flow_table') u
         = Some {| stf_sb_uuid := u;
                   stf_flows :=
                     match sb_to_flow_find (uuid_flow_table flow_table) u with
                     | Some stf => stf_flows stf
                     | None => []
                     end ++ [ {| sfr_flow := f; sfr_sb_uuid := u |} ] |}).
Proof.
  intros Hwf target listed r. split; [done|].
  subst r. unfold ofctrl_check_and_add_flow.
  rewrite desired_flow_alloc_eq. cbn beta iota.
  set (f := xmalloc (desired_at m)).
  set (cand := {| d_flow := ovn_flow_init t p c mt a; d_references := [];
                  d_installed_flow := None |}).
  replace (desired_at (set_desired_at (insert f cand) m) !! f)
    with (Some cand) by (simpl; by rewrite lookup_insert_eq).
  cbn [mbind option_bind d_flow cand].
  subst f. rewrite desired_flow_lookup_alloc by done.
  destruct Hwf as [Hnd Hall].
  destruct (desired_flow_lookup_in_spec (match_flow_table flow_table)
              target (Some u) m) as (res & Hres & Hspec).
  { intros d Hd. destruct (Hall d Hd) as (fd & -> & _). eauto. }
  unfold desired_flow_lookup. fold target. rewrite Hres.
  cbn [mbind option_bind].
  assert (Hlisted : listed ↔ is_Some res).
  { split.
    - intros (d & fd & Hd & Hfd & Hk & Hu).
      destruct res as [d'|]; [eauto|]. exfalso.
      destruct (Hall d Hd) as (fd' & Hfd' & Hh).
      assert (fd' = fd) as -> by congruence.
      destruct (Hspec d fd Hd Hfd) as (u' & [= <-] & Hnot); [|done].
      apply ovn_flow_key_match_iff; [done| |done].
      apply ovn_flow_init_hashed.
    - intros [d ->].
      destruct Hspec as (Hd & fd & Hfd & Hk & Hu). exists d, fd.
      destruct (Hall d Hd) as (fd' & Hfd' & Hh).
      assert (fd' = fd) as -> by congruence.
      split; [done|]. split; [done|]. split; [|by apply Hu].
      apply ovn_flow_key_match_iff; [done| |done].
      apply ovn_flow_init_hashed. }
  split.
  - intros Hl. apply Hlisted in Hl as [d ->].
    subst cand. by rewrite desired_flow_destroy_candidate.
  - intros Hl. destruct res as [d|]; [exfalso; apply Hl, Hlisted; eauto|].
    set (f := xmalloc (desired_at m)).
    edestruct (link_flow_to_sb_eq
                 {| match_flow_table :=
                      hmap_insert (match_flow_table flow_table) f;
                    uuid_flow_table := uuid_flow_table flow_table |}
                 f u (set_desired_at (insert f cand) m) cand)
      as (ft' & Hlink & Hmt & Hfind).
    { simpl. by rewrite lookup_insert_eq. }
    exists f, ft'. eexists. split; [exact Hlink|].
    split; [apply xmalloc_fresh|]. split; [by rewrite Hmt|].
    split; [|split; [done|done]].
    simpl. by rewrite insert_insert_eq.
Qed.

Lemma ofctrl_check_and_add_flow_new (flow_table : ovn_desired_flow_table)
    (t p c : Z) (mt : minimatch) (a : list Byte.byte) (u : uuid)
    (log_duplicate_flow : bool) (m : memory) :
  desired_table_wf flow_table m →
  desired_flow_lookup flow_table (ovn_flow_init t p c mt a) (Some u) m
  = Some None →
  ∃ flow_table',
    ofctrl_check_and_add_flow flow_table t p c mt a u log_duplicate_flow m
    = Some (flow_table',
            set_desired_at
              (insert (xmalloc (desired_at m))
                 {| d_flow := ovn_flow_init t p c mt a;
                    d_references :=
                      [ {| sfr_flow := xmalloc (desired_at m);
                           sfr_sb_uuid := u |} ];
                    d_installed_flow := None |}) m)
    ∧ match_flow_table flow_table'
      = xmalloc (desired_at m) :: match_flow_table flow_table.
Proof.
  intros Hwf Hlook. unfold ofctrl_check_and_add_flow.
  rewrite desired_flow_alloc_eq. cbn beta iota.
  set (f := xmalloc (desired_at m)).
  set (cand := {| d_flow := ovn_flow_init t p c mt a; d_references := [];
                  d_installed_flow := None |}).
  replace (desired_at (set_desired_at (insert f cand) m) !! f)
    with (Some cand) by (simpl; by rewrite lookup_insert_eq).
  cbn [mbind option_bind d_flow cand].
  subst f. rewrite desired_flow_lookup_alloc, Hlook by done.
  cbn [mbind option_bind].
  set (f := xmalloc (desired_at m)).
  edestruct (link_flow_to_sb_eq
               {| match_flow_table :=
                    hmap_insert (match_flow_table flow_table) f;
                  uuid_flow_table := uuid_flow_table flow_table |}
               f u (set_desired_at (insert f cand) m) cand)
    as (ft' & Hlink & Hmt & Hfind).
  { simpl. by rewrite lookup_insert_eq. }
  exists ft'. split; [|done]. rewrite Hlink. do 2 f_equal.
  unfold set_desired_at. simpl. by rewrite insert_insert_eq.
Qed.

(** The flow found by the lookup of [ofctrl_add_or_append_flow] gets the
    actions of the candidate behind its own and one more reference. *)
Lemma ofctrl_add_or_append_flow_existing
    (desired_flows : ovn_desired_flow_table) (t p c : Z) (mt : minimatch)
    (a : list Byte.byte) (u : uuid) (m : memory) (e : ptr)
    (fe : desired_flow) :
  desired_table_wf desired_flows m →
  desired_flow_lookup desired_flows (ovn_flow_init t p c mt a) None m
  = Some (Some e) →
  desired_at m !! e = Some fe →
  ∃ desired_flows',
    ofctrl_add_or_append_flow desired_flows t p c mt a u m
    = Some (desired_flows',
            set_desired_at
              (insert e
                 {| d_flow := {| table_id := table_id (d_flow fe);
                                 priority := priority (d_flow fe);
                                 match_ := match_ (d_flow fe);
                                 hash := hash (d_flow fe);
                                 ofpacts := ofpacts (d_flow fe) ++ a;
                                 cookie := cookie (d_flow fe) |};
                    d_references :=
                      d_references fe
                      ++ [ {| sfr_flow := e; sfr_sb_uuid := u |} ];
                    d_installed_flow := d_installed_flow fe |}) m)
    ∧ match_flow_table desired_flows' = match_flow_table desired_flows.
Proof.
  intros Hwf Hlook He. unfold ofctrl_add_or_append_flow.
  rewrite desired_flow_alloc_eq. cbn beta iota.
  set (f := xmalloc (desired_at m)).
  set (cand := {| d_flow := ovn_flow_init t p c mt a; d_references := [];
                  d_installed_flow := None |}).
  replace (desired_at (set_desired_at (insert f cand) m) !! f)
    with (Some cand) by (simpl; by rewrite lookup_insert_eq).
  cbn [mbind option_bind d_flow cand].
  subst f. rewrite desired_flow_lookup_alloc, Hlook by done.
  cbn [mbind option_bind].
  set (f := xmalloc (desired_at m)).
  assert (Hef : f ≠ e).
  { intros <-. subst f. by rewrite xmalloc_fresh in He. }
  replace (desired_at (set_desired_at (insert f cand) m) !! e)
    with (Some fe) by (simpl; by rewrite lookup_insert_ne).
  cbn [mbind option_bind].
  set (fe' := {| d_flow := _; d_references := d_references fe;
                 d_installed_flow := _ |}).
  assert (Hdestroy :
    desired_flow_destroy f
      (set_desired_at (insert e fe') (set_desired_at (insert f cand) m))
    = Some (set_desired_at (insert e fe') m)).
  { unfold desired_flow_destroy. simpl.
    rewrite lookup_insert_ne, lookup_insert_eq by done. simpl.
    f_equal. unfold set_desired_at. simpl. f_equal.
    rewrite delete_insert_ne, delete_insert_eq, delete_id by
      (done || apply xmalloc_fresh). done. }
  rewrite Hdestroy. cbn [mbind option_bind].
  edestruct (link_flow_to_sb_eq desired_flows e u
               (set_desired_at (insert e fe') m) fe')
    as (ft' & Hlink & Hmt & Hfind).
  { simpl. by rewrite lookup_insert_eq. }
  exists ft'. split; [|done]. rewrite Hlink. do 2 f_equal.
  unfold set_desired_at. simpl. by rewrite insert_insert_eq.
Qed.

Lemma desired_table_wf_insert (flow_table flow_table' : ovn_desired_flow_table)
    (m : memory) (fd : desired_flow) :
  desired_table_wf flow_table m →
  ovn_flow_hashed (d_flow fd) →
  match_flow_table flow_table'
  = xmalloc (desired_at m) :: match_flow_table flow_table →
  desired_table_wf flow_table'
    (set_desired_at (insert (xmalloc (desired_at m)) fd) m).
Proof.
  intros [Hnd Hall] Hh Hmt. unfold desired_table_wf. rewrite Hmt.
  assert (Hfresh : xmalloc (desired_at m) ∉ match_flow_table flow_table).
  { intros Hin. destruct (Hall _ Hin) as (fd' & Hfd' & _).
    by rewrite xmalloc_fresh in Hfd'. }
  split; [by apply NoDup_cons|].
  intros d [->|Hd]%elem_of_cons; simpl.
  - exists fd. by rewrite lookup_insert_eq.
  - destruct (Hall d Hd) as (fd' & Hfd' & Hh'). exists fd'.
    split; [|done]. rewrite lookup_insert_ne; [done|].
    intros <-. done.
Qed.

(** ** The reconciler *)

Lemma with_flows_proj (c : rconn) (t : Z) (l : list ptr) (m : memory)
    (s : ofctrl) :
  installed_flows (with_flows c t l m s) = l
  ∧ mem (with_flows c t l m s) = m
  ∧ swconn (with_flows c t l m s) = c
  ∧ tx_counter (with_flows c t l m s) = t.
Proof. by destruct s. Qed.

Lemma with_flows_twice (c c' : rconn) (t t' : Z) (l l' : list ptr)
    (m m' : memory) (s : ofctrl) :
  with_flows c' t' l' m' (with_flows c t l m s) = with_flows c' t' l' m' s.
Proof. by destruct s. Qed.

Lemma with_flows_id (s : ofctrl) :
  with_flows (swconn s) (tx_counter s) (installed_flows s) (mem s) s = s.
Proof. by destruct s. Qed.

Lemma desired_same_flows_lookup (m m' : memory) (d : ptr)
    (fd : desired_flow) :
  desired_same_flows m m' →
  desired_at m !! d = Some fd →
  ∃ fd', desired_at m' !! d = Some fd' ∧ d_flow fd' = d_flow fd.
Proof.
  intros HT Hd. specialize (HT d). rewrite Hd in HT. simpl in HT.
  apply fmap_Some in HT as (fd' & Hd' & Hf). eauto.
Qed.

Lemma desired_same_flows_trans (m1 m2 m3 : memory) :
  desired_same_flows m1 m2 → desired_same_flows m2 m3 →
  desired_same_flows m1 m3.
Proof. intros H12 H23 d. by rewrite H23, H12. Qed.

Lemma desired_same_flows_insert (m : memory) (d : ptr) (fd fd' : desired_flow)
    (ia : gmap positive installed_flow) :
  desired_at m !! d = Some fd →
  d_flow fd' = d_flow fd →
  desired_same_flows m
    {| desired_at := <[d := fd']> (desired_at m); installed_at := ia |}.
Proof.
  intros Hd Hf d'. simpl. destruct (decide (d' = d)) as [->|Hne].
  - rewrite lookup_insert_eq, Hd. simpl. by rewrite Hf.
  - by rewrite lookup_insert_ne.
Qed.

Lemma desired_table_wf_transfer (flow_table : ovn_desired_flow_table)
    (m m' : memory) :
  desired_same_flows m m' →
  desired_table_wf flow_table m → desired_table_wf flow_table m'.
Proof.
  intros HT [Hnd Hall]. split; [done|]. intros d Hd.
  destruct (Hall d Hd) as (fd & Hfd & Hh).
  destruct (desired_same_flows_lookup _ _ _ _ HT Hfd) as (fd' & Hfd' & Hf).
  exists fd'. split; [done|]. by rewrite Hf.
Qed.

Lemma installed_flow_keyed_transfer (m m' : memory) (i : ptr) :
  desired_same_flows m m' →
  installed_at m' !! i = installed_at m !! i →
  installed_flow_keyed m i → installed_flow_keyed m' i.
Proof.
  intros HT Hi Hk fi Hfi. rewrite Hi in Hfi.
  destruct (Hk fi Hfi) as [Hh Hrefs]. split; [done|].
  intros d Hd. destruct (Hrefs d Hd) as (fd & Hfd & Hkey).
  destruct (desired_same_flows_lookup _ _ _ _ HT Hfd) as (fd' & Hfd' & Hf).
  exists fd'. split; [done|]. by rewrite Hf.
Qed.

Lemma installed_flow_synced_transfer (index seen seen' : list ptr)
    (m m' : memory) (i : ptr) :
  desired_same_flows m m' →
  installed_at m' !! i = installed_at m !! i →
  seen ⊆ seen' →
  installed_flow_synced index seen m i →
  installed_flow_synced index seen' m' i.
Proof.
  intros HT Hi Hsub
    (fi & p & fp & Hfi & Hh & Hnd & Hp & Hpin & Hfp & Ha & Hc & Hrefs).
  destruct (desired_same_flows_lookup _ _ _ _ HT Hfp) as (fp' & Hfp' & Hf).
  exists fi, p, fp'. rewrite Hi, Hf. do 8 (split; [done|]).
  intros r Hr. destruct (Hrefs r Hr) as (Hor & Hidx & fr & Hfr & Hkey).
  split; [destruct Hor; [by left | right; by apply Hsub]|].
  split; [done|].
  destruct (desired_same_flows_lookup _ _ _ _ HT Hfr) as (fr' & Hfr' & Hf').
  exists fr'. split; [done|]. by rewrite Hf'.
Qed.

Lemma installed_keys_unique_transfer (l l' : list ptr) (m m' : memory) :
  l' ⊆ l →
  (∀ j, j ∈ l' → installed_at m' !! j = installed_at m !! j) →
  installed_keys_unique l m → installed_keys_unique l' m'.
Proof.
  intros Hsub Hsame Hu i j fi fj Hi Hj Hfi Hfj Hkey.
  rewrite Hsame in Hfi, Hfj by done.
  eapply Hu; eauto.
Qed.

Lemma unlink_all_refs_same_flows (m m1 : memory) (fi : installed_flow) :
  (∀ d, d ∈ i_desired_refs fi →
        desired_at m1 !! d
        = d_with_installed_flow None <$> desired_at m !! d) →
  (∀ d, d ∉ i_desired_refs fi → desired_at m1 !! d = desired_at m !! d) →
  desired_same_flows m m1.
Proof.
  intros Hin Hout d. destruct (decide (d ∈ i_desired_refs fi)).
  - rewrite Hin by done. by destruct (desired_at m !! d).
  - by rewrite Hout.
Qed.

Lemma hmap_remove_middle (kept rest : list ptr) (i : ptr) :
  NoDup (kept ++ i :: rest) → hmap_remove (kept ++ i :: rest) i = kept ++ rest.
Proof.
  intros Hnd. apply NoDup_app in Hnd as (_ & Hdisj & Hnd).
  apply NoDup_cons in Hnd as [Hir _].
  unfold hmap_remove.
  rewrite filter_app, filter_cons_False, !filter_ne_not_elem; auto.
  intros Hik. by eapply Hdisj; [|left].
Qed.

(** The links of a flow still to be visited are untouched by the visit of
    [i], which touches the desired flows linked to [i] and the desired flow
    [d] of the key of [i]. *)
Lemma put_installed_rest_frame (flow_table : ovn_desired_flow_table)
    (kept rest : list ptr) (i j : ptr) (m m2 : memory)
    (fi : installed_flow) (d : option ptr) :
  put_installed_inv flow_table kept (i :: rest) m →
  installed_at m !! i = Some fi →
  (∀ k, k ≠ i → installed_at m2 !! k = installed_at m !! k) →
  desired_same_flows m m2 →
  (∀ d', d' ∉ i_desired_refs fi → Some d' ≠ d →
         desired_at m2 !! d' = desired_at m !! d') →
  (∀ d' fd, d = Some d' → desired_at m !! d' = Some fd →
            ovn_flow_key_eq (d_flow fd) (i_flow fi)) →
  j ∈ rest →
  installed_flow_linked m2 j ∧ installed_flow_keyed m2 j.
Proof.
  intros (Hnd & Hwf & Huniq & Hrest & Hkept) Hfi Hinst HT Hdes Hdkey Hj.
  assert (Hji : j ≠ i).
  { intros ->. apply NoDup_app in Hnd as (_ & _ & Hnd).
    by apply NoDup_cons in Hnd as [? _]. }
  destruct (Hrest i ltac:(left)) as [(fi' & Hfi' & _ & Hbacki & _) _].
  assert (fi' = fi) as -> by congruence.
  destruct (Hrest j ltac:(by right)) as [Hlj Hkj].
  split; [|by apply (installed_flow_keyed_transfer m); [|apply Hinst|]].
  destruct Hlj as (fj & Hfj & Hndj & Hbackj & Hprimj).
  exists fj. split; [by rewrite Hinst|]. split; [done|]. split; [|done].
  intros d' Hd'. destruct (Hbackj d' Hd') as (fd & Hfd & Hdj).
  exists fd. split; [|done]. rewrite Hdes; [done| |].
  - intros Hdi. destruct (Hbacki d' Hdi) as (fd' & Hfd' & Hdi'). congruence.
  - intros <-. apply Hji.
    destruct (Hkj fj Hfj) as [_ Hkeys].
    destruct (Hkeys d' Hd') as (fd' & Hfd' & Hkey').
    assert (fd' = fd) as -> by congruence.
    eapply (Huniq j i fj fi); try done.
    + apply elem_of_app. right. by right.
    + apply elem_of_app. right. left.
    + unfold ovn_flow_key_eq in *.
      rewrite <- Hkey'. by eapply Hdkey.
Qed.

(** The installed flow [i] has found no desired flow and is gone. *)
Lemma put_installed_inv_drop (flow_table : ovn_desired_flow_table)
    (kept rest : list ptr) (i : ptr) (m m2 : memory) (fi : installed_flow) :
  put_installed_inv flow_table kept (i :: rest) m →
  installed_at m !! i = Some fi →
  installed_at m2 = delete i (installed_at m) →
  desired_same_flows m m2 →
  (∀ d', d' ∉ i_desired_refs fi → desired_at m2 !! d' = desired_at m !! d') →
  put_installed_inv flow_table kept rest m2.
Proof.
  intros Hinv Hfi Hinst HT Hdes.
  pose proof Hinv as (Hnd & Hwf & Huniq & Hrest & Hkept).
  assert (Hne : ∀ k, k ∈ kept ++ rest → k ≠ i).
  { intros k Hk ->. apply NoDup_app in Hnd as (_ & Hdisj & Hnd').
    apply NoDup_cons in Hnd' as [? _].
    apply elem_of_app in Hk as [Hk|Hk]; [|done].
    by eapply Hdisj; [|left]. }
  assert (Hsame : ∀ k, k ≠ i → installed_at m2 !! k = installed_at m !! k).
  { intros k Hk. by rewrite Hinst, lookup_delete_ne. }
  split; [|split; [|split; [|split]]].
  - apply NoDup_app in Hnd as (Hk & Hdisj & Hnd').
    apply NoDup_cons in Hnd' as [_ Hr].
    apply NoDup_app. split; [done|]. split; [|done].
    intros k Hk1 Hk2. by eapply Hdisj; [|right].
  - by eapply desired_table_wf_transfer.
  - eapply installed_keys_unique_transfer; [| |exact Huniq].
    + intros k [Hk|Hk]%elem_of_app; apply elem_of_app; [by left|].
      right. by right.
    + intros k Hk. by apply Hsame, Hne.
  - intros j Hj.
    eapply (put_installed_rest_frame flow_table kept rest i j m m2 fi None);
      try done.
    intros d' ? _. by apply Hdes.
  - intros j Hj.
    eapply (installed_flow_synced_transfer _ [] [] m); try done.
    + apply Hsame, Hne, elem_of_app. by left.
    + by apply Hkept.
Qed.

(** The installed flow [i] is relinked to the desired flow [d] of its key
    and carries its actions and cookie. *)
Lemma put_installed_inv_keep (flow_table : ovn_desired_flow_table)
    (kept rest : list ptr) (i d : ptr) (m m2 : memory)
    (fi fi2 : installed_flow) (fd2 : desired_flow) :
  put_installed_inv flow_table kept (i :: rest) m →
  installed_at m !! i = Some fi →
  installed_at m2 = <[i := fi2]> (installed_at m) →
  i_desired_refs fi2 = [d] →
  i_desired_flow fi2 = Some d →
  flow_key (i_flow fi2) = flow_key (i_flow fi) →
  ovn_flow_hashed (i_flow fi2) →
  d ∈ match_flow_table flow_table →
  desired_at m2 !! d = Some fd2 →
  ofpacts (i_flow fi2) = ofpacts (d_flow fd2) →
  cookie (i_flow fi2) = cookie (d_flow fd2) →
  ovn_flow_key_eq (d_flow fd2) (i_flow fi) →
  desired_same_flows m m2 →
  (∀ d', d' ∉ i_desired_refs fi → d' ≠ d →
         desired_at m2 !! d' = desired_at m !! d') →
  put_installed_inv flow_table (kept ++ [i]) rest m2.
Proof.
  intros Hinv Hfi Hinst Hrefs2 Hprim2 Hkey2 Hhash2 Hd Hfd2 Ha Hc Hdkey HT
         Hdes.
  pose proof Hinv as (Hnd & Hwf & Huniq & Hrest & Hkept).
  assert (Hsame : ∀ k, k ≠ i → installed_at m2 !! k = installed_at m !! k).
  { intros k Hk. by rewrite Hinst, lookup_insert_ne. }
  assert (Hnek : ∀ k, k ∈ kept → k ≠ i).
  { intros k Hk ->. apply NoDup_app in Hnd as (_ & Hdisj & _).
    by eapply Hdisj; [|left]. }
  split; [|split; [|split; [|split]]].
  - by rewrite <- app_assoc.
  - by eapply desired_table_wf_transfer.
  - rewrite <- app_assoc. simpl.
    intros a b fa fb Ha' Hb' Hfa Hfb Hkey.
    assert (Hold : ∀ k fk, installed_at m2 !! k = Some fk →
              ∃ fk', installed_at m !! k = Some fk'
                     ∧ flow_key (i_flow fk') = flow_key (i_flow fk)).
    { intros k fk Hk. destruct (decide (k = i)) as [->|Hki].
      - rewrite Hinst, lookup_insert_eq in Hk. injection Hk as <-.
        exists fi. by rewrite Hkey2.
      - rewrite Hsame in Hk by done. eauto. }
    destruct (Hold a fa Hfa) as (fa' & Hfa' & Hka).
    destruct (Hold b fb Hfb) as (fb' & Hfb' & Hkb).
    eapply (Huniq a b fa' fb'); try done.
    unfold ovn_flow_key_eq in *. congruence.
  - intros j Hj.
    eapply (put_installed_rest_frame flow_table kept rest i j m m2 fi
              (Some d)); try done.
    + intros d' Hd' Hne. apply Hdes; [done|]. congruence.
    + intros d' fd [= <-] Hfd.
      destruct (desired_same_flows_lookup _ _ _ _ HT Hfd)
        as (fd' & Hfd' & Hf).
      assert (fd' = fd2) as -> by congruence. by rewrite <- Hf.
  - intros j [Hj|Hj]%elem_of_app.
    + eapply (installed_flow_synced_transfer _ [] [] m); try done.
      * by apply Hsame, Hnek.
      * by apply Hkept.
    + apply list_elem_of_singleton in Hj as ->.
      exists fi2, d, fd2. rewrite Hinst, lookup_insert_eq, Hrefs2.
      split; [done|]. split; [done|].
      split; [apply NoDup_singleton|]. split; [done|].
      split; [left|]. do 3 (split; [done|]).
      intros r ->%list_elem_of_singleton.
      split; [by left|]. split; [done|]. exists fd2. split; [done|].
      unfold ovn_flow_key_eq in *. congruence.
Qed.

Lemma put_installed_flow_step (flow_table : ovn_desired_flow_table)
    (kept rest : list ptr) (i : ptr) (msgs : list ofpbuf) (s : ofctrl) :
  installed_flows s = kept ++ i :: rest →
  put_installed_inv flow_table kept (i :: rest) (mem s) →
  ∃ msgs' c' kept' m',
    put_installed_flow flow_table i (msgs, s)
    = Some (msgs', with_flows c' (tx_counter s) (kept' ++ rest) m' s)
    ∧ put_installed_inv flow_table kept' rest m'
    ∧ desired_same_flows (mem s) m'.
Proof.
  intros Hl Hinv. pose proof Hinv as (Hnd & Hwf & Huniq & Hrest & Hkept).
  destruct (Hrest i ltac:(left)) as [Hlinked Hkeyed].
  pose proof Hlinked as (fi & Hfi & Hndr & Hback & Hprim).
  destruct (unlink_all_refs_spec (mem s) i fi Hfi Hlinked)
    as (m1 & Hun & Hi1 & Hin1 & Hout1).
  pose proof (unlink_all_refs_same_flows _ _ _ Hin1 Hout1) as HT1.
  pose proof (desired_table_wf_transfer _ _ _ HT1 Hwf) as Hwf1.
  destruct (desired_flow_lookup_in_spec (match_flow_table flow_table)
              (i_flow fi) None m1) as (res & Hres & Hspec).
  { intros d Hd. destruct Hwf1 as [_ Hall].
    destruct (Hall d Hd) as (fd & -> & _). eauto. }
  destruct (Hkeyed fi Hfi) as [Hhash Hkeys].
  destruct s as [c st fu cc x x2 tc ifl g mt mff nr sk onb mm].
  simpl in *. subst ifl.
  unfold put_installed_flow, with_mem. simpl.
  rewrite Hun. simpl. rewrite Hi1, lookup_insert_eq. simpl.
  unfold desired_flow_lookup. rewrite Hres. simpl.
  destruct res as [d|].
  - destruct Hspec as (Hd & fd1 & Hfd1 & Hkm & _).
    rewrite Hfd1. simpl.
    assert (Hdkey : ovn_flow_key_eq (d_flow fd1) (i_flow fi)).
    { apply ovn_flow_key_match_iff; [|done|done].
      destruct Hwf1 as [_ Hall]. destruct (Hall d Hd) as (fd' & Hfd' & Hh).
      by assert (fd' = fd1) as -> by congruence. }
    set (fi2 := {| i_flow := {| table_id := table_id (i_flow fi);
                                priority := priority (i_flow fi);
                                match_ := match_ (i_flow fi);
                                hash := hash (i_flow fi);
                                ofpacts := ofpacts (d_flow fd1);
                                cookie := cookie (d_flow fd1) |};
                   i_desired_refs := [d]; i_desired_flow := Some d |}).
    set (m2 := {| installed_at := <[i := fi2]> (installed_at mm);
                  desired_at := <[d := d_with_installed_flow (Some i) fd1]>
                                  (desired_at m1) |}).
    assert (HT2 : desired_same_flows mm m2).
    { eapply desired_same_flows_trans; [exact HT1|].
      subst m2. by apply (desired_same_flows_insert m1 d fd1). }
    assert (Hinv2 : put_installed_inv flow_table (kept ++ [i]) rest m2).
    { eapply (put_installed_inv_keep flow_table kept rest i d mm m2 fi fi2
                (d_with_installed_flow (Some i) fd1)); try done.
      - subst m2. simpl. by rewrite lookup_insert_eq.
      - intros d' Hd' Hne. subst m2. simpl.
        rewrite lookup_insert_ne by done. by apply Hout1. }
    destruct (negb (ofpacts_equal _ _) || negb (_ =? _)) eqn:Hcmp.
    + unfold installed_flow_mod. simpl.
      rewrite Hi1, lookup_insert_eq. simpl.
      rewrite (link_installed_to_desired_eq _ i d
                 {| i_flow := i_flow fi2; i_desired_refs := [];
                    i_desired_flow := None |} fd1);
        [|simpl; by rewrite lookup_insert_eq|done|done
         |apply not_elem_of_nil|done].
      simpl. eexists _, _, (kept ++ [i]), m2.
      split; [|done]. do 2 f_equal.
      rewrite <- app_assoc. simpl. f_equal.
      subst m2. f_equal. simpl. by rewrite Hi1, !insert_insert_eq.
    + apply orb_false_iff in Hcmp as [Ha Hc].
      apply negb_false_iff in Ha, Hc.
      unfold ofpacts_equal in Ha. apply bool_decide_eq_true in Ha.
      apply Z.eqb_eq in Hc. simpl.
      rewrite (link_installed_to_desired_eq _ i d
                 (i_with_links [] None fi) fd1);
        [|by rewrite Hi1, lookup_insert_eq|done|done
         |apply not_elem_of_nil|done].
      simpl. eexists _, c, (kept ++ [i]), m2.
      split; [|done]. do 2 f_equal.
      rewrite <- app_assoc. simpl. f_equal.
      subst m2. f_equal. rewrite Hi1, insert_insert_eq. f_equal.
      subst fi2. unfold i_with_links. simpl. f_equal.
      rewrite <- Ha, <- Hc. by destruct (i_flow fi).
  - unfold installed_flow_destroy. simpl.
    rewrite Hi1, lookup_insert_eq. simpl.
    rewrite hmap_remove_middle by done.
    eexists _, _, kept, _. split; [done|]. split; [|done].
    eapply (put_installed_inv_drop flow_table kept rest i mm _ fi);
      try done.
    simpl. by rewrite Hi1, delete_insert_eq.
Qed.

Lemma put_installed_flows_loop (flow_table : ovn_desired_flow_table)
    (rest : list ptr) :
  ∀ kept msgs s,
    installed_flows s = kept ++ rest →
    put_installed_inv flow_table kept rest (mem s) →
    ∃ msgs' c' kept' m',
      for_each rest (put_installed_flow flow_table) (msgs, s)
      = Some (msgs', with_flows c' (tx_counter s) kept' m' s)
      ∧ put_installed_inv flow_table kept' [] m'
      ∧ desired_same_flows (mem s) m'.
Proof.
  induction rest as [|i rest IH]; intros kept msgs s Hl Hinv.
  - exists msgs, (swconn s), kept, (mem s). split; [|done].
    rewrite app_nil_r in Hl. rewrite <- Hl. simpl.
    by rewrite with_flows_id.
  - destruct (put_installed_flow_step flow_table kept rest i msgs s Hl Hinv)
      as (msgs1 & c1 & kept1 & m1 & Hstep & Hinv1 & HT1).
    rewrite for_each_cons, Hstep. simpl.
    destruct (with_flows_proj c1 (tx_counter s) (kept1 ++ rest) m1 s)
      as (Hl1 & Hm1 & _ & Ht1).
    destruct (IH kept1 msgs1 _ Hl1)
      as (msgs' & c' & kept' & m' & Hrun & Hinv' & HT');
      [by rewrite Hm1|].
    exists msgs', c', kept', m'. split; [|split; [done|]].
    + by rewrite Hrun, Ht1, with_flows_twice.
    + rewrite Hm1 in HT'. by eapply desired_same_flows_trans.
Qed.

(** What [installed_flow_lookup] returns on a chain of allocated flows. *)
Lemma installed_flow_lookup_in_spec (chain : list ptr) (target : ovn_flow)
    (m : memory) :
  (∀ i, i ∈ chain → is_Some (installed_at m !! i)) →
  ∃ r, installed_flow_lookup_in chain target m = Some r
       ∧ match r with
         | Some i =>
             i ∈ chain
             ∧ ∃ fi, installed_at m !! i = Some fi
                     ∧ ovn_flow_key_match (i_flow fi) target = true
         | None =>
             ∀ i fi, i ∈ chain → installed_at m !! i = Some fi →
                     ovn_flow_key_match (i_flow fi) target = false
         end.
Proof.
  induction chain as [|i chain IH]; intros Hall; simpl.
  - exists None. split; [done|]. intros i fi Hi.
    by apply not_elem_of_nil in Hi.
  - destruct (Hall i ltac:(left)) as [fi Hfi]. rewrite Hfi. simpl.
    destruct (ovn_flow_key_match (i_flow fi) target) eqn:Hk.
    + exists (Some i). split; [done|]. split; [left | eauto].
    + destruct IH as (r & Hr & Hspec); [intros; apply Hall; by right|].
      exists r. split; [done|]. destruct r as [j|].
      * destruct Hspec as [Hj Hrest]. split; [by right | done].
      * intros j fj [->|Hj]%elem_of_cons Hfj; [congruence|].
        by eapply Hspec.
Qed.

Lemma ovn_flow_hashed_key (a b : ovn_flow) :
  ovn_flow_hashed a → flow_key b = flow_key a → hash b = hash a →
  ovn_flow_hashed b.
Proof.
  unfold ovn_flow_hashed, ovn_flow_match_hash, flow_key.
  intros Ha [= Ht Hp Hm] Hh. by rewrite Hh, Ha, Ht, Hp, Hm.
Qed.

Lemma installed_keys_unique_update (l : list ptr) (m m2 : memory) (i : ptr)
    (fi fi2 : installed_flow) :
  installed_keys_unique l m →
  installed_at m !! i = Some fi →
  installed_at m2 = <[i := fi2]> (installed_at m) →
  flow_key (i_flow fi2) = flow_key (i_flow fi) →
  installed_keys_unique l m2.
Proof.
  intros Huniq Hfi Hinst Hkey2 a b fa fb Ha Hb Hfa Hfb Hkey.
  assert (Hold : ∀ k fk, installed_at m2 !! k = Some fk →
            ∃ fk', installed_at m !! k = Some fk'
                   ∧ flow_key (i_flow fk') = flow_key (i_flow fk)).
  { intros k fk Hk. destruct (decide (k = i)) as [->|Hki].
    - rewrite Hinst, lookup_insert_eq in Hk. injection Hk as <-.
      exists fi. by rewrite Hkey2.
    - rewrite Hinst, lookup_insert_ne in Hk by done. eauto. }
  destruct (Hold a fa Hfa) as (fa' & Hfa' & Hka).
  destruct (Hold b fb Hfb) as (fb' & Hfb' & Hkb).
  eapply (Huniq a b fa' fb'); try done.
  unfold ovn_flow_key_eq in *. congruence.
Qed.

(** The visit of the desired flow [d], which ends up linked to the installed
    flow [i], keeps what the loop over the desired flows maintains. *)
Lemma put_desired_inv_visit (flow_table : ovn_desired_flow_table)
    (seen l l2 : list ptr) (d i : ptr) (m m2 : memory) (fd : desired_flow)
    (fi2 : installed_flow) :
  put_desired_inv flow_table seen l m →
  desired_at m !! d = Some fd →
  desired_same_flows m m2 →
  NoDup l2 →
  i ∈ l2 →
  (∀ j, j ∈ l2 → j ≠ i → j ∈ l ∧ installed_at m2 !! j = installed_at m !! j) →
  (∀ j, j ∈ l → j ∈ l2) →
  installed_at m2 !! i = Some fi2 →
  (∀ fi, installed_at m !! i = Some fi →
         flow_key (i_flow fi2) = flow_key (i_flow fi)) →
  ovn_flow_key_eq (i_flow fi2) (d_flow fd) →
  installed_flow_synced (match_flow_table flow_table) (seen ++ [d]) m2 i →
  installed_keys_unique l2 m2 →
  put_desired_inv flow_table (seen ++ [d]) l2 m2.
Proof.
  intros (Hnd & Hwf & Huniq & Hsync & Hseen) Hfd HT Hnd2 Hi2 Hold Hsub Hfi2
         Hkeep Hkey Hsynci Huniq2.
  split; [done|]. split; [by eapply desired_table_wf_transfer|].
  split; [done|]. split.
  - intros j Hj. destruct (decide (j = i)) as [->|Hji]; [done|].
    destruct (Hold j Hj Hji) as [Hjl Hsame].
    eapply (installed_flow_synced_transfer _ seen _ m); try done.
    + intros r Hr. apply elem_of_app. by left.
    + by apply Hsync.
  - intros d' [Hd'|Hd']%elem_of_app.
    + destruct (Hseen d' Hd') as (fd' & j & fj & Hfd' & Hj & Hfj & Hk).
      destruct (desired_same_flows_lookup _ _ _ _ HT Hfd')
        as (fd2 & Hfd2 & Hf).
      exists fd2. destruct (decide (j = i)) as [->|Hji].
      * exists i, fi2. split; [done|]. split; [done|]. split; [done|].
        unfold ovn_flow_key_eq in *. rewrite Hf, (Hkeep fj Hfj). done.
      * exists j, fj. split; [done|]. split; [by apply Hsub|].
        destruct (Hold j (Hsub j Hj) Hji) as [_ ->].
        split; [done|]. by rewrite Hf.
    + apply list_elem_of_singleton in Hd' as ->.
      destruct (desired_same_flows_lookup _ _ _ _ HT Hfd)
        as (fd2 & Hfd2 & Hf).
      exists fd2, i, fi2. split; [done|]. split; [done|]. split; [done|].
      by rewrite Hf.
Qed.

Lemma put_desired_flow_step (flow_table : ovn_desired_flow_table)
    (seen rest : list ptr) (d : ptr) (msgs : list ofpbuf) (s : ofctrl) :
  seen ++ d :: rest = match_flow_table flow_table →
  put_desired_inv flow_table seen (installed_flows s) (mem s) →
  ∃ msgs' c' l' m',
    put_desired_flow d (msgs, s)
    = Some (msgs', with_flows c' (tx_counter s) l' m' s)
    ∧ put_desired_inv flow_table (seen ++ [d]) l' m'
    ∧ desired_same_flows (mem s) m'.
Proof.
  intros Hmt Hinv. pose proof Hinv as (Hnd & Hwf & Huniq & Hsync & Hseen).
  assert (Hd : d ∈ match_flow_table flow_table).
  { rewrite <- Hmt. apply elem_of_app. right. left. }
  assert (Hdseen : d ∉ seen).
  { destruct Hwf as [Hndt _]. rewrite <- Hmt in Hndt.
    apply NoDup_app in Hndt as (_ & Hdisj & _).
    intros Hin. by eapply Hdisj; [|left]. }
  destruct Hwf as [Hndt Hall].
  destruct (Hall d Hd) as (fd & Hfd & Hhd).
  destruct (installed_flow_lookup_in_spec (installed_flows s) (d_flow fd)
              (mem s)) as (res & Hres & Hspec).
  { intros i Hi. destruct (Hsync i Hi) as (fi & _ & _ & -> & _). eauto. }
  destruct s as [c st fu cc x x2 tc ifl g mt mff nr sk onb mm].
  simpl in *.
  unfold put_desired_flow, installed_flow_lookup, with_mem. simpl.
  rewrite Hfd. simpl. rewrite Hres. simpl.
  destruct res as [i|].
  - destruct Hspec as (Hi & fi & Hfi & Hkm).
    pose proof (Hsync i Hi)
      as (fi' & p & fp & Hfi' & Hhi & Hndr & Hp & Hpin & Hfp & Ha & Hc
          & Hrefs).
    assert (fi' = fi) as -> by congruence.
    assert (Hkey : ovn_flow_key_eq (i_flow fi) (d_flow fd)).
    { by apply ovn_flow_key_match_iff. }
    cbn -[link_installed_to_desired].
    destruct (decide (p = d)) as [->|Hpd].
    + unfold link_installed_to_desired. rewrite Hfi. simpl.
      rewrite Hp, bool_decide_eq_true_2 by done. simpl.
      exists msgs, c, ifl, mm. split; [done|]. split; [|done].
      eapply (put_desired_inv_visit flow_table seen ifl ifl d i mm mm fd fi);
        try done.
      * intros fi0 Hfi0. congruence.
      * eapply (installed_flow_synced_transfer _ seen _ mm); try done.
        -- intros r Hr. apply elem_of_app. by left.
        -- by apply Hsync.
    + assert (Hdrefs : d ∉ i_desired_refs fi).
      { intros Hin. destruct (Hrefs d Hin) as ([->|?] & _); done. }
      rewrite (link_installed_to_desired_eq mm i d fi fd);
        [|done|done|congruence|done|].
      2:{ intros Hnil. rewrite Hnil in Hpin.
          by apply not_elem_of_nil in Hpin. }
      simpl. rewrite bool_decide_eq_false_2.
      2:{ intros Hnil. rewrite Hnil in Hpin.
          by apply not_elem_of_nil in Hpin. }
      set (fi2 := i_with_links (i_desired_refs fi ++ [d]) (i_desired_flow fi)
                               fi).
      set (m2 := {| desired_at := _; installed_at := _ |}).
      exists msgs, c, ifl, m2. split; [done|].
      assert (HT : desired_same_flows mm m2).
      { subst m2. by apply (desired_same_flows_insert mm d fd). }
      split; [|done].
      eapply (put_desired_inv_visit flow_table seen ifl ifl d i mm m2 fd fi2);
        try done.
      * intros j Hj Hji. split; [done|]. subst m2. simpl.
        by rewrite lookup_insert_ne.
      * subst m2. simpl. by rewrite lookup_insert_eq.
      * intros fi0 Hfi0. by assert (fi0 = fi) as -> by congruence.
      * exists fi2, p, fp. subst m2. simpl.
        rewrite lookup_insert_eq, lookup_insert_ne by done.
        split; [done|]. split; [done|].
        split.
        { apply NoDup_app. split; [done|]. split; [|apply NoDup_singleton].
          intros r Hr ->%list_elem_of_singleton. done. }
        split; [done|].
        split; [apply elem_of_app; by left|].
        do 3 (split; [done|]).
        intros r [Hr| ->%list_elem_of_singleton]%elem_of_app.
        -- destruct (Hrefs r Hr) as (Hor & Hidx & fr & Hfr & Hkr).
           split; [destruct Hor; [by left|right; apply elem_of_app; by left]|].
           split; [done|].
           destruct (decide (r = d)) as [->|Hrd]; [done|].
           exists fr. by rewrite lookup_insert_ne.
        -- split; [right; apply elem_of_app; right; left|].
           split; [done|]. rewrite lookup_insert_eq. eexists.
           split; [done|]. simpl. done.
      * by eapply (installed_keys_unique_update ifl mm m2 i fi fi2).
  - set (inew := xmalloc (installed_at mm)).
    unfold installed_flow_dup. simpl. rewrite Hfd. simpl. fold inew.
    set (fl := {| table_id := table_id (d_flow fd);
                  priority := priority (d_flow fd);
                  match_ := match_ (d_flow fd); hash := hash (d_flow fd);
                  ofpacts := ofpacts (d_flow fd);
                  cookie := cookie (d_flow fd) |}).
    assert (Hfresh : installed_at mm !! inew = None) by apply xmalloc_fresh.
    rewrite (link_installed_to_desired_eq _ inew d
               {| i_flow := fl; i_desired_refs := [];
                  i_desired_flow := None |} fd);
      [|simpl; by rewrite lookup_insert_eq|done|done
       |apply not_elem_of_nil|done].
    simpl.
    set (fi2 := i_with_links [d] (Some d)
                  {| i_flow := fl; i_desired_refs := [];
                     i_desired_flow := None |}).
    set (m2 := {| desired_at := _; installed_at := _ |}).
    eexists _, _, (inew :: ifl), m2. split; [done|].
    assert (HT : desired_same_flows mm m2).
    { subst m2. by apply (desired_same_flows_insert mm d fd). }
    assert (Hnew : inew ∉ ifl).
    { intros Hin. destruct (Hsync inew Hin) as (fi & _ & _ & Hfi & _).
      congruence. }
    assert (Hi2 : installed_at m2 !! inew = Some fi2).
    { subst m2. simpl. by rewrite insert_insert_eq, lookup_insert_eq. }
    assert (Hother : ∀ j, j ≠ inew →
                          installed_at m2 !! j = installed_at mm !! j).
    { intros j Hj. subst m2. simpl.
      by rewrite insert_insert_eq, lookup_insert_ne. }
    assert (Hkfl : flow_key fl = flow_key (d_flow fd)) by done.
    split; [|done].
    eapply (put_desired_inv_visit flow_table seen ifl (inew :: ifl) d inew mm
              m2 fd fi2); try done.
    + by apply NoDup_cons.
    + left.
    + intros j [->|Hj]%elem_of_cons Hji; [done|]. split; [done|].
      by apply Hother.
    + intros j Hj. by right.
    + intros fi0 Hfi0. congruence.
    + exists fi2, d, (d_with_installed_flow (Some inew) fd).
      split; [done|].
      split; [by apply (ovn_flow_hashed_key (d_flow fd))|].
      split; [apply NoDup_singleton|]. split; [done|]. split; [left|].
      split; [subst m2; simpl; by rewrite lookup_insert_eq|].
      split; [done|]. split; [done|].
      intros r ->%list_elem_of_singleton. split; [by left|].
      split; [done|]. eexists.
      split; [subst m2; simpl; by rewrite lookup_insert_eq|]. done.
    + intros a b fa fb Ha Hb Hfa Hfb Hkab.
      assert (Hno : ∀ j fj, j ∈ ifl → installed_at mm !! j = Some fj →
                            flow_key (i_flow fj) ≠ flow_key fl).
      { intros j fj Hj Hfj Hk.
        pose proof (Hspec j fj Hj Hfj) as Hfalse.
        destruct (Hsync j Hj) as (fj' & _ & _ & Hfj' & Hhj & _).
        assert (fj' = fj) as -> by congruence.
        assert (ovn_flow_key_match (i_flow fj) (d_flow fd) = true);
          [|congruence].
        apply ovn_flow_key_match_iff; [done|done|].
        unfold ovn_flow_key_eq. congruence. }
      apply elem_of_cons in Ha as [->|Ha], Hb as [->|Hb]; [done| | |].
      * exfalso. rewrite Hi2 in Hfa. injection Hfa as <-.
        rewrite Hother in Hfb by (intros ->; done).
        eapply (Hno b fb); [done|done|]. unfold ovn_flow_key_eq in Hkab.
        by rewrite <- Hkab.
      * exfalso. rewrite Hi2 in Hfb. injection Hfb as <-.
        rewrite Hother in Hfa by (intros ->; done).
        eapply (Hno a fa); [done|done|]. by unfold ovn_flow_key_eq in Hkab.
      * rewrite Hother in Hfa, Hfb by (intros ->; done).
        by eapply (Huniq a b fa fb).
Qed.

Lemma put_desired_flows_loop (flow_table : ovn_desired_flow_table)
    (rest : list ptr) :
  ∀ seen msgs s,
    seen ++ rest = match_flow_table flow_table →
    put_desired_inv flow_table seen (installed_flows s) (mem s) →
    ∃ msgs' c' l' m',
      for_each rest put_desired_flow (msgs, s)
      = Some (msgs', with_flows c' (tx_counter s) l' m' s)
      ∧ put_desired_inv flow_table (match_flow_table flow_table) l' m'
      ∧ desired_same_flows (mem s) m'.
Proof.
  induction rest as [|d rest IH]; intros seen msgs s Hmt Hinv.
  - exists msgs, (swconn s), (installed_flows s), (mem s).
    rewrite app_nil_r in Hmt. subst seen. split; [|done].
    simpl. by rewrite with_flows_id.
  - destruct (put_desired_flow_step flow_table seen rest d msgs s Hmt Hinv)
      as (msgs1 & c1 & l1 & m1 & Hstep & Hinv1 & HT1).
    rewrite for_each_cons, Hstep. simpl.
    destruct (with_flows_proj c1 (tx_counter s) l1 m1 s)
      as (Hl1 & Hm1 & _ & Ht1).
    destruct (IH (seen ++ [d]) msgs1 (with_flows c1 (tx_counter s) l1 m1 s))
      as (msgs' & c' & l' & m' & Hrun & Hinv' & HT').
    + by rewrite <- app_assoc.
    + by rewrite Hl1, Hm1.
    + exists msgs', c', l', m'. split; [|split; [done|]].
      * by rewrite Hrun, Ht1, with_flows_twice.
      * rewrite Hm1 in HT'. by eapply desired_same_flows_trans.
Qed.

(** Building and queueing messages touches the connection only. *)
Lemma add_msg_frame (body : ofp_msg) (acc : list ofpbuf * ofctrl) :
  ∃ c, (add_msg body acc).2
       = with_flows c (tx_counter acc.2) (installed_flows acc.2) (mem acc.2)
                    acc.2.
Proof. destruct acc as [msgs s]. destruct s. simpl. by eexists. Qed.

Lemma queue_msg_frame (msg : ofpbuf) (s : ofctrl) :
  ∃ c t, (queue_msg msg s).2 = with_flows c t (installed_flows s) (mem s) s.
Proof. destruct s. simpl. by eexists _, _. Qed.

Lemma with_flows_tables (c : rconn) (t : Z) (l : list ptr) (m : memory)
    (s : ofctrl) :
  groups (with_flows c t l m s) = groups s
  ∧ meters (with_flows c t l m s) = meters s
  ∧ flow_updates (with_flows c t l m s) = flow_updates s
  ∧ cur_cfg (with_flows c t l m s) = cur_cfg s.
Proof. by destruct s. Qed.

Lemma foldl_msgs_frame {A : Type}
    (f : list ofpbuf * ofctrl → A → list ofpbuf * ofctrl) (l : list A) :
  (∀ acc x, ∃ c, (f acc x).2
                 = with_flows c (tx_counter acc.2) (installed_flows acc.2)
                              (mem acc.2) acc.2) →
  ∀ acc, ∃ c, (foldl f acc l).2
              = with_flows c (tx_counter acc.2) (installed_flows acc.2)
                           (mem acc.2) acc.2.
Proof.
  intros Hf. induction l as [|x l IH]; intros acc; simpl.
  - exists (swconn acc.2). by rewrite with_flows_id.
  - destruct (IH (f acc x)) as [c' ->]. destruct (Hf acc x) as [c ->].
    destruct (with_flows_proj c (tx_counter acc.2) (installed_flows acc.2)
                (mem acc.2) acc.2) as (-> & -> & _ & ->).
    exists c'. by rewrite with_flows_twice.
Qed.

Lemma foldl_queue_frame (msgs : list ofpbuf) :
  ∀ s, ∃ c t, foldl (λ s msg, (queue_msg msg s).2) s msgs
              = with_flows c t (installed_flows s) (mem s) s.
Proof.
  induction msgs as [|msg msgs IH]; intros s; cbn [foldl].
  - exists (swconn s), (tx_counter s). by rewrite with_flows_id.
  - destruct (IH (queue_msg msg s).2) as (c' & t' & ->).
    destruct (queue_msg_frame msg s) as (c & t & ->).
    destruct (with_flows_proj c t (installed_flows s) (mem s) s)
      as (-> & -> & _).
    exists c', t'. by rewrite with_flows_twice.
Qed.

Lemma put_group_add_frame (desired : ovn_extend_table_info)
    (acc : list ofpbuf * ofctrl) :
  ∃ c, (put_group_add desired acc).2
       = with_flows c (tx_counter acc.2) (installed_flows acc.2) (mem acc.2)
                    acc.2.
Proof.
  unfold put_group_add. destruct (parse_ofp_group_mod_str _ _).
  - apply add_msg_frame.
  - exists (swconn acc.2). by rewrite with_flows_id.
Qed.

Lemma put_group_del_frame (installed : ovn_extend_table_info)
    (acc : list ofpbuf * ofctrl) :
  ∃ c, (put_group_del installed acc).2
       = with_flows c (tx_counter acc.2) (installed_flows acc.2) (mem acc.2)
                    acc.2.
Proof.
  unfold put_group_del. destruct (parse_ofp_group_mod_str _ _).
  - apply add_msg_frame.
  - exists (swconn acc.2). by rewrite with_flows_id.
Qed.

Lemma put_meter_add_frame (meter_table : list sbrec_meter)
    (m_desired : ovn_extend_table_info) (acc : list ofpbuf * ofctrl) :
  ∃ c, (put_meter_add meter_table m_desired acc).2
       = with_flows c (tx_counter acc.2) (installed_flows acc.2) (mem acc.2)
                    acc.2.
Proof.
  unfold put_meter_add, add_meter_string, add_meter.
  destruct (String.prefix _ _).
  - destruct (parse_ofp_meter_mod_str _ _); [apply add_msg_frame|].
    exists (swconn acc.2). by rewrite with_flows_id.
  - destruct (find _ _); [apply add_msg_frame|].
    exists (swconn acc.2). by rewrite with_flows_id.
Qed.

Lemma put_track_flows (msgs : list ofpbuf) (nb_cfg : Z)
    (pending_ct_zones : gmap string ct_zone_pending_entry) (s : ofctrl) :
  installed_flows (put_track msgs nb_cfg pending_ct_zones s).1
  = installed_flows s
  ∧ mem (put_track msgs nb_cfg pending_ct_zones s).1 = mem s.
Proof.
  unfold put_track. destruct (negb (bool_decide (msgs = []))).
  - destruct (ofpbuf_new OFPT_BARRIER_REQUEST s) as [barrier s1] eqn:Hb.
    assert (Hs1 : installed_flows s1 = installed_flows s ∧ mem s1 = mem s).
    { destruct s. simpl in Hb. by injection Hb as <- <-. }
    destruct (foldl_queue_frame (msgs ++ [barrier]) s1) as (c & t & Hq).
    cbn [fst]. rewrite Hq.
    destruct Hs1 as [<- <-]. by destruct s1.
  - destruct (negb (bool_decide (flow_updates s = []))); by destruct s.
Qed.

(** The messages part of [ofctrl_put] on a well-formed engine: it returns,
    and leaves the installed flows in step with the desired table. *)
Lemma put_messages_reconciles (flow_table : ovn_desired_flow_table)
    (pending_ct_zones : gmap string ct_zone_pending_entry)
    (meter_table : list sbrec_meter) (s : ofctrl) :
  engine_wf flow_table s →
  ∃ msgs s' pending_ct_zones',
    put_messages flow_table pending_ct_zones meter_table s
    = Some (msgs, s', pending_ct_zones')
    ∧ put_desired_inv flow_table (match_flow_table flow_table)
                      (installed_flows s') (mem s')
    ∧ desired_same_flows (mem s) (mem s').
Proof.
  intros ([gs Hg] & [ms Hm] & Hwf & Hnd & Huniq & Hlinks).
  unfold put_messages.
  (* conntrack flushes *)
  match goal with
  | |- context [foldl ?f ([], s) (map_to_list pending_ct_zones)] =>
      destruct (foldl_msgs_frame f (map_to_list pending_ct_zones)) with
        (acc := ([] : list ofpbuf, s)) as [c1 H1];
      [intros acc kv; case_bool_decide;
         [apply add_msg_frame
         |exists (swconn acc.2); by rewrite with_flows_id]|];
      destruct (foldl f ([], s) (map_to_list pending_ct_zones))
        as [msgs1 s1]
  end.
  cbn [fst snd] in H1. subst s1. cbn [fst snd].
  destruct (with_flows_tables c1 (tx_counter s) (installed_flows s) (mem s) s)
    as (Hg1 & Hm1 & _).
  rewrite Hg1, Hg. cbn [mbind option_bind].
  (* group additions *)
  match goal with
  | |- context [foldl ?f ?a0 (extend_table_uninstalled gs)] =>
      destruct (foldl_msgs_frame f (extend_table_uninstalled gs)) with
        (acc := a0) as [c2 H2];
      [intros acc' x; apply put_group_add_frame|];
      destruct (foldl f a0 (extend_table_uninstalled gs)) as [msgs2 s2]
  end.
  cbn [fst snd] in H2. rewrite with_flows_twice in H2.
  destruct (with_flows_proj c1 (tx_counter s) (installed_flows s) (mem s) s)
    as (Hl1 & Hmem1 & _ & Ht1).
  rewrite Hl1, Hmem1, Ht1 in H2. subst s2. cbn [fst snd].
  destruct (with_flows_tables c2 (tx_counter s) (installed_flows s) (mem s) s)
    as (_ & Hm2 & _).
  rewrite Hm2, Hm. cbn [mbind option_bind].
  (* meter additions *)
  match goal with
  | |- context [foldl ?f ?a0 (extend_table_uninstalled ms)] =>
      destruct (foldl_msgs_frame f (extend_table_uninstalled ms)) with
        (acc := a0) as [c3 H3];
      [intros acc' x; apply put_meter_add_frame|];
      destruct (foldl f a0 (extend_table_uninstalled ms)) as [msgs3 s3]
  end.
  cbn [fst snd] in H3. rewrite with_flows_twice in H3.
  destruct (with_flows_proj c2 (tx_counter s) (installed_flows s) (mem s) s)
    as (Hl2 & Hmem2 & _ & Ht2).
  rewrite Hl2, Hmem2, Ht2 in H3. subst s3. cbn [fst snd].
  destruct (with_flows_proj c3 (tx_counter s) (installed_flows s) (mem s) s)
    as (Hl3 & Hmem3 & _ & Ht3).
  (* the installed flows *)
  rewrite Hl3.
  destruct (put_installed_flows_loop flow_table (installed_flows s) [] msgs3
              (with_flows c3 (tx_counter s) (installed_flows s) (mem s) s))
    as (msgs4 & c4 & kept & m4 & Hrun4 & Hinv4 & HT4).
  { by rewrite Hl3. }
  { rewrite Hmem3. split; [done|]. split; [done|]. split; [done|].
    split; [done|]. intros i Hi. by apply not_elem_of_nil in Hi. }
  rewrite Hrun4, Ht3, with_flows_twice. cbn [mbind option_bind].
  (* the desired flows *)
  destruct (with_flows_proj c4 (tx_counter s) kept m4 s)
    as (Hl4 & Hmem4 & _ & Ht4).
  destruct Hinv4 as (Hnd4 & Hwf4 & Huniq4 & _ & Hkept4).
  rewrite app_nil_r in Hnd4, Huniq4.
  destruct (put_desired_flows_loop flow_table (match_flow_table flow_table)
              [] msgs4 (with_flows c4 (tx_counter s) kept m4 s))
    as (msgs5 & c5 & l5 & m5 & Hrun5 & Hinv5 & HT5).
  { done. }
  { rewrite Hl4, Hmem4. split; [done|]. split; [done|]. split; [done|].
    split; [done|]. intros d Hd. by apply not_elem_of_nil in Hd. }
  rewrite Hrun5, Ht4, with_flows_twice. cbn [mbind option_bind].
  (* group and meter deletions *)
  match goal with
  | |- context [foldl ?f ?a0 (extend_table_installed gs)] =>
      destruct (foldl_msgs_frame f (extend_table_installed gs)) with
        (acc := a0) as [c6 H6];
      [intros acc' x; apply put_group_del_frame|];
      destruct (foldl f a0 (extend_table_installed gs)) as [msgs6 s6]
  end.
  cbn [fst snd] in H6. rewrite with_flows_twice in H6.
  destruct (with_flows_proj c5 (tx_counter s) l5 m5 s)
    as (Hl5 & Hmem5 & _ & Ht5).
  rewrite Hl5, Hmem5, Ht5 in H6. subst s6.
  match goal with
  | |- context [foldl ?f ?a0 (extend_table_installed ms)] =>
      destruct (foldl_msgs_frame f (extend_table_installed ms)) with
        (acc := a0) as [c7 H7];
      [intros acc' x; apply add_msg_frame|];
      destruct (foldl f a0 (extend_table_installed ms)) as [msgs7 s7]
  end.
  cbn [fst snd] in H7. rewrite with_flows_twice in H7.
  destruct (with_flows_proj c6 (tx_counter s) l5 m5 s)
    as (Hl6 & Hmem6 & _ & Ht6).
  rewrite Hl6, Hmem6, Ht6 in H7. subst s7. cbn [fst snd].
  eexists _, _, _. split; [done|].
  rewrite Hmem4 in HT5. rewrite Hmem3 in HT4.
  replace (installed_flows _) with l5 by (by destruct s).
  replace (mem (set_meters _ _)) with m5 by (by destruct s).
  split; [done|]. by eapply desired_same_flows_trans.
Qed.

Lemma put_needed_fst (nb_cfg : Z) (flow_changed : bool) (s : ofctrl) :
  (put_needed nb_cfg flow_changed s).1 = true →
  put_needed nb_cfg flow_changed s = (true, s).
Proof.
  unfold put_needed.
  destruct (flow_changed || skipped_last_time s || need_reinstall_flows s);
    [done|].
  destruct (negb (nb_cfg =? old_nb_cfg s)); [|done].
  by destruct (cur_cfg s =? old_nb_cfg s).
Qed.

(** C1 (amended): [ofctrl_put] reconciles the installed flows with the
    desired table when it goes past its two gates, and only then.  For
    every well-formed engine state in which [ofctrl_can_put] returns true
    and for which the call finds an update needed ([put_needed]: the flows
    changed, the last call was skipped, a reinstall is pending, or [nb_cfg]
    changed while [cur_cfg] lags behind), a call to [ofctrl_put] returns,
    leaves the desired flows as they were, and afterwards: every installed
    flow has a primary that is a flow of the desired table's match index,
    with the key, the actions and the cookie of the installed flow; and
    every flow of the match index has an installed flow with its key.  So
    the two sets of keys are equal.  For every engine state for which the
    call finds no update needed, whatever [ofctrl_can_put] returns, the call
    returns before it reconciles: the installed-flow table, the heap, the
    connection, the queue of flow updates and the pending zones are as they
    were. *)
Theorem ofctrl_put_reconciles (flow_table : ovn_desired_flow_table)
    (pending_ct_zones : gmap string ct_zone_pending_entry)
    (meter_table : list sbrec_meter) (nb_cfg : Z) (flow_changed : bool)
    (s : ofctrl) :
  (ofctrl_can_put s = true →
   (put_needed nb_cfg flow_changed s).1 = true →
   engine_wf flow_table s →
   ∃ s' pending_ct_zones',
     ofctrl_put flow_table pending_ct_zones meter_table nb_cfg flow_changed s
     = Some (s', pending_ct_zones')
     ∧ desired_same_flows (mem s) (mem s')
     ∧ (∀ i, i ∈ installed_flows s' →
          ∃ fi p fp,
            installed_at (mem s') !! i = Some fi
            ∧ i_desired_flow fi = Some p
            ∧ p ∈ match_flow_table flow_table
            ∧ desired_at (mem s') !! p = Some fp
            ∧ flow_key (i_flow fi) = flow_key (d_flow fp)
            ∧ ofpacts (i_flow fi) = ofpacts (d_flow fp)
            ∧ cookie (i_flow fi) = cookie (d_flow fp))
     ∧ (∀ d, d ∈ match_flow_table flow_table →
          ∃ fd i fi,
            desired_at (mem s') !! d = Some fd
            ∧ i ∈ installed_flows s'
            ∧ installed_at (mem s') !! i = Some fi
            ∧ flow_key (i_flow fi) = flow_key (d_flow fd)))
  ∧ ((put_needed nb_cfg flow_changed s).1 = false →
     ∃ s',
       ofctrl_put flow_table pending_ct_zones meter_table nb_cfg
                  flow_changed s
       = Some (s', pending_ct_zones)
       ∧ installed_flows s' = installed_flows s
       ∧ mem s' = mem s
       ∧ swconn s' = swconn s
       ∧ flow_updates s' = flow_updates s).
Proof.
  split; last first.
  { intros Hneed. unfold ofctrl_put.
    destruct (put_needed nb_cfg flow_changed s) as [need s0] eqn:Hput.
    cbn [fst] in Hneed. subst need. cbn [negb].
    eexists. split; [done|].
    assert (s0 = s ∨ s0 = set_cur_cfg nb_cfg s) as [->| ->].
    { unfold put_needed in Hput.
      destruct (flow_changed || skipped_last_time s
                || need_reinstall_flows s); [done|].
      destruct (negb (nb_cfg =? old_nb_cfg s)); [|left; congruence].
      destruct (cur_cfg s =? old_nb_cfg s); [right; congruence|done]. }
    - by destruct s.
    - by destruct s. }
  intros Hcan Hneed Hwf. unfold ofctrl_put.
  rewrite (put_needed_fst _ _ _ Hneed). cbn [negb].
  replace (ofctrl_can_put (set_old_nb_cfg nb_cfg s)) with true
    by (by destruct s). cbn [negb].
  set (s0 := set_need_reinstall_flows false
               (set_skipped_last_time false (set_old_nb_cfg nb_cfg s))).
  assert (Hwf0 : engine_wf flow_table s0) by (by destruct s).
  assert (Hmem0 : mem s0 = mem s) by (by destruct s).
  destruct (put_messages_reconciles flow_table pending_ct_zones meter_table
              s0 Hwf0) as (msgs & s1 & zones1 & -> & Hinv & Hsame).
  cbn [mbind option_bind].
  destruct (put_track msgs nb_cfg zones1 s1) as [s2 zones2] eqn:Htrack.
  destruct (put_track_flows msgs nb_cfg zones1 s1) as [Hl2 Hm2].
  rewrite Htrack in Hl2, Hm2. cbn [fst] in Hl2, Hm2.
  exists s2, zones2. split; [done|].
  rewrite Hl2, Hm2, <- Hmem0. split; [done|].
  destruct Hinv as (_ & _ & _ & Hsynced & Hseen). split; [|done].
  intros i Hi.
  destruct (Hsynced i Hi)
    as (fi & p & fp & Hfi & _ & _ & Hp & Hpin & Hfp & Hact & Hck & Hrefs).
  destruct (Hrefs p Hpin) as (_ & Hidx & fr & Hfr & Hkey).
  exists fi, p, fp. rewrite Hfp in Hfr. injection Hfr as <-.
  by repeat split.
Qed.

(** The barrier path never moves [cur_cfg] backwards: the receive handler
    of S_UPDATE_FLOWS compares the record with [cur_cfg] before it stores
    it. *)
Lemma recv_S_UPDATE_FLOWS_cur_cfg_mono (oh : ofp_header) (type : ofptype)
    (pending_ct_zones : gmap string ct_zone_pending_entry) (s : ofctrl) :
  cur_cfg s ≤ cur_cfg (recv_S_UPDATE_FLOWS oh type pending_ct_zones s).1.
Proof.
  unfold recv_S_UPDATE_FLOWS.
  destruct (bool_decide (type = OFPTYPE_BARRIER_REPLY)
            && negb (bool_decide (flow_updates s = []))); cbn [fst].
  - destruct (flow_updates s) as [|fup rest]; [lia|].
    destruct (fup_xid fup =? oh_xid oh); [|lia].
    destruct (fup_nb_cfg fup >=? cur_cfg s) eqn:Hge;
      destruct s; simpl in *; lia.
  - unfold ofctrl_recv. destruct s; simpl.
    repeat (case_match; simpl; try lia).
Qed.

(** The backward scan of [ofctrl_put] keeps the queue sorted: it removes
    the records with a greater [nb_cfg] before it adds one. *)
Lemma track_flow_update_sorted (l : list ofctrl_flow_update)
    (nb_cfg xid_ : Z) :
  nb_cfg_sorted_from_tail l = true →
  nb_cfg_sorted_from_tail (track_flow_update l nb_cfg xid_) = true.
Proof.
  induction l as [|fup prev IH]; [done|]. intros Hs.
  cbn [track_flow_update].
  destruct (nb_cfg <? fup_nb_cfg fup) eqn:Hlt.
  { apply IH. cbn [nb_cfg_sorted_from_tail] in Hs.
    by apply andb_true_iff in Hs as [_ ?]. }
  destruct (nb_cfg =? fup_nb_cfg fup) eqn:Heq; [exact Hs|].
  change (nb_cfg_sorted_from_tail
            ({| fup_xid := xid_; fup_nb_cfg := nb_cfg |} :: fup :: prev))
    with ((fup_nb_cfg fup <=? nb_cfg)
          && nb_cfg_sorted_from_tail (fup :: prev)).
  rewrite Hs, andb_true_r. apply Z.leb_le. by apply Z.ltb_ge in Hlt.
Qed.

(** So does the branch of [ofctrl_put] that has messages to send. *)
Lemma put_track_sorted_with_messages (msgs : list ofpbuf) (nb_cfg : Z)
    (pending_ct_zones : gmap string ct_zone_pending_entry) (s : ofctrl) :
  msgs ≠ [] →
  flow_updates_sorted s = true →
  flow_updates_sorted (put_track msgs nb_cfg pending_ct_zones s).1 = true.
Proof.
  intros Hmsgs Hs. unfold put_track.
  rewrite bool_decide_eq_false_2 by done. cbn [negb].
  destruct (ofpbuf_new OFPT_BARRIER_REQUEST s) as [barrier s1] eqn:Hb.
  assert (Hs1 : flow_updates s1 = flow_updates s).
  { destruct s. simpl in Hb. by injection Hb as <- <-. }
  destruct (foldl_queue_frame (msgs ++ [barrier]) s1) as (c & t & Hq).
  cbn [fst]. rewrite Hq.
  destruct (with_flows_tables c t (installed_flows s1) (mem s1) s1)
    as (_ & _ & -> & _).
  rewrite Hs1. unfold flow_updates_sorted.
  replace (flow_updates (set_flow_updates _ _))
    with (reverse (track_flow_update (reverse (flow_updates s)) nb_cfg
                                     (msg_xid barrier)))
    by (by destruct s1).
  rewrite reverse_involutive. by apply track_flow_update_sorted.
Qed.

Lemma nb_cfg_sorted_from_tail_init (l : list ofctrl_flow_update)
    (fup : ofctrl_flow_update) :
  nb_cfg_sorted_from_tail (l ++ [fup]) = true →
  nb_cfg_sorted_from_tail l = true.
Proof.
  induction l as [|a l IH]; [done|]. cbn [app nb_cfg_sorted_from_tail].
  intros [Hhead Hrest]%andb_true_iff. rewrite (IH Hrest), andb_true_r.
  destruct l; [done|]. exact Hhead.
Qed.

(** And so does the receive handler of S_UPDATE_FLOWS, which removes the
    head of the queue or nothing. *)
Lemma recv_S_UPDATE_FLOWS_sorted (oh : ofp_header) (type : ofptype)
    (pending_ct_zones : gmap string ct_zone_pending_entry) (s : ofctrl) :
  flow_updates_sorted s = true →
  flow_updates_sorted (recv_S_UPDATE_FLOWS oh type pending_ct_zones s).1
  = true.
Proof.
  unfold recv_S_UPDATE_FLOWS, flow_updates_sorted. intros Hs.
  destruct (bool_decide (type = OFPTYPE_BARRIER_REPLY)
            && negb (bool_decide (flow_updates s = []))); cbn [fst].
  - destruct (flow_updates s) as [|fup rest] eqn:Hq; [by rewrite Hq|].
    destruct (fup_xid fup =? oh_xid oh); [|by rewrite Hq].
    rewrite reverse_cons in Hs.
    apply nb_cfg_sorted_from_tail_init in Hs.
    destruct (fup_nb_cfg fup >=? cur_cfg s); by destruct s.
  - unfold ofctrl_recv. destruct type; try done. by destruct s.
Qed.

(** ** The driver of the state machine *)

Lemma same_flow_state_refl (s : ofctrl) : same_flow_state s s.
Proof. by repeat split. Qed.

Lemma ofctrl_recv_same (oh : ofp_header) (type : ofptype) (s : ofctrl) :
  same_flow_state s (ofctrl_recv oh type s)
  ∧ state (ofctrl_recv oh type s) = state s.
Proof.
  unfold ofctrl_recv.
  destruct type; destruct s; repeat split; by try apply prefix_app_r.
Qed.

Lemma process_tlv_table_reply_scan_same (mappings : list ofputil_tlv_map) :
  ∀ md_free s b s',
    process_tlv_table_reply_scan mappings md_free s = inl (b, s') →
    same_flow_state s s'.
Proof.
  induction mappings as [|map_ rest IH]; intros md_free s b s'; [done|].
  cbn [process_tlv_table_reply_scan].
  destruct (is_ovn_geneve map_); [|by apply IH].
  destruct (index map_ >=? TUN_METADATA_NUM_OPTS); intros [= <- <-];
    [apply same_flow_state_refl|by destruct s].
Qed.

Lemma process_tlv_table_reply_same (reply : list ofputil_tlv_map)
    (s : ofctrl) :
  same_flow_state s (process_tlv_table_reply reply s).2.
Proof.
  unfold process_tlv_table_reply.
  destruct (process_tlv_table_reply_scan reply UINT64_MAX s)
    as [[b s']|md] eqn:Hscan.
  - by eapply process_tlv_table_reply_scan_same.
  - destruct (md =? 0); [apply same_flow_state_refl|].
    generalize (rightmost_1bit_idx md). intros r.
    destruct s; repeat split. cbn. rewrite <- app_assoc. apply prefix_app_r.
    done.
Qed.

Lemma recv_S_TLV_TABLE_REQUESTED_same (oh : ofp_header) (type : ofptype)
    (s : ofctrl) :
  same_flow_state s (recv_S_TLV_TABLE_REQUESTED oh type s).
Proof.
  unfold recv_S_TLV_TABLE_REQUESTED.
  destruct (negb (oh_xid oh =? xid s)); [apply ofctrl_recv_same|].
  destruct (bool_decide (type = OFPTYPE_NXT_TLV_TABLE_REPLY));
    [|by destruct s].
  destruct (oh_tlv_table_reply oh) as [reply|]; [|by destruct s].
  pose proof (process_tlv_table_reply_same reply s) as Hsame.
  destruct (process_tlv_table_reply reply s) as [ok s']. cbn [snd] in Hsame.
  destruct ok; [done|].
  destruct Hsame as (? & ? & ? & ? & ?). by destruct s'.
Qed.

Lemma recv_S_TLV_TABLE_MOD_SENT_same (oh : ofp_header) (type : ofptype)
    (s : ofctrl) :
  same_flow_state s (recv_S_TLV_TABLE_MOD_SENT oh type s).
Proof.
  unfold recv_S_TLV_TABLE_MOD_SENT.
  repeat case_match; try apply ofctrl_recv_same; by destruct s.
Qed.

(** What [run_S_CLEAR_FLOWS] leaves of a well-formed engine. *)
Lemma run_S_CLEAR_FLOWS_state (s : ofctrl) :
  installed_wf s →
  ∃ s', run_S_CLEAR_FLOWS s = Some s'
        ∧ installed_flows s' = [] ∧ flow_updates s' = []
        ∧ cur_cfg s' = cur_cfg s ∧ state s' = S_UPDATE_FLOWS
        ∧ need_reinstall_flows s' = true
        ∧ mff_ovn_geneve s' = mff_ovn_geneve s
        ∧ txq (swconn s) `prefix_of` txq (swconn s')
        ∧ msg_body <$> txq (swconn s')
          = (msg_body <$> txq (swconn s))
            ++ [ OFPT_FLOW_MOD
                   {| fm_match := minimatch_catchall; fm_priority := 0;
                      fm_table_id := OFPTT_ALL; fm_ofpacts := [];
                      fm_new_cookie := 0; fm_modify_cookie := false;
                      fm_command := OFPFC_DELETE; fm_buffer_id := UINT32_MAX;
                      fm_out_port := OFPP_ANY; fm_out_group := OFPG_ANY |};
                 OFPT_GROUP_MOD
                   {| gm_command := OFPGC11_DELETE; gm_group_id := OFPG_ALL;
                      gm_command_bucket_id := OFPG15_BUCKET_ALL;
                      gm_buckets := [] |};
                 OFPT_METER_MOD
                   {| mm_command := OFPMC13_DELETE; mm_meter_id := OFPM13_ALL;
                      mm_flags := 0; mm_bands := [] |} ].
Proof.
  intros [Hnd Hwf]. unfold run_S_CLEAR_FLOWS, ovn_installed_flow_table_clear.
  destruct s as [c st fu cc x x2 tc ifl g mt mff nr sk onb mm].
  simpl in Hnd, Hwf. cbn -[for_each].
  match goal with
  | |- context [for_each _ _ ?s1] =>
      destruct (ovn_installed_flow_table_clear_loop ifl s1)
        as (m' & Hrun & Hnone & _); [done|done|done|]
  end.
  rewrite Hrun. cbn.
  destruct g, mt; cbn;
    (eexists; split; [done|]; cbn; repeat (split; [done|]);
     split; [rewrite <- !app_assoc; by apply prefix_app_r|];
     by rewrite !fmap_app, <- !app_assoc).
Qed.

Lemma run_S_NEW_same (s : ofctrl) : same_flow_state s (run_S_NEW s).
Proof. destruct s. repeat split. by apply prefix_app_r. Qed.

Lemma installed_wf_same (s s' : ofctrl) :
  same_flow_state s s' → installed_wf s → installed_wf s'.
Proof. intros (Hl & Hm & _) [? ?]. unfold installed_wf. by rewrite Hl, Hm. Qed.

Lemma flow_updates_sorted_same (s s' : ofctrl) :
  same_flow_state s s' →
  flow_updates_sorted s = true → flow_updates_sorted s' = true.
Proof.
  intros (_ & _ & _ & Hq & _). unfold flow_updates_sorted. by rewrite Hq.
Qed.

Lemma run_keeps_same (s s' : ofctrl) :
  installed_wf s → same_flow_state s s' → run_keeps s s'.
Proof.
  intros Hwf Hsame. split; [by eapply installed_wf_same|].
  split; [destruct Hsame as (_ & _ & -> & _); lia|].
  split; [by apply flow_updates_sorted_same|]. apply Hsame.
Qed.

Lemma run_keeps_trans (s1 s2 s3 : ofctrl) :
  run_keeps s1 s2 → run_keeps s2 s3 → run_keeps s1 s3.
Proof.
  intros (_ & Hc1 & Hs1 & Hq1) (Hwf & Hc2 & Hs2 & Hq2).
  split; [done|]. split; [lia|]. split; [auto|]. by etrans.
Qed.

Lemma run_state_keeps (s : ofctrl) :
  installed_wf s →
  ∃ s', run_state s = Some s' ∧ run_keeps s s' ∧ state s' ≠ S_NEW.
Proof.
  intros Hwf. unfold run_state. destruct (state s) eqn:Hst.
  - eexists. split; [done|]. split; [|by destruct s].
    apply run_keeps_same; [done|]. apply run_S_NEW_same.
  - exists s. split; [done|]. split; [|congruence].
    by apply run_keeps_same; [|apply same_flow_state_refl].
  - exists s. split; [done|]. split; [|congruence].
    by apply run_keeps_same; [|apply same_flow_state_refl].
  - destruct (run_S_CLEAR_FLOWS_state s Hwf)
      as (s' & -> & Hl & Hq & Hc & Hs & _ & _ & Hpre & _).
    exists s'. split; [done|]. split; [|congruence].
    split; [|split; [|split]].
    + split; rewrite Hl; [apply NoDup_nil_2|].
      by intros i ?%not_elem_of_nil.
    + lia.
    + intros _. unfold flow_updates_sorted. by rewrite Hq.
    + done.
  - exists s. split; [done|]. split; [|congruence].
    by apply run_keeps_same; [|apply same_flow_state_refl].
Qed.

Lemma recv_S_UPDATE_FLOWS_same_flows (oh : ofp_header) (type : ofptype)
    (pending_ct_zones : gmap string ct_zone_pending_entry) (s : ofctrl) :
  installed_flows (recv_S_UPDATE_FLOWS oh type pending_ct_zones s).1
  = installed_flows s
  ∧ mem (recv_S_UPDATE_FLOWS oh type pending_ct_zones s).1 = mem s
  ∧ txq (swconn s)
    `prefix_of` txq (swconn (recv_S_UPDATE_FLOWS oh type pending_ct_zones
                                                 s).1).
Proof.
  unfold recv_S_UPDATE_FLOWS.
  destruct (bool_decide (type = OFPTYPE_BARRIER_REPLY)
            && negb (bool_decide (flow_updates s = []))); cbn [fst].
  - destruct (flow_updates s) as [|fup rest]; [done|].
    destruct (fup_xid fup =? oh_xid oh); [|done].
    destruct (fup_nb_cfg fup >=? cur_cfg s); by destruct s.
  - destruct (ofctrl_recv_same oh type s) as [(? & ? & _ & _ & ?) _]. done.
Qed.

Lemma recv_state_keeps (oh : ofp_header) (type : ofptype)
    (pending_ct_zones : gmap string ct_zone_pending_entry) (s : ofctrl) :
  installed_wf s → state s ≠ S_NEW →
  ∃ r, recv_state oh type pending_ct_zones s = Some r ∧ run_keeps s r.1.
Proof.
  intros Hwf Hst. unfold recv_state. destruct (state s); [done|..];
    (eexists; split; [done|]); cbn [fst].
  - apply run_keeps_same; [done|]. apply recv_S_TLV_TABLE_REQUESTED_same.
  - apply run_keeps_same; [done|]. apply recv_S_TLV_TABLE_MOD_SENT_same.
  - apply run_keeps_same; [done|]. apply ofctrl_recv_same.
  - destruct (recv_S_UPDATE_FLOWS_same_flows oh type pending_ct_zones s)
      as (Hl & Hm & Hpre).
    split; [|split; [|split]].
    + destruct Hwf. unfold installed_wf. by rewrite Hl, Hm.
    + apply recv_S_UPDATE_FLOWS_cur_cfg_mono.
    + apply recv_S_UPDATE_FLOWS_sorted.
    + done.
Qed.

Lemma ofctrl_run_loop_keeps (n : nat) :
  ∀ rx pending_ct_zones seqno s,
    installed_wf s →
    ∃ r, ofctrl_run_loop n rx pending_ct_zones seqno s = Some r
         ∧ run_keeps s (run_engine r)
         ∧ run_seqno r = seqno
         ∧ ∃ k, (k ≤ n)%nat ∧ run_rx r = drop k rx
                ∧ (run_wake r = true → k = n)
                ∧ (run_wake r = false →
                   (0 < k)%nat
                   ∧ default None (head (drop (k - 1) rx)) = None)
                ∧ (n ≠ 0%nat →
                   ∃ s1, run_state s = Some s1
                         ∧ run_keeps s1 (run_engine r)).
Proof.
  induction n as [|n IH]; intros rx zones seqno s Hwf.
  - eexists. split; [done|]. split.
    { by apply run_keeps_same; [|apply same_flow_state_refl]. }
    split; [done|]. exists 0%nat. by repeat split.
  - cbn [ofctrl_run_loop].
    destruct (run_state_keeps s Hwf) as (s1 & -> & Hk1 & Hst1).
    cbn [mbind option_bind].
    set (msg := default None (head rx)).
    assert (∃ s2 zones2,
              match msg with
              | Some (oh, Some type) => recv_state oh type zones s1
              | _ => Some (s1, zones)
              end = Some (s2, zones2) ∧ run_keeps s1 s2)
      as (s2 & zones2 & Hrecv & Hk2).
    { destruct msg as [[oh [type|]]|].
      - destruct (recv_state_keeps oh type zones s1) as ([s2 z2] & -> & ?);
          [apply Hk1|done|]. by exists s2, z2.
      - exists s1, zones. split; [done|].
        by apply run_keeps_same; [apply Hk1|apply same_flow_state_refl].
      - exists s1, zones. split; [done|].
        by apply run_keeps_same; [apply Hk1|apply same_flow_state_refl]. }
    replace (match msg with
             | Some (oh, Some type) => recv_state oh type zones s1
             | Some (oh, None) => Some (s1, zones)
             | None => Some (s1, zones)
             end) with (Some (s2, zones2))
      by (rewrite <- Hrecv; by destruct msg as [[? [?|]]|]).
    cbn [mbind option_bind].
    pose proof (run_keeps_trans _ _ _ Hk1 Hk2) as Hk.
    destruct (bool_decide (state s ≠ state s2)
              || bool_decide (msg ≠ None)) eqn:Hprogress.
    + destruct (IH (tail rx) zones2 seqno s2) as
        (r & -> & Hkr & Hseq & k & Hle & Hrx & Hwake & Hidle & _);
        [apply Hk2|].
      exists r. split; [done|]. split; [by eapply run_keeps_trans|].
      split; [done|]. exists (S k). split; [lia|].
      split; [rewrite Hrx; destruct rx; [simpl; by rewrite drop_nil|done]|].
      split; [intros ?; f_equal; auto|]. split.
      * intros Hw. destruct (Hidle Hw) as [Hpos Hnone]. split; [lia|].
        replace (S k - 1)%nat with k by lia.
        destruct k as [|k]; [lia|].
        replace (S k - 1)%nat with k in Hnone by lia. by destruct rx.
      * intros _. exists s1. split; [done|]. by eapply run_keeps_trans.
    + eexists. split; [done|]. cbn. split; [done|]. split; [done|].
      exists 1%nat. split; [lia|]. split; [by destruct rx|].
      split; [done|]. split.
      * intros _. split; [lia|].
        apply orb_false_iff in Hprogress as [_ Hmsg].
        apply bool_decide_eq_false in Hmsg. cbn.
        by destruct (decide (msg = None)).
      * intros _. by exists s1.
Qed.

(** X1.  [ofctrl_run] returns on every engine whose installed flows are
    distinct and soundly linked, whatever the connection delivers: the
    OVS_NOT_REACHED of [recv_S_NEW] is never reached, since S_NEW is left
    before a packet is looked at, and no assertion of the unlinking fails
    when the flows are cleared.  The installed flows are again distinct and
    soundly linked afterwards. *)
Theorem ofctrl_run_returns (input : rconn_input)
    (pending_ct_zones : gmap string ct_zone_pending_entry) (seqno : Z)
    (s : ofctrl) :
  installed_wf s →
  ∃ r, ofctrl_run input pending_ct_zones seqno s = Some r
       ∧ installed_wf (run_engine r).
Proof.
  intros Hwf. unfold ofctrl_run.
  destruct (connected input); cbn [negb]; [|by eexists].
  match goal with
  | |- context [ofctrl_run_loop 50 ?rx ?z ?q ?s0] =>
      destruct (ofctrl_run_loop_keeps 50 rx z q s0)
        as (r & Hr & (Hwf' & _) & _)
  end.
  { case_bool_decide; [|done]. eapply installed_wf_same; [|done].
    by destruct s. }
  by exists r.
Qed.

(** X2.  [ofctrl_run] never moves [cur_cfg] backwards, whatever packets it
    receives, and it keeps the queue of flow updates sorted by [nb_cfg]. *)
Theorem ofctrl_run_cur_cfg_mono (input : rconn_input)
    (pending_ct_zones : gmap string ct_zone_pending_entry) (seqno : Z)
    (s : ofctrl) :
  installed_wf s →
  ∃ r, ofctrl_run input pending_ct_zones seqno s = Some r
       ∧ ofctrl_get_cur_cfg s ≤ ofctrl_get_cur_cfg (run_engine r)
       ∧ (flow_updates_sorted s = true →
          flow_updates_sorted (run_engine r) = true).
Proof.
  intros Hwf. unfold ofctrl_run, ofctrl_get_cur_cfg.
  destruct (connected input); cbn [negb];
    [|eexists; split; [done|]; cbn; split; [lia|done]].
  match goal with
  | |- context [ofctrl_run_loop 50 ?rx ?z ?q ?s0] =>
      destruct (ofctrl_run_loop_keeps 50 rx z q s0)
        as (r & Hr & (_ & Hcur & Hsorted & _) & _)
  end.
  { case_bool_decide; [|done]. eapply installed_wf_same; [|done].
    by destruct s. }
  exists r. split; [done|].
  case_bool_decide; [|done]. split.
  - etrans; [|exact Hcur]. destruct s; simpl; lia.
  - intros Hs. apply Hsorted. by destruct s.
Qed.

(** X3.  One call of [ofctrl_run] on a connected switch polls the
    connection at most 50 times, taking the packets in order.  It asks to be
    woken at once only when it used all 50 rounds; when it does not ask, it
    has polled at least once and its last poll found no packet. *)
Theorem ofctrl_run_bounded (input : rconn_input)
    (pending_ct_zones : gmap string ct_zone_pending_entry) (seqno : Z)
    (s : ofctrl) :
  installed_wf s →
  connected input = true →
  ∃ r k, ofctrl_run input pending_ct_zones seqno s = Some r
         ∧ (k ≤ 50)%nat
         ∧ run_rx r = drop k (rx input)
         ∧ (run_wake r = true → k = 50%nat)
         ∧ (run_wake r = false →
            (0 < k)%nat
            ∧ default None (head (drop (k - 1) (rx input))) = None).
Proof.
  intros Hwf Hc. unfold ofctrl_run. rewrite Hc. cbn [negb].
  match goal with
  | |- context [ofctrl_run_loop 50 ?rx ?z ?q ?s0] =>
      destruct (ofctrl_run_loop_keeps 50 rx z q s0)
        as (r & Hr & _ & _ & k & Hle & Hrx & Hwake & Hidle & _)
  end.
  { case_bool_decide; [|done]. eapply installed_wf_same; [|done].
    by destruct s. }
  by exists r, k.
Qed.

Lemma recv_S_UPDATE_FLOWS_zones_unsent (oh : ofp_header) (type : ofptype)
    (pending_ct_zones : gmap string ct_zone_pending_entry) (s : ofctrl) :
  no_flush_sent pending_ct_zones →
  (recv_S_UPDATE_FLOWS oh type pending_ct_zones s).2 = pending_ct_zones.
Proof.
  intros Hno. unfold recv_S_UPDATE_FLOWS.
  destruct (bool_decide (type = OFPTYPE_BARRIER_REPLY)
            && negb (bool_decide (flow_updates s = []))); [|done].
  cbn [snd]. apply map_eq. intros k. rewrite lookup_fmap.
  destruct (pending_ct_zones !! k) as [ctzpe|] eqn:Hk; [|done].
  cbn. f_equal. rewrite bool_decide_eq_false_2; [done|]. by eapply Hno.
Qed.

Lemma ofctrl_run_loop_zones (n : nat) :
  ∀ rx pending_ct_zones seqno s r,
    no_flush_sent pending_ct_zones →
    ofctrl_run_loop n rx pending_ct_zones seqno s = Some r →
    run_ct_zones r = pending_ct_zones.
Proof.
  induction n as [|n IH]; intros rx zones seqno s r Hno; [by intros [= <-]|].
  cbn [ofctrl_run_loop]. destruct (run_state s) as [s1|]; [|done].
  cbn [mbind option_bind].
  set (msg := default None (head rx)).
  assert (∀ s2 zones2,
            match msg with
            | Some (oh, Some type) => recv_state oh type zones s1
            | Some (oh, None) => Some (s1, zones)
            | None => Some (s1, zones)
            end = Some (s2, zones2) → zones2 = zones) as Hz.
  { intros s2 zones2. destruct msg as [[oh [type|]]|];
      [|by intros [= _ <-]..].
    unfold recv_state. destruct (state s1); [done|by intros [= _ <-]..|].
    intros [= Heq].
    rewrite <- (recv_S_UPDATE_FLOWS_zones_unsent oh type zones s1 Hno).
    by rewrite Heq. }
  destruct (match msg with
            | Some (oh, Some type) => recv_state oh type zones s1
            | Some (oh, None) => Some (s1, zones)
            | None => Some (s1, zones)
            end) as [[s2 zones2]|]; [|done].
  cbn [mbind option_bind]. rewrite (Hz s2 zones2 eq_refl).
  destruct (bool_decide (state s ≠ state s2) || bool_decide (msg ≠ None)).
  - by apply IH.
  - by intros [= <-].
Qed.

Lemma ct_zone_resend_unsent
    (pending_ct_zones : gmap string ct_zone_pending_entry) :
  no_flush_sent (ct_zone_resend <$> pending_ct_zones).
Proof.
  intros k ctzpe. rewrite lookup_fmap.
  destruct (pending_ct_zones !! k) as [z|]; [|done]. intros [= <-].
  unfold ct_zone_resend. by case_bool_decide.
Qed.

(** X4.  When the connection sequence number has changed, [ofctrl_run]
    records the new one, restarts the state machine from S_NEW, so that the
    first message it sends is the TLV table request, and puts every pending
    conntrack flush that waited for its confirmation (OF_SENT) back to
    OF_QUEUED; no flush is confirmed during the call. *)
Theorem ofctrl_run_reconnect (input : rconn_input)
    (pending_ct_zones : gmap string ct_zone_pending_entry) (seqno : Z)
    (s : ofctrl) :
  installed_wf s →
  connected input = true →
  seqno ≠ connection_seqno input →
  ∃ r, ofctrl_run input pending_ct_zones seqno s = Some r
       ∧ run_seqno r = connection_seqno input
       ∧ run_ct_zones r = ct_zone_resend <$> pending_ct_zones
       ∧ (txq (swconn s)
          ++ [ {| msg_xid := next_xid (swconn s);
                  msg_body := NXT_TLV_TABLE_REQUEST |} ])
         `prefix_of` txq (swconn (run_engine r)).
Proof.
  intros Hwf Hc Hseq. unfold ofctrl_run. rewrite Hc. cbn [negb].
  rewrite bool_decide_eq_true_2 by done.
  destruct (ofctrl_run_loop_keeps 50 (rx input)
              (ct_zone_resend <$> pending_ct_zones)
              (connection_seqno input) (set_state S_NEW s))
    as (r & Hr & _ & Hs & _ & _ & _ & _ & _ & Hfirst).
  { eapply installed_wf_same; [|done]. by destruct s. }
  exists r. split; [done|]. split; [done|]. split.
  { eapply ofctrl_run_loop_zones; [|done]. apply ct_zone_resend_unsent. }
  destruct Hfirst as (s1 & Hs1 & _ & _ & _ & Hpre); [done|].
  replace (run_state (set_state S_NEW s))
    with (Some (run_S_NEW (set_state S_NEW s))) in Hs1 by (by destruct s).
  injection Hs1 as <-. by destruct s.
Qed.

Lemma ofctrl_run_loop_S (n : nat)
    (rx : list (option (ofp_header * option ofptype)))
    (pending_ct_zones : gmap string ct_zone_pending_entry) (seqno : Z)
    (s : ofctrl) :
  ofctrl_run_loop (S n) rx pending_ct_zones seqno s
  = (let old_state := state s in
     s ← run_state s;
     let msg := default None (head rx) in
     let rx := tail rx in
     '(s, pending_ct_zones) ←
       match msg with
       | Some (oh, Some type) => recv_state oh type pending_ct_zones s
       | Some (oh, None) => Some (s, pending_ct_zones)
       | None => Some (s, pending_ct_zones)
       end;
     if bool_decide (old_state ≠ state s) || bool_decide (msg ≠ None)
     then ofctrl_run_loop n rx pending_ct_zones seqno s
     else Some {| run_seqno := seqno; run_engine := s;
                  run_ct_zones := pending_ct_zones; run_rx := rx;
                  run_wake := false |}).
Proof. reflexivity. Qed.

Lemma recv_S_TLV_TABLE_REQUESTED_found (oh : ofp_header)
    (reply : list ofputil_tlv_map) (map_ : ofputil_tlv_map) (s : ofctrl) :
  oh_xid oh = xid s →
  oh_tlv_table_reply oh = Some reply →
  find is_ovn_geneve reply = Some map_ →
  index map_ < TUN_METADATA_NUM_OPTS →
  recv_S_TLV_TABLE_REQUESTED oh OFPTYPE_NXT_TLV_TABLE_REPLY s
  = set_state S_CLEAR_FLOWS
      (set_mff_ovn_geneve (MFF_TUN_METADATA0 + index map_) s).
Proof.
  intros Hxid Hreply Hfind Hidx. unfold recv_S_TLV_TABLE_REQUESTED.
  rewrite Hxid, Z.eqb_refl. cbn [negb].
  rewrite bool_decide_eq_true_2 by done. rewrite Hreply.
  unfold process_tlv_table_reply.
  rewrite (process_tlv_table_reply_scan_found _ _ _ _ Hfind).
  destruct (index map_ >=? TUN_METADATA_NUM_OPTS) eqn:Hge;
    [apply Z.geb_le in Hge; lia|done].
Qed.

Lemma ofctrl_run_loop_negotiates (n : nat) (oh : ofp_header)
    (reply : list ofputil_tlv_map) (map_ : ofputil_tlv_map)
    (pending_ct_zones : gmap string ct_zone_pending_entry) (seqno : Z)
    (s : ofctrl) :
  installed_wf s →
  state s = S_NEW →
  oh_xid oh = next_xid (swconn s) →
  oh_tlv_table_reply oh = Some reply →
  find is_ovn_geneve reply = Some map_ →
  index map_ < TUN_METADATA_NUM_OPTS →
  ∃ s',
    ofctrl_run_loop (S (S (S n)))
      [Some (oh, Some OFPTYPE_NXT_TLV_TABLE_REPLY)] pending_ct_zones seqno s
    = Some {| run_seqno := seqno; run_engine := s';
              run_ct_zones := pending_ct_zones; run_rx := [];
              run_wake := false |}
    ∧ state s' = S_UPDATE_FLOWS
    ∧ mff_ovn_geneve s' = MFF_TUN_METADATA0 + index map_
    ∧ installed_flows s' = [] ∧ flow_updates s' = []
    ∧ need_reinstall_flows s' = true
    ∧ msg_body <$> txq (swconn s')
      = (msg_body <$> txq (swconn s))
        ++ [ NXT_TLV_TABLE_REQUEST;
             OFPT_FLOW_MOD
               {| fm_match := minimatch_catchall; fm_priority := 0;
                  fm_table_id := OFPTT_ALL; fm_ofpacts := [];
                  fm_new_cookie := 0; fm_modify_cookie := false;
                  fm_command := OFPFC_DELETE; fm_buffer_id := UINT32_MAX;
                  fm_out_port := OFPP_ANY; fm_out_group := OFPG_ANY |};
             OFPT_GROUP_MOD
               {| gm_command := OFPGC11_DELETE; gm_group_id := OFPG_ALL;
                  gm_command_bucket_id := OFPG15_BUCKET_ALL;
                  gm_buckets := [] |};
             OFPT_METER_MOD
               {| mm_command := OFPMC13_DELETE; mm_meter_id := OFPM13_ALL;
                  mm_flags := 0; mm_bands := [] |} ].
Proof.
  intros Hwf Hst Hxid Hreply Hfind Hidx.
  (* first round: the request is sent, the reply is taken *)
  rewrite ofctrl_run_loop_S. cbn zeta. unfold run_state at 1. rewrite Hst.
  cbn [mbind option_bind head tail default from_option id].
  assert (Hst1 : state (run_S_NEW s) = S_TLV_TABLE_REQUESTED)
    by (by destruct s).
  assert (Hxid1 : oh_xid oh = xid (run_S_NEW s))
    by (rewrite Hxid; by destruct s).
  unfold recv_state at 1. rewrite Hst1.
  rewrite (recv_S_TLV_TABLE_REQUESTED_found oh reply map_ _ Hxid1 Hreply
             Hfind Hidx).
  cbn [mbind option_bind].
  remember (set_state S_CLEAR_FLOWS
              (set_mff_ovn_geneve (MFF_TUN_METADATA0 + index map_)
                                  (run_S_NEW s))) as s2 eqn:Hs2.
  assert (Hst2 : state s2 = S_CLEAR_FLOWS) by (subst s2; by destruct s).
  assert (Hmff2 : mff_ovn_geneve s2 = MFF_TUN_METADATA0 + index map_)
    by (subst s2; by destruct s).
  assert (Htxq2 : txq (swconn s2)
                  = txq (swconn s)
                    ++ [ {| msg_xid := next_xid (swconn s);
                            msg_body := NXT_TLV_TABLE_REQUEST |} ])
    by (subst s2; by destruct s).
  assert (Hwf2 : installed_wf s2).
  { eapply installed_wf_same; [|done]. subst s2.
    destruct s; repeat split. by apply prefix_app_r. }
  clear Hs2.
  rewrite Hst2. rewrite bool_decide_eq_true_2 by done. cbn [orb].
  (* second round: the flows are cleared *)
  destruct (run_S_CLEAR_FLOWS_state s2 Hwf2)
    as (s3 & Hclear & Hl & Hq & _ & Hst3 & Hneed & Hmff & _ & Htxq).
  rewrite ofctrl_run_loop_S. cbn zeta. unfold run_state at 1.
  rewrite Hst2, Hclear. cbn [mbind option_bind head tail default from_option id].
  rewrite Hst3. rewrite bool_decide_eq_true_2 by done. cbn [orb].
  (* third round: nothing to do *)
  rewrite ofctrl_run_loop_S. cbn zeta. unfold run_state at 1. rewrite Hst3.
  cbn [mbind option_bind head tail default from_option id].
  rewrite bool_decide_eq_false_2 by (by intros ?).
  rewrite bool_decide_eq_false_2 by (by intros ?). cbn [orb].
  exists s3. split; [done|]. split; [done|]. split; [congruence|].
  split; [done|]. split; [done|]. split; [done|].
  rewrite Htxq, Htxq2. by rewrite fmap_app, <- app_assoc.
Qed.

(** X5.  The negotiation in one call.  After a reconnection, when the switch
    answers the TLV table request with a table that maps the option of OVN
    to a slot below 64, one call of [ofctrl_run] goes from S_NEW to
    S_UPDATE_FLOWS: it sends the request and the three delete-all messages,
    the field id of the slot is what [ofctrl_get_mf_field_id] returns, the
    installed flows and the flow updates are empty, a reinstall is pending,
    and no wake-up is asked for. *)
Theorem ofctrl_run_negotiates (input : rconn_input) (oh : ofp_header)
    (reply : list ofputil_tlv_map) (map_ : ofputil_tlv_map)
    (pending_ct_zones : gmap string ct_zone_pending_entry) (seqno : Z)
    (s : ofctrl) :
  installed_wf s →
  connected input = true →
  seqno ≠ connection_seqno input →
  rx input = [Some (oh, Some OFPTYPE_NXT_TLV_TABLE_REPLY)] →
  oh_xid oh = next_xid (swconn s) →
  oh_tlv_table_reply oh = Some reply →
  find is_ovn_geneve reply = Some map_ →
  index map_ < TUN_METADATA_NUM_OPTS →
  ∃ r,
    ofctrl_run input pending_ct_zones seqno s = Some r
    ∧ run_wake r = false ∧ run_rx r = []
    ∧ state (run_engine r) = S_UPDATE_FLOWS
    ∧ ofctrl_get_mf_field_id true (run_engine r)
      = MFF_TUN_METADATA0 + index map_
    ∧ installed_flows (run_engine r) = []
    ∧ flow_updates (run_engine r) = []
    ∧ need_reinstall_flows (run_engine r) = true
    ∧ msg_body <$> txq (swconn (run_engine r))
      = (msg_body <$> txq (swconn s))
        ++ [ NXT_TLV_TABLE_REQUEST;
             OFPT_FLOW_MOD
               {| fm_match := minimatch_catchall; fm_priority := 0;
                  fm_table_id := OFPTT_ALL; fm_ofpacts := [];
                  fm_new_cookie := 0; fm_modify_cookie := false;
                  fm_command := OFPFC_DELETE; fm_buffer_id := UINT32_MAX;
                  fm_out_port := OFPP_ANY; fm_out_group := OFPG_ANY |};
             OFPT_GROUP_MOD
               {| gm_command := OFPGC11_DELETE; gm_group_id := OFPG_ALL;
                  gm_command_bucket_id := OFPG15_BUCKET_ALL;
                  gm_buckets := [] |};
             OFPT_METER_MOD
               {| mm_command := OFPMC13_DELETE; mm_meter_id := OFPM13_ALL;
                  mm_flags := 0; mm_bands := [] |} ].
Proof.
  intros Hwf Hc Hseq Hrx Hxid Hreply Hfind Hidx.
  unfold ofctrl_run. rewrite Hc, Hrx. cbn [negb].
  rewrite bool_decide_eq_true_2 by done.
  destruct (ofctrl_run_loop_negotiates 47 oh reply map_
              (ct_zone_resend <$> pending_ct_zones) (connection_seqno input)
              (set_state S_NEW s))
    as (s' & Hrun & Hst & Hmff & Hl & Hq & Hneed & Htxq); try done.
  { eapply installed_wf_same; [|done]. by destruct s. }
  { by destruct s. }
  { by destruct s. }
  eexists. split; [exact Hrun|]. cbn.
  split; [done|]. split; [done|]. split; [done|]. split.
  { unfold ofctrl_get_mf_field_id. rewrite Hst. cbn. done. }
  split; [done|]. split; [done|]. split; [done|].
  rewrite Htxq. by destruct s.
Qed.

(** X6.  In S_TLV_TABLE_MOD_SENT a packet never changes the field id that
    was requested.  A packet with neither of the two outstanding xids leaves
    the state alone.  A barrier reply to the second xid leads to
    S_CLEAR_FLOWS.  Every packet with one of the two xids leads to S_NEW or
    to S_CLEAR_FLOWS and sends nothing: to S_NEW exactly for an error
    ALREADY_MAPPED or DUP_ENTRY on the xid of the table mod (a race with
    another controller, the negotiation starts again). *)
Theorem recv_S_TLV_TABLE_MOD_SENT_cases (oh : ofp_header) (type : ofptype)
    (s : ofctrl) :
  let s' := recv_S_TLV_TABLE_MOD_SENT oh type s in
  mff_ovn_geneve s' = mff_ovn_geneve s
  ∧ (oh_xid oh ≠ xid s → oh_xid oh ≠ xid2 s →
     state s' = state s ∧ (type ≠ OFPTYPE_ECHO_REQUEST → s' = s))
  ∧ (oh_xid oh = xid2 s → type = OFPTYPE_BARRIER_REPLY →
     s' = set_state S_CLEAR_FLOWS s)
  ∧ (oh_xid oh = xid s ∨ oh_xid oh = xid2 s →
     (state s' = S_NEW ∨ state s' = S_CLEAR_FLOWS)
     ∧ txq (swconn s') = txq (swconn s)
     ∧ (state s' = S_NEW ↔
        oh_xid oh = xid s ∧ type = OFPTYPE_ERROR
        ∧ (oh_error oh = OFPERR_NXTTMFC_ALREADY_MAPPED
           ∨ oh_error oh = OFPERR_NXTTMFC_DUP_ENTRY))).
Proof.
  cbn zeta. unfold recv_S_TLV_TABLE_MOD_SENT, ofctrl_recv.
  destruct s as [c st fu cc x x2 tc ifl g mt mff nr sk onb mm].
  cbn [xid xid2 mff_ovn_geneve state swconn].
  destruct (Z.eqb_spec (oh_xid oh) x) as [Hx|Hx];
    destruct (Z.eqb_spec (oh_xid oh) x2) as [Hx2|Hx2];
    destruct type; destruct (oh_error oh) eqn:He; cbn;
    intuition (try congruence; try done).
Qed.

(** ** What [ofctrl_put] sends *)

Lemma quiet_refl (s : ofctrl) : quiet s s.
Proof. by repeat split. Qed.

Lemma quiet_trans (s1 s2 s3 : ofctrl) :
  quiet s1 s2 → quiet s2 s3 → quiet s1 s3.
Proof.
  intros (? & ? & ? & ? & ? & ?) (? & ? & ? & ? & ? & ?).
  repeat split; congruence.
Qed.

Lemma collects_refl (acc : list ofpbuf * ofctrl) : collects acc acc.
Proof. split; [done|apply quiet_refl]. Qed.

Lemma collects_trans (a1 a2 a3 : list ofpbuf * ofctrl) :
  collects a1 a2 → collects a2 a3 → collects a1 a3.
Proof.
  intros [? ?] [? ?]. split; [by etrans|by eapply quiet_trans].
Qed.

Lemma add_msg_collects (body : ofp_msg) (acc : list ofpbuf * ofctrl) :
  collects acc (add_msg body acc)
  ∧ msg_body <$> (add_msg body acc).1 = (msg_body <$> acc.1) ++ [body].
Proof.
  destruct acc as [msgs s]. destruct s. cbn. split.
  - split; [by apply prefix_app_r|by repeat split].
  - by rewrite fmap_app.
Qed.

Lemma with_mem_quiet (f : memory → option memory) (s s' : ofctrl) :
  with_mem f s = Some s' →
  quiet s s' ∧ installed_flows s' = installed_flows s.
Proof.
  unfold with_mem. destruct (f (mem s)); [|done]. intros [= <-].
  by destruct s.
Qed.

Lemma for_each_collects {A : Type} (l : list A)
    (body : A → list ofpbuf * ofctrl → option (list ofpbuf * ofctrl)) :
  (∀ x acc acc', body x acc = Some acc' → collects acc acc') →
  ∀ acc acc', for_each l body acc = Some acc' → collects acc acc'.
Proof.
  intros Hbody. induction l as [|x l IH]; intros acc acc'.
  - intros [= <-]. apply collects_refl.
  - rewrite for_each_cons. destruct (body x acc) as [acc1|] eqn:Hx; [|done].
    cbn. intros Hrest. eapply collects_trans; [by eapply Hbody|by apply IH].
Qed.

Lemma foldl_collects {A : Type}
    (f : list ofpbuf * ofctrl → A → list ofpbuf * ofctrl) (l : list A) :
  (∀ acc x, collects acc (f acc x)) →
  ∀ acc, collects acc (foldl f acc l).
Proof.
  intros Hf. induction l as [|x l IH]; intros acc; [apply collects_refl|].
  cbn [foldl]. eapply collects_trans; [apply Hf|apply IH].
Qed.

Lemma put_installed_flow_collects (flow_table : ovn_desired_flow_table)
    (i : ptr) (acc acc' : list ofpbuf * ofctrl) :
  put_installed_flow flow_table i acc = Some acc' → collects acc acc'.
Proof.
  destruct acc as [msgs s]. unfold put_installed_flow.
  destruct (with_mem (unlink_all_refs_for_installed_flow i) s)
    as [s1|] eqn:H1; [|done]. cbn [mbind option_bind].
  apply with_mem_quiet in H1 as [Hq1 _].
  destruct (installed_at (mem s1) !! i) as [fi|]; [|done].
  cbn [mbind option_bind].
  destruct (desired_flow_lookup flow_table (i_flow fi) None (mem s1))
    as [[d|]|]; [| |done]; cbn [mbind option_bind].
  - destruct (desired_at (mem s1) !! d) as [fd|]; [|done].
    cbn [mbind option_bind].
    destruct (negb (ofpacts_equal (ofpacts (i_flow fi)) (ofpacts (d_flow fd)))
              || negb (cookie (i_flow fi) =? cookie (d_flow fd))).
    + unfold installed_flow_mod. cbn [snd].
      destruct (installed_at (mem s1) !! i) as [fi'|]; [|done].
      cbn [mbind option_bind].
      match goal with
      | |- context [add_flow_mod ?fm (msgs, s1)] =>
          destruct (add_msg_collects (encode_flow_mod fm) (msgs, s1))
            as [Hc _];
          change (add_msg (encode_flow_mod fm) (msgs, s1))
            with (add_flow_mod fm (msgs, s1)) in Hc;
          destruct (add_flow_mod fm (msgs, s1)) as [msgs2 s2]
      end.
      cbn [mbind option_bind].
      match goal with
      | |- context [with_mem ?f ?s3] =>
          destruct (with_mem f s3) as [s4|] eqn:H4; [|done]
      end.
      apply with_mem_quiet in H4 as [Hq4 _].
      intros [= <-]. destruct Hc as [Hp Hq2]. cbn [fst snd] in *.
      split; [done|]. cbn [snd].
      eapply quiet_trans; [exact Hq1|]. eapply quiet_trans; [exact Hq2|].
      eapply quiet_trans; [|exact Hq4]. by destruct s2.
    + cbn [mbind option_bind].
      destruct (with_mem (link_installed_to_desired i d) s1)
        as [s4|] eqn:H4; [|done].
      apply with_mem_quiet in H4 as [Hq4 _]. intros [= <-].
      split; [done|]. cbn [snd]. by eapply quiet_trans.
  - unfold installed_flow_del.
    match goal with
    | |- context [add_flow_mod ?fm (msgs, s1)] =>
        destruct (add_msg_collects (encode_flow_mod fm) (msgs, s1))
          as [Hc _];
        change (add_msg (encode_flow_mod fm) (msgs, s1))
          with (add_flow_mod fm (msgs, s1)) in Hc;
        destruct (add_flow_mod fm (msgs, s1)) as [msgs2 s2]
    end.
    match goal with
    | |- context [with_mem ?f ?s3] =>
        destruct (with_mem f s3) as [s4|] eqn:H4; [|done]
    end.
    apply with_mem_quiet in H4 as [Hq4 _]. cbn [mbind option_bind].
    intros [= <-]. destruct Hc as [Hp Hq2]. cbn [fst snd] in *.
    split; [done|]. cbn [snd].
    eapply quiet_trans; [exact Hq1|]. eapply quiet_trans; [exact Hq2|].
    eapply quiet_trans; [|exact Hq4]. by destruct s2.
Qed.

Lemma put_desired_flow_collects (d : ptr)
    (acc acc' : list ofpbuf * ofctrl) :
  put_desired_flow d acc = Some acc' → collects acc acc'.
Proof.
  destruct acc as [msgs s]. unfold put_desired_flow.
  destruct (desired_at (mem s) !! d) as [fd|]; [|done].
  cbn [mbind option_bind].
  destruct (installed_flow_lookup (d_flow fd) s) as [[i|]|]; [| |done];
    cbn [mbind option_bind].
  - destruct (with_mem (link_installed_to_desired i d) s)
      as [s4|] eqn:H4; [|done].
    apply with_mem_quiet in H4 as [Hq4 _]. intros [= <-]. by split.
  - unfold installed_flow_add.
    match goal with
    | |- context [add_flow_mod ?fm (msgs, s)] =>
        destruct (add_msg_collects (encode_flow_mod fm) (msgs, s))
          as [Hc _];
        change (add_msg (encode_flow_mod fm) (msgs, s))
          with (add_flow_mod fm (msgs, s)) in Hc;
        destruct (add_flow_mod fm (msgs, s)) as [msgs2 s2]
    end.
    destruct (installed_flow_dup d (mem s2)) as [[i m]|]; [|done].
    cbn [mbind option_bind].
    match goal with
    | |- context [with_mem ?f ?s3] =>
        destruct (with_mem f s3) as [s4|] eqn:H4; [|done]
    end.
    apply with_mem_quiet in H4 as [Hq4 _]. cbn [mbind option_bind].
    intros [= <-]. destruct Hc as [Hp Hq2]. cbn [fst snd] in *.
    split; [done|]. cbn [snd].
    eapply quiet_trans; [exact Hq2|].
    eapply quiet_trans; [|exact Hq4]. by destruct s2.
Qed.

Lemma put_group_add_collects (desired : ovn_extend_table_info)
    (acc : list ofpbuf * ofctrl) :
  collects acc (put_group_add desired acc).
Proof.
  unfold put_group_add. destruct (parse_ofp_group_mod_str _ _).
  - apply add_msg_collects.
  - apply collects_refl.
Qed.

Lemma put_group_del_collects (installed : ovn_extend_table_info)
    (acc : list ofpbuf * ofctrl) :
  collects acc (put_group_del installed acc).
Proof.
  unfold put_group_del. destruct (parse_ofp_group_mod_str _ _).
  - apply add_msg_collects.
  - apply collects_refl.
Qed.

Lemma put_meter_add_collects (meter_table : list sbrec_meter)
    (m_desired : ovn_extend_table_info) (acc : list ofpbuf * ofctrl) :
  collects acc (put_meter_add meter_table m_desired acc).
Proof.
  unfold put_meter_add, add_meter_string, add_meter.
  destruct (String.prefix _ _).
  - destruct (parse_ofp_meter_mod_str _ _); [apply add_msg_collects|].
    apply collects_refl.
  - destruct (find _ _); [apply add_msg_collects|]. apply collects_refl.
Qed.

(** The loop over the conntrack zones sends the flush of every zone that
    waits for one. *)
Lemma ct_flush_collects (l : list (string * ct_zone_pending_entry)) :
  ∀ acc,
    let acc' :=
      foldl (λ (acc : list ofpbuf * ofctrl)
               (kv : string * ct_zone_pending_entry),
               if bool_decide (ctzpe_state kv.2 = CT_ZONE_OF_QUEUED)
               then add_ct_flush_zone (uint16_t (zone kv.2)) acc
               else acc) acc l in
    collects acc acc'
    ∧ ∀ kv, kv ∈ l → ctzpe_state kv.2 = CT_ZONE_OF_QUEUED →
            NXT_CT_FLUSH_ZONE (uint16_t (zone kv.2)) ∈ msg_body <$> acc'.1.
Proof.
  induction l as [|kv l IH]; intros acc; cbn zeta.
  - split; [apply collects_refl|]. by intros kv ?%not_elem_of_nil.
  - cbn [foldl].
    set (acc1 := if bool_decide (ctzpe_state kv.2 = CT_ZONE_OF_QUEUED)
                 then add_ct_flush_zone (uint16_t (zone kv.2)) acc
                 else acc).
    destruct (IH acc1) as [Hc Hin].
    assert (Hc1 : collects acc acc1).
    { unfold acc1. case_bool_decide; [apply add_msg_collects|].
      apply collects_refl. }
    split; [by eapply collects_trans|].
    intros kv' [->|Hl]%elem_of_cons Hq; [|by apply Hin].
    destruct Hc as [[more Hmore] _]. rewrite Hmore, fmap_app.
    apply elem_of_app. left. unfold acc1.
    rewrite bool_decide_eq_true_2 by done.
    destruct (add_msg_collects (NXT_CT_FLUSH_ZONE (uint16_t (zone kv.2)))
                acc) as [_ Hbody].
    unfold add_ct_flush_zone. rewrite Hbody. apply elem_of_app. right.
    by apply list_elem_of_singleton.
Qed.

Lemma put_messages_collects (flow_table : ovn_desired_flow_table)
    (pending_ct_zones : gmap string ct_zone_pending_entry)
    (meter_table : list sbrec_meter) (s s' : ofctrl)
    (msgs : list ofpbuf)
    (pending_ct_zones' : gmap string ct_zone_pending_entry) :
  put_messages flow_table pending_ct_zones meter_table s
  = Some (msgs, s', pending_ct_zones') →
  quiet s s'
  ∧ pending_ct_zones' = ct_zone_flush <$> pending_ct_zones
  ∧ ∀ k ctzpe, pending_ct_zones !! k = Some ctzpe →
               ctzpe_state ctzpe = CT_ZONE_OF_QUEUED →
               NXT_CT_FLUSH_ZONE (uint16_t (zone ctzpe))
               ∈ msg_body <$> msgs.
Proof.
  unfold put_messages.
  destruct (ct_flush_collects (map_to_list pending_ct_zones) ([], s))
    as [Hc1 Hflush]. cbn zeta in Hc1, Hflush.
  match type of Hc1 with
  | collects _ ?a => set (acc1 := a) in *
  end.
  destruct (groups acc1.2) as [gs|]; [|done]. cbn [mbind option_bind].
  match goal with
  | |- context [foldl ?f acc1 (extend_table_uninstalled gs)] =>
      pose proof (foldl_collects f (extend_table_uninstalled gs)
                    (λ a x, put_group_add_collects x a) acc1) as Hc2;
      set (acc2 := foldl f acc1 (extend_table_uninstalled gs)) in *
  end.
  destruct (meters acc2.2) as [ms|]; [|done]. cbn [mbind option_bind].
  match goal with
  | |- context [foldl ?f acc2 (extend_table_uninstalled ms)] =>
      pose proof (foldl_collects f (extend_table_uninstalled ms)
                    (λ a x, put_meter_add_collects meter_table x a) acc2)
        as Hc3;
      set (acc3 := foldl f acc2 (extend_table_uninstalled ms)) in *
  end.
  destruct (for_each (installed_flows acc3.2)
              (put_installed_flow flow_table) acc3) as [acc4|] eqn:H4;
    [|done].
  apply for_each_collects in H4 as Hc4;
    [|intros ???; apply put_installed_flow_collects].
  cbn [mbind option_bind].
  destruct (for_each (match_flow_table flow_table) put_desired_flow acc4)
    as [acc5|] eqn:H5; [|done].
  apply for_each_collects in H5 as Hc5;
    [|intros ???; apply put_desired_flow_collects].
  cbn [mbind option_bind].
  match goal with
  | |- context [foldl ?f acc5 (extend_table_installed gs)] =>
      pose proof (foldl_collects f (extend_table_installed gs)
                    (λ a x, put_group_del_collects x a) acc5) as Hc6;
      set (acc6 := foldl f acc5 (extend_table_installed gs)) in *
  end.
  match goal with
  | |- context [foldl ?f acc6 (extend_table_installed ms)] =>
      pose proof (foldl_collects f (extend_table_installed ms)
                    (λ a x, proj1 (add_msg_collects _ a)) acc6) as Hc7;
      set (acc7 := foldl f acc6 (extend_table_installed ms)) in *
  end.
  intros [= <- <- <-].
  assert (Hall : collects ([], s) acc7).
  { repeat (eapply collects_trans; [eassumption|]). apply collects_refl. }
  assert (H17 : collects acc1 acc7).
  { repeat (eapply collects_trans; [eassumption|]). apply collects_refl. }
  split; [|split; [done|]].
  - eapply quiet_trans; [apply Hall|]. by destruct (acc7.2).
  - intros k ctzpe Hk Hq. destruct H17 as [[more ->] _].
    rewrite fmap_app. apply elem_of_app. left.
    apply (Hflush (k, ctzpe)); [|done]. by apply elem_of_map_to_list.
Qed.

Lemma foldl_queue_msg_eq (msgs : list ofpbuf) :
  ∀ s,
    let s' := foldl (λ s msg, (queue_msg msg s).2) s msgs in
    txq (swconn s') = txq (swconn s) ++ msgs
    ∧ tx_counter s' = tx_counter s + Z.of_nat (length msgs)
    ∧ flow_updates s' = flow_updates s
    ∧ cur_cfg s' = cur_cfg s.
Proof.
  induction msgs as [|msg msgs IH]; intros s; cbn zeta.
  - cbn. rewrite app_nil_r. repeat split; lia.
  - cbn [foldl]. destruct (IH (queue_msg msg s).2) as (-> & -> & -> & ->).
    destruct s. cbn. rewrite <- app_assoc. repeat split. lia.
Qed.

Lemma track_flow_update_head (l : list ofctrl_flow_update)
    (nb_cfg xid_ : Z) :
  head (track_flow_update l nb_cfg xid_)
  = Some {| fup_xid := xid_; fup_nb_cfg := nb_cfg |}.
Proof.
  induction l as [|fup prev IH]; [done|]. cbn [track_flow_update].
  destruct (nb_cfg <? fup_nb_cfg fup); [done|].
  destruct (Z.eqb_spec nb_cfg (fup_nb_cfg fup)) as [->|]; done.
Qed.

(** The end of [ofctrl_put] when there are messages: they are queued in
    order behind what was queued, with a barrier at the end, and the newest
    flow update is the one of the barrier. *)
Lemma put_track_sends (msgs : list ofpbuf) (nb_cfg : Z)
    (pending_ct_zones : gmap string ct_zone_pending_entry) (s : ofctrl) :
  msgs ≠ [] →
  let r := put_track msgs nb_cfg pending_ct_zones s in
  let barrier := {| msg_xid := next_xid (swconn s);
                    msg_body := OFPT_BARRIER_REQUEST |} in
  txq (swconn r.1) = txq (swconn s) ++ msgs ++ [barrier]
  ∧ tx_counter r.1 = tx_counter s + Z.of_nat (length msgs) + 1
  ∧ last (flow_updates r.1)
    = Some {| fup_xid := next_xid (swconn s); fup_nb_cfg := nb_cfg |}
  ∧ cur_cfg r.1 = cur_cfg s
  ∧ r.2 = ct_zone_store_xid (next_xid (swconn s)) <$> pending_ct_zones.
Proof.
  intros Hmsgs. cbn zeta. unfold put_track.
  rewrite bool_decide_eq_false_2 by done. cbn [negb].
  destruct (ofpbuf_new OFPT_BARRIER_REQUEST s) as [barrier s1] eqn:Hb.
  assert (barrier = {| msg_xid := next_xid (swconn s);
                       msg_body := OFPT_BARRIER_REQUEST |}
          ∧ txq (swconn s1) = txq (swconn s)
          ∧ tx_counter s1 = tx_counter s
          ∧ flow_updates s1 = flow_updates s ∧ cur_cfg s1 = cur_cfg s)
    as (-> & Ht & Hc & Hq & Hcur).
  { destruct s. cbn in Hb. by injection Hb as <- <-. }
  cbn [fst snd msg_xid].
  destruct (foldl_queue_msg_eq
              (msgs ++ [ {| msg_xid := next_xid (swconn s);
                            msg_body := OFPT_BARRIER_REQUEST |} ]) s1)
    as (Ht' & Hc' & Hq' & Hcur').
  set (s2 := foldl (λ s msg, (queue_msg msg s).2) s1
               (msgs ++ [ {| msg_xid := next_xid (swconn s);
                             msg_body := OFPT_BARRIER_REQUEST |} ])) in *.
  replace (swconn (set_flow_updates _ s2)) with (swconn s2)
    by (by destruct s2).
  replace (tx_counter (set_flow_updates _ s2)) with (tx_counter s2)
    by (by destruct s2).
  replace (cur_cfg (set_flow_updates _ s2)) with (cur_cfg s2)
    by (by destruct s2).
  replace (flow_updates (set_flow_updates _ s2))
    with (reverse (track_flow_update (reverse (flow_updates s2)) nb_cfg
                                     (next_xid (swconn s))))
    by (by destruct s2).
  rewrite Ht', Hc', Hcur', Ht, Hc, Hcur, length_app, last_reverse,
    track_flow_update_head. cbn [length].
  repeat split. lia.
Qed.

Lemma ofctrl_can_put_tx (s : ofctrl) :
  ofctrl_can_put s = true → tx_counter s = 0 ∧ state s = S_UPDATE_FLOWS.
Proof.
  unfold ofctrl_can_put. case_bool_decide as Hst; [done|].
  destruct (Z.eqb_spec (tx_counter s) 0); [|done]. intros _.
  split; [done|]. by destruct (decide (state s = S_UPDATE_FLOWS)).
Qed.

(** What [ofctrl_put] does once it is past its two gates. *)
Lemma ofctrl_put_past_gates (flow_table : ovn_desired_flow_table)
    (pending_ct_zones : gmap string ct_zone_pending_entry)
    (meter_table : list sbrec_meter) (nb_cfg : Z) (flow_changed : bool)
    (s : ofctrl) :
  ofctrl_can_put s = true →
  (put_needed nb_cfg flow_changed s).1 = true →
  engine_wf flow_table s →
  ∃ msgs s1,
    put_messages flow_table pending_ct_zones meter_table
      (set_need_reinstall_flows false
         (set_skipped_last_time false (set_old_nb_cfg nb_cfg s)))
    = Some (msgs, s1, ct_zone_flush <$> pending_ct_zones)
    ∧ ofctrl_put flow_table pending_ct_zones meter_table nb_cfg
                 flow_changed s
      = Some (put_track msgs nb_cfg (ct_zone_flush <$> pending_ct_zones) s1)
    ∧ quiet s s1
    ∧ ∀ k ctzpe, pending_ct_zones !! k = Some ctzpe →
                 ctzpe_state ctzpe = CT_ZONE_OF_QUEUED →
                 NXT_CT_FLUSH_ZONE (uint16_t (zone ctzpe))
                 ∈ msg_body <$> msgs.
Proof.
  intros Hcan Hneed Hwf. unfold ofctrl_put.
  rewrite (put_needed_fst _ _ _ Hneed). cbn [negb].
  replace (ofctrl_can_put (set_old_nb_cfg nb_cfg s)) with true
    by (by destruct s). cbn [negb].
  set (s0 := set_need_reinstall_flows false
               (set_skipped_last_time false (set_old_nb_cfg nb_cfg s))).
  assert (Hwf0 : engine_wf flow_table s0) by (by destruct s).
  assert (Hq0 : quiet s s0) by (by destruct s).
  destruct (put_messages_reconciles flow_table pending_ct_zones meter_table
              s0 Hwf0) as (msgs & s1 & zones1 & Hmsgs & _).
  destruct (put_messages_collects _ _ _ _ _ _ _ Hmsgs) as (Hq & -> & Hflush).
  exists msgs, s1. rewrite Hmsgs. cbn [mbind option_bind].
  split; [done|]. split; [done|]. split; [by eapply quiet_trans|done].
Qed.

Lemma ofctrl_put_skipped_eq (flow_table : ovn_desired_flow_table)
    (pending_ct_zones : gmap string ct_zone_pending_entry)
    (meter_table : list sbrec_meter) (nb_cfg : Z) (flow_changed : bool)
    (s : ofctrl) :
  (put_needed nb_cfg flow_changed s).1 = true →
  ofctrl_can_put s = false →
  ofctrl_put flow_table pending_ct_zones meter_table nb_cfg flow_changed s
  = Some (set_skipped_last_time true (set_old_nb_cfg nb_cfg s),
          pending_ct_zones).
Proof.
  intros Hneed Hcan. unfold ofctrl_put.
  rewrite (put_needed_fst _ _ _ Hneed). cbn [negb].
  by replace (ofctrl_can_put (set_old_nb_cfg nb_cfg s)) with false
    by (by destruct s).
Qed.

(** X7.  A put that is needed while [ofctrl_can_put] is false is skipped:
    nothing is sent and neither the installed flows nor the tracking of the
    updates change.  The skip is remembered: the next call of [ofctrl_put]
    finds a put needed whatever its [nb_cfg] and [flow_changed] are. *)
Theorem ofctrl_put_skipped_retried (flow_table : ovn_desired_flow_table)
    (pending_ct_zones : gmap string ct_zone_pending_entry)
    (meter_table : list sbrec_meter) (nb_cfg : Z) (flow_changed : bool)
    (s : ofctrl) :
  (put_needed nb_cfg flow_changed s).1 = true →
  ofctrl_can_put s = false →
  ∃ s',
    ofctrl_put flow_table pending_ct_zones meter_table nb_cfg flow_changed s
    = Some (s', pending_ct_zones)
    ∧ swconn s' = swconn s ∧ tx_counter s' = tx_counter s
    ∧ installed_flows s' = installed_flows s ∧ mem s' = mem s
    ∧ cur_cfg s' = cur_cfg s ∧ flow_updates s' = flow_updates s
    ∧ ∀ nb_cfg' flow_changed',
        (put_needed nb_cfg' flow_changed' s').1 = true.
Proof.
  intros Hneed Hcan.
  rewrite (ofctrl_put_skipped_eq _ _ _ _ _ _ Hneed Hcan).
  eexists. split; [done|]. destruct s. cbn. repeat split.
  intros nb' fc'. unfold put_needed. cbn. by rewrite orb_true_r.
Qed.

(** X8.  What a put that goes through sends.  The messages are queued
    behind what the connection holds and the in-flight counter is their
    number.  When there are any, the last one is a barrier request, and the
    newest flow update carries the xid of that barrier and [nb_cfg];
    [cur_cfg] is unchanged.  When there is none, [nb_cfg] is recorded at
    once: in [cur_cfg] when no update is in flight, in the newest update in
    flight otherwise, whose xid stays. *)
Theorem ofctrl_put_batch (flow_table : ovn_desired_flow_table)
    (pending_ct_zones : gmap string ct_zone_pending_entry)
    (meter_table : list sbrec_meter) (nb_cfg : Z) (flow_changed : bool)
    (s : ofctrl) :
  ofctrl_can_put s = true →
  (put_needed nb_cfg flow_changed s).1 = true →
  engine_wf flow_table s →
  ∃ s' pending_ct_zones' sent,
    ofctrl_put flow_table pending_ct_zones meter_table nb_cfg flow_changed s
    = Some (s', pending_ct_zones')
    ∧ txq (swconn s') = txq (swconn s) ++ sent
    ∧ tx_counter s' = Z.of_nat (length sent)
    ∧ (sent ≠ [] →
       ∃ x, last sent = Some {| msg_xid := x;
                                msg_body := OFPT_BARRIER_REQUEST |}
            ∧ last (flow_updates s')
              = Some {| fup_xid := x; fup_nb_cfg := nb_cfg |}
            ∧ cur_cfg s' = cur_cfg s)
    ∧ (sent = [] →
       if bool_decide (flow_updates s = [])
       then cur_cfg s' = nb_cfg ∧ flow_updates s' = []
       else fup_nb_cfg <$> last (flow_updates s') = Some nb_cfg
            ∧ fup_xid <$> flow_updates s' = fup_xid <$> flow_updates s
            ∧ cur_cfg s' = cur_cfg s).
Proof.
  intros Hcan Hneed Hwf.
  destruct (ofctrl_put_past_gates flow_table pending_ct_zones meter_table
              nb_cfg flow_changed s Hcan Hneed Hwf)
    as (msgs & s1 & _ & -> & (Ht & _ & Hc & Hq & Hcur & _) & _).
  assert (Hc0 : tx_counter s = 0).
  { by apply ofctrl_can_put_tx in Hcan as [? _]. }
  destruct (decide (msgs = [])) as [->|Hmsgs].
  - (* nothing to send *)
    exists (put_track [] nb_cfg (ct_zone_flush <$> pending_ct_zones) s1).1,
      (put_track [] nb_cfg (ct_zone_flush <$> pending_ct_zones) s1).2, [].
    split; [by destruct (put_track _ _ _ _)|].
    unfold put_track. rewrite bool_decide_eq_true_2 by done. cbn [negb].
    rewrite Hq. case_bool_decide as Hempty; cbn [negb fst].
    + split; [rewrite app_nil_r, <- Ht; by destruct s1|].
      split; [transitivity (tx_counter s1); [by destruct s1|by rewrite Hc]|].
      split; [done|].
      intros _. rewrite <- Hempty, <- Hq. by destruct s1.
    + split; [rewrite app_nil_r, <- Ht; by destruct s1|].
      split; [transitivity (tx_counter s1); [by destruct s1|by rewrite Hc]|].
      split; [done|].
      intros _.
      replace (flow_updates (set_flow_updates _ s1))
        with (match reverse (flow_updates s) with
              | fup :: prev =>
                  reverse ({| fup_xid := fup_xid fup; fup_nb_cfg := nb_cfg |}
                           :: prev)
              | [] => []
              end) by (by destruct s1).
      replace (cur_cfg (set_flow_updates _ s1)) with (cur_cfg s)
        by (by destruct s1).
      destruct (reverse (flow_updates s)) as [|fup prev] eqn:Hrev.
      { apply (f_equal reverse) in Hrev.
        by rewrite reverse_involutive in Hrev. }
      apply (f_equal reverse) in Hrev. rewrite reverse_involutive in Hrev.
      rewrite Hrev, !reverse_cons, last_snoc, !fmap_app. done.
  - (* a batch, with its barrier *)
    destruct (put_track_sends msgs nb_cfg (ct_zone_flush <$> pending_ct_zones)
                s1 Hmsgs) as (Ht' & Hc' & Hlast & Hcur' & _).
    destruct (put_track msgs nb_cfg (ct_zone_flush <$> pending_ct_zones) s1)
      as [s' zones'].
    cbn [fst snd] in *.
    exists s', zones',
      (msgs ++ [ {| msg_xid := next_xid (swconn s1);
                    msg_body := OFPT_BARRIER_REQUEST |} ]).
    split; [done|]. split; [by rewrite Ht', Ht|].
    split; [rewrite Hc', Hc, Hc0, length_app; cbn; lia|]. split.
    + intros _. exists (next_xid (swconn s1)).
      split; [by rewrite last_snoc|]. split; [done|congruence].
    + intros Hnil. by apply app_eq_nil in Hnil as [_ ?].
Qed.

(** X9.  The life of a conntrack flush.  A pending zone in OF_QUEUED is
    flushed by the next put that goes through: the flush message for its
    zone, converted to [uint16_t] as [add_ct_flush_zone] takes it, is sent,
    the batch ends with a barrier, and the entry is in OF_SENT with the xid
    of that barrier.  The reply to the barrier then moves the entry to
    DB_QUEUED. *)
Theorem ofctrl_put_ct_flush (flow_table : ovn_desired_flow_table)
    (pending_ct_zones : gmap string ct_zone_pending_entry)
    (meter_table : list sbrec_meter) (nb_cfg : Z) (flow_changed : bool)
    (s : ofctrl) (k : string) (ctzpe : ct_zone_pending_entry) :
  ofctrl_can_put s = true →
  (put_needed nb_cfg flow_changed s).1 = true →
  engine_wf flow_table s →
  pending_ct_zones !! k = Some ctzpe →
  ctzpe_state ctzpe = CT_ZONE_OF_QUEUED →
  ∃ s' pending_ct_zones' x,
    ofctrl_put flow_table pending_ct_zones meter_table nb_cfg flow_changed s
    = Some (s', pending_ct_zones')
    ∧ NXT_CT_FLUSH_ZONE (uint16_t (zone ctzpe))
      ∈ msg_body <$> txq (swconn s')
    ∧ last (txq (swconn s'))
      = Some {| msg_xid := x; msg_body := OFPT_BARRIER_REQUEST |}
    ∧ pending_ct_zones' !! k
      = Some {| zone := zone ctzpe; of_xid := x;
                ctzpe_state := CT_ZONE_OF_SENT |}
    ∧ ∀ oh, oh_xid oh = x →
            (recv_S_UPDATE_FLOWS oh OFPTYPE_BARRIER_REPLY pending_ct_zones'
                                 s').2 !! k
            = Some {| zone := zone ctzpe; of_xid := x;
                      ctzpe_state := CT_ZONE_DB_QUEUED |}.
Proof.
  intros Hcan Hneed Hwf Hk Hqueued.
  destruct (ofctrl_put_past_gates flow_table pending_ct_zones meter_table
              nb_cfg flow_changed s Hcan Hneed Hwf)
    as (msgs & s1 & _ & -> & _ & Hflush).
  specialize (Hflush k ctzpe Hk Hqueued).
  assert (Hmsgs : msgs ≠ []).
  { intros ->. by apply not_elem_of_nil in Hflush. }
  destruct (put_track_sends msgs nb_cfg (ct_zone_flush <$> pending_ct_zones)
              s1 Hmsgs) as (Ht' & _ & Hlast & _ & Hz).
  destruct (put_track msgs nb_cfg (ct_zone_flush <$> pending_ct_zones) s1)
    as [s' zones'].
  cbn [fst snd] in *. exists s', zones', (next_xid (swconn s1)).
  split; [done|]. split.
  { rewrite Ht', !fmap_app. apply elem_of_app. right.
    apply elem_of_app. by left. }
  split; [by rewrite Ht', app_assoc, last_snoc|].
  assert (Hk' : zones' !! k
                = Some {| zone := zone ctzpe; of_xid := next_xid (swconn s1);
                          ctzpe_state := CT_ZONE_OF_SENT |}).
  { rewrite Hz, !lookup_fmap, Hk. cbn. unfold ct_zone_flush.
    rewrite bool_decide_eq_true_2 by done. unfold ct_zone_store_xid. by cbn. }
  split; [done|]. intros oh Hoh. unfold recv_S_UPDATE_FLOWS.
  rewrite bool_decide_eq_true_2 by done.
  rewrite (bool_decide_eq_false_2 (flow_updates s' = [])); last first.
  { intros Hnil. by rewrite Hnil in Hlast. }
  cbn [negb andb snd]. rewrite lookup_fmap, Hk'. cbn.
  by rewrite Hoh, Z.eqb_refl.
Qed.

Lemma nb_cfg_sorted_from_tail_retag (fup : ofctrl_flow_update)
    (prev : list ofctrl_flow_update) (nb_cfg : Z) :
  nb_cfg_sorted_from_tail (fup :: prev) = true →
  fup_nb_cfg fup ≤ nb_cfg →
  nb_cfg_sorted_from_tail
    ({| fup_xid := fup_xid fup; fup_nb_cfg := nb_cfg |} :: prev) = true.
Proof.
  cbn [nb_cfg_sorted_from_tail fup_nb_cfg].
  intros [Hhead ->]%andb_true_iff Hle. rewrite andb_true_r.
  destruct prev as [|older prev]; [done|].
  apply Z.leb_le. apply Z.leb_le in Hhead. lia.
Qed.

Lemma track_flow_update_bound (l : list ofctrl_flow_update)
    (nb_cfg xid_ : Z) :
  (∀ fup, fup ∈ l → fup_nb_cfg fup ≤ nb_cfg) →
  ∀ fup, fup ∈ track_flow_update l nb_cfg xid_ → fup_nb_cfg fup ≤ nb_cfg.
Proof.
  induction l as [|f prev IH]; intros Hall fup; cbn [track_flow_update].
  - intros ->%list_elem_of_singleton. cbn. lia.
  - destruct (nb_cfg <? fup_nb_cfg f).
    { apply IH. intros ??. apply Hall. by right. }
    destruct (nb_cfg =? fup_nb_cfg f).
    + intros [->|?]%elem_of_cons; [cbn; apply Hall; by left|].
      apply Hall. by right.
    + intros [->|?]%elem_of_cons; [cbn; lia|]. by apply Hall.
Qed.

Lemma put_track_bound (msgs : list ofpbuf) (nb_cfg : Z)
    (pending_ct_zones : gmap string ct_zone_pending_entry) (s : ofctrl) :
  msgs ≠ [] →
  (∀ fup, fup ∈ flow_updates s → fup_nb_cfg fup ≤ nb_cfg) →
  ∀ fup, fup ∈ flow_updates (put_track msgs nb_cfg pending_ct_zones s).1 →
         fup_nb_cfg fup ≤ nb_cfg.
Proof.
  intros Hmsgs Hall. unfold put_track.
  rewrite bool_decide_eq_false_2 by done. cbn [negb].
  destruct (ofpbuf_new OFPT_BARRIER_REQUEST s) as [barrier s1] eqn:Hb.
  assert (Hs1 : flow_updates s1 = flow_updates s).
  { destruct s. simpl in Hb. by injection Hb as <- <-. }
  destruct (foldl_queue_msg_eq (msgs ++ [barrier]) s1) as (_ & _ & Hq & _).
  cbn [fst].
  replace (flow_updates (set_flow_updates _ _))
    with (reverse (track_flow_update (reverse (flow_updates s)) nb_cfg
                                     (msg_xid barrier))).
  - intros fup Hin. rewrite elem_of_reverse in Hin.
    eapply track_flow_update_bound; [|exact Hin].
    intros f Hf. rewrite elem_of_reverse in Hf. by apply Hall.
  - rewrite <- Hs1, <- Hq.
    by destruct (foldl (λ s msg, (queue_msg msg s).2) s1 (msgs ++ [barrier])).
Qed.

(** X10.  Without a regression of [nb_cfg], that is when [nb_cfg] is at
    least [cur_cfg] and the [nb_cfg] of every update in flight,
    [ofctrl_put] returns, does not move [cur_cfg] backwards, keeps the
    queue of updates sorted, and leaves no update with a greater [nb_cfg]:
    the next call with an [nb_cfg] that did not decrease finds the same
    conditions. *)
Theorem ofctrl_put_no_regression (flow_table : ovn_desired_flow_table)
    (pending_ct_zones : gmap string ct_zone_pending_entry)
    (meter_table : list sbrec_meter) (nb_cfg : Z) (flow_changed : bool)
    (s : ofctrl) :
  engine_wf flow_table s →
  flow_updates_sorted s = true →
  cur_cfg s ≤ nb_cfg →
  (∀ fup, fup ∈ flow_updates s → fup_nb_cfg fup ≤ nb_cfg) →
  ∃ s' pending_ct_zones',
    ofctrl_put flow_table pending_ct_zones meter_table nb_cfg flow_changed s
    = Some (s', pending_ct_zones')
    ∧ ofctrl_get_cur_cfg s ≤ ofctrl_get_cur_cfg s'
    ∧ flow_updates_sorted s' = true
    ∧ (∀ fup, fup ∈ flow_updates s' → fup_nb_cfg fup ≤ nb_cfg).
Proof.
  intros Hwf Hsorted Hcur Hall. unfold ofctrl_get_cur_cfg.
  destruct (put_needed nb_cfg flow_changed s) as [need s0] eqn:Hneed.
  destruct need.
  - (* a put is needed *)
    assert (Hn : (put_needed nb_cfg flow_changed s).1 = true)
      by (by rewrite Hneed).
    destruct (ofctrl_can_put s) eqn:Hcan.
    + destruct (ofctrl_put_past_gates flow_table pending_ct_zones meter_table
                  nb_cfg flow_changed s Hcan Hn Hwf)
        as (msgs & s1 & _ & -> & (_ & _ & _ & Hq & Hc & _) & _).
      exists (put_track msgs nb_cfg (ct_zone_flush <$> pending_ct_zones)
                        s1).1,
        (put_track msgs nb_cfg (ct_zone_flush <$> pending_ct_zones) s1).2.
      split; [by destruct (put_track _ _ _ _)|].
      assert (Hsorted1 : flow_updates_sorted s1 = true).
      { unfold flow_updates_sorted. by rewrite Hq. }
      destruct (decide (msgs = [])) as [->|Hmsgs].
      * unfold put_track. rewrite bool_decide_eq_true_2 by done.
        cbn [negb]. rewrite Hq. case_bool_decide as Hempty; cbn [negb fst].
        -- assert (F1 : cur_cfg (set_cur_cfg nb_cfg s1) = nb_cfg)
             by (by destruct s1).
           assert (F2 : flow_updates (set_cur_cfg nb_cfg s1)
                        = flow_updates s)
             by (rewrite <- Hq; by destruct s1).
           unfold flow_updates_sorted. rewrite F1, F2.
           split; [lia|]. by split.
        -- split; [destruct s1; cbn in *; lia|].
           unfold flow_updates_sorted in *.
           replace (flow_updates (set_flow_updates _ s1))
             with (match reverse (flow_updates s) with
                   | fup :: prev =>
                       reverse ({| fup_xid := fup_xid fup;
                                   fup_nb_cfg := nb_cfg |} :: prev)
                   | [] => []
                   end) by (by destruct s1).
           destruct (reverse (flow_updates s)) as [|fup prev] eqn:Hrev;
             [split; [done|by intros ? ?%not_elem_of_nil]|].
           rewrite reverse_involutive.
           assert (Hin : ∀ f, f ∈ fup :: prev → fup_nb_cfg f ≤ nb_cfg).
           { intros f Hf. apply Hall. rewrite <- elem_of_reverse.
             by rewrite Hrev. }
           split.
           ++ apply nb_cfg_sorted_from_tail_retag; [done|].
              apply Hin. by left.
           ++ intros f Hf. rewrite elem_of_reverse in Hf.
              apply elem_of_cons in Hf as [->|Hf]; [done|].
              apply Hin. by right.
      * destruct (put_track_sends msgs nb_cfg
                    (ct_zone_flush <$> pending_ct_zones) s1 Hmsgs)
          as (_ & _ & _ & Hc' & _).
        split; [lia|]. split.
        -- by apply put_track_sorted_with_messages.
        -- apply put_track_bound; [done|]. by rewrite Hq.
    + rewrite (ofctrl_put_skipped_eq _ pending_ct_zones meter_table _ _ _
                 Hn Hcan).
      eexists _, _. split; [done|]. unfold flow_updates_sorted.
      destruct s; cbn in *. split; [lia|done].
  - (* no put is needed *)
    unfold ofctrl_put. rewrite Hneed. cbn [negb].
    eexists _, _. split; [done|].
    unfold put_needed in Hneed.
    destruct (flow_changed || skipped_last_time s || need_reinstall_flows s);
      [done|].
    destruct (negb (nb_cfg =? old_nb_cfg s)).
    + destruct (cur_cfg s =? old_nb_cfg s); [|done].
      injection Hneed as <-. unfold flow_updates_sorted.
      destruct s; cbn in *. split; [lia|done].
    + injection Hneed as <-. unfold flow_updates_sorted.
      destruct s; cbn in *. split; [lia|done].
Qed.


(** ** Meters *)





(** ** Removal of desired flows *)

Lemma hmap_remove_fresh (h : list ptr) (node : ptr) :
  node ∉ h → hmap_remove h node = h.
Proof.
  intros Hn. unfold hmap_remove. induction h as [|x h IH]; [done|].
  apply not_elem_of_cons in Hn as [Hne Hn].
  rewrite filter_cons_True by done. by rewrite IH.
Qed.

Lemma desired_flow_lookup_unlisted (flow_table : ovn_desired_flow_table)
    (target : ovn_flow) (u : uuid) (m : memory) :
  desired_table_wf flow_table m →
  (∀ d fd, d ∈ match_flow_table flow_table → desired_at m !! d = Some fd →
           u ∉ d_sources fd) →
  desired_flow_lookup flow_table target (Some u) m = Some None.
Proof.
  intros [_ Hall] Hno. unfold desired_flow_lookup.
  destruct (desired_flow_lookup_in_spec (match_flow_table flow_table) target
              (Some u) m) as (r & -> & Hr).
  { intros d Hd. destruct (Hall d Hd) as (fd & -> & _). by eexists. }
  destruct r as [d|]; [|done].
  destruct Hr as (Hd & fd & Hfd & _ & Hu).
  by destruct (Hno d fd Hd Hfd (Hu u eq_refl)).
Qed.

Lemma uuid_equals_refl (u : uuid) : uuid_equals u u = true.
Proof. unfold uuid_equals. by rewrite bool_decide_eq_true_2. Qed.

Lemma sb_to_flow_head (t : list sb_to_flow) (u : uuid)
    (flows : list sb_flow_ref) (g : sb_to_flow → sb_to_flow) :
  let stf := {| stf_sb_uuid := u; stf_flows := flows |} in
  sb_to_flow_find (stf :: t) u = Some stf
  ∧ sb_to_flow_update (stf :: t) u g = g stf :: t
  ∧ sb_to_flow_remove (stf :: t) u = t.
Proof.
  unfold sb_to_flow_find.
  cbn [find sb_to_flow_update sb_to_flow_remove stf_sb_uuid].
  by rewrite uuid_equals_refl.
Qed.

(** X12.  Adding a flow for a source and removing the flows of the source
    is a round trip.  On a sound table in which the source [u] has no node
    and no flow, [ofctrl_add_flow] adds a newly allocated flow to the match
    index, and [ofctrl_remove_flows]'s walk for [u] gives back the heap as
    it was before the addition, and a table whose match index and whose
    [uuid_flow_table] hold the nodes they held before.  The order in which
    a walk meets the nodes is left open. *)
Theorem ofctrl_add_remove_flows (flow_table : ovn_desired_flow_table)
    (t p c : Z) (mt : minimatch) (a : list Byte.byte) (u : uuid)
    (m : memory) :
  desired_table_wf flow_table m →
  sb_to_flow_find (uuid_flow_table flow_table) u = None →
  (∀ d fd, d ∈ match_flow_table flow_table → desired_at m !! d = Some fd →
           u ∉ d_sources fd) →
  ∃ flow_table' m' flow_table'',
    ofctrl_add_flow flow_table t p c mt a u m = Some (flow_table', m')
    ∧ match_flow_table flow_table'
      ≡ₚ xmalloc (desired_at m) :: match_flow_table flow_table
    ∧ remove_flows_of_sb_uuid flow_table' u m' = Some (flow_table'', m)
    ∧ match_flow_table flow_table'' ≡ₚ match_flow_table flow_table
    ∧ uuid_flow_table flow_table'' ≡ₚ uuid_flow_table flow_table.
Proof.
  intros Hwf Hnone Hno.
  pose proof (desired_flow_lookup_unlisted flow_table
                (ovn_flow_init t p c mt a) u m Hwf Hno) as Hlook.
  unfold ofctrl_add_flow, ofctrl_check_and_add_flow.
  rewrite desired_flow_alloc_eq. cbn beta iota.
  set (f := xmalloc (desired_at m)).
  set (cand := {| d_flow := ovn_flow_init t p c mt a; d_references := [];
                  d_installed_flow := None |}).
  replace (desired_at (set_desired_at (insert f cand) m) !! f)
    with (Some cand) by (simpl; by rewrite lookup_insert_eq).
  cbn [mbind option_bind d_flow cand].
  subst f. rewrite desired_flow_lookup_alloc, Hlook by done.
  cbn [mbind option_bind].
  set (f := xmalloc (desired_at m)).
  unfold link_flow_to_sb. cbn [uuid_flow_table match_flow_table].
  replace (desired_at (set_desired_at (insert f cand) m) !! f)
    with (Some cand) by (simpl; by rewrite lookup_insert_eq).
  cbn [mbind option_bind]. rewrite Hnone.
  eexists _, _, flow_table. split; [done|]. split; [done|].
  split; [|done].
  (* the removal *)
  assert (Hfresh : f ∉ match_flow_table flow_table).
  { intros Hf. destruct Hwf as [_ Hall].
    destruct (Hall f Hf) as (fd & Hfd & _).
    unfold f in Hfd. by rewrite xmalloc_fresh in Hfd. }
  unfold remove_flows_of_sb_uuid, hmap_insert.
  cbn [uuid_flow_table match_flow_table].
  destruct (sb_to_flow_head (uuid_flow_table flow_table) u []
              (λ stf, {| stf_sb_uuid := stf_sb_uuid stf;
                         stf_flows :=
                           stf_flows stf
                           ++ [ {| sfr_flow := f; sfr_sb_uuid := u |} ] |}))
    as (_ & -> & _).
  cbn [stf_sb_uuid stf_flows app].
  destruct (sb_to_flow_head (uuid_flow_table flow_table) u
              [ {| sfr_flow := f; sfr_sb_uuid := u |} ] id)
    as (-> & _ & Hremove).
  unfold remove_flows_from_sb_to_flow.
  cbn [stf_flows stf_sb_uuid for_each remove_flow_ref sfr_flow].
  cbn [set_desired_at desired_at installed_at].
  rewrite lookup_insert_eq.
  cbn [mbind option_bind d_references d_flow d_installed_flow cand app
       sb_flow_ref_remove].
  rewrite decide_True by done. cbn [mbind option_bind].
  rewrite bool_decide_eq_true_2 by done.
  cbn [mbind option_bind match_flow_table uuid_flow_table].
  unfold desired_flow_destroy, set_desired_at.
  cbn [desired_at installed_at]. rewrite lookup_insert_eq.
  cbn [mbind option_bind d_references d_installed_flow].
  rewrite !bool_decide_eq_true_2 by done.
  cbn [andb mbind option_bind match_flow_table uuid_flow_table].
  rewrite Hremove. unfold hmap_remove at 1.
  rewrite filter_cons_False by (by intros ?).
  fold (hmap_remove (match_flow_table flow_table) f).
  rewrite hmap_remove_fresh by done.
  rewrite !insert_insert_eq, delete_insert_eq, delete_id
    by apply xmalloc_fresh.
  by destruct flow_table, m.
Qed.


(** ** Lookups in the desired table *)

Lemma desired_flow_lookup_in_key (chain : list ptr) (t1 t2 : ovn_flow)
    (sb_uuid : option uuid) (m : memory) :
  (∀ f, ovn_flow_key_match f t1 = ovn_flow_key_match f t2) →
  desired_flow_lookup_in chain t1 sb_uuid m
  = desired_flow_lookup_in chain t2 sb_uuid m.
Proof.
  intros Hk. induction chain as [|d chain IH]; [done|].
  cbn [desired_flow_lookup_in]. destruct (desired_at m !! d) as [df|]; [|done].
  cbn [mbind option_bind]. rewrite Hk, IH. done.
Qed.

Lemma desired_flow_lookup_in_head (d : ptr) (chain : list ptr)
    (target : ovn_flow) (u : uuid) (m : memory) (df : desired_flow) :
  desired_at m !! d = Some df →
  ovn_flow_key_match (d_flow df) target = true →
  u ∈ d_sources df →
  desired_flow_lookup_in (d :: chain) target (Some u) m = Some (Some d).
Proof.
  intros Hd Hk Hu. cbn [desired_flow_lookup_in]. rewrite Hd.
  cbn [mbind option_bind]. rewrite Hk.
  by rewrite (proj2 (existsb_uuid_equals u (d_references df)) Hu).
Qed.

(** X13.  After [ofctrl_add_flow] of a flow for source [u], on a sound
    table, [desired_flow_lookup] for the same table id, priority and match
    with source [u] finds a flow, whatever the cookie and the actions of
    the target: a flow of the match index with that key and with [u]
    among its sources.  The addition keeps the table sound. *)
Theorem desired_flow_lookup_after_add (flow_table : ovn_desired_flow_table)
    (t p c c' : Z) (mt : minimatch) (a a' : list Byte.byte) (u : uuid)
    (m : memory) :
  desired_table_wf flow_table m →
  ∃ flow_table' m' d fd,
    ofctrl_add_flow flow_table t p c mt a u m = Some (flow_table', m')
    ∧ desired_table_wf flow_table' m'
    ∧ desired_flow_lookup flow_table' (ovn_flow_init t p c' mt a') (Some u) m'
      = Some (Some d)
    ∧ d ∈ match_flow_table flow_table'
    ∧ desired_at m' !! d = Some fd
    ∧ flow_key (d_flow fd) = (t, p, mt)
    ∧ u ∈ d_sources fd.
Proof.
  intros Hwf.
  assert (Hkey : ∀ f, ovn_flow_key_match f (ovn_flow_init t p c mt a)
                      = ovn_flow_key_match f (ovn_flow_init t p c' mt a'))
    by done.
  destruct (desired_flow_lookup_in_spec (match_flow_table flow_table)
              (ovn_flow_init t p c mt a) (Some u) m) as (r & Hr & Hspec).
  { intros d Hd. destruct Hwf as [_ Hall].
    destruct (Hall d Hd) as (fd & -> & _). by eexists. }
  destruct r as [d0|].
  - (* the source has the flow already: the candidate is discarded *)
    destruct Hspec as (Hd0 & fd0 & Hfd0 & Hm0 & Hu0).
    exists flow_table, m, d0, fd0. split.
    { unfold ofctrl_add_flow, ofctrl_check_and_add_flow.
      rewrite desired_flow_alloc_eq. cbn beta iota.
      set (f := xmalloc (desired_at m)).
      set (cand := {| d_flow := ovn_flow_init t p c mt a;
                      d_references := []; d_installed_flow := None |}).
      replace (desired_at (set_desired_at (insert f cand) m) !! f)
        with (Some cand) by (simpl; by rewrite lookup_insert_eq).
      cbn [mbind option_bind d_flow cand].
      subst f. rewrite desired_flow_lookup_alloc by done.
      unfold desired_flow_lookup. rewrite Hr. cbn [mbind option_bind].
      subst cand. by rewrite desired_flow_destroy_candidate. }
    split; [done|]. split.
    { unfold desired_flow_lookup.
      by rewrite <- (desired_flow_lookup_in_key _ _ _ _ _ Hkey). }
    split; [done|]. split; [done|]. split; [|by apply Hu0].
    destruct Hwf as [_ Hall]. destruct (Hall d0 Hd0) as (fd & Hfd & Hh).
    rewrite Hfd0 in Hfd. injection Hfd as <-.
    apply ovn_flow_key_match_iff in Hm0; [exact Hm0|done|done].
  - (* a new flow *)
    destruct (ofctrl_check_and_add_flow_new flow_table t p c mt a u true m
                Hwf Hr) as (ft' & Hadd & Hidx).
    set (f := xmalloc (desired_at m)) in *.
    set (fd := {| d_flow := ovn_flow_init t p c mt a;
                  d_references := [ {| sfr_flow := f; sfr_sb_uuid := u |} ];
                  d_installed_flow := None |}) in *.
    exists ft', (set_desired_at (insert f fd) m), f, fd.
    split; [exact Hadd|]. split.
    { by eapply desired_table_wf_insert. }
    split.
    { unfold desired_flow_lookup. rewrite Hidx.
      apply (desired_flow_lookup_in_head _ _ _ _ _ fd).
      - unfold set_desired_at. cbn. by rewrite lookup_insert_eq.
      - rewrite <- Hkey.
        by apply (ovn_flow_key_match_iff _ _
                    (ovn_flow_init_hashed t p c mt a)
                    (ovn_flow_init_hashed t p c mt a)).
      - by apply list_elem_of_singleton. }
    split; [rewrite Hidx; by left|].
    split; [by unfold set_desired_at; cbn; rewrite lookup_insert_eq|].
    split; [done|]. by apply list_elem_of_singleton.
Qed.

(** ** Removal of the flows of a source *)

Lemma sb_flow_ref_remove_filter (l : list sb_flow_ref) (sfr : sb_flow_ref) :
  NoDup l → sfr ∈ l →
  sb_flow_ref_remove l sfr = Some (filter (λ x, x ≠ sfr) l).
Proof.
  induction l as [|x l IH]; intros Hnd Hin; [by apply not_elem_of_nil in Hin|].
  apply NoDup_cons in Hnd as [Hx Hnd]. cbn [sb_flow_ref_remove].
  destruct (decide (x = sfr)) as [->|Hne].
  - rewrite filter_cons_False by (by intros ?). f_equal.
    symmetry. clear IH Hin Hnd. induction l as [|y l IH]; [done|].
    apply not_elem_of_cons in Hx as [Hy Hx].
    rewrite filter_cons_True by done. f_equal. by apply IH.
  - apply elem_of_cons in Hin as [->|Hin]; [done|].
    rewrite IH by done. by rewrite filter_cons_True.
Qed.

(** One link removed: the result of the body of the loop of
    [remove_flows_from_sb_to_flow]. *)
Lemma remove_flow_ref_eq (flow_table : ovn_desired_flow_table) (m : memory)
    (sfr : sb_flow_ref) (fd : desired_flow) :
  let d := sfr_flow sfr in
  let refs := filter (λ x, x ≠ sfr) (d_references fd) in
  desired_at m !! d = Some fd →
  NoDup (d_references fd) →
  sfr ∈ d_references fd →
  (∀ i, d_installed_flow fd = Some i →
        ∃ fi, installed_at m !! i = Some fi ∧ d ∈ i_desired_refs fi
              ∧ i_desired_flow fi ≠ None) →
  remove_flow_ref sfr (flow_table, m)
  = Some (if bool_decide (refs = []) then
            ({| match_flow_table := hmap_remove (match_flow_table flow_table) d;
                uuid_flow_table := uuid_flow_table flow_table |},
             {| desired_at := delete d (desired_at m);
                installed_at :=
                  match d_installed_flow fd with
                  | Some i => alter (without_desired_ref d) i (installed_at m)
                  | None => installed_at m
                  end |})
          else
            (flow_table,
             set_desired_at
               (insert d {| d_flow := d_flow fd; d_references := refs;
                            d_installed_flow := d_installed_flow fd |}) m)).
Proof.
  intros d refs Hfd Hnd Hin Hi. unfold remove_flow_ref. fold d.
  rewrite Hfd. cbn [mbind option_bind].
  rewrite sb_flow_ref_remove_filter by done. cbn [mbind option_bind].
  fold refs. destruct (bool_decide_reflect (refs = [])) as [Hnil|Hne]; [|done].
  destruct (d_installed_flow fd) as [i|] eqn:Hdi.
  - destruct (Hi i eq_refl) as (fi & Hfi & Hd & Hp).
    erewrite unlink_installed_to_desired_eq; 
      [| exact Hfi | cbn; apply lookup_insert_eq | done | done | done].
    cbn [mbind option_bind]. unfold desired_flow_destroy, set_desired_at.
    cbn [desired_at installed_at]. rewrite lookup_insert_eq.
    cbn [mbind option_bind d_with_installed_flow d_references d_installed_flow].
    rewrite Hnil. cbn. do 3 f_equal.
    + rewrite insert_insert_eq, delete_insert_eq. done.
    + apply map_eq. intros j. destruct (decide (j = i)) as [->|Hj].
      * rewrite lookup_insert_eq, lookup_alter_eq, Hfi. done.
      * by rewrite lookup_insert_ne, lookup_alter_ne.
  - cbn [mbind option_bind]. unfold desired_flow_destroy, set_desired_at.
    cbn [desired_at installed_at]. rewrite lookup_insert_eq.
    cbn [mbind option_bind d_references d_installed_flow].
    rewrite Hnil. cbn. do 3 f_equal. by rewrite delete_insert_eq.
Qed.

Lemma primary_among_refs_without (d : ptr) (fi : installed_flow) :
  primary_among_refs fi → primary_among_refs (without_desired_ref d fi).
Proof.
  unfold primary_among_refs, without_desired_ref.
  cbn [i_with_links i_desired_refs i_desired_flow]. intros Hp Hne.
  destruct Hp as (p & Hp & Hin).
  { intros Hnil. by rewrite Hnil in Hne. }
  rewrite Hp. destruct (bool_decide_reflect (Some p = Some d)) as [_|Hpd].
  - destruct (filter _ _) as [|x r]; [done|].
    exists x. split; [done|]. apply elem_of_cons. by left.
  - exists p. split; [done|]. apply list_elem_of_filter. split; [|done].
    congruence.
Qed.

Lemma links_wf_ext (F F' : uuid → option (list sb_flow_ref))
    (index : list ptr) (m : memory) :
  (∀ u, F u = F' u) → links_wf F index m → links_wf F' index m.
Proof.
  intros Heq [H1 H2]. split.
  - intros u l Hl. apply H1. by rewrite Heq.
  - intros d fd Hd Hfd. destruct (H2 d fd Hd Hfd) as [Hnd Hr].
    split; [done|]. intros sfr Hsfr. destruct (Hr sfr Hsfr) as (Hf & l & Hl & Hin).
    split; [done|]. exists l. by rewrite <- Heq.
Qed.

Lemma sb_flow_ref_eq (x y : sb_flow_ref) :
  sfr_flow x = sfr_flow y → sfr_sb_uuid x = sfr_sb_uuid y → x = y.
Proof. destruct x, y. cbn. by intros -> ->. Qed.


Lemma installed_flows_kept_same (m m' : memory) :
  installed_at m' = installed_at m → installed_flows_kept m m'.
Proof.
  intros Heq. split; [by rewrite Heq|]. intros i fi Hfi. exists fi.
  by rewrite Heq.
Qed.

Lemma installed_flows_kept_trans (m m1 m' : memory) :
  installed_flows_kept m m1 → installed_flows_kept m1 m' →
  installed_flows_kept m m'.
Proof.
  intros [Hn1 Hs1] [Hn2 Hs2]. split; [by intros i Hi; apply Hn2, Hn1|].
  intros i fi Hfi. destruct (Hs1 i fi Hfi) as (fi1 & Hfi1 & Hf1 & Hr1 & Hp1).
  destruct (Hs2 i fi1 Hfi1) as (fi' & Hfi' & Hf2 & Hr2 & Hp2).
  exists fi'. split; [done|]. split; [congruence|].
  split; [by etrans|]. intros Hp. by apply Hp2, Hp1.
Qed.

Lemma installed_flows_kept_without (m m' : memory) (d i0 : ptr) :
  installed_at m' = alter (without_desired_ref d) i0 (installed_at m) →
  installed_flows_kept m m'.
Proof.
  intros Heq. split.
  - intros i Hi. rewrite Heq. destruct (decide (i0 = i)) as [->|Hii].
    + by rewrite lookup_alter_eq, Hi.
    + by rewrite lookup_alter_ne.
  - intros i fi Hfi. rewrite Heq. destruct (decide (i0 = i)) as [->|Hii].
    + exists (without_desired_ref d fi). rewrite lookup_alter_eq, Hfi.
      split; [done|]. split; [done|].
      unfold without_desired_ref.
      cbn [i_with_links i_desired_refs i_desired_flow].
      split; [apply sublist_filter|].
      destruct (i_desired_flow fi) as [p|] eqn:Hp.
      * intros Hin.
        destruct (bool_decide_reflect (Some p = Some d)) as [Hpd|Hpd].
        -- destruct (filter _ _) as [|x r]; [done|].
           cbn. apply elem_of_cons. by left.
        -- apply list_elem_of_filter. split; [congruence|done].
      * intros Hnil. rewrite bool_decide_eq_false_2 by done.
        by rewrite Hnil.
    + exists fi. by rewrite lookup_alter_ne.
Qed.

Lemma remove_flow_ref_step (F : uuid → option (list sb_flow_ref))
    (flow_table : ovn_desired_flow_table) (m : memory) (u : uuid)
    (sfr : sb_flow_ref) (l : list sb_flow_ref) :
  desired_table_wf flow_table m →
  links_wf F (match_flow_table flow_table) m →
  desired_back_linked flow_table m →
  F u = Some (sfr :: l) →
  ∃ flow_table' m',
    remove_flow_ref sfr (flow_table, m) = Some (flow_table', m')
    ∧ desired_table_wf flow_table' m'
    ∧ links_wf (λ u', if decide (u' = u) then Some l else F u')
               (match_flow_table flow_table') m'
    ∧ desired_back_linked flow_table' m'
    ∧ removal_effect [sfr] flow_table m flow_table' m'
    ∧ installed_flows_kept m m'.
Proof.
  intros [Hnd Hall] [Hl1 Hl2] Hb HF.
  destruct (Hl1 u _ HF) as [HndL HL].
  apply NoDup_cons in HndL as [Hsfr_l Hnd_l].
  destruct (HL sfr) as (Hu & Hdin & fd & Hfd & Hsfr);
    [apply elem_of_cons; by left|].
  set (d := sfr_flow sfr) in *.
  destruct (Hl2 d fd Hdin Hfd) as [Hndr Hrefs].
  assert (Hstay : ∀ u' l' x,
            (if decide (u' = u) then Some l else F u') = Some l' → x ∈ l' →
            x ≠ sfr ∧ sfr_sb_uuid x = u'
            ∧ sfr_flow x ∈ match_flow_table flow_table
            ∧ ∃ fdx, desired_at m !! sfr_flow x = Some fdx
                     ∧ x ∈ d_references fdx).
  { intros u' l' x Hl' Hx. destruct (decide (u' = u)) as [->|Hne].
    - injection Hl' as <-. split; [by intros ->|].
      apply HL. apply elem_of_cons. by right.
    - destruct (Hl1 u' l' Hl') as [_ Hx'].
      destruct (Hx' x Hx) as (Hux & Hrest). split; [|by apply Hx'].
      intros ->. congruence. }
  assert (Hback : ∀ x l', x ≠ sfr → F (sfr_sb_uuid x) = Some l' → x ∈ l' →
            ∃ l'', (if decide (sfr_sb_uuid x = u) then Some l
                    else F (sfr_sb_uuid x)) = Some l'' ∧ x ∈ l'').
  { intros x l' Hx Hl' Hin.
    destruct (decide (sfr_sb_uuid x = u)) as [Hxu|Hxu]; [|by exists l'].
    exists l. split; [done|]. rewrite Hxu, HF in Hl'. injection Hl' as <-.
    by apply elem_of_cons in Hin as [->|]. }
  rewrite (remove_flow_ref_eq flow_table m sfr fd); [|done|done|done|].
  2: { intros i Hi.
       destruct (Hb d fd i Hdin Hfd Hi) as (fi & Hfi & Hdi & Hp).
       exists fi. split; [done|]. split; [done|].
       destruct Hp as (p & -> & _); [|done].
       intros Hnil. rewrite Hnil in Hdi. by apply not_elem_of_nil in Hdi. }
  fold d. set (refs := filter (λ x, x ≠ sfr) (d_references fd)).
  destruct (bool_decide_reflect (refs = [])) as [Hnil|Hne].
  - eexists _, _. split; [done|].
    assert (Hother : ∀ x fdx, x ≠ sfr →
              desired_at m !! sfr_flow x = Some fdx → x ∈ d_references fdx →
              sfr_flow x ≠ d).
    { intros x fdx Hx Hfdx Hin Heq. rewrite Heq, Hfd in Hfdx.
      injection Hfdx as <-.
      assert (x ∈ refs) as Hxr by (by apply list_elem_of_filter).
      rewrite Hnil in Hxr. by apply not_elem_of_nil in Hxr. }
    assert (Hidx : ∀ d', d' ∈ hmap_remove (match_flow_table flow_table) d
                         ↔ d' ≠ d ∧ d' ∈ match_flow_table flow_table).
    { intros d'. unfold hmap_remove. by rewrite list_elem_of_filter. }
    split; [|split; [|split; [|split]]].
    + split; cbn [match_flow_table desired_at].
      * by apply NoDup_filter.
      * intros d' [Hne' Hin']%Hidx. rewrite lookup_delete_ne by done.
        by apply Hall.
    + split; cbn [match_flow_table desired_at].
      * intros u' l' Hl'. split.
        { destruct (decide (u' = u)); [by injection Hl' as <-|].
          by apply (Hl1 u' l'). }
        intros x Hx.
        destruct (Hstay u' l' x Hl' Hx)
          as (Hxs & Hxu & Hxin & fdx & Hfdx & Hxr).
        pose proof (Hother x fdx Hxs Hfdx Hxr) as Hxd.
        split; [done|]. split; [by apply Hidx|].
        exists fdx. by rewrite lookup_delete_ne.
      * intros d' fd' [Hne' Hin']%Hidx Hfd'.
        rewrite lookup_delete_ne in Hfd' by done.
        destruct (Hl2 d' fd' Hin' Hfd') as [Hnd' Hr']. split; [done|].
        intros x Hx. destruct (Hr' x Hx) as (Hxf & l' & Hl' & Hxl).
        split; [done|]. apply (Hback x l'); [|done|done].
        intros ->. by apply Hne'.
    + intros d' fd' i' [Hne' Hin']%Hidx Hfd' Hi'.
      cbn [desired_at installed_at] in *.
      rewrite lookup_delete_ne in Hfd' by done.
      destruct (Hb d' fd' i' Hin' Hfd' Hi') as (fi & Hfi & Hdi & Hp).
      destruct (d_installed_flow fd) as [i|]; [|by exists fi].
      destruct (decide (i = i')) as [->|Hii].
      * exists (without_desired_ref d fi). rewrite lookup_alter_eq, Hfi.
        split; [done|]. split; [|by apply primary_among_refs_without].
        cbn. by apply list_elem_of_filter.
      * exists fi. by rewrite lookup_alter_ne.
    + split; [done|]. split; [apply sublist_filter|].
      split; [|split; [|split]].
      * intros d' Hd'.
        assert (d' ≠ d) as Hne'.
        { intros ->. apply (Hd' sfr); [|done]. apply elem_of_cons. by left. }
        cbn. rewrite lookup_delete_ne by done. split; [done|].
        rewrite Hidx. tauto.
      * intros x fdx ->%list_elem_of_singleton Hfdx. fold d in Hfdx |- *.
        rewrite Hfd in Hfdx. injection Hfdx as <-. cbn zeta. fold refs.
        rewrite bool_decide_eq_true_2 by done.
        cbn. split; [rewrite Hidx; tauto|]. split; [apply lookup_delete_eq|].
        intros i Hi. rewrite Hi.
        destruct (Hb d fd i Hdin Hfd Hi) as (fi & Hfi & _).
        exists (without_desired_ref d fi). rewrite lookup_alter_eq, Hfi.
        split; [done|]. cbn. rewrite list_elem_of_filter. tauto.
      * intros i fi Hfi. cbn.
        destruct (d_installed_flow fd) as [i0|]; [|by exists fi].
        destruct (decide (i0 = i)) as [->|Hii].
        -- exists (without_desired_ref d fi). rewrite lookup_alter_eq, Hfi.
           split; [done|]. split; [done|]. cbn.
           by intros y [_ Hy]%list_elem_of_filter.
        -- exists fi. by rewrite lookup_alter_ne.
      * intros i Hi. cbn. destruct (d_installed_flow fd) as [i0|]; [|done].
        destruct (decide (i0 = i)) as [->|Hii].
        -- by rewrite lookup_alter_eq, Hi.
        -- by rewrite lookup_alter_ne.
    + destruct (d_installed_flow fd) as [i0|].
      * by apply (installed_flows_kept_without _ _ d i0).
      * by apply installed_flows_kept_same.
  - eexists _, _. split; [done|].
    set (fd' := {| d_flow := d_flow fd; d_references := refs;
                   d_installed_flow := d_installed_flow fd |}).
    assert (Hlk : ∀ d', desired_at (set_desired_at (insert d fd') m) !! d'
                        = if decide (d' = d) then Some fd'
                          else desired_at m !! d').
    { intros d'. cbn. destruct (decide (d' = d)) as [->|Hne'].
      - apply lookup_insert_eq.
      - by apply lookup_insert_ne. }
    split; [|split; [|split; [|split; [|by apply installed_flows_kept_same]]]].
    + split; [done|]. intros d' Hd'. rewrite Hlk.
      destruct (decide (d' = d)) as [->|Hne']; [|by apply Hall].
      exists fd'. split; [done|]. cbn.
      destruct (Hall d Hdin) as (fd0 & Hfd0 & Hh).
      rewrite Hfd in Hfd0. by injection Hfd0 as <-.
    + split.
      * intros u' l' Hl'. split.
        { destruct (decide (u' = u)); [by injection Hl' as <-|].
          by apply (Hl1 u' l'). }
        intros x Hx.
        destruct (Hstay u' l' x Hl' Hx)
          as (Hxs & Hxu & Hxin & fdx & Hfdx & Hxr).
        split; [done|]. split; [done|]. rewrite Hlk.
        destruct (decide (sfr_flow x = d)) as [Hxd|Hxd]; [|by exists fdx].
        exists fd'. split; [done|]. cbn. rewrite Hxd, Hfd in Hfdx.
        injection Hfdx as <-. by apply list_elem_of_filter.
      * intros d' fd'' Hin' Hfd''. rewrite Hlk in Hfd''.
        destruct (decide (d' = d)) as [->|Hne'].
        -- injection Hfd'' as <-. cbn. split; [by apply NoDup_filter|].
           intros x [Hxs Hx]%list_elem_of_filter.
           destruct (Hrefs x Hx) as (Hxf & l' & Hl' & Hxl).
           split; [done|]. by apply (Hback x l').
        -- destruct (Hl2 d' fd'' Hin' Hfd'') as [Hnd' Hr']. split; [done|].
           intros x Hx. destruct (Hr' x Hx) as (Hxf & l' & Hl' & Hxl).
           split; [done|]. apply (Hback x l'); [|done|done].
           intros ->. by apply Hne'.
    + intros d' fd'' i' Hin' Hfd'' Hi'. rewrite Hlk in Hfd''.
      cbn [installed_at set_desired_at].
      destruct (decide (d' = d)) as [->|Hne']; [|by apply (Hb d' fd'' i')].
      injection Hfd'' as <-. by apply (Hb d fd i').
    + split; [done|]. split; [done|]. split; [|split; [|split]].
      * intros d' Hd'.
        assert (d' ≠ d) as Hne'.
        { intros ->. apply (Hd' sfr); [|done]. apply elem_of_cons. by left. }
        by rewrite Hlk, decide_False.
      * intros x fdx ->%list_elem_of_singleton Hfdx. fold d in Hfdx |- *.
        rewrite Hfd in Hfdx. injection Hfdx as <-. cbn zeta. fold refs.
        rewrite bool_decide_eq_false_2 by done.
        split; [done|]. by rewrite Hlk, decide_True.
      * intros i fi Hfi. by exists fi.
      * done.
Qed.

Lemma removal_effect_nil (flow_table : ovn_desired_flow_table) (m : memory) :
  removal_effect [] flow_table m flow_table m.
Proof.
  split; [done|]. split; [done|]. split; [done|]. split.
  { by intros sfr fd Hin%not_elem_of_nil. }
  split; [|done]. intros i fi Hfi. by exists fi.
Qed.

Lemma removal_effect_cons (sfr : sb_flow_ref) (l : list sb_flow_ref)
    (flow_table flow_table1 flow_table' : ovn_desired_flow_table)
    (m m1 m' : memory) :
  (∀ x, x ∈ l → sfr_flow x ≠ sfr_flow sfr) →
  removal_effect [sfr] flow_table m flow_table1 m1 →
  removal_effect l flow_table1 m1 flow_table' m' →
  removal_effect (sfr :: l) flow_table m flow_table' m'.
Proof.
  intros Hdist (Ht1 & Hs1 & Ha1 & Hb1 & Hc1 & Hd1)
         (Ht2 & Hs2 & Ha2 & Hb2 & Hc2 & Hd2).
  split; [congruence|]. split; [by etrans|]. split; [|split; [|split]].
  - intros d Hd.
    destruct (Ha1 d) as [Hm1 Hi1].
    { intros x ->%list_elem_of_singleton. apply Hd, elem_of_cons. by left. }
    destruct (Ha2 d) as [Hm2 Hi2].
    { intros x Hx. apply Hd, elem_of_cons. by right. }
    split; [congruence|]. by rewrite Hi2.
  - intros x fd [->|Hx]%elem_of_cons Hfd.
    + specialize (Hb1 sfr fd). cbn zeta in Hb1 |- *.
      destruct (Ha2 (sfr_flow sfr)) as [Hm2 Hi2]; [done|].
      destruct (bool_decide _).
      * destruct Hb1 as (Hn & Hnone & Hinst);
          [by apply list_elem_of_singleton|done|].
        split; [by rewrite Hi2|]. split; [congruence|].
        intros i Hi. destruct (Hinst i Hi) as (fi1 & Hfi1 & Hnin).
        destruct (Hc2 i fi1 Hfi1) as (fi' & Hfi' & _ & Hsub).
        exists fi'. split; [done|]. intros Hin. by apply Hnin, Hsub.
      * destruct Hb1 as (Hn & Hsome);
          [by apply list_elem_of_singleton|done|].
        split; [by rewrite Hi2|]. congruence.
    + destruct (Ha1 (sfr_flow x)) as [Hm1 _].
      { intros y ->%list_elem_of_singleton. intros Heq. by apply (Hdist x). }
      apply (Hb2 x fd Hx). congruence.
  - intros i fi Hfi. destruct (Hc1 i fi Hfi) as (fi1 & Hfi1 & Hf1 & Hsub1).
    destruct (Hc2 i fi1 Hfi1) as (fi' & Hfi' & Hf2 & Hsub2).
    exists fi'. split; [done|]. split; [congruence|]. by etrans.
  - intros i Hi. by apply Hd2, Hd1.
Qed.

Lemma remove_flow_ref_loop (l : list sb_flow_ref) :
  ∀ (F : uuid → option (list sb_flow_ref))
    (flow_table : ovn_desired_flow_table) (m : memory) (u : uuid),
  desired_table_wf flow_table m →
  links_wf F (match_flow_table flow_table) m →
  desired_back_linked flow_table m →
  F u = Some l →
  ∃ flow_table' m',
    for_each l remove_flow_ref (flow_table, m) = Some (flow_table', m')
    ∧ desired_table_wf flow_table' m'
    ∧ links_wf (λ u', if decide (u' = u) then Some [] else F u')
               (match_flow_table flow_table') m'
    ∧ desired_back_linked flow_table' m'
    ∧ removal_effect l flow_table m flow_table' m'
    ∧ installed_flows_kept m m'.
Proof.
  induction l as [|sfr l IH]; intros F flow_table m u Hwf Hl Hb HF.
  - exists flow_table, m. split; [done|]. split; [done|].
    split; [|split; [done|split; [apply removal_effect_nil|]]].
    2: by apply installed_flows_kept_same.
    apply (links_wf_ext F); [|done].
    intros u'. destruct (decide (u' = u)) as [->|]; done.
  - destruct (remove_flow_ref_step F flow_table m u sfr l Hwf Hl Hb HF)
      as (flow_table1 & m1 & Hstep & Hwf1 & Hl1 & Hb1 & He1 & Hk1).
    destruct (IH _ flow_table1 m1 u Hwf1 Hl1 Hb1)
      as (flow_table' & m' & Hloop & Hwf' & Hl' & Hb' & He' & Hk');
      [by rewrite decide_True|].
    exists flow_table', m'. rewrite for_each_cons, Hstep.
    split; [done|]. split; [done|].
    split; [|split; [done|split; [|by eapply installed_flows_kept_trans]]].
    + eapply links_wf_ext; [|exact Hl']. intros u'. cbn.
      by destruct (decide (u' = u)).
    + apply (removal_effect_cons sfr l _ flow_table1 _ _ m1); [|done|done].
      intros x Hx Heq. destruct Hl as [Hl_1 _].
      destruct (Hl_1 u _ HF) as [Hnd Hall].
      apply NoDup_cons in Hnd as [Hnin _]. apply Hnin.
      replace sfr with x; [done|]. apply sb_flow_ref_eq; [done|].
      destruct (Hall x) as [-> _]; [apply elem_of_cons; by right|].
      destruct (Hall sfr) as [-> _]; [apply elem_of_cons; by left|]. done.
Qed.

Lemma sb_to_flow_find_Some (t : list sb_to_flow) (u : uuid)
    (stf : sb_to_flow) :
  sb_to_flow_find t u = Some stf → stf_sb_uuid stf = u ∧ stf ∈ t.
Proof.
  unfold sb_to_flow_find. induction t as [|x t IH]; [done|]. cbn [find].
  unfold uuid_equals at 1.
  destruct (bool_decide_reflect (u = stf_sb_uuid x)) as [Hu|Hu].
  - intros [= <-]. split; [done|]. apply elem_of_cons. by left.
  - intros [Hs Hin]%IH. split; [done|]. apply elem_of_cons. by right.
Qed.

Lemma sb_to_flow_find_None (t : list sb_to_flow) (u : uuid) :
  u ∉ stf_sb_uuid <$> t → sb_to_flow_find t u = None.
Proof.
  intros Hn. destruct (sb_to_flow_find t u) as [stf|] eqn:Hf; [|done].
  apply sb_to_flow_find_Some in Hf as [<- Hin]. destruct Hn.
  by apply list_elem_of_fmap_2.
Qed.

Lemma sb_to_flow_remove_sublist (t : list sb_to_flow) (u : uuid) :
  sublist (sb_to_flow_remove t u) t.
Proof.
  induction t as [|x t IH]; [done|]. cbn [sb_to_flow_remove].
  destruct (uuid_equals u (stf_sb_uuid x)).
  - by apply sublist_cons.
  - by apply sublist_skip.
Qed.

Lemma sb_to_flow_find_remove (t : list sb_to_flow) (u u' : uuid) :
  NoDup (stf_sb_uuid <$> t) →
  sb_to_flow_find (sb_to_flow_remove t u) u'
  = if decide (u' = u) then None else sb_to_flow_find t u'.
Proof.
  induction t as [|x t IH]; intros Hnd.
  { by destruct (decide (u' = u)). }
  rewrite fmap_cons in Hnd. apply NoDup_cons in Hnd as [Hx Hnd].
  cbn [sb_to_flow_remove]. unfold uuid_equals at 1.
  destruct (bool_decide_reflect (u = stf_sb_uuid x)) as [Hu|Hu].
  - destruct (decide (u' = u)) as [->|Hne].
    + apply sb_to_flow_find_None. by rewrite Hu.
    + unfold sb_to_flow_find. cbn [find]. unfold uuid_equals at 2.
      rewrite bool_decide_eq_false_2; [done|congruence].
  - unfold sb_to_flow_find in *. cbn [find]. rewrite IH by done.
    unfold uuid_equals.
    destruct (bool_decide_reflect (u' = stf_sb_uuid x)) as [Hu'|Hu'].
    + rewrite decide_False; [done|congruence].
    + done.
Qed.

Lemma filter_ext_elem {A : Type} (P Q : A → Prop)
    `{∀ x, Decision (P x)} `{∀ x, Decision (Q x)} (l : list A) :
  (∀ x, x ∈ l → P x ↔ Q x) → filter P l = filter Q l.
Proof.
  induction l as [|x l IH]; intros Hpq; [done|].
  assert (filter P l = filter Q l) as Hl.
  { apply IH. intros y Hy. apply Hpq, elem_of_cons. by right. }
  destruct (decide (P x)) as [Hp|Hp].
  - rewrite !filter_cons_True, Hl; [done| |done].
    apply Hpq; [apply elem_of_cons; by left|done].
  - rewrite !filter_cons_False, Hl; [done| |done].
    intros Hq. apply Hp, Hpq; [apply elem_of_cons; by left|done].
Qed.

Lemma filter_all {A : Type} (P : A → Prop) `{∀ x, Decision (P x)}
    (l : list A) :
  (∀ x, x ∈ l → P x) → filter P l = l.
Proof.
  induction l as [|x l IH]; intros Hp; [done|].
  rewrite filter_cons_True by (apply Hp, elem_of_cons; by left).
  rewrite IH; [done|]. intros y Hy. apply Hp, elem_of_cons. by right.
Qed.

Lemma desired_flow_unsourced (u : uuid) (fd : desired_flow) :
  u ∉ d_sources fd →
  Some fd
  = Some {| d_flow := d_flow fd;
            d_references :=
              filter (λ sfr, sfr_sb_uuid sfr ≠ u) (d_references fd);
            d_installed_flow := d_installed_flow fd |}.
Proof.
  intros Hnu. rewrite filter_all; [by destruct fd|].
  intros x Hx Hxu. apply Hnu. apply list_elem_of_fmap. by exists x.
Qed.

Lemma links_wf_listed (F : uuid → option (list sb_flow_ref))
    (index : list ptr) (m : memory) (u : uuid) (d : ptr)
    (fd : desired_flow) :
  links_wf F index m → d ∈ index → desired_at m !! d = Some fd →
  u ∈ d_sources fd →
  ∃ l, F u = Some l ∧ {| sfr_flow := d; sfr_sb_uuid := u |} ∈ l.
Proof.
  intros [_ Hl2] Hd Hfd (x & Hxu & Hx)%list_elem_of_fmap.
  destruct (Hl2 d fd Hd Hfd) as [_ Hr].
  destruct (Hr x Hx) as (Hxf & l & Hfl & Hxl). exists l.
  rewrite Hxu. split; [done|]. rewrite <- Hxf. by destruct x.
Qed.

(** The removal of the flows of one node of the [uuid_flow_table]. *)
Lemma remove_flows_from_sb_to_flow_spec
    (flow_table : ovn_desired_flow_table) (stf : sb_to_flow) (m : memory) :
  let u := stf_sb_uuid stf in
  desired_table_wf flow_table m →
  sb_links_wf flow_table m →
  desired_back_linked flow_table m →
  sb_to_flow_find (uuid_flow_table flow_table) u = Some stf →
  ∃ flow_table' m',
    remove_flows_from_sb_to_flow flow_table stf m = Some (flow_table', m')
    ∧ (desired_table_wf flow_table' m' ∧ sb_links_wf flow_table' m'
       ∧ desired_back_linked flow_table' m')
    ∧ uuid_flow_table flow_table'
      = sb_to_flow_remove (uuid_flow_table flow_table) u
    ∧ sublist (match_flow_table flow_table') (match_flow_table flow_table)
    ∧ (∀ d fd, d ∈ match_flow_table flow_table →
         desired_at m !! d = Some fd →
         let refs := filter (λ sfr, sfr_sb_uuid sfr ≠ u) (d_references fd) in
         if bool_decide (u ∈ d_sources fd ∧ refs = []) then
           (d ∉ match_flow_table flow_table')
           ∧ desired_at m' !! d = None
           ∧ ∀ i, d_installed_flow fd = Some i →
                  ∃ fi', installed_at m' !! i = Some fi'
                         ∧ d ∉ i_desired_refs fi'
         else
           d ∈ match_flow_table flow_table'
           ∧ desired_at m' !! d
             = Some {| d_flow := d_flow fd; d_references := refs;
                       d_installed_flow := d_installed_flow fd |})
    ∧ (∀ d, d ∉ match_flow_table flow_table →
            desired_at m' !! d = desired_at m !! d)
    ∧ (∀ i fi, installed_at m !! i = Some fi →
         ∃ fi', installed_at m' !! i = Some fi'
                ∧ i_flow fi' = i_flow fi
                ∧ i_desired_refs fi' ⊆ i_desired_refs fi)
    ∧ installed_flows_kept m m'.
Proof.
  intros u Hwf [Hnd Hl] Hb Hfind.
  set (F := λ u, stf_flows <$> sb_to_flow_find (uuid_flow_table flow_table) u)
    in Hl.
  assert (Hsrc : ∀ d fd, d ∈ match_flow_table flow_table →
            desired_at m !! d = Some fd →
            ∀ x, x ∈ d_references fd →
                 sfr_sb_uuid x ≠ u
                 ↔ x ≠ {| sfr_flow := d; sfr_sb_uuid := u |}).
  { intros d fd Hd Hfd x Hx. destruct Hl as [_ Hl2].
    destruct (Hl2 d fd Hd Hfd) as [_ Hr]. destruct (Hr x Hx) as [Hxf _].
    split.
    - by intros Hne ->.
    - intros Hne Hxu. apply Hne. by apply sb_flow_ref_eq. }
  assert (F u = Some (stf_flows stf)) as HF by (unfold F; by rewrite Hfind).
  destruct (remove_flow_ref_loop (stf_flows stf) F flow_table m u
              Hwf Hl Hb HF)
    as (flow_table1 & m1 & Hloop & Hwf1 & Hl1 & Hb1 & He & Hk).
  destruct He as (Ht & Hs & Ha & Hb2 & Hc & _).
  unfold remove_flows_from_sb_to_flow. rewrite Hloop.
  cbn [mbind option_bind]. eexists _, _. split; [done|].
  cbn [match_flow_table uuid_flow_table]. rewrite Ht. fold u.
  split; [|split; [done|split; [done|split; [|split; [|by split]]]]].
  - split; [done|]. split; [|done]. split.
    + cbn [uuid_flow_table]. eapply sublist_NoDup; [exact Hnd|].
      apply fmap_sublist, sb_to_flow_remove_sublist.
    + cbn [uuid_flow_table match_flow_table].
      destruct Hl1 as [Hl11 Hl12]. split.
      * intros u' l. rewrite sb_to_flow_find_remove by done.
        destruct (decide (u' = u)) as [->|Hne] eqn:Hdec; [done|].
        intros Hl'. apply Hl11. by rewrite Hdec.
      * intros d fd Hd Hfd. destruct (Hl12 d fd Hd Hfd) as [Hndr Hr].
        split; [done|]. intros x Hx.
        destruct (Hr x Hx) as (Hxf & l & Hfl & Hxl). split; [done|].
        exists l. rewrite sb_to_flow_find_remove by done.
        destruct (decide (sfr_sb_uuid x = u)) as [Hxu|Hxu]; [|done].
        injection Hfl as <-. by apply not_elem_of_nil in Hxl.
  - intros d fd Hd Hfd. cbn zeta.
    set (sfr := {| sfr_flow := d; sfr_sb_uuid := u |}).
    destruct (decide (u ∈ d_sources fd)) as [Hin|Hnin].
    + destruct (links_wf_listed F _ m u d fd Hl Hd Hfd Hin)
        as (l & Hfl & Hsl).
      rewrite HF in Hfl. injection Hfl as <-.
      specialize (Hb2 sfr fd Hsl Hfd). cbn zeta in Hb2.
      rewrite (filter_ext_elem _ (λ x, x ≠ sfr)) by (by apply (Hsrc d fd)).
      cbn [sfr sfr_flow] in Hb2.
      destruct (bool_decide_reflect
                  (filter (λ x, x ≠ sfr) (d_references fd) = []))
        as [Hnil|Hne].
      * by rewrite bool_decide_eq_true_2.
      * rewrite bool_decide_eq_false_2; [done|]. by intros [_ ?].
    + rewrite bool_decide_eq_false_2 by (by intros [? _]).
      destruct (Ha d) as [Hm1 Hi1].
      { intros x Hx Hxd. apply Hnin.
        destruct Hl as [Hl_1 _]. destruct (Hl_1 u _ HF) as [_ Hall].
        destruct (Hall x Hx) as (Hxu & _ & fdx & Hfdx & Hxr).
        rewrite Hxd, Hfd in Hfdx. injection Hfdx as <-.
        apply list_elem_of_fmap. by exists x. }
      split; [by apply Hi1|]. rewrite Hm1, Hfd.
      by apply desired_flow_unsourced.
  - intros d Hd. apply Ha. intros x Hx Hxd. apply Hd.
    destruct Hl as [Hl_1 _]. destruct (Hl_1 u _ HF) as [_ Hall].
    destruct (Hall x Hx) as (_ & Hin & _). by rewrite <- Hxd.
Qed.

(** What [ofctrl_remove_flows] does for one source. *)
Lemma ofctrl_remove_flows_effect
    (remove_desired : ovn_extend_table → uuid → ovn_extend_table)
    (flow_table : ovn_desired_flow_table) (u : uuid) (s : ofctrl)
    (gs ms : ovn_extend_table) :
  let m := mem s in
  groups s = Some gs →
  meters s = Some ms →
  desired_table_wf flow_table m →
  sb_links_wf flow_table m →
  desired_back_linked flow_table m →
  ∃ flow_table' m',
    ofctrl_remove_flows remove_desired flow_table u s
    = Some (flow_table',
            set_meters (Some (remove_desired ms u))
              (set_groups (Some (remove_desired gs u)) (set_mem m' s)))
    ∧ (desired_table_wf flow_table' m' ∧ sb_links_wf flow_table' m'
       ∧ desired_back_linked flow_table' m')
    ∧ (∀ u', sb_to_flow_find (uuid_flow_table flow_table') u'
             = if decide (u' = u) then None
               else sb_to_flow_find (uuid_flow_table flow_table) u')
    ∧ sublist (match_flow_table flow_table') (match_flow_table flow_table)
    ∧ (∀ d fd, d ∈ match_flow_table flow_table →
         desired_at m !! d = Some fd →
         let refs := filter (λ sfr, sfr_sb_uuid sfr ≠ u) (d_references fd) in
         if bool_decide (u ∈ d_sources fd ∧ refs = []) then
           (d ∉ match_flow_table flow_table')
           ∧ desired_at m' !! d = None
           ∧ ∀ i, d_installed_flow fd = Some i →
                  ∃ fi', installed_at m' !! i = Some fi'
                         ∧ d ∉ i_desired_refs fi'
         else
           d ∈ match_flow_table flow_table'
           ∧ desired_at m' !! d
             = Some {| d_flow := d_flow fd; d_references := refs;
                       d_installed_flow := d_installed_flow fd |})
    ∧ (∀ d, d ∉ match_flow_table flow_table →
            desired_at m' !! d = desired_at m !! d)
    ∧ (∀ i fi, installed_at m !! i = Some fi →
         ∃ fi', installed_at m' !! i = Some fi'
                ∧ i_flow fi' = i_flow fi
                ∧ i_desired_refs fi' ⊆ i_desired_refs fi)
    ∧ installed_flows_kept m m'.
Proof.
  intros m Hg Hm Hwf Hl Hb.
  assert (Hrest : ∀ flow_table' m',
            remove_flows_of_sb_uuid flow_table u m = Some (flow_table', m') →
            ofctrl_remove_flows remove_desired flow_table u s
            = Some (flow_table',
                    set_meters (Some (remove_desired ms u))
                      (set_groups (Some (remove_desired gs u))
                         (set_mem m' s)))).
  { intros flow_table' m' Hr. unfold ofctrl_remove_flows. fold m.
    rewrite Hr. cbn [mbind option_bind].
    replace (groups (set_mem m' s)) with (Some gs)
      by (rewrite <- Hg; by destruct s).
    cbn [mbind option_bind].
    replace (meters (set_groups _ (set_mem m' s))) with (Some ms)
      by (rewrite <- Hm; by destruct s).
    done. }
  pose proof Hrest as Hrest'. unfold remove_flows_of_sb_uuid in Hrest'.
  destruct (sb_to_flow_find (uuid_flow_table flow_table) u) as [stf|] eqn:Hfind.
  - destruct (sb_to_flow_find_Some _ _ _ Hfind) as [Hu _].
    rewrite <- Hu in Hfind.
    destruct (remove_flows_from_sb_to_flow_spec flow_table stf m Hwf Hl Hb
                Hfind)
      as (flow_table' & m' & Hr & Hinv & Ht & Hrest2).
    rewrite Hu in Ht, Hrest2. exists flow_table', m'.
    split; [by apply Hrest'|]. split; [done|]. split; [|done].
    intros u'. rewrite Ht. apply sb_to_flow_find_remove. by destruct Hl.
  - exists flow_table, m. split; [by apply Hrest'|]. split; [done|].
    split; [|split; [done|split; [|split; [done|]]]].
    + intros u'. by destruct (decide (u' = u)) as [->|].
    + intros d fd Hd Hfd. cbn zeta.
      assert (u ∉ d_sources fd) as Hnin.
      { intros Hin. destruct Hl as [_ Hl].
        destruct (links_wf_listed _ _ m u d fd Hl Hd Hfd Hin)
          as (l & Hfl & _).
        by rewrite Hfind in Hfl. }
      rewrite bool_decide_eq_false_2 by (by intros [? _]).
      split; [done|]. rewrite Hfd. by apply desired_flow_unsourced.
    + split; [|by apply installed_flows_kept_same].
      intros i fi Hfi. by exists fi.
Qed.

(** X14.  What [ofctrl_remove_flows] does for source [u], on a table whose
    flows and links are sound.  It returns; the groups and meters of [u]
    are removed from the desired parts of the extend tables; [u] has no
    node afterwards and the nodes of the other sources are as before; the
    match index loses flows only.  A flow of the index whose only source
    was [u] is out of the index, freed, and off the [desired_refs] of the
    installed flow it pointed to; every other flow of the index stays, with
    its flow and its installed flow, and with its references less those of
    [u].  Desired flows outside the index are untouched, installed flows
    stay allocated with their [flow] and lose desired references only, and
    the table is sound again. *)
Theorem ofctrl_remove_flows_spec
    (remove_desired : ovn_extend_table → uuid → ovn_extend_table)
    (flow_table : ovn_desired_flow_table) (u : uuid) (s : ofctrl)
    (gs ms : ovn_extend_table) :
  let m := mem s in
  groups s = Some gs →
  meters s = Some ms →
  desired_table_wf flow_table m →
  sb_links_wf flow_table m →
  desired_back_linked flow_table m →
  ∃ flow_table' m',
    ofctrl_remove_flows remove_desired flow_table u s
    = Some (flow_table',
            set_meters (Some (remove_desired ms u))
              (set_groups (Some (remove_desired gs u)) (set_mem m' s)))
    ∧ (desired_table_wf flow_table' m' ∧ sb_links_wf flow_table' m'
       ∧ desired_back_linked flow_table' m')
    ∧ (∀ u', sb_to_flow_find (uuid_flow_table flow_table') u'
             = if decide (u' = u) then None
               else sb_to_flow_find (uuid_flow_table flow_table) u')
    ∧ sublist (match_flow_table flow_table') (match_flow_table flow_table)
    ∧ (∀ d fd, d ∈ match_flow_table flow_table →
         desired_at m !! d = Some fd →
         let refs := filter (λ sfr, sfr_sb_uuid sfr ≠ u) (d_references fd) in
         if bool_decide (u ∈ d_sources fd ∧ refs = []) then
           (d ∉ match_flow_table flow_table')
           ∧ desired_at m' !! d = None
           ∧ ∀ i, d_installed_flow fd = Some i →
                  ∃ fi', installed_at m' !! i = Some fi'
                         ∧ d ∉ i_desired_refs fi'
         else
           d ∈ match_flow_table flow_table'
           ∧ desired_at m' !! d
             = Some {| d_flow := d_flow fd; d_references := refs;
                       d_installed_flow := d_installed_flow fd |})
    ∧ (∀ d, d ∉ match_flow_table flow_table →
            desired_at m' !! d = desired_at m !! d)
    ∧ (∀ i fi, installed_at m !! i = Some fi →
         ∃ fi', installed_at m' !! i = Some fi'
                ∧ i_flow fi' = i_flow fi
                ∧ i_desired_refs fi' ⊆ i_desired_refs fi).
Proof.
  intros m Hg Hm Hwf Hl Hb.
  destruct (ofctrl_remove_flows_effect remove_desired flow_table u s gs ms
              Hg Hm Hwf Hl Hb)
    as (flow_table' & m' & Hr & Hinv & Hfind & Hsub & Hchar & Hframe
        & Hmono & _).
  by exists flow_table', m'.
Qed.

(** X15.  [ovn_desired_flow_table_clear] empties a sound table in which
    every flow has a source: it returns the table with an empty match index
    and an empty [uuid_flow_table]; every flow of the index is freed and is
    off the [desired_refs] of the installed flow it pointed to; desired
    flows outside the index are untouched, and the installed flows stay
    allocated with their [flow]. *)
Theorem ovn_desired_flow_table_clear_spec
    (flow_table : ovn_desired_flow_table) (m : memory) :
  desired_table_wf flow_table m →
  sb_links_wf flow_table m →
  desired_back_linked flow_table m →
  (∀ d fd, d ∈ match_flow_table flow_table → desired_at m !! d = Some fd →
           d_references fd ≠ []) →
  ∃ m',
    ovn_desired_flow_table_clear flow_table m
    = Some ({| match_flow_table := []; uuid_flow_table := [] |}, m')
    ∧ (∀ d, d ∈ match_flow_table flow_table → desired_at m' !! d = None)
    ∧ (∀ d, d ∉ match_flow_table flow_table →
            desired_at m' !! d = desired_at m !! d)
    ∧ (∀ d fd i, d ∈ match_flow_table flow_table →
         desired_at m !! d = Some fd → d_installed_flow fd = Some i →
         ∃ fi', installed_at m' !! i = Some fi' ∧ d ∉ i_desired_refs fi')
    ∧ (∀ i fi, installed_at m !! i = Some fi →
         ∃ fi', installed_at m' !! i = Some fi'
                ∧ i_flow fi' = i_flow fi
                ∧ i_desired_refs fi' ⊆ i_desired_refs fi).
Proof.
  unfold ovn_desired_flow_table_clear.
  remember (uuid_flow_table flow_table) as t eqn:Ht.
  revert flow_table m Ht.
  induction t as [|stf t IH]; intros flow_table m Ht Hwf Hl Hb Hsrc.
  - exists m. cbn [for_each].
    assert (match_flow_table flow_table = []) as Hidx.
    { apply elem_of_nil_inv. intros d Hd.
      destruct Hwf as [_ Hall].
      destruct (Hall d Hd) as (fd & Hfd & _).
      pose proof (Hsrc d fd Hd Hfd) as Hne.
      destruct (d_references fd) as [|x r] eqn:Hr; [done|].
      destruct Hl as [_ [_ Hl2]].
      destruct (Hl2 d fd Hd Hfd) as [_ Hx].
      destruct (Hx x) as (_ & l & Hfl & _).
      { rewrite Hr. apply elem_of_cons. by left. }
      rewrite <- Ht in Hfl. done. }
    split; [destruct flow_table; cbn in *; by subst|].
    rewrite Hidx. split; [by intros d Hd%not_elem_of_nil|].
    split; [done|]. split; [by intros d fd i Hd%not_elem_of_nil|].
    intros i fi Hfi. by exists fi.
  - assert (sb_to_flow_find (uuid_flow_table flow_table) (stf_sb_uuid stf)
            = Some stf) as Hfind.
    { unfold sb_to_flow_find. rewrite <- Ht. cbn [find].
      by rewrite uuid_equals_refl. }
    destruct (remove_flows_from_sb_to_flow_spec flow_table stf m Hwf Hl Hb
                Hfind)
      as (flow_table1 & m1 & Hr & (Hwf1 & Hl1 & Hb1) & Ht1 & Hs & Hchar
          & Hframe & Hmono & _).
    cbn zeta in Hchar.
    assert (uuid_flow_table flow_table1 = t) as Ht1'.
    { rewrite Ht1, <- Ht. cbn [sb_to_flow_remove].
      by rewrite uuid_equals_refl. }
    assert (Hin1 : ∀ d, d ∈ match_flow_table flow_table1 →
                        d ∈ match_flow_table flow_table).
    { intros d. by apply sublist_subseteq. }
    destruct (IH flow_table1 m1) as (m' & Hloop & Ha' & Hb' & Hc' & Hd');
      [done|done|done|done| |].
    { intros d fd1 Hd1 Hfd1 Hnil. pose proof (Hin1 d Hd1) as Hd.
      destruct Hwf as [_ Hall]. destruct (Hall d Hd) as (fd & Hfd & _).
      specialize (Hchar d fd Hd Hfd).
      destruct (bool_decide_reflect
                  (stf_sb_uuid stf ∈ d_sources fd
                   ∧ filter (λ sfr, sfr_sb_uuid sfr ≠ stf_sb_uuid stf)
                            (d_references fd) = [])) as [_|Hno].
      - by destruct Hchar as [Hn _].
      - destruct Hchar as [_ Hfd1']. rewrite Hfd1 in Hfd1'.
        injection Hfd1' as ->. cbn in Hnil.
        destruct (decide (stf_sb_uuid stf ∈ d_sources fd)) as [Hu|Hu].
        + by apply Hno.
        + pose proof (desired_flow_unsourced _ fd Hu) as Heq.
          rewrite Hnil in Heq. injection Heq as Heq.
          apply (Hsrc d fd Hd Hfd). by rewrite Heq. }
    exists m'. rewrite for_each_cons. cbn [mbind option_bind].
    change (remove_flows_from_sb_to_flow flow_table stf m ≫= _)
      with (remove_flows_from_sb_to_flow flow_table stf m ≫=
            for_each t (λ stf '(flow_table, m),
                          remove_flows_from_sb_to_flow flow_table stf m)).
    rewrite Hr. cbn [mbind option_bind]. split; [done|].
    assert (Hcase : ∀ d fd, d ∈ match_flow_table flow_table →
              desired_at m !! d = Some fd →
              (d ∈ match_flow_table flow_table1
               ∧ ∃ fd1, desired_at m1 !! d = Some fd1
                        ∧ d_installed_flow fd1 = d_installed_flow fd)
              ∨ ((d ∉ match_flow_table flow_table1)
                 ∧ desired_at m1 !! d = None
                 ∧ ∀ i, d_installed_flow fd = Some i →
                        ∃ fi', installed_at m1 !! i = Some fi'
                               ∧ d ∉ i_desired_refs fi')).
    { intros d fd Hd Hfd. specialize (Hchar d fd Hd Hfd).
      destruct (bool_decide _); [by right|]. left.
      destruct Hchar as [Hd1 Hfd1]. split; [done|]. by eexists. }
    split; [|split; [|split]].
    + intros d Hd. destruct Hwf as [_ Hall].
      destruct (Hall d Hd) as (fd & Hfd & _).
      destruct (Hcase d fd Hd Hfd) as [[Hd1 _]|(Hd1 & Hnone & _)].
      * by apply Ha'.
      * by rewrite Hb'.
    + intros d Hd. rewrite Hb'; [by apply Hframe|]. intros Hd1.
      by apply Hd, Hin1.
    + intros d fd i Hd Hfd Hi.
      destruct (Hcase d fd Hd Hfd)
        as [(Hd1 & fd1 & Hfd1 & Hi1)|(Hd1 & Hnone & Hinst)].
      * apply (Hc' d fd1 i); [done|done|congruence].
      * destruct (Hinst i Hi) as (fi1 & Hfi1 & Hnin).
        destruct (Hd' i fi1 Hfi1) as (fi' & Hfi' & _ & Hsub).
        exists fi'. split; [done|]. intros Hin. by apply Hnin, Hsub.
    + intros i fi Hfi. destruct (Hmono i fi Hfi) as (fi1 & Hfi1 & Hf1 & Hs1).
      destruct (Hd' i fi1 Hfi1) as (fi' & Hfi' & Hf2 & Hs2).
      exists fi'. split; [done|]. split; [congruence|]. by etrans.
Qed.

(** ** Additions keep the links sound *)

Lemma sb_to_flow_update_uuids (t : list sb_to_flow) (u : uuid)
    (g : sb_to_flow → sb_to_flow) :
  (∀ stf, stf_sb_uuid (g stf) = stf_sb_uuid stf) →
  stf_sb_uuid <$> sb_to_flow_update t u g = stf_sb_uuid <$> t.
Proof.
  intros Hg. induction t as [|x t IH]; [done|]. cbn [sb_to_flow_update].
  destruct (uuid_equals u (stf_sb_uuid x)).
  - by rewrite !fmap_cons, Hg.
  - by rewrite !fmap_cons, IH.
Qed.

Lemma sb_to_flow_find_update_ne (t : list sb_to_flow) (u u' : uuid)
    (g : sb_to_flow → sb_to_flow) :
  (∀ stf, stf_sb_uuid (g stf) = stf_sb_uuid stf) → u' ≠ u →
  sb_to_flow_find (sb_to_flow_update t u g) u' = sb_to_flow_find t u'.
Proof.
  intros Hg Hne. unfold sb_to_flow_find.
  induction t as [|x t IH]; [done|]. cbn [sb_to_flow_update].
  unfold uuid_equals in *.
  destruct (bool_decide_reflect (u = stf_sb_uuid x)) as [Hu|Hu].
  - cbn [find]. rewrite Hg.
    rewrite !bool_decide_eq_false_2 by congruence. done.
  - cbn [find]. by rewrite IH.
Qed.

Lemma sb_to_flow_find_None_inv (t : list sb_to_flow) (u : uuid) :
  sb_to_flow_find t u = None → u ∉ stf_sb_uuid <$> t.
Proof.
  unfold sb_to_flow_find. induction t as [|x t IH]; intros Hf.
  { apply not_elem_of_nil. }
  cbn [find] in Hf. unfold uuid_equals in Hf at 1.
  destruct (bool_decide_reflect (u = stf_sb_uuid x)) as [Hu|Hu]; [done|].
  rewrite fmap_cons. apply not_elem_of_cons. split; [done|]. by apply IH.
Qed.

Lemma link_flow_to_sb_table (flow_table : ovn_desired_flow_table) (f : ptr)
    (u : uuid) (m : memory) (fd : desired_flow) :
  let sfr := {| sfr_flow := f; sfr_sb_uuid := u |} in
  desired_at m !! f = Some fd →
  NoDup (stf_sb_uuid <$> uuid_flow_table flow_table) →
  ∃ flow_table',
    link_flow_to_sb flow_table f u m
    = Some (flow_table',
            set_desired_at
              (insert f {| d_flow := d_flow fd;
                           d_references := d_references fd ++ [sfr];
                           d_installed_flow := d_installed_flow fd |}) m)
    ∧ match_flow_table flow_table' = match_flow_table flow_table
    ∧ NoDup (stf_sb_uuid <$> uuid_flow_table flow_table')
    ∧ ∀ u', stf_flows <$> sb_to_flow_find (uuid_flow_table flow_table') u'
            = if decide (u' = u) then
                Some (default [] (stf_flows <$> sb_to_flow_find
                                    (uuid_flow_table flow_table) u)
                      ++ [sfr])
              else stf_flows <$> sb_to_flow_find
                                   (uuid_flow_table flow_table) u'.
Proof.
  intros sfr Hf Hnd. unfold link_flow_to_sb. rewrite Hf.
  cbn [mbind option_bind]. eexists. split; [done|]. split; [done|].
  cbn [uuid_flow_table]. fold sfr.
  set (g := λ stf, {| stf_sb_uuid := stf_sb_uuid stf;
                      stf_flows := stf_flows stf ++ [sfr] |}).
  assert (Hg : ∀ stf, stf_sb_uuid (g stf) = stf_sb_uuid stf) by done.
  split.
  - rewrite sb_to_flow_update_uuids by done.
    destruct (sb_to_flow_find (uuid_flow_table flow_table) u) eqn:Hfind;
      [done|].
    unfold hmap_insert. rewrite fmap_cons. apply NoDup_cons.
    split; [|done]. by apply sb_to_flow_find_None_inv.
  - intros u'. destruct (decide (u' = u)) as [->|Hne].
    + rewrite sb_to_flow_find_update by done.
      destruct (sb_to_flow_find (uuid_flow_table flow_table) u) eqn:Hfind.
      * by rewrite Hfind.
      * unfold sb_to_flow_find, hmap_insert. cbn [find stf_sb_uuid].
        by rewrite uuid_equals_refl.
    + rewrite sb_to_flow_find_update_ne by done.
      destruct (sb_to_flow_find (uuid_flow_table flow_table) u) eqn:Hfind;
        [done|].
      unfold sb_to_flow_find, hmap_insert. cbn [find stf_sb_uuid].
      unfold uuid_equals at 1. by rewrite bool_decide_eq_false_2.
Qed.

(** [link_flow_to_sb]: the link goes behind the references of the flow and
    behind the links of the node of the source, which is made when the
    source has none; the nodes of the other sources are as they were. *)
Lemma link_flow_to_sb_links (flow_table : ovn_desired_flow_table) (f : ptr)
    (u : uuid) (m : memory) (fd : desired_flow) :
  let sfr := {| sfr_flow := f; sfr_sb_uuid := u |} in
  desired_at m !! f = Some fd →
  ∃ flow_table',
    link_flow_to_sb flow_table f u m
    = Some (flow_table',
            set_desired_at
              (insert f {| d_flow := d_flow fd;
                           d_references := d_references fd ++ [sfr];
                           d_installed_flow := d_installed_flow fd |}) m)
    ∧ match_flow_table flow_table' = match_flow_table flow_table
    ∧ ∀ u', stf_flows <$> sb_to_flow_find (uuid_flow_table flow_table') u'
            = if decide (u' = u) then
                Some (default [] (stf_flows <$> sb_to_flow_find
                                    (uuid_flow_table flow_table) u)
                      ++ [sfr])
              else stf_flows <$> sb_to_flow_find
                                   (uuid_flow_table flow_table) u'.
Proof.
  intros sfr Hf. unfold link_flow_to_sb. rewrite Hf.
  cbn [mbind option_bind]. eexists. split; [done|]. split; [done|].
  cbn [uuid_flow_table]. fold sfr.
  set (g := λ stf, {| stf_sb_uuid := stf_sb_uuid stf;
                      stf_flows := stf_flows stf ++ [sfr] |}).
  assert (Hg : ∀ stf, stf_sb_uuid (g stf) = stf_sb_uuid stf) by done.
  intros u'. destruct (decide (u' = u)) as [->|Hne].
  - rewrite sb_to_flow_find_update by done.
    destruct (sb_to_flow_find (uuid_flow_table flow_table) u) eqn:Hfind.
    + by rewrite Hfind.
    + unfold sb_to_flow_find, hmap_insert. cbn [find stf_sb_uuid].
      by rewrite uuid_equals_refl.
  - rewrite sb_to_flow_find_update_ne by done.
    destruct (sb_to_flow_find (uuid_flow_table flow_table) u) eqn:Hfind;
      [done|].
    unfold sb_to_flow_find, hmap_insert. cbn [find stf_sb_uuid].
    unfold uuid_equals at 1. by rewrite bool_decide_eq_false_2.
Qed.

(** The add of a flow that the lookup does not find, with the links of the
    sources. *)
Lemma ofctrl_check_and_add_flow_new_links
    (flow_table : ovn_desired_flow_table) (t p c : Z) (mt : minimatch)
    (a : list Byte.byte) (u : uuid) (log_duplicate_flow : bool)
    (m : memory) :
  let f := xmalloc (desired_at m) in
  let sfr := {| sfr_flow := f; sfr_sb_uuid := u |} in
  desired_table_wf flow_table m →
  desired_flow_lookup flow_table (ovn_flow_init t p c mt a) (Some u) m
  = Some None →
  ∃ flow_table',
    ofctrl_check_and_add_flow flow_table t p c mt a u log_duplicate_flow m
    = Some (flow_table',
            set_desired_at
              (insert f {| d_flow := ovn_flow_init t p c mt a;
                           d_references := [sfr];
                           d_installed_flow := None |}) m)
    ∧ match_flow_table flow_table'
      = hmap_insert (match_flow_table flow_table) f
    ∧ ∀ u', stf_flows <$> sb_to_flow_find (uuid_flow_table flow_table') u'
            = if decide (u' = u) then
                Some (default [] (stf_flows <$> sb_to_flow_find
                                    (uuid_flow_table flow_table) u)
                      ++ [sfr])
              else stf_flows <$> sb_to_flow_find
                                   (uuid_flow_table flow_table) u'.
Proof.
  intros f sfr Hwf Hlook. unfold ofctrl_check_and_add_flow.
  rewrite desired_flow_alloc_eq. cbn beta iota. fold f.
  set (cand := {| d_flow := ovn_flow_init t p c mt a; d_references := [];
                  d_installed_flow := None |}).
  replace (desired_at (set_desired_at (insert f cand) m) !! f)
    with (Some cand) by (simpl; by rewrite lookup_insert_eq).
  cbn [mbind option_bind d_flow cand].
  subst f. rewrite desired_flow_lookup_alloc, Hlook by done.
  cbn [mbind option_bind].
  set (f := xmalloc (desired_at m)) in *.
  destruct (link_flow_to_sb_links
              {| match_flow_table :=
                   hmap_insert (match_flow_table flow_table) f;
                 uuid_flow_table := uuid_flow_table flow_table |}
              f u (set_desired_at (insert f cand) m) cand)
    as (ft' & Hlink & Hmt & Hfind).
  { simpl. by rewrite lookup_insert_eq. }
  exists ft'. split; [|done]. rewrite Hlink. do 2 f_equal.
  unfold set_desired_at. simpl. by rewrite insert_insert_eq.
Qed.

(** The append to a flow that the lookup finds, with the links of the
    sources. *)
Lemma ofctrl_add_or_append_flow_existing_links
    (desired_flows : ovn_desired_flow_table) (t p c : Z) (mt : minimatch)
    (a : list Byte.byte) (u : uuid) (m : memory) (e : ptr)
    (fe : desired_flow) :
  let sfr := {| sfr_flow := e; sfr_sb_uuid := u |} in
  desired_table_wf desired_flows m →
  desired_flow_lookup desired_flows (ovn_flow_init t p c mt a) None m
  = Some (Some e) →
  desired_at m !! e = Some fe →
  ∃ desired_flows',
    ofctrl_add_or_append_flow desired_flows t p c mt a u m
    = Some (desired_flows',
            set_desired_at
              (insert e
                 {| d_flow := {| table_id := table_id (d_flow fe);
                                 priority := priority (d_flow fe);
                                 match_ := match_ (d_flow fe);
                                 hash := hash (d_flow fe);
                                 ofpacts := ofpacts (d_flow fe) ++ a;
                                 cookie := cookie (d_flow fe) |};
                    d_references := d_references fe ++ [sfr];
                    d_installed_flow := d_installed_flow fe |}) m)
    ∧ match_flow_table desired_flows' = match_flow_table desired_flows
    ∧ ∀ u', stf_flows <$> sb_to_flow_find (uuid_flow_table desired_flows') u'
            = if decide (u' = u) then
                Some (default [] (stf_flows <$> sb_to_flow_find
                                    (uuid_flow_table desired_flows) u)
                      ++ [sfr])
              else stf_flows <$> sb_to_flow_find
                                   (uuid_flow_table desired_flows) u'.
Proof.
  intros sfr Hwf Hlook He. unfold ofctrl_add_or_append_flow.
  rewrite desired_flow_alloc_eq. cbn beta iota.
  set (f := xmalloc (desired_at m)).
  set (cand := {| d_flow := ovn_flow_init t p c mt a; d_references := [];
                  d_installed_flow := None |}).
  replace (desired_at (set_desired_at (insert f cand) m) !! f)
    with (Some cand) by (simpl; by rewrite lookup_insert_eq).
  cbn [mbind option_bind d_flow cand].
  subst f. rewrite desired_flow_lookup_alloc, Hlook by done.
  cbn [mbind option_bind].
  set (f := xmalloc (desired_at m)).
  assert (Hef : f ≠ e).
  { intros <-. subst f. by rewrite xmalloc_fresh in He. }
  replace (desired_at (set_desired_at (insert f cand) m) !! e)
    with (Some fe) by (simpl; by rewrite lookup_insert_ne).
  cbn [mbind option_bind].
  set (fe' := {| d_flow := _; d_references := d_references fe;
                 d_installed_flow := _ |}).
  assert (Hdestroy :
    desired_flow_destroy f
      (set_desired_at (insert e fe') (set_desired_at (insert f cand) m))
    = Some (set_desired_at (insert e fe') m)).
  { unfold desired_flow_destroy. simpl.
    rewrite lookup_insert_ne, lookup_insert_eq by done. simpl.
    f_equal. unfold set_desired_at. simpl. f_equal.
    rewrite delete_insert_ne, delete_insert_eq, delete_id by
      (done || apply xmalloc_fresh). done. }
  rewrite Hdestroy. cbn [mbind option_bind].
  destruct (link_flow_to_sb_links desired_flows e u
              (set_desired_at (insert e fe') m) fe')
    as (ft' & Hlink & Hmt & Hfind).
  { simpl. by rewrite lookup_insert_eq. }
  exists ft'. split; [|done]. rewrite Hlink. do 2 f_equal.
  unfold set_desired_at. simpl. by rewrite insert_insert_eq.
Qed.

(** C4, as the code has it.  [ofctrl_add_or_append_flow] on a key that a
    desired flow of the table already has, whatever its sources: the
    candidate's actions are concatenated behind the actions of one such
    flow, and a source link from [sb_uuid] to that flow is appended, whether
    or not [sb_uuid] is linked to it already, both to the references of the
    flow and to the links of the node of [sb_uuid] in the
    [uuid_flow_table]; the match index, every other flow and the nodes of
    the other sources are unchanged.  In particular, on a table that has no
    flow with the key, after an add with [actions1] from [s1] and an
    add-or-append with [actions2] from [s2] on the same key, the match index
    holds one new desired flow beside the flows it held, whose actions are
    [actions1] followed by [actions2] and whose references are the link of
    [s1] followed by the link of [s2]; the node of [s1] and the node of
    [s2] have gained these links, one each when [s1] differs from [s2], and
    the nodes of the other sources are unchanged. *)
Theorem ofctrl_add_or_append_flow_appends
    (desired_flows : ovn_desired_flow_table) (t p : Z) (mt : minimatch)
    (m : memory) :
  desired_table_wf desired_flows m →
  let has_key (fd : desired_flow) :=
    table_id (d_flow fd) = t ∧ priority (d_flow fd) = p
    ∧ match_ (d_flow fd) = mt in
  let links (flow_table : ovn_desired_flow_table) (u : uuid) :=
    stf_flows <$> sb_to_flow_find (uuid_flow_table flow_table) u in
  (∀ c a u,
     (∃ d fd, d ∈ match_flow_table desired_flows
              ∧ desired_at m !! d = Some fd ∧ has_key fd) →
     ∃ e fe desired_flows' m',
       e ∈ match_flow_table desired_flows
       ∧ desired_at m !! e = Some fe ∧ has_key fe
       ∧ ofctrl_add_or_append_flow desired_flows t p c mt a u m
         = Some (desired_flows', m')
       ∧ match_flow_table desired_flows' = match_flow_table desired_flows
       ∧ desired_at m' !! e
         = Some {| d_flow := {| table_id := table_id (d_flow fe);
                                priority := priority (d_flow fe);
                                match_ := match_ (d_flow fe);
                                hash := hash (d_flow fe);
                                ofpacts := ofpacts (d_flow fe) ++ a;
                                cookie := cookie (d_flow fe) |};
                   d_references :=
                     d_references fe
                     ++ [ {| sfr_flow := e; sfr_sb_uuid := u |} ];
                   d_installed_flow := d_installed_flow fe |}
       ∧ (∀ d, d ≠ e → desired_at m' !! d = desired_at m !! d)
       ∧ (∀ u', links desired_flows' u'
                = if decide (u' = u) then
                    Some (default [] (links desired_flows u)
                          ++ [ {| sfr_flow := e; sfr_sb_uuid := u |} ])
                  else links desired_flows u'))
  ∧ (∀ c1 actions1 s1 c2 actions2 s2,
       (∀ d fd, d ∈ match_flow_table desired_flows →
                desired_at m !! d = Some fd → ¬ has_key fd) →
       ∃ f flows1 m1 flows2 m2,
         ofctrl_add_flow desired_flows t p c1 mt actions1 s1 m
         = Some (flows1, m1)
         ∧ ofctrl_add_or_append_flow flows1 t p c2 mt actions2 s2 m1
           = Some (flows2, m2)
         ∧ desired_at m !! f = None
         ∧ match_flow_table flows2 ≡ₚ f :: match_flow_table desired_flows
         ∧ desired_at m2
           = <[f := {| d_flow := ovn_flow_init t p c1 mt
                                   (actions1 ++ actions2);
                       d_references :=
                         [ {| sfr_flow := f; sfr_sb_uuid := s1 |};
                           {| sfr_flow := f; sfr_sb_uuid := s2 |} ];
                       d_installed_flow := None |}]> (desired_at m)
         ∧ (∀ u', links flows2 u'
                  = if decide (u' = s1 ∨ u' = s2) then
                      Some (default [] (links desired_flows u')
                            ++ (if decide (u' = s1)
                                then [ {| sfr_flow := f; sfr_sb_uuid := s1 |} ]
                                else [])
                            ++ (if decide (u' = s2)
                                then [ {| sfr_flow := f; sfr_sb_uuid := s2 |} ]
                                else []))
                    else links desired_flows u')).
Proof.
  intros Hwf has_key links.
  assert (Hkey : ∀ d fd c a,
            d ∈ match_flow_table desired_flows →
            desired_at m !! d = Some fd →
            ovn_flow_key_match (d_flow fd) (ovn_flow_init t p c mt a) = true
            ↔ has_key fd).
  { intros d fd c a Hd Hfd. destruct Hwf as [_ Hall].
    destruct (Hall d Hd) as (fd' & Hfd' & Hh).
    assert (fd' = fd) as -> by congruence.
    rewrite ovn_flow_key_match_iff; [|done|apply ovn_flow_init_hashed].
    unfold ovn_flow_key_eq, flow_key, has_key. simpl.
    split; [by intros [= -> -> ->] | by intros (-> & -> & ->)]. }
  assert (Halloc : ∀ d, d ∈ match_flow_table desired_flows →
                        is_Some (desired_at m !! d)).
  { intros d Hd. destruct Hwf as [_ Hall].
    destruct (Hall d Hd) as (fd & -> & _). eauto. }
  split.
  - intros c a u (d & fd & Hd & Hfd & Hk).
    destruct (desired_flow_lookup_in_spec (match_flow_table desired_flows)
                (ovn_flow_init t p c mt a) None m Halloc)
      as (res & Hres & Hspec).
    destruct res as [e|].
    + destruct Hspec as (He & fe & Hfe & Hke & _).
      destruct (ofctrl_add_or_append_flow_existing_links
                  desired_flows t p c mt a u m e fe Hwf Hres Hfe)
        as (ft' & Hrun & Hmt & Hfind).
      exists e, fe, ft'. eexists.
      split; [done|]. split; [done|]. split; [by eapply Hkey|].
      split; [exact Hrun|]. split; [done|]. simpl.
      split; [by rewrite lookup_insert_eq|].
      split; [|exact Hfind].
      intros d' Hne. by rewrite lookup_insert_ne.
    + destruct (Hspec d fd Hd Hfd) as (u' & [=] & _). by eapply Hkey.
  - intros c1 a1 s1 c2 a2 s2 Hnokey.
    destruct (desired_flow_lookup_in_spec (match_flow_table desired_flows)
                (ovn_flow_init t p c1 mt a1) (Some s1) m Halloc)
      as (res & Hres & Hspec).
    destruct res as [d|].
    { destruct Hspec as (Hd & fd & Hfd & Hk & _).
      exfalso. eapply Hnokey; [done|done|]. by eapply Hkey. }
    destruct (ofctrl_check_and_add_flow_new_links desired_flows t p c1 mt a1
                s1 true m Hwf Hres) as (ft1 & Hadd & Hmt1 & Hfind1).
    set (f := xmalloc (desired_at m)) in *.
    set (fd1 := {| d_flow := ovn_flow_init t p c1 mt a1;
                   d_references := [ {| sfr_flow := f; sfr_sb_uuid := s1 |} ];
                   d_installed_flow := None |}) in *.
    set (m1 := set_desired_at (insert f fd1) m) in *.
    assert (Hwf1 : desired_table_wf ft1 m1).
    { by apply (desired_table_wf_insert desired_flows). }
    assert (Hf1 : desired_at m1 !! f = Some fd1).
    { subst m1. simpl. by rewrite lookup_insert_eq. }
    assert (Hlook : desired_flow_lookup ft1 (ovn_flow_init t p c2 mt a2)
                      None m1 = Some (Some f)).
    { unfold desired_flow_lookup. rewrite Hmt1. simpl.
      fold f. rewrite lookup_insert_eq. simpl.
      unfold ovn_flow_key_match. simpl.
      by rewrite !Z.eqb_refl, bool_decide_eq_true_2. }
    destruct (ofctrl_add_or_append_flow_existing_links ft1 t p c2 mt a2 s2
                m1 f fd1 Hwf1 Hlook Hf1) as (ft2 & Happ & Hmt2 & Hfind2).
    exists f, ft1, m1, ft2. eexists.
    split; [exact Hadd|]. split; [exact Happ|].
    split; [apply xmalloc_fresh|]. split; [by rewrite Hmt2, Hmt1|].
    split; [simpl; by rewrite insert_insert_eq|].
    intros u'. unfold links. rewrite Hfind2.
    destruct (decide (u' = s2)) as [->|Hne2].
    + rewrite decide_True by (by right). rewrite Hfind1.
      destruct (decide (s2 = s1)) as [->|Hne1].
      * cbn. by rewrite <- app_assoc.
      * cbn. done.
    + rewrite Hfind1. destruct (decide (u' = s1)) as [->|Hne1].
      * rewrite decide_True by (by left). by cbn.
      * rewrite decide_False; [done|]. by intros [?|?].
Qed.

(** A new link [sfr] from source [u] to flow [f], whose references were
    [refs], keeps the links sound when [u] was not a source of [f]. *)
Lemma links_wf_link (F : uuid → option (list sb_flow_ref))
    (index index' : list ptr) (m m' : memory) (f : ptr) (fd' : desired_flow)
    (u : uuid) (refs : list sb_flow_ref) :
  let sfr := {| sfr_flow := f; sfr_sb_uuid := u |} in
  links_wf F index m →
  (∀ d, d ∈ index' ↔ d = f ∨ d ∈ index) →
  (∀ d, d ≠ f → desired_at m' !! d = desired_at m !! d) →
  desired_at m' !! f = Some fd' →
  d_references fd' = refs ++ [sfr] →
  (if decide (f ∈ index)
   then ∃ fd, desired_at m !! f = Some fd ∧ d_references fd = refs
   else refs = []) →
  u ∉ sfr_sb_uuid <$> refs →
  links_wf (λ u', if decide (u' = u) then Some (default [] (F u) ++ [sfr])
                  else F u') index' m'.
Proof.
  intros sfr [H1 H2] Hidx Hother Hf Hrefs Hold Hu.
  assert (Hsfr : sfr ∉ refs).
  { intros Hin. apply Hu. apply list_elem_of_fmap. by exists sfr. }
  assert (HA : ∀ l, F u = Some l → sfr ∉ l).
  { intros l Hl Hin. destruct (H1 u l Hl) as [_ Hall].
    destruct (Hall sfr Hin) as (_ & Hfin & fd & Hfd & Hr).
    cbn [sfr sfr_flow] in Hfin, Hfd. rewrite decide_True in Hold by done.
    destruct Hold as (fd0 & Hfd0 & Hr0). rewrite Hfd in Hfd0.
    injection Hfd0 as <-. apply Hsfr. by rewrite <- Hr0. }
  assert (HB : ∀ x fdx, sfr_flow x ∈ index →
            desired_at m !! sfr_flow x = Some fdx → x ∈ d_references fdx →
            ∃ fdx', desired_at m' !! sfr_flow x = Some fdx'
                    ∧ x ∈ d_references fdx').
  { intros x fdx Hxin Hfdx Hxr.
    destruct (decide (sfr_flow x = f)) as [Hxf|Hxf].
    - exists fd'. rewrite Hxf. split; [done|]. rewrite Hrefs.
      rewrite Hxf in Hxin, Hfdx. rewrite decide_True in Hold by done.
      destruct Hold as (fd0 & Hfd0 & Hr0). rewrite Hfdx in Hfd0.
      injection Hfd0 as <-. apply elem_of_app. left. by rewrite <- Hr0.
    - exists fdx. by rewrite Hother. }
  assert (HC : ∀ u' l x, F u' = Some l → x ∈ l →
            sfr_sb_uuid x = u' ∧ sfr_flow x ∈ index'
            ∧ ∃ fdx', desired_at m' !! sfr_flow x = Some fdx'
                      ∧ x ∈ d_references fdx').
  { intros u' l x Hl Hx. destruct (H1 u' l Hl) as [_ Hall].
    destruct (Hall x Hx) as (Hxu & Hxin & fdx & Hfdx & Hxr).
    split; [done|]. split; [apply Hidx; by right|]. by apply (HB x fdx). }
  assert (HD : ∀ x l, F (sfr_sb_uuid x) = Some l → x ∈ l →
            ∃ l', (if decide (sfr_sb_uuid x = u)
                   then Some (default [] (F u) ++ [sfr])
                   else F (sfr_sb_uuid x)) = Some l' ∧ x ∈ l').
  { intros x l Hl Hx. destruct (decide (sfr_sb_uuid x = u)) as [Hxu|Hxu].
    - eexists. split; [done|]. rewrite Hxu in Hl. rewrite Hl. cbn.
      apply elem_of_app. by left.
    - by exists l. }
  split.
  - intros u' l. destruct (decide (u' = u)) as [->|Hne].
    + intros [= <-]. split.
      * apply NoDup_app. split; [|split].
        -- destruct (F u) as [l|] eqn:Hl; [|apply NoDup_nil_2].
           by destruct (H1 u l Hl).
        -- intros x Hx ->%list_elem_of_singleton.
           destruct (F u) as [l|] eqn:Hl; [|by apply not_elem_of_nil in Hx].
           by apply (HA l).
        -- apply NoDup_singleton.
      * intros x [Hx| ->%list_elem_of_singleton]%elem_of_app.
        -- destruct (F u) as [l|] eqn:Hl; [|by apply not_elem_of_nil in Hx].
           by apply (HC u l).
        -- split; [done|]. split; [apply Hidx; by left|].
           exists fd'. split; [done|]. rewrite Hrefs.
           apply elem_of_app. right. by apply list_elem_of_singleton.
    + intros Hl. split; [by destruct (H1 u' l Hl)|].
      intros x Hx. by apply (HC u' l).
  - intros d fdd [->|Hd]%Hidx Hfdd.
    + rewrite Hf in Hfdd. injection Hfdd as <-. rewrite Hrefs.
      destruct (decide (f ∈ index)) as [Hfin|Hfin].
      * destruct Hold as (fd0 & Hfd0 & Hr0).
        destruct (H2 f fd0 Hfin Hfd0) as [Hnd Hall]. rewrite Hr0 in Hnd, Hall.
        split.
        { apply NoDup_app. split; [done|]. split; [|apply NoDup_singleton].
          by intros x Hx ->%list_elem_of_singleton. }
        intros x [Hx| ->%list_elem_of_singleton]%elem_of_app.
        -- destruct (Hall x Hx) as (Hxf & l & Hl & Hxl). split; [done|].
           by apply (HD x l).
        -- split; [done|]. eexists. cbn [sfr sfr_sb_uuid].
           rewrite decide_True by done. split; [done|].
           apply elem_of_app. right. by apply list_elem_of_singleton.
      * rewrite Hold. cbn [app]. split; [apply NoDup_singleton|].
        intros x ->%list_elem_of_singleton. split; [done|]. eexists.
        cbn [sfr sfr_sb_uuid]. rewrite decide_True by done. split; [done|].
        apply elem_of_app. right. by apply list_elem_of_singleton.
    + destruct (decide (d = f)) as [->|Hne].
      * rewrite Hf in Hfdd. injection Hfdd as <-. rewrite Hrefs.
        rewrite decide_True in Hold by done.
        destruct Hold as (fd0 & Hfd0 & Hr0).
        destruct (H2 f fd0 Hd Hfd0) as [Hnd Hall]. rewrite Hr0 in Hnd, Hall.
        split.
        { apply NoDup_app. split; [done|]. split; [|apply NoDup_singleton].
          by intros x Hx ->%list_elem_of_singleton. }
        intros x [Hx| ->%list_elem_of_singleton]%elem_of_app.
        -- destruct (Hall x Hx) as (Hxf & l & Hl & Hxl). split; [done|].
           by apply (HD x l).
        -- split; [done|]. eexists. cbn [sfr sfr_sb_uuid].
           rewrite decide_True by done. split; [done|].
           apply elem_of_app. right. by apply list_elem_of_singleton.
      * rewrite Hother in Hfdd by done.
        destruct (H2 d fdd Hd Hfdd) as [Hnd Hall]. split; [done|].
        intros x Hx. destruct (Hall x Hx) as (Hxf & l & Hl & Hxl).
        split; [done|]. by apply (HD x l).
Qed.

(** The two outcomes of [ofctrl_add_flow]. *)
Lemma ofctrl_add_flow_cases (flow_table : ovn_desired_flow_table)
    (t p c : Z) (mt : minimatch) (a : list Byte.byte) (u : uuid)
    (m : memory) :
  let f := xmalloc (desired_at m) in
  let sfr := {| sfr_flow := f; sfr_sb_uuid := u |} in
  desired_table_wf flow_table m →
  NoDup (stf_sb_uuid <$> uuid_flow_table flow_table) →
  ofctrl_add_flow flow_table t p c mt a u m = Some (flow_table, m)
  ∨ ∃ flow_table',
      ofctrl_add_flow flow_table t p c mt a u m
      = Some (flow_table',
              set_desired_at
                (insert f {| d_flow := ovn_flow_init t p c mt a;
                             d_references := [sfr];
                             d_installed_flow := None |}) m)
      ∧ match_flow_table flow_table' = f :: match_flow_table flow_table
      ∧ NoDup (stf_sb_uuid <$> uuid_flow_table flow_table')
      ∧ ∀ u', stf_flows <$> sb_to_flow_find (uuid_flow_table flow_table') u'
              = if decide (u' = u) then
                  Some (default [] (stf_flows <$> sb_to_flow_find
                                      (uuid_flow_table flow_table) u)
                        ++ [sfr])
                else stf_flows <$> sb_to_flow_find
                                     (uuid_flow_table flow_table) u'.
Proof.
  intros f sfr Hwf Hnd.
  destruct (desired_flow_lookup_in_spec (match_flow_table flow_table)
              (ovn_flow_init t p c mt a) (Some u) m) as (r & Hr & Hspec).
  { intros d Hd. destruct Hwf as [_ Hall].
    destruct (Hall d Hd) as (fd & -> & _). by eexists. }
  unfold ofctrl_add_flow, ofctrl_check_and_add_flow.
  rewrite desired_flow_alloc_eq. cbn beta iota. fold f.
  set (cand := {| d_flow := ovn_flow_init t p c mt a;
                  d_references := []; d_installed_flow := None |}).
  replace (desired_at (set_desired_at (insert f cand) m) !! f)
    with (Some cand) by (simpl; by rewrite lookup_insert_eq).
  cbn [mbind option_bind d_flow cand].
  subst f. rewrite desired_flow_lookup_alloc by done.
  unfold desired_flow_lookup. rewrite Hr. cbn [mbind option_bind].
  destruct r as [d0|].
  - left. subst cand. by rewrite desired_flow_destroy_candidate.
  - right. set (f := xmalloc (desired_at m)) in *.
    destruct (link_flow_to_sb_table
                {| match_flow_table :=
                     hmap_insert (match_flow_table flow_table) f;
                   uuid_flow_table := uuid_flow_table flow_table |}
                f u (set_desired_at (insert f cand) m) cand)
      as (ft' & Hlink & Hmt & Hnd' & Hfind).
    { simpl. by rewrite lookup_insert_eq. }
    { done. }
    exists ft'. split; [|done]. rewrite Hlink. do 2 f_equal.
    unfold set_desired_at. simpl. by rewrite insert_insert_eq.
Qed.

(** The four properties of a table that [ofctrl_add_flow] keeps. *)
Lemma ofctrl_add_flow_links (flow_table : ovn_desired_flow_table)
    (t p c : Z) (mt : minimatch) (a : list Byte.byte) (u : uuid)
    (m : memory) :
  desired_table_wf flow_table m →
  sb_links_wf flow_table m →
  desired_back_linked flow_table m →
  (∀ d fd, d ∈ match_flow_table flow_table → desired_at m !! d = Some fd →
           d_references fd ≠ []) →
  ∃ flow_table' m',
    ofctrl_add_flow flow_table t p c mt a u m = Some (flow_table', m')
    ∧ desired_table_wf flow_table' m'
    ∧ sb_links_wf flow_table' m'
    ∧ desired_back_linked flow_table' m'
    ∧ (∀ d fd, d ∈ match_flow_table flow_table' →
               desired_at m' !! d = Some fd → d_references fd ≠ [])
    ∧ installed_at m' = installed_at m.
Proof.
  intros Hwf [Hnd Hl] Hb Hsrc.
  destruct (ofctrl_add_flow_cases flow_table t p c mt a u m Hwf Hnd)
    as [Hsame|(flow_table' & Hadd & Hidx & Hnd' & Hfind)].
  { exists flow_table, m. split; [done|]. split; [done|].
    split; [by split|]. split; [done|]. by split. }
  set (f := xmalloc (desired_at m)) in *.
  set (sfr := {| sfr_flow := f; sfr_sb_uuid := u |}) in *.
  set (fd' := {| d_flow := ovn_flow_init t p c mt a; d_references := [sfr];
                 d_installed_flow := None |}) in *.
  assert (Hfresh : f ∉ match_flow_table flow_table).
  { intros Hin. destruct Hwf as [_ Hall].
    destruct (Hall f Hin) as (fd & Hfd & _).
    pose proof (xmalloc_fresh (desired_at m)) as Hnone. fold f in Hnone.
    by rewrite Hnone in Hfd. }
  assert (Hlk : ∀ d, desired_at (set_desired_at (insert f fd') m) !! d
                     = if decide (d = f) then Some fd'
                       else desired_at m !! d).
  { intros d. cbn. destruct (decide (d = f)) as [->|Hne].
    - apply lookup_insert_eq.
    - by apply lookup_insert_ne. }
  eexists _, _. split; [exact Hadd|].
  split; [by eapply desired_table_wf_insert|].
  split; [|split; [|split; [|done]]].
  - split; [done|]. rewrite Hidx.
    set (F := λ u', stf_flows <$> sb_to_flow_find
                                    (uuid_flow_table flow_table) u') in *.
    assert (links_wf
              (λ u', if decide (u' = u)
                     then Some (default [] (F u) ++ [sfr]) else F u')
              (f :: match_flow_table flow_table)
              (set_desired_at (insert f fd') m)) as Hlink.
    { apply (links_wf_link F (match_flow_table flow_table) _ m _ f fd' u []).
      - done.
      - intros d. by rewrite elem_of_cons.
      - intros d Hne. by rewrite Hlk, decide_False.
      - by rewrite Hlk, decide_True.
      - done.
      - by rewrite decide_False.
      - apply not_elem_of_nil. }
    eapply links_wf_ext; [|exact Hlink]. intros u'. cbn beta.
    symmetry. apply Hfind.
  - intros d fd i. rewrite Hidx, Hlk.
    destruct (decide (d = f)) as [->|Hne]; [by intros _ [= <-]|].
    intros [->|Hd]%elem_of_cons; [done|]. by apply Hb.
  - intros d fd. rewrite Hidx, Hlk.
    destruct (decide (d = f)) as [->|Hne]; [by intros _ [= <-]|].
    intros [->|Hd]%elem_of_cons; [done|]. by apply Hsrc.
Qed.

(** X16.  [ofctrl_add_flow] keeps a table sound: from a table whose flows
    and links are sound, whose linked flows are on the [desired_refs] of
    their installed flows, and whose flows all have a source, it returns a
    table with the same four properties, and it leaves the installed flows
    as they are. *)
Theorem ofctrl_add_flow_keeps_links (flow_table : ovn_desired_flow_table)
    (t p c : Z) (mt : minimatch) (a : list Byte.byte) (u : uuid)
    (m : memory) :
  desired_table_wf flow_table m →
  sb_links_wf flow_table m →
  desired_back_linked flow_table m →
  (∀ d fd, d ∈ match_flow_table flow_table → desired_at m !! d = Some fd →
           d_references fd ≠ []) →
  ∃ flow_table' m',
    ofctrl_add_flow flow_table t p c mt a u m = Some (flow_table', m')
    ∧ desired_table_wf flow_table' m'
    ∧ sb_links_wf flow_table' m'
    ∧ desired_back_linked flow_table' m'
    ∧ (∀ d fd, d ∈ match_flow_table flow_table' →
               desired_at m' !! d = Some fd → d_references fd ≠ [])
    ∧ installed_at m' = installed_at m.
Proof. apply ofctrl_add_flow_links. Qed.

(** ** A put and its acknowledgement *)

Lemma put_track_fresh (msgs : list ofpbuf) (nb_cfg : Z)
    (pending_ct_zones : gmap string ct_zone_pending_entry) (s : ofctrl) :
  msgs ≠ [] →
  flow_updates s = [] →
  let r := put_track msgs nb_cfg pending_ct_zones s in
  flow_updates r.1
  = [ {| fup_xid := next_xid (swconn s); fup_nb_cfg := nb_cfg |} ]
  ∧ state r.1 = state s.
Proof.
  intros Hmsgs Hq. cbn zeta. unfold put_track.
  rewrite bool_decide_eq_false_2 by done. cbn [negb].
  destruct (ofpbuf_new OFPT_BARRIER_REQUEST s) as [barrier s1] eqn:Hb.
  assert (barrier = {| msg_xid := next_xid (swconn s);
                       msg_body := OFPT_BARRIER_REQUEST |}
          ∧ flow_updates s1 = flow_updates s ∧ state s1 = state s)
    as (-> & Hq1 & Hst1).
  { destruct s. cbn in Hb. by injection Hb as <- <-. }
  cbn [fst snd msg_xid].
  set (l := msgs ++ [ {| msg_xid := next_xid (swconn s);
                         msg_body := OFPT_BARRIER_REQUEST |} ]).
  destruct (foldl_queue_msg_eq l s1) as (_ & _ & Hq' & _).
  assert (Hst' : state (foldl (λ s msg, (queue_msg msg s).2) s1 l)
                 = state s1).
  { clear. revert s1. induction l as [|msg l IH]; intros s1; [done|].
    cbn [foldl]. rewrite IH. by destruct s1. }
  set (s2 := foldl (λ s msg, (queue_msg msg s).2) s1 l) in *.
  replace (flow_updates (set_flow_updates _ s2))
    with (reverse (track_flow_update (reverse (flow_updates s2)) nb_cfg
                                     (next_xid (swconn s))))
    by (by destruct s2).
  replace (state (set_flow_updates _ s2)) with (state s2)
    by (by destruct s2).
  rewrite Hq', Hq1, Hq, Hst', Hst1. done.
Qed.

Lemma ofctrl_run_loop_ack (n : nat) (oh : ofp_header)
    (pending_ct_zones : gmap string ct_zone_pending_entry) (seqno : Z)
    (s : ofctrl) (fup : ofctrl_flow_update)
    (rest : list ofctrl_flow_update) :
  state s = S_UPDATE_FLOWS →
  flow_updates s = fup :: rest →
  oh_xid oh = fup_xid fup →
  ∃ s' pending_ct_zones',
    ofctrl_run_loop (S (S n)) [Some (oh, Some OFPTYPE_BARRIER_REPLY)]
      pending_ct_zones seqno s
    = Some {| run_seqno := seqno; run_engine := s';
              run_ct_zones := pending_ct_zones'; run_rx := [];
              run_wake := false |}
    ∧ flow_updates s' = rest
    ∧ cur_cfg s' = Z.max (cur_cfg s) (fup_nb_cfg fup)
    ∧ state s' = S_UPDATE_FLOWS
    ∧ txq (swconn s') = txq (swconn s).
Proof.
  intros Hst Hq Hxid.
  rewrite ofctrl_run_loop_S. cbn zeta. unfold run_state at 1. rewrite Hst.
  cbn [mbind option_bind head tail default from_option id].
  unfold recv_state at 1. rewrite Hst. unfold recv_S_UPDATE_FLOWS.
  rewrite Hq, Hxid, Z.eqb_refl.
  rewrite (bool_decide_eq_true_2
             (OFPTYPE_BARRIER_REPLY = OFPTYPE_BARRIER_REPLY)) by done.
  rewrite (bool_decide_eq_false_2 (fup :: rest = [])) by done.
  cbn [andb negb mbind option_bind].
  set (s1 := set_flow_updates rest
               (if fup_nb_cfg fup >=? cur_cfg s
                then set_cur_cfg (fup_nb_cfg fup) s else s)).
  assert (state s1 = S_UPDATE_FLOWS) as Hst1.
  { subst s1. rewrite <- Hst. destruct (_ >=? _); by destruct s. }
  assert (flow_updates s1 = rest) as Hq1.
  { subst s1. destruct (_ >=? _); by destruct s. }
  assert (cur_cfg s1 = Z.max (cur_cfg s) (fup_nb_cfg fup)) as Hcur1.
  { subst s1. destruct (Z.geb_spec (fup_nb_cfg fup) (cur_cfg s));
      destruct s; cbn in *; lia. }
  assert (txq (swconn s1) = txq (swconn s)) as Ht1.
  { subst s1. destruct (_ >=? _); by destruct s. }
  clearbody s1.
  rewrite (bool_decide_eq_true_2
             (Some (oh, Some OFPTYPE_BARRIER_REPLY) ≠ None)) by done.
  rewrite orb_true_r.
  rewrite ofctrl_run_loop_S. cbn zeta. unfold run_state at 1. rewrite Hst1.
  cbn [mbind option_bind head tail default from_option id].
  rewrite bool_decide_eq_false_2 by (by intros ?).
  rewrite bool_decide_eq_false_2 by (by intros ?). cbn [orb].
  by eexists _, _.
Qed.

(** X17.  A put and its acknowledgement.  The engine is up to date (no flow
    update is in flight) and [nb_cfg] did not decrease.  A put that goes
    through either sends nothing, and then [ofctrl_get_cur_cfg] is [nb_cfg]
    at once; or it sends a batch that ends with a barrier request and
    leaves [cur_cfg] alone, and then the call of [ofctrl_run] that receives
    the reply to that barrier moves [ofctrl_get_cur_cfg] to [nb_cfg],
    leaves no update in flight and sends nothing. *)
Theorem ofctrl_put_acknowledged (flow_table : ovn_desired_flow_table)
    (pending_ct_zones : gmap string ct_zone_pending_entry)
    (meter_table : list sbrec_meter) (nb_cfg : Z) (flow_changed : bool)
    (s : ofctrl) :
  ofctrl_can_put s = true →
  (put_needed nb_cfg flow_changed s).1 = true →
  engine_wf flow_table s →
  flow_updates s = [] →
  cur_cfg s ≤ nb_cfg →
  ∃ s' pending_ct_zones' sent,
    ofctrl_put flow_table pending_ct_zones meter_table nb_cfg flow_changed s
    = Some (s', pending_ct_zones')
    ∧ txq (swconn s') = txq (swconn s) ++ sent
    ∧ (sent = [] → ofctrl_get_cur_cfg s' = nb_cfg ∧ flow_updates s' = [])
    ∧ (sent ≠ [] →
       ∃ x, last sent = Some {| msg_xid := x;
                                msg_body := OFPT_BARRIER_REQUEST |}
            ∧ ofctrl_get_cur_cfg s' = ofctrl_get_cur_cfg s
            ∧ ∀ input oh seqno,
                connected input = true →
                connection_seqno input = seqno →
                rx input = [Some (oh, Some OFPTYPE_BARRIER_REPLY)] →
                oh_xid oh = x →
                ∃ r, ofctrl_run input pending_ct_zones' seqno s' = Some r
                     ∧ ofctrl_get_cur_cfg (run_engine r) = nb_cfg
                     ∧ flow_updates (run_engine r) = []
                     ∧ txq (swconn (run_engine r)) = txq (swconn s')
                     ∧ run_rx r = [] ∧ run_wake r = false).
Proof.
  intros Hcan Hneed Hwf Hq0 Hle. unfold ofctrl_get_cur_cfg.
  destruct (ofctrl_put_past_gates flow_table pending_ct_zones meter_table
              nb_cfg flow_changed s Hcan Hneed Hwf)
    as (msgs & s1 & _ & -> & (Ht & _ & Hc & Hq & Hcur & Hst) & _).
  assert (Hst0 : state s = S_UPDATE_FLOWS).
  { by apply ofctrl_can_put_tx in Hcan as [_ ?]. }
  assert (Hq1 : flow_updates s1 = []).
  { rewrite Hq, <- Hq0. by destruct s. }
  assert (Ht1 : txq (swconn s1) = txq (swconn s)).
  { rewrite Ht. by destruct s. }
  assert (Hcur1 : cur_cfg s1 = cur_cfg s).
  { rewrite Hcur. by destruct s. }
  assert (Hst1 : state s1 = S_UPDATE_FLOWS).
  { rewrite Hst, <- Hst0. by destruct s. }
  clear Ht Hc Hq Hcur Hst.
  destruct (decide (msgs = [])) as [->|Hmsgs].
  - exists (put_track [] nb_cfg (ct_zone_flush <$> pending_ct_zones) s1).1,
      (put_track [] nb_cfg (ct_zone_flush <$> pending_ct_zones) s1).2, [].
    split; [by destruct (put_track _ _ _ _)|].
    unfold put_track. rewrite bool_decide_eq_true_2 by done. cbn [negb].
    rewrite (bool_decide_eq_true_2 (flow_updates s1 = [])) by done.
    cbn [negb fst].
    split; [rewrite app_nil_r, <- Ht1; by destruct s1|].
    split; [|done]. intros _. rewrite <- Hq1. by destruct s1.
  - destruct (put_track_sends msgs nb_cfg (ct_zone_flush <$> pending_ct_zones)
                s1 Hmsgs) as (Ht' & _ & _ & Hcur' & _).
    destruct (put_track_fresh msgs nb_cfg (ct_zone_flush <$> pending_ct_zones)
                s1 Hmsgs Hq1) as (Hq' & Hst').
    destruct (put_track msgs nb_cfg (ct_zone_flush <$> pending_ct_zones) s1)
      as [s' zones'].
    cbn [fst snd] in *.
    exists s', zones',
      (msgs ++ [ {| msg_xid := next_xid (swconn s1);
                    msg_body := OFPT_BARRIER_REQUEST |} ]).
    split; [done|]. split; [by rewrite Ht', Ht1|]. split.
    { intros Hnil. by apply app_eq_nil in Hnil as [_ ?]. }
    intros _. exists (next_xid (swconn s1)).
    split; [by rewrite last_snoc|]. split; [congruence|].
    intros input oh seqno Hconn Hseq Hrx Hxid.
    unfold ofctrl_run. rewrite Hconn, Hrx. cbn [negb].
    rewrite bool_decide_eq_false_2 by (by intros ?).
    destruct (ofctrl_run_loop_ack 48 oh zones' seqno s'
                {| fup_xid := next_xid (swconn s1); fup_nb_cfg := nb_cfg |}
                []) as (s2 & zones2 & Hrun & Hq2 & Hcur2 & _ & Ht2);
      [congruence|done|done|].
    eexists. split; [exact Hrun|]. cbn [run_engine run_rx run_wake].
    split; [|done]. rewrite Hcur2. cbn [fup_nb_cfg]. lia.
Qed.

(** ** Echo requests *)

Lemma ofctrl_run_loop_echo (ohs : list ofp_header) :
  ∀ (n : nat) (pending_ct_zones : gmap string ct_zone_pending_entry)
    (seqno : Z) (s : ofctrl),
  (length ohs ≤ n)%nat →
  state s = S_UPDATE_FLOWS →
  ∃ s',
    ofctrl_run_loop (S n)
      ((λ oh, Some (oh, Some OFPTYPE_ECHO_REQUEST)) <$> ohs)
      pending_ct_zones seqno s
    = Some {| run_seqno := seqno; run_engine := s';
              run_ct_zones := pending_ct_zones; run_rx := [];
              run_wake := false |}
    ∧ txq (swconn s')
      = txq (swconn s)
        ++ ((λ oh, {| msg_xid := oh_xid oh; msg_body := OFPT_ECHO_REPLY |})
              <$> ohs)
    ∧ tx_counter s' = tx_counter s + Z.of_nat (length ohs)
    ∧ state s' = S_UPDATE_FLOWS
    ∧ installed_flows s' = installed_flows s ∧ mem s' = mem s
    ∧ cur_cfg s' = cur_cfg s ∧ flow_updates s' = flow_updates s.
Proof.
  induction ohs as [|oh ohs IH]; intros n zones seqno s Hlen Hst.
  - exists s. rewrite ofctrl_run_loop_S. cbn zeta. unfold run_state.
    rewrite Hst.
    cbn [mbind option_bind fmap list_fmap head tail default from_option id].
    rewrite Hst.
    rewrite bool_decide_eq_false_2 by (by intros ?).
    rewrite bool_decide_eq_false_2 by (by intros ?). cbn [orb].
    split; [done|]. rewrite app_nil_r. cbn. repeat split; lia.
  - destruct n as [|n]; [cbn in Hlen; lia|].
    rewrite ofctrl_run_loop_S. cbn zeta. unfold run_state at 1. rewrite Hst.
    rewrite fmap_cons.
    cbn [mbind option_bind head tail default from_option id].
    unfold recv_state at 1. rewrite Hst. unfold recv_S_UPDATE_FLOWS.
    rewrite (bool_decide_eq_false_2
               (OFPTYPE_ECHO_REQUEST = OFPTYPE_BARRIER_REPLY)) by done.
    cbn [andb mbind option_bind]. unfold ofctrl_recv.
    set (s1 := (queue_msg {| msg_xid := oh_xid oh;
                             msg_body := OFPT_ECHO_REPLY |} s).2).
    assert (state s1 = S_UPDATE_FLOWS) as Hst1.
    { rewrite <- Hst. by destruct s. }
    rewrite (bool_decide_eq_true_2
               (Some (oh, Some OFPTYPE_ECHO_REQUEST) ≠ None)) by done.
    rewrite orb_true_r.
    destruct (IH n zones seqno s1) as (s' & Hrun & Ht & Hc & Hst' & Hrest);
      [cbn in Hlen; lia|done|].
    exists s'. split; [exact Hrun|].
    split; [rewrite Ht; subst s1; destruct s; cbn; by rewrite <- app_assoc|].
    split; [rewrite Hc; subst s1; destruct s; cbn [length]; cbn; lia|].
    split; [done|]. destruct Hrest as (-> & -> & -> & ->).
    subst s1. by destruct s.
Qed.

(** X18.  Echo requests in S_UPDATE_FLOWS.  One call of [ofctrl_run] on a
    connection that did not reconnect answers each of up to 49 pending echo
    requests with an echo reply of the same xid, in their order, behind
    what the connection holds; it takes all of them off the connection,
    asks for no immediate wake-up, and leaves the state, the flows, the
    flow updates and [cur_cfg] as they are. *)
Theorem ofctrl_run_echo (input : rconn_input) (ohs : list ofp_header)
    (pending_ct_zones : gmap string ct_zone_pending_entry) (seqno : Z)
    (s : ofctrl) :
  connected input = true →
  connection_seqno input = seqno →
  state s = S_UPDATE_FLOWS →
  rx input = (λ oh, Some (oh, Some OFPTYPE_ECHO_REQUEST)) <$> ohs →
  (length ohs < 50)%nat →
  ∃ s',
    ofctrl_run input pending_ct_zones seqno s
    = Some {| run_seqno := seqno; run_engine := s';
              run_ct_zones := pending_ct_zones; run_rx := [];
              run_wake := false |}
    ∧ txq (swconn s')
      = txq (swconn s)
        ++ ((λ oh, {| msg_xid := oh_xid oh; msg_body := OFPT_ECHO_REPLY |})
              <$> ohs)
    ∧ tx_counter s' = tx_counter s + Z.of_nat (length ohs)
    ∧ state s' = S_UPDATE_FLOWS
    ∧ installed_flows s' = installed_flows s ∧ mem s' = mem s
    ∧ cur_cfg s' = cur_cfg s ∧ flow_updates s' = flow_updates s.
Proof.
  intros Hconn Hseq Hst Hrx Hlen. unfold ofctrl_run.
  rewrite Hconn, Hrx. cbn [negb].
  rewrite bool_decide_eq_false_2 by (by intros ?).
  apply (ofctrl_run_loop_echo ohs 49); [lia|done].
Qed.

(** ** A put on an engine that is in sync *)

Lemma same_flow_contents_refl (m : memory) : same_flow_contents m m.
Proof. by split. Qed.

Lemma same_flow_contents_trans (m1 m2 m3 : memory) :
  same_flow_contents m1 m2 → same_flow_contents m2 m3 →
  same_flow_contents m1 m3.
Proof.
  intros [Hd1 Hi1] [Hd2 Hi2]. split; intros k.
  - by rewrite Hd2, Hd1.
  - by rewrite Hi2, Hi1.
Qed.

Lemma unlink_installed_to_desired_contents (i d : ptr) (m m' : memory) :
  unlink_installed_to_desired i d m = Some m' → same_flow_contents m m'.
Proof.
  unfold unlink_installed_to_desired.
  destruct (installed_at m !! i) as [fi|] eqn:Hfi; [|done].
  cbn [mbind option_bind].
  destruct (desired_at m !! d) as [fd|] eqn:Hfd; [|done].
  cbn [mbind option_bind]. destruct (_ && _); [|done].
  destruct (ovs_list_remove (i_desired_refs fi) d) as [refs|]; [|done].
  cbn [mbind option_bind]. intros [= <-]. split; intros k; cbn.
  - destruct (decide (k = d)) as [->|Hne].
    + by rewrite lookup_insert_eq, Hfd.
    + by rewrite lookup_insert_ne.
  - destruct (decide (k = i)) as [->|Hne].
    + by rewrite lookup_insert_eq, Hfi.
    + by rewrite lookup_insert_ne.
Qed.

Lemma unlink_all_refs_contents (i : ptr) (m m' : memory) :
  unlink_all_refs_for_installed_flow i m = Some m' → same_flow_contents m m'.
Proof.
  unfold unlink_all_refs_for_installed_flow.
  destruct (installed_at m !! i) as [fi|]; [|done].
  cbn [mbind option_bind]. generalize (i_desired_refs fi). intros l.
  revert m. induction l as [|d l IH]; intros m.
  - intros [= <-]. apply same_flow_contents_refl.
  - rewrite for_each_cons.
    destruct (unlink_installed_to_desired i d m) as [m1|] eqn:H1; [|done].
    cbn [mbind option_bind]. intros Hrest.
    eapply same_flow_contents_trans;
      [by eapply unlink_installed_to_desired_contents|by apply IH].
Qed.

Lemma link_installed_to_desired_contents (i d : ptr) (m m' : memory) :
  link_installed_to_desired i d m = Some m' → same_flow_contents m m'.
Proof.
  unfold link_installed_to_desired.
  destruct (installed_at m !! i) as [fi|] eqn:Hfi; [|done].
  cbn [mbind option_bind].
  destruct (bool_decide (i_desired_flow fi = Some d)).
  { intros [= <-]. apply same_flow_contents_refl. }
  destruct (desired_at m !! d) as [fd|] eqn:Hfd; [|done].
  cbn [mbind option_bind].
  match goal with
  | |- context [mbind _ ?x] => destruct x as [primary|]; [|done]
  end.
  cbn [mbind option_bind].
  destruct (ovs_list_push_back (i_desired_refs fi) d) as [refs|]; [|done].
  cbn [mbind option_bind]. intros [= <-]. split; intros k; cbn.
  - destruct (decide (k = d)) as [->|Hne].
    + by rewrite lookup_insert_eq, Hfd.
    + by rewrite lookup_insert_ne.
  - destruct (decide (k = i)) as [->|Hne].
    + by rewrite lookup_insert_eq, Hfi.
    + by rewrite lookup_insert_ne.
Qed.

Lemma desired_flow_lookup_in_contents (chain : list ptr) (target : ovn_flow)
    (m m' : memory) :
  same_flow_contents m m' →
  desired_flow_lookup_in chain target None m'
  = desired_flow_lookup_in chain target None m.
Proof.
  intros [Hd _]. induction chain as [|d chain IH]; [done|].
  cbn [desired_flow_lookup_in]. specialize (Hd d).
  destruct (desired_at m' !! d) as [fd'|], (desired_at m !! d) as [fd|];
    try done.
  injection Hd as Hd. cbn [mbind option_bind]. by rewrite Hd, IH.
Qed.

Lemma installed_flow_lookup_in_contents (chain : list ptr)
    (target : ovn_flow) (m m' : memory) :
  same_flow_contents m m' →
  installed_flow_lookup_in chain target m'
  = installed_flow_lookup_in chain target m.
Proof.
  intros [_ Hi]. induction chain as [|i chain IH]; [done|].
  cbn [installed_flow_lookup_in]. specialize (Hi i).
  destruct (installed_at m' !! i) as [fi'|], (installed_at m !! i) as [fi|];
    try done.
  injection Hi as Hi. cbn [mbind option_bind]. by rewrite Hi, IH.
Qed.

Lemma installed_in_sync_contents (flow_table : ovn_desired_flow_table)
    (m m' : memory) (i : ptr) :
  same_flow_contents m m' →
  installed_in_sync flow_table m i → installed_in_sync flow_table m' i.
Proof.
  intros Hsame Hsync fi' Hfi'. pose proof Hsame as [Hd Hi].
  specialize (Hi i). rewrite Hfi' in Hi.
  destruct (installed_at m !! i) as [fi|] eqn:Hfi; [|done].
  injection Hi as Hi. destruct (Hsync fi Hfi) as (d & fd & Hl & Hfd & Ha & Hc).
  specialize (Hd d). rewrite Hfd in Hd.
  destruct (desired_at m' !! d) as [fd'|] eqn:Hfd'; [|done].
  injection Hd as Hd. exists d, fd'. unfold desired_flow_lookup in *.
  rewrite (desired_flow_lookup_in_contents _ _ m m') by done.
  rewrite Hi, Hd. done.
Qed.

Lemma desired_in_sync_contents (s s' : ofctrl) (d : ptr) :
  same_flow_contents (mem s) (mem s') →
  installed_flows s' = installed_flows s →
  desired_in_sync s d → desired_in_sync s' d.
Proof.
  intros Hsame Hl Hsync fd' Hfd'. pose proof Hsame as [Hd _].
  specialize (Hd d). rewrite Hfd' in Hd.
  destruct (desired_at (mem s) !! d) as [fd|] eqn:Hfd; [|done].
  injection Hd as Hd. destruct (Hsync fd Hfd) as (i & Hi).
  exists i. unfold installed_flow_lookup in *.
  by rewrite Hl, (installed_flow_lookup_in_contents _ _ (mem s)), Hd.
Qed.

Lemma silent_refl (acc : list ofpbuf * ofctrl) : silent acc acc.
Proof.
  split; [done|]. split; [apply quiet_refl|]. split; [done|].
  split; [apply same_flow_contents_refl|done].
Qed.

Lemma silent_trans (a b c : list ofpbuf * ofctrl) :
  silent a b → silent b c → silent a c.
Proof.
  intros (H1 & Hq1 & Hl1 & Hs1 & Hg1 & Hm1) (H2 & Hq2 & Hl2 & Hs2 & Hg2 & Hm2).
  split; [congruence|]. split; [by eapply quiet_trans|].
  split; [congruence|]. split; [by eapply same_flow_contents_trans|].
  split; congruence.
Qed.

Lemma with_mem_silent (f : memory → option memory) (msgs : list ofpbuf)
    (s s' : ofctrl) :
  (∀ m', f (mem s) = Some m' → same_flow_contents (mem s) m') →
  with_mem f s = Some s' → silent (msgs, s) (msgs, s').
Proof.
  intros Hf Hw. pose proof (with_mem_quiet f s s' Hw) as [Hq Hl].
  unfold with_mem in Hw. destruct (f (mem s)) as [m'|] eqn:Hfm; [|done].
  injection Hw as <-. split; [done|]. split; [done|]. split; [done|].
  cbn [snd]. split; [|by destruct s].
  replace (mem (set_mem m' s)) with m' by (by destruct s). by apply Hf.
Qed.

Lemma put_installed_flow_silent (flow_table : ovn_desired_flow_table)
    (i : ptr) (acc acc' : list ofpbuf * ofctrl) :
  put_installed_flow flow_table i acc = Some acc' →
  installed_in_sync flow_table (mem acc.2) i →
  silent acc acc'.
Proof.
  destruct acc as [msgs s]. cbn [snd]. unfold put_installed_flow.
  destruct (with_mem (unlink_all_refs_for_installed_flow i) s)
    as [s1|] eqn:H1; [|done]. cbn [mbind option_bind].
  intros Hrun Hsync.
  assert (Hs1 : silent (msgs, s) (msgs, s1)).
  { eapply with_mem_silent; [|exact H1].
    intros m'. apply unlink_all_refs_contents. }
  pose proof Hs1 as (_ & _ & _ & Hsame1 & _). cbn [snd] in Hsame1.
  apply (installed_in_sync_contents _ _ _ _ Hsame1) in Hsync.
  destruct (installed_at (mem s1) !! i) as [fi|] eqn:Hfi; [|done].
  cbn [mbind option_bind] in Hrun.
  destruct (Hsync fi Hfi) as (d & fd & Hlook & Hfd & Ha & Hc).
  rewrite Hlook in Hrun. cbn [mbind option_bind] in Hrun.
  rewrite Hfd in Hrun. cbn [mbind option_bind] in Hrun.
  unfold ofpacts_equal in Hrun.
  rewrite bool_decide_eq_true_2, Hc, Z.eqb_refl in Hrun by done.
  cbn [negb orb mbind option_bind] in Hrun.
  destruct (with_mem (link_installed_to_desired i d) s1)
    as [s2|] eqn:H2; [|done].
  injection Hrun as <-. eapply silent_trans; [exact Hs1|].
  eapply with_mem_silent; [|exact H2].
  intros m'. apply link_installed_to_desired_contents.
Qed.

Lemma put_desired_flow_silent (d : ptr) (acc acc' : list ofpbuf * ofctrl) :
  put_desired_flow d acc = Some acc' →
  desired_in_sync acc.2 d →
  silent acc acc'.
Proof.
  destruct acc as [msgs s]. cbn [snd]. unfold put_desired_flow.
  intros Hrun Hsync.
  destruct (desired_at (mem s) !! d) as [fd|] eqn:Hfd; [|done].
  cbn [mbind option_bind] in Hrun.
  destruct (Hsync fd Hfd) as (i & Hi). rewrite Hi in Hrun.
  cbn [mbind option_bind] in Hrun.
  destruct (with_mem (link_installed_to_desired i d) s)
    as [s2|] eqn:H2; [|done].
  injection Hrun as <-. eapply with_mem_silent; [|exact H2].
  intros m'. apply link_installed_to_desired_contents.
Qed.

Lemma for_each_silent {A : Type} (l : list A)
    (body : A → list ofpbuf * ofctrl → option (list ofpbuf * ofctrl))
    (P : A → ofctrl → Prop) :
  (∀ x acc acc', body x acc = Some acc' → P x acc.2 → silent acc acc') →
  (∀ x acc acc', silent acc acc' → P x acc.2 → P x acc'.2) →
  ∀ acc acc', for_each l body acc = Some acc' →
              (∀ x, x ∈ l → P x acc.2) → silent acc acc'.
Proof.
  intros Hbody Hkeep. induction l as [|x l IH]; intros acc acc'.
  - intros [= <-] _. apply silent_refl.
  - rewrite for_each_cons. destruct (body x acc) as [acc1|] eqn:Hx; [|done].
    cbn [mbind option_bind]. intros Hrest HP.
    assert (silent acc acc1) as H1.
    { eapply Hbody; [done|]. apply HP, elem_of_cons. by left. }
    eapply silent_trans; [exact H1|]. apply IH; [done|].
    intros y Hy. eapply Hkeep; [exact H1|]. apply HP, elem_of_cons. by right.
Qed.

Lemma foldl_ct_flush_silent (l : list (string * ct_zone_pending_entry))
    (acc : list ofpbuf * ofctrl) :
  (∀ kv, kv ∈ l → ctzpe_state kv.2 ≠ CT_ZONE_OF_QUEUED) →
  foldl (λ acc kv,
           if bool_decide (ctzpe_state kv.2 = CT_ZONE_OF_QUEUED)
           then add_ct_flush_zone (uint16_t (zone kv.2)) acc
           else acc) acc l
  = acc.
Proof.
  revert acc. induction l as [|kv l IH]; intros acc Hl; [done|].
  cbn [foldl]. rewrite bool_decide_eq_false_2.
  - apply IH. intros kv' Hkv'. apply Hl, elem_of_cons. by right.
  - apply Hl, elem_of_cons. by left.
Qed.

Lemma ct_zone_flush_none (pending_ct_zones : gmap string ct_zone_pending_entry) :
  (∀ k ctzpe, pending_ct_zones !! k = Some ctzpe →
              ctzpe_state ctzpe ≠ CT_ZONE_OF_QUEUED) →
  ct_zone_flush <$> pending_ct_zones = pending_ct_zones.
Proof.
  intros Hz. apply map_eq. intros k. rewrite lookup_fmap.
  destruct (pending_ct_zones !! k) as [z|] eqn:Hk; [|done]. cbn.
  unfold ct_zone_flush. by rewrite bool_decide_eq_false_2 by by eapply Hz.
Qed.

Lemma ovn_extend_table_sync_id (t : ovn_extend_table) :
  extend_table_uninstalled t = [] → ovn_extend_table_sync t = t.
Proof.
  intros Hu. unfold ovn_extend_table_sync. rewrite Hu, app_nil_r.
  by destruct t.
Qed.

Lemma put_messages_silent (flow_table : ovn_desired_flow_table)
    (pending_ct_zones : gmap string ct_zone_pending_entry)
    (meter_table : list sbrec_meter) (s s' : ofctrl) (msgs : list ofpbuf)
    (pending_ct_zones' : gmap string ct_zone_pending_entry)
    (gs ms : ovn_extend_table) :
  put_messages flow_table pending_ct_zones meter_table s
  = Some (msgs, s', pending_ct_zones') →
  flows_in_sync flow_table s →
  groups s = Some gs → meters s = Some ms →
  extend_table_uninstalled gs = [] → extend_table_installed gs = [] →
  extend_table_uninstalled ms = [] → extend_table_installed ms = [] →
  (∀ k ctzpe, pending_ct_zones !! k = Some ctzpe →
              ctzpe_state ctzpe ≠ CT_ZONE_OF_QUEUED) →
  msgs = [] ∧ pending_ct_zones' = pending_ct_zones
  ∧ quiet s s'
  ∧ installed_flows s' = installed_flows s
  ∧ same_flow_contents (mem s) (mem s')
  ∧ groups s' = Some gs ∧ meters s' = Some ms.
Proof.
  intros Hrun [Hsi Hsd] Hg Hm Hgu Hgi Hmu Hmi Hz. unfold put_messages in Hrun.
  rewrite foldl_ct_flush_silent in Hrun.
  2: { intros [k z] Hkz%elem_of_map_to_list. by eapply Hz. }
  cbn [snd] in Hrun. rewrite Hg in Hrun. cbn [mbind option_bind] in Hrun.
  rewrite Hgu in Hrun. cbn [foldl snd] in Hrun.
  rewrite Hm in Hrun. cbn [mbind option_bind] in Hrun.
  rewrite Hmu in Hrun. cbn [foldl snd] in Hrun.
  destruct (for_each (installed_flows s) (put_installed_flow flow_table)
              ([], s)) as [acc4|] eqn:H4; [|done].
  cbn [mbind option_bind] in Hrun.
  apply (for_each_silent _ _
           (λ i s, installed_in_sync flow_table (mem s) i)) in H4 as Hs4.
  2: { intros x acc acc'. apply put_installed_flow_silent. }
  2: { intros x acc acc' (_ & _ & _ & Hsame & _).
       by apply installed_in_sync_contents. }
  2: { done. }
  destruct (for_each (match_flow_table flow_table) put_desired_flow acc4)
    as [acc5|] eqn:H5; [|done].
  cbn [mbind option_bind] in Hrun.
  apply (for_each_silent _ _ (λ d s, desired_in_sync s d)) in H5 as Hs5.
  2: { intros x acc acc'. apply put_desired_flow_silent. }
  2: { intros x acc acc' (_ & _ & Hl & Hsame & _).
       by apply desired_in_sync_contents. }
  2: { intros d Hd. destruct Hs4 as (_ & _ & Hl & Hsame & _).
       eapply desired_in_sync_contents; [exact Hsame|exact Hl|].
       by apply Hsd. }
  rewrite Hgi, Hmi in Hrun. cbn [foldl] in Hrun.
  rewrite !ovn_extend_table_sync_id in Hrun by done.
  injection Hrun as <- <- <-.
  pose proof (silent_trans _ _ _ Hs4 Hs5)
    as (Hmsgs & Hq & Hl & Hsame & Hg5 & Hm5).
  cbn [fst snd] in *.
  split; [done|]. split; [by apply ct_zone_flush_none|].
  split; [eapply quiet_trans; [exact Hq|]; by destruct (acc5.2)|].
  split; [rewrite <- Hl; by destruct (acc5.2)|].
  split; [by destruct (acc5.2)|]. split; by destruct (acc5.2).
Qed.

(** X19.  A put on an engine that is in sync sends nothing.  When each
    installed flow has the actions and cookie of the desired flow that
    [desired_flow_lookup] finds for it, each desired flow has an installed
    flow of its key, no group or meter is to be added or deleted, and no
    conntrack zone is queued for a flush, a put that goes through queues no
    message: the connection, the installed flows, the flows in memory, the
    groups, the meters and the pending zones are as before, the engine is
    still in sync, and [nb_cfg] is recorded at once in [cur_cfg] when no
    update is in flight. *)
Theorem ofctrl_put_in_sync (flow_table : ovn_desired_flow_table)
    (pending_ct_zones : gmap string ct_zone_pending_entry)
    (meter_table : list sbrec_meter) (nb_cfg : Z) (flow_changed : bool)
    (s : ofctrl) (gs ms : ovn_extend_table) :
  ofctrl_can_put s = true →
  (put_needed nb_cfg flow_changed s).1 = true →
  engine_wf flow_table s →
  flows_in_sync flow_table s →
  groups s = Some gs → meters s = Some ms →
  extend_table_uninstalled gs = [] → extend_table_installed gs = [] →
  extend_table_uninstalled ms = [] → extend_table_installed ms = [] →
  (∀ k ctzpe, pending_ct_zones !! k = Some ctzpe →
              ctzpe_state ctzpe ≠ CT_ZONE_OF_QUEUED) →
  ∃ s',
    ofctrl_put flow_table pending_ct_zones meter_table nb_cfg flow_changed s
    = Some (s', pending_ct_zones)
    ∧ txq (swconn s') = txq (swconn s)
    ∧ installed_flows s' = installed_flows s
    ∧ same_flow_contents (mem s) (mem s')
    ∧ groups s' = Some gs ∧ meters s' = Some ms
    ∧ flows_in_sync flow_table s'
    ∧ (if bool_decide (flow_updates s = [])
       then ofctrl_get_cur_cfg s' = nb_cfg
       else ofctrl_get_cur_cfg s' = ofctrl_get_cur_cfg s).
Proof.
  intros Hcan Hneed Hwf Hsync Hg Hm Hgu Hgi Hmu Hmi Hz.
  destruct (ofctrl_put_past_gates flow_table pending_ct_zones meter_table
              nb_cfg flow_changed s Hcan Hneed Hwf)
    as (msgs & s1 & Hmsgs & -> & _ & _).
  set (s0 := set_need_reinstall_flows false
               (set_skipped_last_time false (set_old_nb_cfg nb_cfg s))) in *.
  assert (Hs0 : installed_flows s0 = installed_flows s ∧ mem s0 = mem s
                ∧ groups s0 = groups s ∧ meters s0 = meters s
                ∧ txq (swconn s0) = txq (swconn s)
                ∧ flow_updates s0 = flow_updates s ∧ cur_cfg s0 = cur_cfg s)
    by (subst s0; by destruct s).
  destruct Hs0 as (Hl0 & Hm0 & Hg0 & Hme0 & Ht0 & Hq0 & Hc0).
  assert (Hsync0 : flows_in_sync flow_table s0).
  { destruct Hsync as [Hsi Hsd]. split.
    - intros i Hi. rewrite Hm0. apply Hsi. by rewrite <- Hl0.
    - intros d Hd. apply (desired_in_sync_contents s); [| |by apply Hsd].
      + rewrite Hm0. apply same_flow_contents_refl.
      + done. }
  destruct (put_messages_silent flow_table pending_ct_zones meter_table
              s0 s1 msgs _ gs ms Hmsgs Hsync0)
    as (-> & Hzones & (Ht & _ & _ & Hq & Hcur & _) & Hl & Hsame & Hg1 & Hm1);
    try done; try congruence.
  rewrite Hzones.
  exists (put_track [] nb_cfg pending_ct_zones s1).1.
  assert ((put_track [] nb_cfg pending_ct_zones s1).2 = pending_ct_zones)
    as Hz2.
  { unfold put_track. rewrite bool_decide_eq_true_2 by done. cbn [negb].
    by destruct (negb _). }
  split; [rewrite <- Hz2 at 3; by destruct (put_track _ _ _ _)|].
  assert (Hkeep : ∀ s2,
            (s2 = set_cur_cfg nb_cfg s1 ∨ ∃ l, s2 = set_flow_updates l s1) →
            txq (swconn s2) = txq (swconn s)
            ∧ installed_flows s2 = installed_flows s
            ∧ same_flow_contents (mem s) (mem s2)
            ∧ groups s2 = Some gs ∧ meters s2 = Some ms
            ∧ flows_in_sync flow_table s2).
  { intros s2 Hs2.
    assert (txq (swconn s2) = txq (swconn s1)
            ∧ installed_flows s2 = installed_flows s1 ∧ mem s2 = mem s1
            ∧ groups s2 = groups s1 ∧ meters s2 = meters s1)
      as (Ht2 & Hl2 & Hm2 & Hg2 & Hme2).
    { destruct Hs2 as [->|[l ->]]; by destruct s1. }
    rewrite Ht2, Hl2, Hm2, Hg2, Hme2, Ht, Hl, Hl0, Ht0, <- Hm0.
    split; [done|]. split; [done|]. split; [done|]. split; [done|].
    split; [done|]. destruct Hsync0 as [Hsi Hsd]. split.
    - intros i Hi. rewrite Hm2.
      eapply installed_in_sync_contents; [exact Hsame|].
      apply Hsi. by rewrite <- Hl, <- Hl2.
    - intros d Hd. apply (desired_in_sync_contents s0); [| |by apply Hsd].
      + by rewrite Hm2.
      + by rewrite Hl2, Hl. }
  unfold put_track, ofctrl_get_cur_cfg.
  rewrite bool_decide_eq_true_2 by done. cbn [negb].
  rewrite Hq, Hq0. destruct (bool_decide_reflect (flow_updates s = []))
    as [Hempty|Hne]; cbn [negb fst].
  - destruct (Hkeep (set_cur_cfg nb_cfg s1)) as (? & ? & ? & ? & ? & ?);
      [by left|].
    do 6 (split; [done|]). by destruct s1.
  - match goal with
    | |- context [set_flow_updates ?l s1] =>
        destruct (Hkeep (set_flow_updates l s1)) as (? & ? & ? & ? & ? & ?);
          [right; by eexists|]
    end.
    do 6 (split; [done|]). rewrite <- Hc0, <- Hcur. by destruct s1.
Qed.

(** ** A put leaves the engine well formed and in sync *)

Lemma desired_flow_lookup_in_same_flows (chain : list ptr)
    (target : ovn_flow) (m m' : memory) :
  desired_same_flows m m' →
  desired_flow_lookup_in chain target None m'
  = desired_flow_lookup_in chain target None m.
Proof.
  intros Hd. induction chain as [|d chain IH]; [done|].
  cbn [desired_flow_lookup_in]. specialize (Hd d).
  destruct (desired_at m' !! d) as [fd'|], (desired_at m !! d) as [fd|];
    try done.
  injection Hd as Hd. cbn [mbind option_bind]. by rewrite Hd, IH.
Qed.

Lemma installed_in_sync_flow (flow_table : ovn_desired_flow_table)
    (m m' : memory) (k : ptr) :
  desired_same_flows m m' →
  (∀ fk', installed_at m' !! k = Some fk' →
          ∃ fk, installed_at m !! k = Some fk ∧ i_flow fk' = i_flow fk) →
  installed_in_sync flow_table m k → installed_in_sync flow_table m' k.
Proof.
  intros HT Hk Hsync fk' Hfk'. destruct (Hk fk' Hfk') as (fk & Hfk & Hfl).
  destruct (Hsync fk Hfk) as (d & fd & Hl & Hfd & Ha & Hc).
  destruct (desired_same_flows_lookup _ _ _ _ HT Hfd) as (fd' & Hfd' & Hf).
  exists d, fd'. unfold desired_flow_lookup in *.
  rewrite (desired_flow_lookup_in_same_flows _ _ m m') by done.
  by rewrite Hfl, Hf.
Qed.

Lemma installed_in_sync_transfer (flow_table : ovn_desired_flow_table)
    (m m' : memory) (k : ptr) :
  desired_same_flows m m' →
  installed_at m' !! k = installed_at m !! k →
  installed_in_sync flow_table m k → installed_in_sync flow_table m' k.
Proof.
  intros HT Hk. apply installed_in_sync_flow; [done|].
  intros fk' Hfk'. exists fk'. by rewrite <- Hk.
Qed.

Lemma desired_flow_lookup_in_first (seen rest : list ptr) (d : ptr)
    (target : ovn_flow) (m : memory) (fd : desired_flow) :
  (∀ d', d' ∈ seen →
         ∃ fd', desired_at m !! d' = Some fd'
                ∧ ovn_flow_key_match (d_flow fd') target = false) →
  desired_at m !! d = Some fd →
  ovn_flow_key_match (d_flow fd) target = true →
  desired_flow_lookup_in (seen ++ d :: rest) target None m = Some (Some d).
Proof.
  intros Hseen Hfd Hk. induction seen as [|d' seen IH].
  - cbn [app desired_flow_lookup_in]. rewrite Hfd. cbn [mbind option_bind].
    by rewrite Hk.
  - cbn [app desired_flow_lookup_in].
    destruct (Hseen d') as (fd' & -> & Hk'); [apply elem_of_cons; by left|].
    cbn [mbind option_bind]. rewrite Hk'. apply IH.
    intros d'' Hd''. apply Hseen, elem_of_cons. by right.
Qed.

Lemma installed_flow_settled_transfer (flow_table : ovn_desired_flow_table)
    (m m' : memory) (k : ptr) :
  desired_same_flows m m' →
  installed_at m' !! k = installed_at m !! k →
  (∀ fk r, installed_at m !! k = Some fk → r ∈ i_desired_refs fk →
           desired_at m' !! r = desired_at m !! r) →
  installed_flow_settled flow_table m k →
  installed_flow_settled flow_table m' k.
Proof.
  intros HT Hk Hrefs [Hback Hsync]. split.
  - intros fk Hfk r Hr. rewrite Hk in Hfk.
    rewrite (Hrefs fk r Hfk Hr). by apply (Hback fk).
  - by eapply installed_in_sync_transfer.
Qed.

Lemma desired_same_sources_refl (m : memory) : desired_same_sources m m.
Proof. done. Qed.

Lemma desired_same_sources_trans (m1 m2 m3 : memory) :
  desired_same_sources m1 m2 → desired_same_sources m2 m3 →
  desired_same_sources m1 m3.
Proof. intros H1 H2 d. by rewrite H2, H1. Qed.

Lemma desired_same_sources_insert (m : memory) (d : ptr)
    (fd fd' : desired_flow) (ia : gmap positive installed_flow) :
  desired_at m !! d = Some fd →
  d_references fd' = d_references fd →
  desired_same_sources m
    {| desired_at := <[d := fd']> (desired_at m); installed_at := ia |}.
Proof.
  intros Hfd Hr d'. cbn. destruct (decide (d' = d)) as [->|Hne].
  - rewrite lookup_insert_eq, Hfd. cbn. by rewrite Hr.
  - by rewrite lookup_insert_ne.
Qed.

Lemma unlink_all_refs_same_sources (m m1 : memory) (fi : installed_flow) :
  (∀ d, d ∈ i_desired_refs fi →
        desired_at m1 !! d
        = d_with_installed_flow None <$> desired_at m !! d) →
  (∀ d, d ∉ i_desired_refs fi → desired_at m1 !! d = desired_at m !! d) →
  desired_same_sources m m1.
Proof.
  intros Hin Hout d. destruct (decide (d ∈ i_desired_refs fi)).
  - rewrite Hin by done. by destruct (desired_at m !! d).
  - by rewrite Hout.
Qed.

Lemma desired_flows_linked_grow (seen l l' : list ptr) (m m' : memory) :
  l ⊆ l' →
  (∀ i fi, i ∈ l → installed_at m !! i = Some fi →
           ∃ fi', installed_at m' !! i = Some fi'
                  ∧ i_desired_refs fi ⊆ i_desired_refs fi') →
  desired_flows_linked seen l m → desired_flows_linked seen l' m'.
Proof.
  intros Hl Hgrow Hlinked d Hd.
  destruct (Hlinked d Hd) as (i & fi & Hi & Hfi & Hin).
  destruct (Hgrow i fi Hi Hfi) as (fi' & Hfi' & Hsub).
  exists i, fi'. split; [by apply Hl|]. split; [done|]. by apply Hsub.
Qed.

Lemma put_installed_flow_step_settled (flow_table : ovn_desired_flow_table)
    (kept rest : list ptr) (i : ptr) (msgs : list ofpbuf) (s : ofctrl) :
  installed_flows s = kept ++ i :: rest →
  put_installed_inv flow_table kept (i :: rest) (mem s) →
  (∀ k, k ∈ kept → installed_flow_settled flow_table (mem s) k) →
  ∃ msgs' c' kept' m',
    put_installed_flow flow_table i (msgs, s)
    = Some (msgs', with_flows c' (tx_counter s) (kept' ++ rest) m' s)
    ∧ put_installed_inv flow_table kept' rest m'
    ∧ desired_same_flows (mem s) m'
    ∧ (∀ k, k ∈ kept' → installed_flow_settled flow_table m' k)
    ∧ desired_same_sources (mem s) m'.
Proof.
  intros Hl Hinv Hset.
  pose proof Hinv as (Hnd & Hwf & Huniq & Hrest & Hkept).
  destruct (Hrest i ltac:(left)) as [Hlinked Hkeyed].
  pose proof Hlinked as (fi & Hfi & Hndr & Hback & Hprim).
  destruct (unlink_all_refs_spec (mem s) i fi Hfi Hlinked)
    as (m1 & Hun & Hi1 & Hin1 & Hout1).
  pose proof (unlink_all_refs_same_flows _ _ _ Hin1 Hout1) as HT1.
  pose proof (unlink_all_refs_same_sources _ _ _ Hin1 Hout1) as HS1.
  pose proof (desired_table_wf_transfer _ _ _ HT1 Hwf) as Hwf1.
  destruct (desired_flow_lookup_in_spec (match_flow_table flow_table)
              (i_flow fi) None m1) as (res & Hres & Hspec).
  { intros d Hd. destruct Hwf1 as [_ Hall].
    destruct (Hall d Hd) as (fd & -> & _). eauto. }
  destruct (Hkeyed fi Hfi) as [Hhash Hkeys].
  assert (Hki : ∀ k, k ∈ kept → k ≠ i).
  { intros k Hk ->. apply NoDup_app in Hnd as (_ & Hdisj & _).
    by eapply Hdisj; [|left]. }
  assert (Hkrefs : ∀ k fk r, k ∈ kept →
            installed_at (mem s) !! k = Some fk → r ∈ i_desired_refs fk →
            r ∉ i_desired_refs fi).
  { intros k fk r Hk Hfk Hr Hri. destruct (Hset k Hk) as [Hb _].
    destruct (Hb fk Hfk r Hr) as (fr & Hfr & Hrk).
    destruct (Hback r Hri) as (fr' & Hfr' & Hri').
    rewrite Hfr in Hfr'. injection Hfr' as <-. rewrite Hrk in Hri'.
    injection Hri' as ->. by apply (Hki i). }
  destruct s as [c st fu cc x x2 tc ifl g mt mff nr sk onb mm].
  simpl in *. subst ifl.
  unfold put_installed_flow, with_mem. simpl.
  rewrite Hun. simpl. rewrite Hi1, lookup_insert_eq. simpl.
  unfold desired_flow_lookup. rewrite Hres. simpl.
  destruct res as [d|].
  - destruct Hspec as (Hd & fd1 & Hfd1 & Hkm & _).
    rewrite Hfd1. simpl.
    assert (Hdkey : ovn_flow_key_eq (d_flow fd1) (i_flow fi)).
    { apply ovn_flow_key_match_iff; [|done|done].
      destruct Hwf1 as [_ Hall]. destruct (Hall d Hd) as (fd' & Hfd' & Hh).
      by assert (fd' = fd1) as -> by congruence. }
    set (fi2 := {| i_flow := {| table_id := table_id (i_flow fi);
                                priority := priority (i_flow fi);
                                match_ := match_ (i_flow fi);
                                hash := hash (i_flow fi);
                                ofpacts := ofpacts (d_flow fd1);
                                cookie := cookie (d_flow fd1) |};
                   i_desired_refs := [d]; i_desired_flow := Some d |}).
    set (m2 := {| installed_at := <[i := fi2]> (installed_at mm);
                  desired_at := <[d := d_with_installed_flow (Some i) fd1]>
                                  (desired_at m1) |}).
    assert (HT12 : desired_same_flows m1 m2).
    { subst m2. by apply (desired_same_flows_insert m1 d fd1). }
    assert (HT2 : desired_same_flows mm m2).
    { by eapply desired_same_flows_trans. }
    assert (HS2 : desired_same_sources mm m2).
    { eapply desired_same_sources_trans; [exact HS1|].
      subst m2. by apply (desired_same_sources_insert m1 d fd1). }
    assert (Hinv2 : put_installed_inv flow_table (kept ++ [i]) rest m2).
    { eapply (put_installed_inv_keep flow_table kept rest i d mm m2 fi fi2
                (d_with_installed_flow (Some i) fd1)); try done.
      - subst m2. simpl. by rewrite lookup_insert_eq.
      - intros d' Hd' Hne. subst m2. simpl.
        rewrite lookup_insert_ne by done. by apply Hout1. }
    assert (Hset2 : ∀ k, k ∈ kept ++ [i] →
                         installed_flow_settled flow_table m2 k).
    { intros k [Hk| ->%list_elem_of_singleton]%elem_of_app.
      - apply (installed_flow_settled_transfer flow_table mm m2);
          [done| | |by apply Hset].
        { subst m2. simpl. rewrite lookup_insert_ne; [done|].
          intros Heq. by apply (Hki k Hk). }
        intros fk r Hfk Hr. subst m2. simpl. rewrite lookup_insert_ne.
        + apply Hout1. by eapply Hkrefs.
        + intros ->.
          destruct (Hkept k Hk)
            as (fk' & p & fp & Hfk' & _ & _ & _ & _ & _ & _ & _ & Hrefsk).
          assert (fk' = fk) as -> by congruence.
          destruct (Hrefsk r Hr) as (_ & _ & fr & Hfr & Hkr).
          destruct (desired_same_flows_lookup _ _ _ _ HT1 Hfr)
            as (fd' & Hfd' & Hf).
          assert (fd' = fd1) as -> by congruence.
          apply (Hki k Hk).
          eapply (Huniq k i fk fi); try done.
          * apply elem_of_app. by left.
          * apply elem_of_app. right. left.
          * unfold ovn_flow_key_eq in *. congruence.
      - split.
        + intros fk Hfk r Hr. subst m2. simpl in *.
          rewrite lookup_insert_eq in Hfk. injection Hfk as <-.
          apply list_elem_of_singleton in Hr as ->.
          rewrite lookup_insert_eq. by eexists.
        + intros fk Hfk. subst m2. simpl in Hfk.
          rewrite lookup_insert_eq in Hfk. injection Hfk as <-.
          exists d, (d_with_installed_flow (Some i) fd1).
          split; [|split; [simpl; by rewrite lookup_insert_eq|done]].
          unfold desired_flow_lookup.
          rewrite (desired_flow_lookup_in_same_flows _ _ m1) by done.
          rewrite (desired_flow_lookup_in_key _ _ (i_flow fi)); [done|].
          by intros f. }
    destruct (negb (ofpacts_equal _ _) || negb (_ =? _)) eqn:Hcmp.
    + unfold installed_flow_mod. simpl.
      rewrite Hi1, lookup_insert_eq. simpl.
      rewrite (link_installed_to_desired_eq _ i d
                 {| i_flow := i_flow fi2; i_desired_refs := [];
                    i_desired_flow := None |} fd1);
        [|simpl; by rewrite lookup_insert_eq|done|done
         |apply not_elem_of_nil|done].
      simpl. eexists _, _, (kept ++ [i]), m2.
      split; [|done]. do 2 f_equal.
      rewrite <- app_assoc. simpl. f_equal.
      subst m2. f_equal. simpl. by rewrite Hi1, !insert_insert_eq.
    + apply orb_false_iff in Hcmp as [Ha Hc].
      apply negb_false_iff in Ha, Hc.
      unfold ofpacts_equal in Ha. apply bool_decide_eq_true in Ha.
      apply Z.eqb_eq in Hc. simpl.
      rewrite (link_installed_to_desired_eq _ i d
                 (i_with_links [] None fi) fd1);
        [|by rewrite Hi1, lookup_insert_eq|done|done
         |apply not_elem_of_nil|done].
      simpl. eexists _, c, (kept ++ [i]), m2.
      split; [|done]. do 2 f_equal.
      rewrite <- app_assoc. simpl. f_equal.
      subst m2. f_equal. rewrite Hi1, insert_insert_eq. f_equal.
      subst fi2. unfold i_with_links. simpl. f_equal.
      rewrite <- Ha, <- Hc. by destruct (i_flow fi).
  - unfold installed_flow_destroy. simpl.
    rewrite Hi1, lookup_insert_eq. simpl.
    rewrite hmap_remove_middle by done.
    eexists _, _, kept, _. split; [done|].
    split; [|split; [done|split; [|done]]].
    + eapply (put_installed_inv_drop flow_table kept rest i mm _ fi);
        try done.
      simpl. by rewrite Hi1, delete_insert_eq.
    + intros k Hk.
      apply (installed_flow_settled_transfer flow_table mm);
        [done| | |by apply Hset].
      * simpl. rewrite Hi1, delete_insert_eq, lookup_delete_ne; [done|].
        intros Heq. by apply (Hki k Hk).
      * intros fk r Hfk Hr. simpl. apply Hout1. by eapply Hkrefs.
Qed.

Lemma put_installed_flows_loop_settled (flow_table : ovn_desired_flow_table)
    (rest : list ptr) :
  ∀ kept msgs s,
    installed_flows s = kept ++ rest →
    put_installed_inv flow_table kept rest (mem s) →
    (∀ k, k ∈ kept → installed_flow_settled flow_table (mem s) k) →
    ∃ msgs' c' kept' m',
      for_each rest (put_installed_flow flow_table) (msgs, s)
      = Some (msgs', with_flows c' (tx_counter s) kept' m' s)
      ∧ put_installed_inv flow_table kept' [] m'
      ∧ desired_same_flows (mem s) m'
      ∧ (∀ k, k ∈ kept' → installed_flow_settled flow_table m' k)
      ∧ desired_same_sources (mem s) m'.
Proof.
  induction rest as [|i rest IH]; intros kept msgs s Hl Hinv Hset.
  - exists msgs, (swconn s), kept, (mem s). split; [|done].
    rewrite app_nil_r in Hl. rewrite <- Hl. simpl.
    by rewrite with_flows_id.
  - destruct (put_installed_flow_step_settled flow_table kept rest i msgs s
                Hl Hinv Hset)
      as (msgs1 & c1 & kept1 & m1 & Hstep & Hinv1 & HT1 & Hset1 & HS1).
    rewrite for_each_cons, Hstep. simpl.
    destruct (with_flows_proj c1 (tx_counter s) (kept1 ++ rest) m1 s)
      as (Hl1 & Hm1 & _ & Ht1).
    destruct (IH kept1 msgs1 _ Hl1)
      as (msgs' & c' & kept' & m' & Hrun & Hinv' & HT' & Hset' & HS');
      [by rewrite Hm1|by rewrite Hm1|].
    exists msgs', c', kept', m'.
    split; [|split; [done|split; [|split; [done|]]]].
    + by rewrite Hrun, Ht1, with_flows_twice.
    + rewrite Hm1 in HT'. by eapply desired_same_flows_trans.
    + rewrite Hm1 in HS'. by eapply desired_same_sources_trans.
Qed.

Lemma put_desired_flow_step_settled (flow_table : ovn_desired_flow_table)
    (seen rest : list ptr) (d : ptr) (msgs : list ofpbuf) (s : ofctrl) :
  seen ++ d :: rest = match_flow_table flow_table →
  put_desired_inv flow_table seen (installed_flows s) (mem s) →
  (∀ k, k ∈ installed_flows s →
        installed_flow_settled flow_table (mem s) k) →
  desired_flows_linked seen (installed_flows s) (mem s) →
  ∃ msgs' c' l' m',
    put_desired_flow d (msgs, s)
    = Some (msgs', with_flows c' (tx_counter s) l' m' s)
    ∧ put_desired_inv flow_table (seen ++ [d]) l' m'
    ∧ desired_same_flows (mem s) m'
    ∧ (∀ k, k ∈ l' → installed_flow_settled flow_table m' k)
    ∧ desired_same_sources (mem s) m'
    ∧ desired_flows_linked (seen ++ [d]) l' m'.
Proof.
  intros Hmt Hinv Hset Hlinkd.
  pose proof Hinv as (Hnd & Hwf & Huniq & Hsync & Hseen).
  assert (Hd : d ∈ match_flow_table flow_table).
  { rewrite <- Hmt. apply elem_of_app. right. left. }
  assert (Hdseen : d ∉ seen).
  { destruct Hwf as [Hndt _]. rewrite <- Hmt in Hndt.
    apply NoDup_app in Hndt as (_ & Hdisj & _).
    intros Hin. by eapply Hdisj; [|left]. }
  destruct Hwf as [Hndt Hall].
  destruct (Hall d Hd) as (fd & Hfd & Hhd).
  destruct (installed_flow_lookup_in_spec (installed_flows s) (d_flow fd)
              (mem s)) as (res & Hres & Hspec).
  { intros i Hi. destruct (Hsync i Hi) as (fi & _ & _ & -> & _). eauto. }
  destruct s as [c st fu cc x x2 tc ifl g mt mff nr sk onb mm].
  simpl in *.
  unfold put_desired_flow, installed_flow_lookup, with_mem. simpl.
  rewrite Hfd. simpl. rewrite Hres. simpl.
  destruct res as [i|].
  - destruct Hspec as (Hi & fi & Hfi & Hkm).
    pose proof (Hsync i Hi)
      as (fi' & p & fp & Hfi' & Hhi & Hndr & Hp & Hpin & Hfp & Ha & Hc
          & Hrefs).
    assert (fi' = fi) as -> by congruence.
    assert (Hkey : ovn_flow_key_eq (i_flow fi) (d_flow fd)).
    { by apply ovn_flow_key_match_iff. }
    cbn -[link_installed_to_desired].
    destruct (decide (p = d)) as [->|Hpd].
    + unfold link_installed_to_desired. rewrite Hfi. simpl.
      rewrite Hp, bool_decide_eq_true_2 by done. simpl.
      assert (HTl : desired_flows_linked (seen ++ [d]) ifl mm).
      { intros d' [Hd'| ->%list_elem_of_singleton]%elem_of_app.
        - by apply Hlinkd.
        - by exists i, fi. }
      exists msgs, c, ifl, mm. split; [done|]. split; [|done].
      eapply (put_desired_inv_visit flow_table seen ifl ifl d i mm mm fd fi);
        try done.
      * intros fi0 Hfi0. congruence.
      * eapply (installed_flow_synced_transfer _ seen _ mm); try done.
        -- intros r Hr. apply elem_of_app. by left.
        -- by apply Hsync.
    + assert (Hdrefs : d ∉ i_desired_refs fi).
      { intros Hin. destruct (Hrefs d Hin) as ([->|?] & _); done. }
      rewrite (link_installed_to_desired_eq mm i d fi fd);
        [|done|done|congruence|done|].
      2:{ intros Hnil. rewrite Hnil in Hpin.
          by apply not_elem_of_nil in Hpin. }
      simpl. rewrite bool_decide_eq_false_2.
      2:{ intros Hnil. rewrite Hnil in Hpin.
          by apply not_elem_of_nil in Hpin. }
      set (fi2 := i_with_links (i_desired_refs fi ++ [d]) (i_desired_flow fi)
                               fi).
      set (m2 := {| desired_at := _; installed_at := _ |}).
      exists msgs, c, ifl, m2. split; [done|].
      assert (HT : desired_same_flows mm m2).
      { subst m2. by apply (desired_same_flows_insert mm d fd). }
      assert (HS : desired_same_sources mm m2).
      { subst m2. by apply (desired_same_sources_insert mm d fd). }
      assert (HTl : desired_flows_linked (seen ++ [d]) ifl m2).
      { intros d' [Hd'| ->%list_elem_of_singleton]%elem_of_app.
        - destruct (Hlinkd d' Hd') as (j & fj & Hj & Hfj & Hin).
          destruct (decide (j = i)) as [->|Hji].
          + exists i, fi2. split; [done|]. subst m2. simpl.
            rewrite lookup_insert_eq. split; [done|]. simpl.
            apply elem_of_app. left. congruence.
          + exists j, fj. split; [done|]. subst m2. simpl.
            by rewrite lookup_insert_ne.
        - exists i, fi2. split; [done|]. subst m2. simpl.
          rewrite lookup_insert_eq. split; [done|]. simpl.
          apply elem_of_app. right. by apply list_elem_of_singleton. }
      split; [|split; [done|split; [|done]]].
      2: { intros k Hk. destruct (decide (k = i)) as [->|Hki].
           - destruct (Hset i Hk) as [Hbk Hsk]. split.
             + intros fk Hfk r Hr. subst m2. simpl in Hfk |- *.
               rewrite lookup_insert_eq in Hfk. injection Hfk as <-.
               simpl in Hr.
               apply elem_of_app in Hr as [Hr| ->%list_elem_of_singleton].
               * rewrite lookup_insert_ne by (by intros ->).
                 by apply (Hbk fi).
               * rewrite lookup_insert_eq. by eexists.
             + apply (installed_in_sync_flow flow_table mm); [done| |done].
               intros fk' Hfk'. subst m2. simpl in Hfk'.
               rewrite lookup_insert_eq in Hfk'. injection Hfk' as <-.
               by exists fi.
           - apply (installed_flow_settled_transfer flow_table mm);
               [done| | |by apply Hset].
             + subst m2. simpl. by rewrite lookup_insert_ne.
             + intros fk r Hfk Hr. subst m2. simpl.
               rewrite lookup_insert_ne; [done|]. intros ->.
               destruct (Hsync k Hk)
                 as (fk' & pk & fpk & Hfk' & _ & _ & _ & _ & _ & _ & _ & Hrk).
               assert (fk' = fk) as -> by congruence.
               destruct (Hrk r Hr) as (_ & _ & fr & Hfr & Hkr).
               assert (fr = fd) as -> by congruence.
               apply Hki. eapply (Huniq k i fk fi); try done.
               unfold ovn_flow_key_eq in *. congruence. }
      eapply (put_desired_inv_visit flow_table seen ifl ifl d i mm m2 fd fi2);
        try done.
      * intros j Hj Hji. split; [done|]. subst m2. simpl.
        by rewrite lookup_insert_ne.
      * subst m2. simpl. by rewrite lookup_insert_eq.
      * intros fi0 Hfi0. by assert (fi0 = fi) as -> by congruence.
      * exists fi2, p, fp. subst m2. simpl.
        rewrite lookup_insert_eq, lookup_insert_ne by done.
        split; [done|]. split; [done|].
        split.
        { apply NoDup_app. split; [done|]. split; [|apply NoDup_singleton].
          intros r Hr ->%list_elem_of_singleton. done. }
        split; [done|].
        split; [apply elem_of_app; by left|].
        do 3 (split; [done|]).
        intros r [Hr| ->%list_elem_of_singleton]%elem_of_app.
        -- destruct (Hrefs r Hr) as (Hor & Hidx & fr & Hfr & Hkr).
           split; [destruct Hor; [by left|right; apply elem_of_app; by left]|].
           split; [done|].
           destruct (decide (r = d)) as [->|Hrd]; [done|].
           exists fr. by rewrite lookup_insert_ne.
        -- split; [right; apply elem_of_app; right; left|].
           split; [done|]. rewrite lookup_insert_eq. eexists.
           split; [done|]. simpl. done.
      * by eapply (installed_keys_unique_update ifl mm m2 i fi fi2).
  - set (inew := xmalloc (installed_at mm)).
    unfold installed_flow_dup. simpl. rewrite Hfd. simpl. fold inew.
    set (fl := {| table_id := table_id (d_flow fd);
                  priority := priority (d_flow fd);
                  match_ := match_ (d_flow fd); hash := hash (d_flow fd);
                  ofpacts := ofpacts (d_flow fd);
                  cookie := cookie (d_flow fd) |}).
    assert (Hfresh : installed_at mm !! inew = None) by apply xmalloc_fresh.
    rewrite (link_installed_to_desired_eq _ inew d
               {| i_flow := fl; i_desired_refs := [];
                  i_desired_flow := None |} fd);
      [|simpl; by rewrite lookup_insert_eq|done|done
       |apply not_elem_of_nil|done].
    simpl.
    set (fi2 := i_with_links [d] (Some d)
                  {| i_flow := fl; i_desired_refs := [];
                     i_desired_flow := None |}).
    set (m2 := {| desired_at := _; installed_at := _ |}).
    eexists _, _, (inew :: ifl), m2. split; [done|].
    assert (HT : desired_same_flows mm m2).
    { subst m2. by apply (desired_same_flows_insert mm d fd). }
    assert (Hnew : inew ∉ ifl).
    { intros Hin. destruct (Hsync inew Hin) as (fi & _ & _ & Hfi & _).
      congruence. }
    assert (Hi2 : installed_at m2 !! inew = Some fi2).
    { subst m2. simpl. by rewrite insert_insert_eq, lookup_insert_eq. }
    assert (Hother : ∀ j, j ≠ inew →
                          installed_at m2 !! j = installed_at mm !! j).
    { intros j Hj. subst m2. simpl.
      by rewrite insert_insert_eq, lookup_insert_ne. }
    assert (Hkfl : flow_key fl = flow_key (d_flow fd)) by done.
    assert (Hnokey : ∀ j fj, j ∈ ifl → installed_at mm !! j = Some fj →
                          flow_key (i_flow fj) ≠ flow_key fl).
    { intros j fj Hj Hfj Hk.
      pose proof (Hspec j fj Hj Hfj) as Hfalse.
      destruct (Hsync j Hj) as (fj' & _ & _ & Hfj' & Hhj & _).
      assert (fj' = fj) as -> by congruence.
      assert (ovn_flow_key_match (i_flow fj) (d_flow fd) = true);
        [|congruence].
      apply ovn_flow_key_match_iff; [done|done|].
      unfold ovn_flow_key_eq. congruence. }
    assert (Hhfl : ovn_flow_hashed fl)
      by (by apply (ovn_flow_hashed_key (d_flow fd))).
    assert (HS : desired_same_sources mm m2).
    { subst m2. by apply (desired_same_sources_insert mm d fd). }
    assert (HTl : desired_flows_linked (seen ++ [d]) (inew :: ifl) m2).
    { intros d' [Hd'| ->%list_elem_of_singleton]%elem_of_app.
      - destruct (Hlinkd d' Hd') as (j & fj & Hj & Hfj & Hin).
        exists j, fj. split; [apply elem_of_cons; by right|].
        rewrite Hother; [done|]. by intros ->.
      - exists inew, fi2. split; [apply elem_of_cons; by left|].
        split; [done|]. simpl. by apply list_elem_of_singleton. }
    split; [|split; [done|split; [|done]]].
    2: { intros k [->|Hk]%elem_of_cons.
         - split.
           + intros fk Hfk r Hr. rewrite Hi2 in Hfk. injection Hfk as <-.
             simpl in Hr. apply list_elem_of_singleton in Hr as ->.
             subst m2. simpl. rewrite lookup_insert_eq. by eexists.
           + intros fk Hfk. rewrite Hi2 in Hfk. injection Hfk as <-.
             exists d, (d_with_installed_flow (Some inew) fd).
             split; [|split; [subst m2; simpl; by rewrite lookup_insert_eq
                             |done]].
             unfold desired_flow_lookup. rewrite <- Hmt.
             apply (desired_flow_lookup_in_first _ _ _ _ _
                      (d_with_installed_flow (Some inew) fd)).
             * intros d' Hd'.
               destruct (Hseen d' Hd') as (fd' & j & fj & Hfd' & Hj & Hfj & Hkj).
               exists fd'. split.
               { subst m2. simpl. rewrite lookup_insert_ne; [done|].
                 by intros <-. }
               destruct (ovn_flow_key_match (d_flow fd') (i_flow fi2))
                 eqn:Hkm; [|done].
               exfalso. apply (Hnokey j fj Hj Hfj).
               apply ovn_flow_key_match_iff in Hkm; [|  |done].
               { unfold ovn_flow_key_eq in *. simpl in Hkm. congruence. }
               destruct (Hall d') as (fd'' & Hfd'' & Hh'').
               { rewrite <- Hmt. apply elem_of_app. by left. }
               by assert (fd'' = fd') as -> by congruence.
             * subst m2. simpl. by rewrite lookup_insert_eq.
             * apply ovn_flow_key_match_iff; [done|done|done].
         - assert (k ≠ inew) as Hkn by (by intros ->).
           apply (installed_flow_settled_transfer flow_table mm);
             [done|by apply Hother| |by apply Hset].
           intros fk r Hfk Hr. subst m2. simpl.
           rewrite lookup_insert_ne; [done|]. intros ->.
           destruct (Hsync k Hk)
             as (fk' & pk & fpk & Hfk' & _ & _ & _ & _ & _ & _ & _ & Hrk).
           assert (fk' = fk) as -> by congruence.
           destruct (Hrk r Hr) as (_ & _ & fr & Hfr & Hkr).
           assert (fr = fd) as -> by congruence.
           apply (Hnokey k fk Hk Hfk). unfold ovn_flow_key_eq in Hkr.
           congruence. }
    eapply (put_desired_inv_visit flow_table seen ifl (inew :: ifl) d inew mm
              m2 fd fi2); try done.
    + by apply NoDup_cons.
    + left.
    + intros j [->|Hj]%elem_of_cons Hji; [done|]. split; [done|].
      by apply Hother.
    + intros j Hj. by right.
    + intros fi0 Hfi0. congruence.
    + exists fi2, d, (d_with_installed_flow (Some inew) fd).
      split; [done|].
      split; [by apply (ovn_flow_hashed_key (d_flow fd))|].
      split; [apply NoDup_singleton|]. split; [done|]. split; [left|].
      split; [subst m2; simpl; by rewrite lookup_insert_eq|].
      split; [done|]. split; [done|].
      intros r ->%list_elem_of_singleton. split; [by left|].
      split; [done|]. eexists.
      split; [subst m2; simpl; by rewrite lookup_insert_eq|]. done.
    + intros a b fa fb Ha Hb Hfa Hfb Hkab.
      assert (Hno : ∀ j fj, j ∈ ifl → installed_at mm !! j = Some fj →
                            flow_key (i_flow fj) ≠ flow_key fl).
      { intros j fj Hj Hfj Hk.
        pose proof (Hspec j fj Hj Hfj) as Hfalse.
        destruct (Hsync j Hj) as (fj' & _ & _ & Hfj' & Hhj & _).
        assert (fj' = fj) as -> by congruence.
        assert (ovn_flow_key_match (i_flow fj) (d_flow fd) = true);
          [|congruence].
        apply ovn_flow_key_match_iff; [done|done|].
        unfold ovn_flow_key_eq. congruence. }
      apply elem_of_cons in Ha as [->|Ha], Hb as [->|Hb]; [done| | |].
      * exfalso. rewrite Hi2 in Hfa. injection Hfa as <-.
        rewrite Hother in Hfb by (intros ->; done).
        eapply (Hno b fb); [done|done|]. unfold ovn_flow_key_eq in Hkab.
        by rewrite <- Hkab.
      * exfalso. rewrite Hi2 in Hfb. injection Hfb as <-.
        rewrite Hother in Hfa by (intros ->; done).
        eapply (Hno a fa); [done|done|]. by unfold ovn_flow_key_eq in Hkab.
      * rewrite Hother in Hfa, Hfb by (intros ->; done).
        by eapply (Huniq a b fa fb).
Qed.

Lemma put_desired_flows_loop_settled (flow_table : ovn_desired_flow_table)
    (rest : list ptr) :
  ∀ seen msgs s,
    seen ++ rest = match_flow_table flow_table →
    put_desired_inv flow_table seen (installed_flows s) (mem s) →
    (∀ k, k ∈ installed_flows s →
          installed_flow_settled flow_table (mem s) k) →
    desired_flows_linked seen (installed_flows s) (mem s) →
    ∃ msgs' c' l' m',
      for_each rest put_desired_flow (msgs, s)
      = Some (msgs', with_flows c' (tx_counter s) l' m' s)
      ∧ put_desired_inv flow_table (match_flow_table flow_table) l' m'
      ∧ desired_same_flows (mem s) m'
      ∧ (∀ k, k ∈ l' → installed_flow_settled flow_table m' k)
      ∧ desired_same_sources (mem s) m'
      ∧ desired_flows_linked (match_flow_table flow_table) l' m'.
Proof.
  induction rest as [|d rest IH]; intros seen msgs s Hmt Hinv Hset Hlinkd.
  - exists msgs, (swconn s), (installed_flows s), (mem s).
    rewrite app_nil_r in Hmt. subst seen. split; [|done].
    simpl. by rewrite with_flows_id.
  - destruct (put_desired_flow_step_settled flow_table seen rest d msgs s
                Hmt Hinv Hset Hlinkd)
      as (msgs1 & c1 & l1 & m1 & Hstep & Hinv1 & HT1 & Hset1 & HS1 & Hlk1).
    rewrite for_each_cons, Hstep. simpl.
    destruct (with_flows_proj c1 (tx_counter s) l1 m1 s)
      as (Hl1 & Hm1 & _ & Ht1).
    destruct (IH (seen ++ [d]) msgs1 (with_flows c1 (tx_counter s) l1 m1 s))
      as (msgs' & c' & l' & m' & Hrun & Hinv' & HT' & Hset' & HS' & Hlk').
    + by rewrite <- app_assoc.
    + by rewrite Hl1, Hm1.
    + by rewrite Hl1, Hm1.
    + by rewrite Hl1, Hm1.
    + exists msgs', c', l', m'.
      split; [|split; [done|split; [|split; [done|split; [|done]]]]].
      * by rewrite Hrun, Ht1, with_flows_twice.
      * rewrite Hm1 in HT'. by eapply desired_same_flows_trans.
      * rewrite Hm1 in HS'. by eapply desired_same_sources_trans.
Qed.

Lemma put_messages_settles (flow_table : ovn_desired_flow_table)
    (pending_ct_zones : gmap string ct_zone_pending_entry)
    (meter_table : list sbrec_meter) (s : ofctrl) :
  engine_wf flow_table s →
  ∃ msgs s' pending_ct_zones',
    put_messages flow_table pending_ct_zones meter_table s
    = Some (msgs, s', pending_ct_zones')
    ∧ put_desired_inv flow_table (match_flow_table flow_table)
                      (installed_flows s') (mem s')
    ∧ desired_same_flows (mem s) (mem s')
    ∧ (∀ k, k ∈ installed_flows s' →
            installed_flow_settled flow_table (mem s') k)
    ∧ is_Some (groups s') ∧ is_Some (meters s')
    ∧ desired_same_sources (mem s) (mem s')
    ∧ desired_flows_linked (match_flow_table flow_table)
                           (installed_flows s') (mem s').
Proof.
  intros ([gs Hg] & [ms Hm] & Hwf & Hnd & Huniq & Hlinks).
  unfold put_messages.
  (* conntrack flushes *)
  match goal with
  | |- context [foldl ?f ([], s) (map_to_list pending_ct_zones)] =>
      destruct (foldl_msgs_frame f (map_to_list pending_ct_zones)) with
        (acc := ([] : list ofpbuf, s)) as [c1 H1];
      [intros acc kv; case_bool_decide;
         [apply add_msg_frame
         |exists (swconn acc.2); by rewrite with_flows_id]|];
      destruct (foldl f ([], s) (map_to_list pending_ct_zones))
        as [msgs1 s1]
  end.
  cbn [fst snd] in H1. subst s1. cbn [fst snd].
  destruct (with_flows_tables c1 (tx_counter s) (installed_flows s) (mem s) s)
    as (Hg1 & Hm1 & _).
  rewrite Hg1, Hg. cbn [mbind option_bind].
  (* group additions *)
  match goal with
  | |- context [foldl ?f ?a0 (extend_table_uninstalled gs)] =>
      destruct (foldl_msgs_frame f (extend_table_uninstalled gs)) with
        (acc := a0) as [c2 H2];
      [intros acc' x; apply put_group_add_frame|];
      destruct (foldl f a0 (extend_table_uninstalled gs)) as [msgs2 s2]
  end.
  cbn [fst snd] in H2. rewrite with_flows_twice in H2.
  destruct (with_flows_proj c1 (tx_counter s) (installed_flows s) (mem s) s)
    as (Hl1 & Hmem1 & _ & Ht1).
  rewrite Hl1, Hmem1, Ht1 in H2. subst s2. cbn [fst snd].
  destruct (with_flows_tables c2 (tx_counter s) (installed_flows s) (mem s) s)
    as (_ & Hm2 & _).
  rewrite Hm2, Hm. cbn [mbind option_bind].
  (* meter additions *)
  match goal with
  | |- context [foldl ?f ?a0 (extend_table_uninstalled ms)] =>
      destruct (foldl_msgs_frame f (extend_table_uninstalled ms)) with
        (acc := a0) as [c3 H3];
      [intros acc' x; apply put_meter_add_frame|];
      destruct (foldl f a0 (extend_table_uninstalled ms)) as [msgs3 s3]
  end.
  cbn [fst snd] in H3. rewrite with_flows_twice in H3.
  destruct (with_flows_proj c2 (tx_counter s) (installed_flows s) (mem s) s)
    as (Hl2 & Hmem2 & _ & Ht2).
  rewrite Hl2, Hmem2, Ht2 in H3. subst s3. cbn [fst snd].
  destruct (with_flows_proj c3 (tx_counter s) (installed_flows s) (mem s) s)
    as (Hl3 & Hmem3 & _ & Ht3).
  (* the installed flows *)
  rewrite Hl3.
  destruct (put_installed_flows_loop_settled flow_table (installed_flows s)
              [] msgs3
              (with_flows c3 (tx_counter s) (installed_flows s) (mem s) s))
    as (msgs4 & c4 & kept & m4 & Hrun4 & Hinv4 & HT4 & Hset4 & HS4).
  { by rewrite Hl3. }
  { rewrite Hmem3. split; [done|]. split; [done|]. split; [done|].
    split; [done|]. intros i Hi. by apply not_elem_of_nil in Hi. }
  { intros k Hk. by apply not_elem_of_nil in Hk. }
  rewrite Hrun4, Ht3, with_flows_twice. cbn [mbind option_bind].
  (* the desired flows *)
  destruct (with_flows_proj c4 (tx_counter s) kept m4 s)
    as (Hl4 & Hmem4 & _ & Ht4).
  destruct Hinv4 as (Hnd4 & Hwf4 & Huniq4 & _ & Hkept4).
  rewrite app_nil_r in Hnd4, Huniq4.
  destruct (put_desired_flows_loop_settled flow_table
              (match_flow_table flow_table)
              [] msgs4 (with_flows c4 (tx_counter s) kept m4 s))
    as (msgs5 & c5 & l5 & m5 & Hrun5 & Hinv5 & HT5 & Hset5 & HS5 & Hlk5).
  { done. }
  { rewrite Hl4, Hmem4. split; [done|]. split; [done|]. split; [done|].
    split; [done|]. intros d Hd. by apply not_elem_of_nil in Hd. }
  { by rewrite Hl4, Hmem4. }
  { intros d Hd. by apply not_elem_of_nil in Hd. }
  rewrite Hrun5, Ht4, with_flows_twice. cbn [mbind option_bind].
  (* group and meter deletions *)
  match goal with
  | |- context [foldl ?f ?a0 (extend_table_installed gs)] =>
      destruct (foldl_msgs_frame f (extend_table_installed gs)) with
        (acc := a0) as [c6 H6];
      [intros acc' x; apply put_group_del_frame|];
      destruct (foldl f a0 (extend_table_installed gs)) as [msgs6 s6]
  end.
  cbn [fst snd] in H6. rewrite with_flows_twice in H6.
  destruct (with_flows_proj c5 (tx_counter s) l5 m5 s)
    as (Hl5 & Hmem5 & _ & Ht5).
  rewrite Hl5, Hmem5, Ht5 in H6. subst s6.
  match goal with
  | |- context [foldl ?f ?a0 (extend_table_installed ms)] =>
      destruct (foldl_msgs_frame f (extend_table_installed ms)) with
        (acc := a0) as [c7 H7];
      [intros acc' x; apply add_msg_frame|];
      destruct (foldl f a0 (extend_table_installed ms)) as [msgs7 s7]
  end.
  cbn [fst snd] in H7. rewrite with_flows_twice in H7.
  destruct (with_flows_proj c6 (tx_counter s) l5 m5 s)
    as (Hl6 & Hmem6 & _ & Ht6).
  rewrite Hl6, Hmem6, Ht6 in H7. subst s7. cbn [fst snd].
  eexists _, _, _. split; [done|].
  rewrite Hmem4 in HT5. rewrite Hmem3 in HT4.
  replace (installed_flows _) with l5 by (by destruct s).
  replace (mem (set_meters _ _)) with m5 by (by destruct s).
  rewrite Hmem4 in HS5. rewrite Hmem3 in HS4.
  split; [done|]. split; [by eapply desired_same_flows_trans|].
  split; [done|]. split; [by destruct s|]. split; [by destruct s|].
  split; [by eapply desired_same_sources_trans|done].
Qed.

Lemma engine_wf_frame (flow_table : ovn_desired_flow_table) (s s' : ofctrl) :
  installed_flows s' = installed_flows s → mem s' = mem s →
  groups s' = groups s → meters s' = meters s →
  engine_wf flow_table s → engine_wf flow_table s'.
Proof.
  unfold engine_wf. by intros -> -> -> ->.
Qed.

Lemma put_track_tables (msgs : list ofpbuf) (nb_cfg : Z)
    (pending_ct_zones : gmap string ct_zone_pending_entry) (s : ofctrl) :
  groups (put_track msgs nb_cfg pending_ct_zones s).1 = groups s
  ∧ meters (put_track msgs nb_cfg pending_ct_zones s).1 = meters s.
Proof.
  unfold put_track. destruct (negb (bool_decide (msgs = []))).
  - destruct (ofpbuf_new OFPT_BARRIER_REQUEST s) as [barrier s1] eqn:Hb.
    assert (Hs1 : groups s1 = groups s ∧ meters s1 = meters s).
    { destruct s. simpl in Hb. by injection Hb as <- <-. }
    destruct (foldl_queue_frame (msgs ++ [barrier]) s1) as (c & t & Hq).
    cbn [fst]. rewrite Hq.
    destruct Hs1 as [<- <-]. by destruct s1.
  - destruct (negb (bool_decide (flow_updates s = []))); by destruct s.
Qed.

Lemma put_track_zones (msgs : list ofpbuf) (nb_cfg : Z)
    (pending_ct_zones : gmap string ct_zone_pending_entry) (s : ofctrl) :
  (∀ k ctzpe, pending_ct_zones !! k = Some ctzpe →
              ctzpe_state ctzpe ≠ CT_ZONE_OF_QUEUED) →
  ∀ k ctzpe,
    (put_track msgs nb_cfg pending_ct_zones s).2 !! k = Some ctzpe →
    ctzpe_state ctzpe ≠ CT_ZONE_OF_QUEUED.
Proof.
  intros Hz k z. unfold put_track.
  destruct (negb (bool_decide (msgs = []))).
  - destruct (ofpbuf_new OFPT_BARRIER_REQUEST s) as [barrier s1].
    cbn [snd]. rewrite lookup_fmap.
    destruct (pending_ct_zones !! k) as [z0|] eqn:Hk; [|done].
    cbn. intros [= <-]. pose proof (Hz k z0 Hk) as Hne.
    unfold ct_zone_store_xid. by destruct (_ && _).
  - destruct (negb (bool_decide (flow_updates s = []))); cbn [snd];
      apply Hz.
Qed.

Lemma ct_zone_flush_unqueued
    (pending_ct_zones : gmap string ct_zone_pending_entry)
    (k : string) (ctzpe : ct_zone_pending_entry) :
  (ct_zone_flush <$> pending_ct_zones) !! k = Some ctzpe →
  ctzpe_state ctzpe ≠ CT_ZONE_OF_QUEUED.
Proof.
  rewrite lookup_fmap. destruct (pending_ct_zones !! k) as [z0|]; [|done].
  cbn. intros [= <-]. unfold ct_zone_flush. by case_bool_decide.
Qed.

(** What the messages part of [ofctrl_put] leaves is a well-formed engine
    that is in sync with the table. *)
Lemma put_desired_inv_settled (flow_table : ovn_desired_flow_table)
    (s : ofctrl) :
  put_desired_inv flow_table (match_flow_table flow_table)
                  (installed_flows s) (mem s) →
  (∀ k, k ∈ installed_flows s →
        installed_flow_settled flow_table (mem s) k) →
  is_Some (groups s) → is_Some (meters s) →
  engine_wf flow_table s ∧ flows_in_sync flow_table s.
Proof.
  intros (Hnd & Hwf & Huniq & Hsync & Hseen) Hset Hg Hm. split.
  - split; [done|]. split; [done|]. split; [done|]. split; [done|].
    split; [done|]. intros i Hi.
    destruct (Hsync i Hi)
      as (fi & p & fp & Hfi & Hh & Hndr & Hp & Hpin & Hfp & Ha & Hc & Hrefs).
    destruct (Hset i Hi) as [Hback _]. split.
    + exists fi. split; [done|]. split; [done|].
      split; [by apply Hback|]. by rewrite Hp.
    + intros fi0 Hfi0. assert (fi0 = fi) as -> by congruence.
      split; [done|]. intros d Hd. by destruct (Hrefs d Hd) as (_ & _ & ?).
  - split; [intros i Hi; by destruct (Hset i Hi)|].
    intros d Hd fd Hfd. unfold installed_flow_lookup.
    destruct (installed_flow_lookup_in_spec (installed_flows s) (d_flow fd)
                (mem s)) as (r & Hr & Hspec).
    { intros i Hi. destruct (Hsync i Hi) as (fi & _ & _ & -> & _). eauto. }
    destruct r as [i|]; [by exists i|]. exfalso.
    destruct (Hseen d Hd) as (fd' & j & fj & Hfd' & Hj & Hfj & Hk).
    assert (fd' = fd) as -> by congruence.
    pose proof (Hspec j fj Hj Hfj) as Hfalse.
    destruct (Hsync j Hj) as (fj' & _ & _ & Hfj' & Hhj & _).
    assert (fj' = fj) as -> by congruence.
    destruct Hwf as [_ Hall]. destruct (Hall d Hd) as (fd'' & Hfd'' & Hhd).
    assert (fd'' = fd) as -> by congruence.
    assert (ovn_flow_key_match (i_flow fj) (d_flow fd) = true);
      [|congruence].
    by apply ovn_flow_key_match_iff.
Qed.

(** X20.  [ofctrl_put] keeps the engine well formed.  On a well-formed
    engine the call returns, whatever its two gates decide, and the engine
    it leaves is well formed for the same table: the groups and meters are
    there, the desired flows are allocated and distinct, the installed
    flows are distinct with distinct keys, and the links of each installed
    flow are sound: its [desired_refs] are distinct, of its key, point back
    to it, and hold its primary.  So the next call finds what this one
    needed. *)
Theorem ofctrl_put_keeps_engine_wf (flow_table : ovn_desired_flow_table)
    (pending_ct_zones : gmap string ct_zone_pending_entry)
    (meter_table : list sbrec_meter) (nb_cfg : Z) (flow_changed : bool)
    (s : ofctrl) :
  engine_wf flow_table s →
  ∃ s' pending_ct_zones',
    ofctrl_put flow_table pending_ct_zones meter_table nb_cfg flow_changed s
    = Some (s', pending_ct_zones')
    ∧ engine_wf flow_table s'.
Proof.
  intros Hwf. unfold ofctrl_put.
  destruct (put_needed nb_cfg flow_changed s) as [need s0] eqn:Hneed.
  assert (Hwf0 : engine_wf flow_table s0).
  { unfold put_needed in Hneed.
    destruct (flow_changed || skipped_last_time s || need_reinstall_flows s);
      [by injection Hneed as <- <-|].
    destruct (negb (nb_cfg =? old_nb_cfg s)); [|by injection Hneed as <- <-].
    destruct (cur_cfg s =? old_nb_cfg s); injection Hneed as <- <-; [|done].
    eapply engine_wf_frame; [| | | |exact Hwf]; by destruct s. }
  destruct need; cbn [negb].
  2: { eexists _, _. split; [done|].
       eapply engine_wf_frame; [| | | |exact Hwf0]; by destruct s0. }
  destruct (ofctrl_can_put (set_old_nb_cfg nb_cfg s0)); cbn [negb].
  2: { eexists _, _. split; [done|].
       eapply engine_wf_frame; [| | | |exact Hwf0]; by destruct s0. }
  set (s1 := set_need_reinstall_flows false
               (set_skipped_last_time false (set_old_nb_cfg nb_cfg s0))).
  assert (Hwf1 : engine_wf flow_table s1).
  { eapply engine_wf_frame; [| | | |exact Hwf0]; by destruct s0. }
  destruct (put_messages_settles flow_table pending_ct_zones meter_table s1
              Hwf1)
    as (msgs & s2 & zones2 & -> & Hinv & _ & Hset & Hg & Hm & _).
  cbn [mbind option_bind].
  destruct (put_desired_inv_settled flow_table s2 Hinv Hset Hg Hm)
    as [Hwf2 _].
  destruct (put_track_flows msgs nb_cfg zones2 s2) as [Hl Hmem].
  destruct (put_track_tables msgs nb_cfg zones2 s2) as [Hg' Hm'].
  destruct (put_track msgs nb_cfg zones2 s2) as [s3 zones3].
  cbn [fst] in *. eexists _, _. split; [done|].
  by eapply engine_wf_frame; [| | | |exact Hwf2].
Qed.

(** X21.  After a put that goes through, the engine is in sync with the
    table: each installed flow has the actions and the cookie of the
    desired flow that [desired_flow_lookup] finds for its key, each desired
    flow has an installed flow of its key, the engine is well formed, and
    no pending conntrack zone is left queued for a flush.  These are the
    conditions under which the next put sends no flow message. *)
Theorem ofctrl_put_settles (flow_table : ovn_desired_flow_table)
    (pending_ct_zones : gmap string ct_zone_pending_entry)
    (meter_table : list sbrec_meter) (nb_cfg : Z) (flow_changed : bool)
    (s : ofctrl) :
  ofctrl_can_put s = true →
  (put_needed nb_cfg flow_changed s).1 = true →
  engine_wf flow_table s →
  ∃ s' pending_ct_zones',
    ofctrl_put flow_table pending_ct_zones meter_table nb_cfg flow_changed s
    = Some (s', pending_ct_zones')
    ∧ engine_wf flow_table s'
    ∧ flows_in_sync flow_table s'
    ∧ (∀ k ctzpe, pending_ct_zones' !! k = Some ctzpe →
                  ctzpe_state ctzpe ≠ CT_ZONE_OF_QUEUED).
Proof.
  intros Hcan Hneed Hwf.
  destruct (ofctrl_put_past_gates flow_table pending_ct_zones meter_table
              nb_cfg flow_changed s Hcan Hneed Hwf)
    as (msgs & s2 & Hmsgs & -> & _ & _).
  set (s1 := set_need_reinstall_flows false
               (set_skipped_last_time false (set_old_nb_cfg nb_cfg s))) in *.
  assert (Hwf1 : engine_wf flow_table s1).
  { eapply engine_wf_frame; [| | | |exact Hwf]; by destruct s. }
  destruct (put_messages_settles flow_table pending_ct_zones meter_table s1
              Hwf1)
    as (msgs' & s2' & zones2 & Hmsgs' & Hinv & _ & Hset & Hg & Hm & _).
  rewrite Hmsgs in Hmsgs'. injection Hmsgs' as <- <- <-.
  destruct (put_desired_inv_settled flow_table s2 Hinv Hset Hg Hm)
    as [Hwf2 [Hsi Hsd]].
  pose proof (put_track_zones msgs nb_cfg (ct_zone_flush <$> pending_ct_zones)
                s2 (ct_zone_flush_unqueued pending_ct_zones)) as Hz.
  destruct (put_track_flows msgs nb_cfg (ct_zone_flush <$> pending_ct_zones)
              s2) as [Hl Hmem].
  destruct (put_track_tables msgs nb_cfg (ct_zone_flush <$> pending_ct_zones)
              s2) as [Hg' Hm'].
  destruct (put_track msgs nb_cfg (ct_zone_flush <$> pending_ct_zones) s2)
    as [s3 zones3].
  cbn [fst snd] in *. eexists _, _. split; [done|].
  split; [by eapply engine_wf_frame; [| | | |exact Hwf2]|].
  split; [|done]. split.
  - intros i Hi. rewrite Hmem. apply Hsi. by rewrite <- Hl.
  - intros d Hd. apply (desired_in_sync_contents s2); [| |by apply Hsd].
    + rewrite Hmem. apply same_flow_contents_refl.
    + done.
Qed.

Lemma sb_links_wf_sources (flow_table : ovn_desired_flow_table)
    (m m' : memory) :
  desired_same_sources m m' →
  sb_links_wf flow_table m → sb_links_wf flow_table m'.
Proof.
  intros HS [Hnd [H1 H2]]. split; [done|]. split.
  - intros u l Hl. destruct (H1 u l Hl) as [Hndl Hall]. split; [done|].
    intros sfr Hsfr. destruct (Hall sfr Hsfr) as (Hu & Hin & fd & Hfd & Hr).
    split; [done|]. split; [done|]. specialize (HS (sfr_flow sfr)).
    rewrite Hfd in HS.
    destruct (desired_at m' !! sfr_flow sfr) as [fd'|]; [|done].
    injection HS as HS. exists fd'. by rewrite HS.
  - intros d fd' Hd Hfd'. specialize (HS d). rewrite Hfd' in HS.
    destruct (desired_at m !! d) as [fd|] eqn:Hfd; [|done].
    injection HS as HS. rewrite HS. by apply H2.
Qed.

Lemma desired_sourced_sources (flow_table : ovn_desired_flow_table)
    (m m' : memory) :
  desired_same_sources m m' →
  (∀ d fd, d ∈ match_flow_table flow_table → desired_at m !! d = Some fd →
           d_references fd ≠ []) →
  ∀ d fd, d ∈ match_flow_table flow_table → desired_at m' !! d = Some fd →
          d_references fd ≠ [].
Proof.
  intros HS Hsrc d fd' Hd Hfd'. specialize (HS d). rewrite Hfd' in HS.
  destruct (desired_at m !! d) as [fd|] eqn:Hfd; [|done].
  injection HS as HS. rewrite HS. by apply (Hsrc d).
Qed.

Lemma put_desired_inv_back_linked (flow_table : ovn_desired_flow_table)
    (l : list ptr) (m : memory) :
  put_desired_inv flow_table (match_flow_table flow_table) l m →
  (∀ k, k ∈ l → installed_flow_settled flow_table m k) →
  desired_flows_linked (match_flow_table flow_table) l m →
  desired_back_linked flow_table m.
Proof.
  intros (_ & _ & _ & Hsync & _) Hset Hlinkd d fd i Hd Hfd Hi.
  destruct (Hlinkd d Hd) as (j & fj & Hj & Hfj & Hin).
  destruct (Hset j Hj) as [Hback _].
  destruct (Hback fj Hfj d Hin) as (fr & Hfr & Hrj).
  assert (fr = fd) as -> by congruence.
  assert (i = j) as -> by congruence.
  exists fj. split; [done|]. split; [done|].
  destruct (Hsync j Hj)
    as (fj' & p & fp & Hfj' & _ & _ & Hp & Hpin & _).
  assert (fj' = fj) as -> by congruence.
  intros _. by exists p.
Qed.

Lemma ofctrl_wf_frame (flow_table : ovn_desired_flow_table) (s s' : ofctrl) :
  installed_flows s' = installed_flows s → mem s' = mem s →
  groups s' = groups s → meters s' = meters s →
  ofctrl_wf flow_table s → ofctrl_wf flow_table s'.
Proof.
  unfold ofctrl_wf, engine_wf. by intros -> -> -> ->.
Qed.

(** [ofctrl_put] keeps the invariant of the module. *)
Lemma ofctrl_put_wf (flow_table : ovn_desired_flow_table)
    (pending_ct_zones : gmap string ct_zone_pending_entry)
    (meter_table : list sbrec_meter) (nb_cfg : Z) (flow_changed : bool)
    (s : ofctrl) :
  ofctrl_wf flow_table s →
  ∃ s' pending_ct_zones',
    ofctrl_put flow_table pending_ct_zones meter_table nb_cfg flow_changed s
    = Some (s', pending_ct_zones')
    ∧ ofctrl_wf flow_table s'.
Proof.
  intros Hwf. unfold ofctrl_put.
  destruct (put_needed nb_cfg flow_changed s) as [need s0] eqn:Hneed.
  assert (Hwf0 : ofctrl_wf flow_table s0).
  { unfold put_needed in Hneed.
    destruct (flow_changed || skipped_last_time s || need_reinstall_flows s);
      [by injection Hneed as <- <-|].
    destruct (negb (nb_cfg =? old_nb_cfg s)); [|by injection Hneed as <- <-].
    destruct (cur_cfg s =? old_nb_cfg s); injection Hneed as <- <-; [|done].
    eapply ofctrl_wf_frame; [| | | |exact Hwf]; by destruct s. }
  destruct need; cbn [negb].
  2: { eexists _, _. split; [done|].
       eapply ofctrl_wf_frame; [| | | |exact Hwf0]; by destruct s0. }
  destruct (ofctrl_can_put (set_old_nb_cfg nb_cfg s0)); cbn [negb].
  2: { eexists _, _. split; [done|].
       eapply ofctrl_wf_frame; [| | | |exact Hwf0]; by destruct s0. }
  set (s1 := set_need_reinstall_flows false
               (set_skipped_last_time false (set_old_nb_cfg nb_cfg s0))).
  assert (Hwf1 : ofctrl_wf flow_table s1).
  { eapply ofctrl_wf_frame; [| | | |exact Hwf0]; by destruct s0. }
  destruct Hwf1 as (Hewf1 & Hlinks1 & _ & Hsrc1).
  destruct (put_messages_settles flow_table pending_ct_zones meter_table s1
              Hewf1)
    as (msgs & s2 & zones2 & -> & Hinv & _ & Hset & Hg & Hm & HS & Hlinkd).
  cbn [mbind option_bind].
  assert (Hwf2 : ofctrl_wf flow_table s2).
  { split; [by apply put_desired_inv_settled|].
    split; [by eapply sb_links_wf_sources|].
    split; [by eapply put_desired_inv_back_linked|].
    by eapply desired_sourced_sources. }
  destruct (put_track_flows msgs nb_cfg zones2 s2) as [Hl Hmem].
  destruct (put_track_tables msgs nb_cfg zones2 s2) as [Hg' Hm'].
  destruct (put_track msgs nb_cfg zones2 s2) as [s3 zones3].
  cbn [fst] in *. eexists _, _. split; [done|].
  by eapply ofctrl_wf_frame; [| | | |exact Hwf2].
Qed.

(** X22.  [ofctrl_put] keeps the invariant of the module.  From an engine
    that is well formed, whose links between sources and desired flows are
    sound, whose linked desired flows are on the [desired_refs] of their
    installed flows, and whose desired flows all have a source, the call
    returns, whatever its gates decide, and leaves an engine with the same
    properties for the same table: the references of the desired flows are
    untouched, and after a put that goes through every desired flow is on
    the [desired_refs] of the installed flow it points to. *)
Theorem ofctrl_put_keeps_wf (flow_table : ovn_desired_flow_table)
    (pending_ct_zones : gmap string ct_zone_pending_entry)
    (meter_table : list sbrec_meter) (nb_cfg : Z) (flow_changed : bool)
    (s : ofctrl) :
  ofctrl_wf flow_table s →
  ∃ s' pending_ct_zones',
    ofctrl_put flow_table pending_ct_zones meter_table nb_cfg flow_changed s
    = Some (s', pending_ct_zones')
    ∧ ofctrl_wf flow_table s'.
Proof. apply ofctrl_put_wf. Qed.

(** ** Every entry point keeps the invariant of the module *)

(** [ofctrl_add_flow] keeps the invariant of the module. *)
Lemma ofctrl_add_flow_wf (flow_table : ovn_desired_flow_table)
    (t p c : Z) (mt : minimatch) (a : list Byte.byte) (u : uuid)
    (s : ofctrl) :
  ofctrl_wf flow_table s →
  ∃ flow_table' m',
    ofctrl_add_flow flow_table t p c mt a u (mem s) = Some (flow_table', m')
    ∧ ofctrl_wf flow_table' (set_mem m' s)
    ∧ installed_at m' = installed_at (mem s).
Proof.
  intros (Heng & Hlinks & Hback & Hsrc).
  destruct Heng as (Hg & Hm & Hwf & Hnd & Huniq & Hinst).
  destruct (ofctrl_add_flow_links flow_table t p c mt a u (mem s)
              Hwf Hlinks Hback Hsrc)
    as (flow_table' & m' & Hadd & Hwf' & Hlinks' & Hback' & Hsrc' & Hsame).
  exists flow_table', m'. split; [done|]. split; [|done].
  assert (Hkeep : ∀ d fd, desired_at (mem s) !! d = Some fd →
                          desired_at m' !! d = Some fd).
  { destruct (ofctrl_add_flow_cases flow_table t p c mt a u (mem s) Hwf
                (proj1 Hlinks)) as [Heq|(ft2 & Heq & _)];
      rewrite Heq in Hadd; injection Hadd as <- <-; [done|].
    intros d fd Hd. cbn. rewrite lookup_insert_ne; [done|].
    intros <-. by rewrite xmalloc_fresh in Hd. }
  clear Hadd.
  destruct s as [cn st fu cc x x2 tc ifl g mtr mff nr sk onb mm].
  cbn in *. unfold ofctrl_wf, engine_wf. cbn.
  split; [|done].
  split; [done|]. split; [done|]. split; [done|]. split; [done|].
  split.
  - unfold installed_keys_unique. rewrite Hsame. exact Huniq.
  - intros i Hi. destruct (Hinst i Hi) as [Hl Hk]. split.
    + destruct Hl as (fi & Hfi & Hndr & Hrefs & Hprim).
      exists fi. rewrite Hsame. split; [done|]. split; [done|].
      split; [|done]. intros d Hd.
      destruct (Hrefs d Hd) as (fd & Hfd & Hp).
      exists fd. split; [by apply Hkeep|done].
    + unfold installed_flow_keyed. rewrite Hsame. intros fi Hfi.
      destruct (Hk fi Hfi) as [Hh Hr]. split; [done|].
      intros d Hd. destruct (Hr d Hd) as (fd & Hfd & Hkey).
      exists fd. split; [by apply Hkeep|done].
Qed.

(** X23.  [ofctrl_add_flow] keeps the invariant of the module: on an
    engine and a desired table that satisfy it, the call returns a table
    that satisfies it with the engine on the new heap, and the installed
    flows are as they were. *)
Theorem ofctrl_add_flow_keeps_wf (flow_table : ovn_desired_flow_table)
    (t p c : Z) (mt : minimatch) (a : list Byte.byte) (u : uuid)
    (s : ofctrl) :
  ofctrl_wf flow_table s →
  ∃ flow_table' m',
    ofctrl_add_flow flow_table t p c mt a u (mem s) = Some (flow_table', m')
    ∧ ofctrl_wf flow_table' (set_mem m' s)
    ∧ installed_at m' = installed_at (mem s).
Proof. apply ofctrl_add_flow_wf. Qed.

(** The removal of the flows of one source keeps the installed side of the
    engine well formed. *)
Lemma removal_keeps_installed (index : list ptr) (u : uuid)
    (index' : list ptr) (l : list ptr) (m m' : memory) :
  (∀ d fd, d ∈ index → desired_at m !! d = Some fd →
     let refs := filter (λ sfr, sfr_sb_uuid sfr ≠ u) (d_references fd) in
     if bool_decide (u ∈ d_sources fd ∧ refs = []) then
       (d ∉ index')
       ∧ desired_at m' !! d = None
       ∧ ∀ i, d_installed_flow fd = Some i →
              ∃ fi', installed_at m' !! i = Some fi'
                     ∧ d ∉ i_desired_refs fi'
     else
       d ∈ index'
       ∧ desired_at m' !! d
         = Some {| d_flow := d_flow fd; d_references := refs;
                   d_installed_flow := d_installed_flow fd |}) →
  (∀ d, d ∉ index → desired_at m' !! d = desired_at m !! d) →
  installed_flows_kept m m' →
  installed_keys_unique l m →
  (∀ i, i ∈ l → installed_flow_linked m i ∧ installed_flow_keyed m i) →
  installed_keys_unique l m'
  ∧ (∀ i, i ∈ l → installed_flow_linked m' i ∧ installed_flow_keyed m' i).
Proof.
  intros Hchar Hframe [Hnone Hkept] Huniq Hinst.
  assert (Hback : ∀ i fi', installed_at m' !! i = Some fi' →
            ∃ fi, installed_at m !! i = Some fi
                  ∧ i_flow fi' = i_flow fi
                  ∧ sublist (i_desired_refs fi') (i_desired_refs fi)
                  ∧ (match i_desired_flow fi with
                     | Some p => p ∈ i_desired_refs fi
                     | None => i_desired_refs fi = []
                     end →
                     match i_desired_flow fi' with
                     | Some p => p ∈ i_desired_refs fi'
                     | None => i_desired_refs fi' = []
                     end)).
  { intros i fi' Hfi'. destruct (installed_at m !! i) as [fi|] eqn:Hfi.
    - destruct (Hkept i fi Hfi) as (fi2 & Hfi2 & Hrest).
      rewrite Hfi' in Hfi2. injection Hfi2 as <-. by exists fi.
    - by rewrite (Hnone i Hfi) in Hfi'. }
  assert (Href : ∀ i fi' r fr,
            installed_at m' !! i = Some fi' → r ∈ i_desired_refs fi' →
            desired_at m !! r = Some fr → d_installed_flow fr = Some i →
            ∃ fr', desired_at m' !! r = Some fr'
                   ∧ d_flow fr' = d_flow fr
                   ∧ d_installed_flow fr' = Some i).
  { intros i fi' r fr Hfi' Hr Hfr Hri.
    destruct (decide (r ∈ index)) as [Hin|Hout].
    - specialize (Hchar r fr Hin Hfr). cbn zeta in Hchar.
      destruct (bool_decide _).
      + destruct Hchar as (_ & _ & Hoff).
        destruct (Hoff i Hri) as (fi2 & Hfi2 & Hnin).
        rewrite Hfi' in Hfi2. injection Hfi2 as <-. done.
      + destruct Hchar as [_ Hfr']. eexists. by split.
    - exists fr. by rewrite Hframe. }
  split.
  - intros i j fi' fj' Hi Hj Hfi' Hfj' Hkey.
    destruct (Hback i fi' Hfi') as (fi & Hfi & Hfl & _).
    destruct (Hback j fj' Hfj') as (fj & Hfj & Hfl2 & _).
    apply (Huniq i j fi fj); try done. unfold ovn_flow_key_eq in *.
    by rewrite <- Hfl, <- Hfl2.
  - intros i Hi. destruct (Hinst i Hi) as [Hl Hk].
    destruct Hl as (fi & Hfi & Hndr & Hrefs & Hprim).
    destruct (Hkept i fi Hfi) as (fi' & Hfi' & Hfl & Hsub & Hp).
    destruct (Hk fi Hfi) as [Hh Hkeys].
    split.
    + exists fi'. split; [done|].
      split; [by eapply sublist_NoDup|]. split; [|by apply Hp].
      intros r Hr.
      assert (r ∈ i_desired_refs fi) as Hr0 by (by eapply sublist_subseteq).
      destruct (Hrefs r Hr0) as (fr & Hfr & Hri).
      destruct (Href i fi' r fr Hfi' Hr Hfr Hri) as (fr' & Hfr' & _ & Hri').
      by exists fr'.
    + intros fi2 Hfi2. rewrite Hfi' in Hfi2. injection Hfi2 as <-.
      split; [unfold ovn_flow_hashed in *; by rewrite Hfl|].
      intros r Hr.
      assert (r ∈ i_desired_refs fi) as Hr0 by (by eapply sublist_subseteq).
      destruct (Hrefs r Hr0) as (fr & Hfr & Hri).
      destruct (Href i fi' r fr Hfi' Hr Hfr Hri) as (fr' & Hfr' & Hfl' & _).
      destruct (Hkeys r Hr0) as (fr2 & Hfr2 & Hkey).
      rewrite Hfr in Hfr2. injection Hfr2 as <-.
      exists fr'. split; [done|]. unfold ovn_flow_key_eq in *.
      by rewrite Hfl', Hfl.
Qed.

(** The flows that stay in the index keep a source. *)
Lemma removal_keeps_sourced (index : list ptr) (u : uuid)
    (index' : list ptr) (m m' : memory) :
  (∀ d fd, d ∈ index → desired_at m !! d = Some fd →
     let refs := filter (λ sfr, sfr_sb_uuid sfr ≠ u) (d_references fd) in
     if bool_decide (u ∈ d_sources fd ∧ refs = []) then
       (d ∉ index')
       ∧ desired_at m' !! d = None
       ∧ ∀ i, d_installed_flow fd = Some i →
              ∃ fi', installed_at m' !! i = Some fi'
                     ∧ d ∉ i_desired_refs fi'
     else
       d ∈ index'
       ∧ desired_at m' !! d
         = Some {| d_flow := d_flow fd; d_references := refs;
                   d_installed_flow := d_installed_flow fd |}) →
  sublist index' index →
  (∀ d, d ∈ index → is_Some (desired_at m !! d)) →
  (∀ d fd, d ∈ index → desired_at m !! d = Some fd → d_references fd ≠ []) →
  ∀ d fd, d ∈ index' → desired_at m' !! d = Some fd → d_references fd ≠ [].
Proof.
  intros Hchar Hsub Hall Hsrc d fd1 Hd1 Hfd1 Hnil.
  assert (d ∈ index) as Hd by (by eapply sublist_subseteq).
  destruct (Hall d Hd) as [fd Hfd].
  specialize (Hchar d fd Hd Hfd). cbn zeta in Hchar.
  destruct (bool_decide_reflect
              (u ∈ d_sources fd
               ∧ filter (λ sfr, sfr_sb_uuid sfr ≠ u) (d_references fd) = []))
    as [_|Hno].
  - by destruct Hchar as [Hn _].
  - destruct Hchar as [_ Hfd1']. rewrite Hfd1 in Hfd1'.
    injection Hfd1' as ->. cbn in Hnil.
    destruct (decide (u ∈ d_sources fd)) as [Hu|Hu].
    + by apply Hno.
    + pose proof (desired_flow_unsourced _ fd Hu) as Heq.
      rewrite Hnil in Heq. injection Heq as Heq.
      apply (Hsrc d fd Hd Hfd). by rewrite Heq.
Qed.

(** The removal of the flows of one node keeps the invariant of the
    module. *)
Lemma remove_flows_from_sb_to_flow_wf
    (flow_table : ovn_desired_flow_table) (stf : sb_to_flow) (s : ofctrl) :
  ofctrl_wf flow_table s →
  sb_to_flow_find (uuid_flow_table flow_table) (stf_sb_uuid stf) = Some stf →
  ∃ flow_table' m',
    remove_flows_from_sb_to_flow flow_table stf (mem s)
    = Some (flow_table', m')
    ∧ ofctrl_wf flow_table' (set_mem m' s)
    ∧ uuid_flow_table flow_table'
      = sb_to_flow_remove (uuid_flow_table flow_table) (stf_sb_uuid stf).
Proof.
  intros (Heng & Hlinks & Hback & Hsrc) Hfind.
  destruct Heng as (Hg & Hm & Hwf & Hnd & Huniq & Hinst).
  destruct (remove_flows_from_sb_to_flow_spec flow_table stf (mem s)
              Hwf Hlinks Hback Hfind)
    as (flow_table' & m' & Hr & (Hwf' & Hlinks' & Hback') & Ht & Hsub & Hchar
        & Hframe & _ & Hkept).
  exists flow_table', m'. split; [done|]. split; [|done].
  destruct (removal_keeps_installed _ _ _ _ _ _ Hchar Hframe Hkept Huniq
              Hinst) as [Huniq' Hinst'].
  pose proof (removal_keeps_sourced _ _ _ _ _ Hchar Hsub) as Hsrc'.
  clear Hr Hchar.
  destruct s as [cn st fu cc x x2 tc ifl g mtr mff nr sk onb mm].
  cbn in *. unfold ofctrl_wf, engine_wf. cbn.
  split; [done|]. split; [done|]. split; [done|].
  apply Hsrc'; [|done]. intros d Hd. destruct Hwf as [_ Hall].
  destruct (Hall d Hd) as (fd & -> & _). by eexists.
Qed.

(** [ofctrl_remove_flows] keeps the invariant of the module. *)
Lemma ofctrl_remove_flows_wf
    (remove_desired : ovn_extend_table → uuid → ovn_extend_table)
    (flow_table : ovn_desired_flow_table) (u : uuid) (s : ofctrl) :
  ofctrl_wf flow_table s →
  ∃ flow_table' s',
    ofctrl_remove_flows remove_desired flow_table u s
    = Some (flow_table', s')
    ∧ ofctrl_wf flow_table' s'
    ∧ installed_flows s' = installed_flows s
    ∧ sb_to_flow_find (uuid_flow_table flow_table') u = None.
Proof.
  intros Hwf.
  assert (∃ flow_table' m',
            remove_flows_of_sb_uuid flow_table u (mem s)
            = Some (flow_table', m')
            ∧ ofctrl_wf flow_table' (set_mem m' s)
            ∧ sb_to_flow_find (uuid_flow_table flow_table') u = None)
    as (flow_table' & m' & Hr & Hwf' & Hnone).
  { unfold remove_flows_of_sb_uuid.
    destruct (sb_to_flow_find (uuid_flow_table flow_table) u) as [stf|]
      eqn:Hfind.
    - destruct (sb_to_flow_find_Some _ _ _ Hfind) as [Hu _].
      rewrite <- Hu in Hfind.
      destruct (remove_flows_from_sb_to_flow_wf flow_table stf s Hwf Hfind)
        as (flow_table' & m' & Hr & Hwf' & Ht).
      exists flow_table', m'. split; [done|]. split; [done|].
      rewrite Ht, Hu, sb_to_flow_find_remove.
      + by rewrite decide_True.
      + by destruct Hwf as (_ & [Hnd _] & _).
    - exists flow_table, (mem s). split; [done|]. split; [|done].
      by destruct s. }
  destruct Hwf as ((Hg & Hm & _) & _).
  destruct Hg as [gs Hg], Hm as [ms Hm].
  unfold ofctrl_remove_flows. rewrite Hr. cbn [mbind option_bind].
  replace (groups (set_mem m' s)) with (Some gs)
    by (rewrite <- Hg; by destruct s).
  cbn [mbind option_bind].
  replace (meters (set_groups _ (set_mem m' s))) with (Some ms)
    by (rewrite <- Hm; by destruct s).
  cbn [mbind option_bind]. eexists _, _. split; [done|].
  split; [|split; [by destruct s|done]].
  clear Hr. destruct s as [cn st fu cc x x2 tc ifl g mtr mff nr sk onb mm].
  unfold ofctrl_wf, engine_wf in *. cbn in *.
  destruct Hwf' as ((_ & _ & Hrest) & Hrest').
  split; [|done]. split; [by eexists|]. split; [by eexists|done].
Qed.

(** X24.  [ofctrl_remove_flows] keeps the invariant of the module: on an
    engine and a desired table that satisfy it, the call returns a table
    and an engine that satisfy it; the installed-flow table holds the same
    flows, and the source has no node in the [uuid_flow_table] afterwards. *)
Theorem ofctrl_remove_flows_keeps_wf
    (remove_desired : ovn_extend_table → uuid → ovn_extend_table)
    (flow_table : ovn_desired_flow_table) (u : uuid) (s : ofctrl) :
  ofctrl_wf flow_table s →
  ∃ flow_table' s',
    ofctrl_remove_flows remove_desired flow_table u s
    = Some (flow_table', s')
    ∧ ofctrl_wf flow_table' s'
    ∧ installed_flows s' = installed_flows s
    ∧ sb_to_flow_find (uuid_flow_table flow_table') u = None.
Proof. apply ofctrl_remove_flows_wf. Qed.

Lemma mem_set_mem (m : memory) (s : ofctrl) : mem (set_mem m s) = m.
Proof. by destruct s. Qed.

Lemma set_mem_set_mem (m m' : memory) (s : ofctrl) :
  set_mem m' (set_mem m s) = set_mem m' s.
Proof. by destruct s. Qed.

(** [ovn_desired_flow_table_clear] keeps the invariant of the module. *)
Lemma ovn_desired_flow_table_clear_wf
    (flow_table : ovn_desired_flow_table) (s : ofctrl) :
  ofctrl_wf flow_table s →
  ∃ m',
    ovn_desired_flow_table_clear flow_table (mem s)
    = Some ({| match_flow_table := []; uuid_flow_table := [] |}, m')
    ∧ ofctrl_wf {| match_flow_table := []; uuid_flow_table := [] |}
                (set_mem m' s).
Proof.
  unfold ovn_desired_flow_table_clear.
  replace s with (set_mem (mem s) s) at 1 by (by destruct s).
  generalize (mem s) as m.
  remember (uuid_flow_table flow_table) as t eqn:Ht.
  revert flow_table Ht.
  induction t as [|stf t IH]; intros flow_table Ht m Hwf.
  - exists m. cbn [for_each].
    assert (match_flow_table flow_table = []) as Hidx.
    { destruct Hwf as ((_ & _ & [_ Hall] & _) & [_ [_ Hl2]] & _ & Hsrc).
      rewrite mem_set_mem in Hall, Hl2, Hsrc.
      apply elem_of_nil_inv. intros d Hd.
      destruct (Hall d Hd) as (fd & Hfd & _).
      pose proof (Hsrc d fd Hd Hfd) as Hne.
      destruct (d_references fd) as [|x r] eqn:Hr; [done|].
      destruct (Hl2 d fd Hd Hfd) as [_ Hx].
      destruct (Hx x) as (_ & l & Hfl & _).
      { rewrite Hr. apply elem_of_cons. by left. }
      rewrite <- Ht in Hfl. done. }
    destruct flow_table as [idx ut]. cbn in Ht, Hidx. subst idx ut.
    by split.
  - assert (sb_to_flow_find (uuid_flow_table flow_table) (stf_sb_uuid stf)
            = Some stf) as Hfind.
    { unfold sb_to_flow_find. rewrite <- Ht. cbn [find].
      by rewrite uuid_equals_refl. }
    destruct (remove_flows_from_sb_to_flow_wf flow_table stf (set_mem m s)
                Hwf Hfind) as (flow_table1 & m1 & Hr & Hwf1 & Ht1).
    rewrite mem_set_mem in Hr. rewrite set_mem_set_mem in Hwf1.
    assert (t = uuid_flow_table flow_table1) as Ht1'.
    { rewrite Ht1, <- Ht. cbn [sb_to_flow_remove].
      by rewrite uuid_equals_refl. }
    destruct (IH flow_table1 Ht1' m1 Hwf1) as (m' & Hloop & Hwf').
    exists m'. rewrite for_each_cons. cbn [mbind option_bind].
    change (remove_flows_from_sb_to_flow flow_table stf m ≫= _)
      with (remove_flows_from_sb_to_flow flow_table stf m ≫=
            for_each t (λ stf '(flow_table, m),
                          remove_flows_from_sb_to_flow flow_table stf m)).
    rewrite Hr. cbn [mbind option_bind]. by split.
Qed.

(** X25.  [ovn_desired_flow_table_clear] keeps the invariant of the
    module: on an engine and a desired table that satisfy it, the call
    returns the empty table, and the engine on the new heap satisfies the
    invariant for the empty table. *)
Theorem ovn_desired_flow_table_clear_keeps_wf
    (flow_table : ovn_desired_flow_table) (s : ofctrl) :
  ofctrl_wf flow_table s →
  ∃ m',
    ovn_desired_flow_table_clear flow_table (mem s)
    = Some ({| match_flow_table := []; uuid_flow_table := [] |}, m')
    ∧ ofctrl_wf {| match_flow_table := []; uuid_flow_table := [] |}
                (set_mem m' s).
Proof. apply ovn_desired_flow_table_clear_wf. Qed.

Lemma same_tables_refl (s : ofctrl) : same_tables s s.
Proof. by repeat split. Qed.

Lemma ofctrl_wf_same_tables (flow_table : ovn_desired_flow_table)
    (s s' : ofctrl) :
  same_tables s s' → ofctrl_wf flow_table s → ofctrl_wf flow_table s'.
Proof. intros (? & ? & ? & ?). by apply ofctrl_wf_frame. Qed.

Lemma ofctrl_recv_tables (oh : ofp_header) (type : ofptype) (s : ofctrl) :
  same_tables s (ofctrl_recv oh type s).
Proof. unfold ofctrl_recv. by destruct type, s. Qed.

Lemma process_tlv_table_reply_scan_tables
    (mappings : list ofputil_tlv_map) :
  ∀ md_free s b s',
    process_tlv_table_reply_scan mappings md_free s = inl (b, s') →
    same_tables s s'.
Proof.
  induction mappings as [|map_ rest IH]; intros md_free s b s'; [done|].
  cbn [process_tlv_table_reply_scan].
  destruct (is_ovn_geneve map_); [|by apply IH].
  destruct (index map_ >=? TUN_METADATA_NUM_OPTS); intros [= <- <-];
    [apply same_tables_refl|by destruct s].
Qed.

Lemma process_tlv_table_reply_tables (reply : list ofputil_tlv_map)
    (s : ofctrl) :
  same_tables s (process_tlv_table_reply reply s).2.
Proof.
  unfold process_tlv_table_reply.
  destruct (process_tlv_table_reply_scan reply UINT64_MAX s)
    as [[b s']|md] eqn:Hscan.
  - by eapply process_tlv_table_reply_scan_tables.
  - destruct (md =? 0); [apply same_tables_refl|].
    generalize (rightmost_1bit_idx md). intros r. by destruct s.
Qed.

Lemma recv_state_tables (oh : ofp_header) (type : ofptype)
    (pending_ct_zones : gmap string ct_zone_pending_entry) (s : ofctrl)
    (r : ofctrl * gmap string ct_zone_pending_entry) :
  recv_state oh type pending_ct_zones s = Some r → same_tables s r.1.
Proof.
  unfold recv_state. destruct (state s); [done|..]; intros [= <-]; cbn [fst].
  - unfold recv_S_TLV_TABLE_REQUESTED.
    destruct (negb (oh_xid oh =? xid s)); [apply ofctrl_recv_tables|].
    destruct (bool_decide (type = OFPTYPE_NXT_TLV_TABLE_REPLY));
      [|by destruct s].
    destruct (oh_tlv_table_reply oh) as [reply|]; [|by destruct s].
    pose proof (process_tlv_table_reply_tables reply s) as Hsame.
    destruct (process_tlv_table_reply reply s) as [ok s'].
    cbn [snd] in Hsame. destruct ok; [done|].
    destruct Hsame as (? & ? & ? & ?). by destruct s'.
  - unfold recv_S_TLV_TABLE_MOD_SENT.
    repeat case_match; try apply ofctrl_recv_tables; by destruct s.
  - apply ofctrl_recv_tables.
  - unfold recv_S_UPDATE_FLOWS.
    destruct (bool_decide (type = OFPTYPE_BARRIER_REPLY)
              && negb (bool_decide (flow_updates s = []))); cbn [fst].
    + destruct (flow_updates s) as [|fup rest]; [done|].
      destruct (fup_xid fup =? oh_xid oh); [|done].
      destruct (fup_nb_cfg fup >=? cur_cfg s); by destruct s.
    + apply ofctrl_recv_tables.
Qed.

(** Clearing one installed flow keeps the invariant of the module. *)
Lemma installed_flow_table_clear_flow_wf
    (flow_table : ovn_desired_flow_table) (s : ofctrl) (i : ptr)
    (l : list ptr) :
  installed_flows s = i :: l →
  ofctrl_wf flow_table s →
  ∃ s', installed_flow_table_clear_flow i s = Some s'
        ∧ installed_flows s' = l
        ∧ groups s' = groups s ∧ meters s' = meters s
        ∧ ofctrl_wf flow_table s'.
Proof.
  intros Hl ((Hg & Hm & Hwf & Hnd & Huniq & Hinst) & Hlinks & Hback & Hsrc).
  rewrite Hl in Hnd, Huniq, Hinst.
  apply NoDup_cons in Hnd as [Hil Hnd].
  destruct (Hinst i) as [Hwi Hki]; [apply elem_of_cons; by left|].
  pose proof Hwi as (fi & Hfi & Hndr & Hrefs & Hprim).
  destruct (unlink_all_refs_spec _ _ _ Hfi Hwi)
    as (m1 & Hun & Hi1 & Hin1 & Hout1).
  set (m' := set_installed_at (delete i) m1).
  assert (Hi' : installed_at m' = delete i (installed_at (mem s))).
  { unfold m'. cbn. by rewrite Hi1, delete_insert_eq. }
  assert (Hd' : ∀ d, desired_at m' !! d
                     = if decide (d ∈ i_desired_refs fi)
                       then d_with_installed_flow None
                              <$> desired_at (mem s) !! d
                       else desired_at (mem s) !! d).
  { intros d. unfold m'. cbn. destruct (decide _); auto. }
  assert (HSS : desired_same_sources (mem s) m').
  { intros d. rewrite Hd'. destruct (decide _); [|done].
    by destruct (desired_at (mem s) !! d) as [[]|]. }
  assert (HSF : ∀ d fd, desired_at (mem s) !! d = Some fd →
                        ∃ fd', desired_at m' !! d = Some fd'
                               ∧ d_flow fd' = d_flow fd
                               ∧ (d ∉ i_desired_refs fi → fd' = fd)).
  { intros d fd Hfd. rewrite Hd', Hfd. destruct (decide _).
    - eexists. split; [done|]. by destruct fd.
    - by exists fd. }
  exists (set_mem m' (set_installed_flows l s)).
  split.
  { unfold installed_flow_table_clear_flow, with_mem.
    replace (mem (set_installed_flows _ s)) with (mem s) by (by destruct s).
    rewrite Hun. cbn [mbind option_bind].
    replace (mem (set_mem m1 _)) with m1 by (by destruct s).
    unfold installed_flow_destroy. rewrite Hi1, lookup_insert_eq.
    cbn [mbind option_bind]. rewrite Hl, hmap_remove_head by done.
    fold m'. by destruct s. }
  split; [by destruct s|]. split; [by destruct s|]. split; [by destruct s|].
  assert (Hlater : ∀ j, j ∈ l → j ≠ i).
  { intros j Hj ->. done. }
  clear Hun. clearbody m'.
  destruct s as [cn st fu cc x x2 tc ifl g mtr mff nr sk onb mm].
  cbn in Hl, Hg, Hm, Hwf, Huniq, Hinst, Hlinks, Hback, Hsrc, Hfi, Hi1, Hin1,
         Hout1, Hi', Hd', HSS, HSF, Hwi, Hki, Hrefs.
  unfold ofctrl_wf, engine_wf. cbn.
  split; [|split; [by eapply sb_links_wf_sources|split]].
  - split; [done|]. split; [done|]. split; [|split; [done|split]].
    + destruct Hwf as [Hndi Hall]. split; [done|]. intros d Hd.
      destruct (Hall d Hd) as (fd & Hfd & Hh).
      destruct (HSF d fd Hfd) as (fd' & Hfd' & Hfl & _).
      exists fd'. split; [done|]. unfold ovn_flow_hashed in *.
      by rewrite Hfl.
    + unfold installed_keys_unique. intros j k fj fk Hj Hk. rewrite Hi'.
      rewrite !lookup_delete_ne by (intros <-; by eapply Hlater).
      apply Huniq; apply elem_of_cons; by right.
    + intros j Hj. destruct (Hinst j) as [Hwj Hkj];
        [apply elem_of_cons; by right|].
      split.
      * eapply (installed_flow_linked_frame mm m' i j fi); try done.
        -- intros k Hk. by rewrite Hi', lookup_delete_ne.
        -- intros d Hd. by rewrite Hd', decide_False.
        -- by apply Hlater.
      * unfold installed_flow_keyed. intros fj. rewrite Hi', lookup_delete_ne
          by (intros <-; by eapply Hlater).
        intros Hfj. destruct (Hkj fj Hfj) as [Hh Hkeys]. split; [done|].
        intros d Hd. destruct (Hkeys d Hd) as (fd & Hfd & Hkey).
        destruct (HSF d fd Hfd) as (fd' & Hfd' & Hfl & _).
        exists fd'. split; [done|]. unfold ovn_flow_key_eq in *.
        by rewrite Hfl.
  - intros d fd' j Hd. rewrite Hd'.
    destruct (decide (d ∈ i_desired_refs fi)) as [Hin|Hout].
    { destruct (desired_at mm !! d) as [fd|]; [|done].
      intros [= <-]. by destruct fd. }
    intros Hfd Hj. destruct (Hback d fd' j Hd Hfd Hj) as (fj & Hfj & Hdj & Hp).
    exists fj. split; [|done]. rewrite Hi', lookup_delete_ne; [done|].
    intros <-. rewrite Hfi in Hfj. injection Hfj as <-. done.
  - by eapply desired_sourced_sources.
Qed.

Lemma ovn_installed_flow_table_clear_wf
    (flow_table : ovn_desired_flow_table) (l : list ptr) :
  ∀ s,
    installed_flows s = l →
    ofctrl_wf flow_table s →
    ∃ s', for_each l installed_flow_table_clear_flow s = Some s'
          ∧ installed_flows s' = []
          ∧ groups s' = groups s ∧ meters s' = meters s
          ∧ ofctrl_wf flow_table s'.
Proof.
  induction l as [|i l IH]; intros s Hl Hwf.
  - by exists s.
  - destruct (installed_flow_table_clear_flow_wf flow_table s i l Hl Hwf)
      as (s1 & Hstep & Hl1 & Hg1 & Hm1 & Hwf1).
    destruct (IH s1 Hl1 Hwf1) as (s' & Hloop & Hl' & Hg' & Hm' & Hwf').
    exists s'. rewrite for_each_cons, Hstep. cbn [mbind option_bind].
    split; [done|]. split; [done|]. split; [congruence|].
    split; [congruence|done].
Qed.

Lemma run_S_CLEAR_FLOWS_wf (flow_table : ovn_desired_flow_table)
    (s s' : ofctrl) :
  ofctrl_wf flow_table s → run_S_CLEAR_FLOWS s = Some s' →
  ofctrl_wf flow_table s'.
Proof.
  intros Hwf. unfold run_S_CLEAR_FLOWS, ovn_installed_flow_table_clear.
  destruct s as [c st fu cc x x2 tc ifl g mt mff nr sk onb mm].
  cbn -[for_each].
  match goal with
  | |- context [for_each _ _ ?s1] =>
      destruct (ovn_installed_flow_table_clear_wf flow_table ifl s1)
        as (s2 & Hrun & Hl2 & Hg2 & Hm2 & Hwf2);
        [done|by eapply ofctrl_wf_frame; [| | | |exact Hwf]|]
  end.
  rewrite Hrun. cbn [mbind option_bind]. clear Hrun.
  destruct s2 as [c2 st2 fu2 cc2 y y2 tc2 ifl2 g2 mt2 mff2 nr2 sk2 onb2 mm2].
  cbn in Hl2, Hg2, Hm2. subst ifl2 g2 mt2. cbn.
  destruct Hwf2 as ((Hg & Hm & Hrest) & Hrest'). cbn in Hg, Hm.
  destruct Hg as [g0 ->], Hm as [mt0 ->]. cbn. intros [= <-].
  split; [|done]. split; [by eexists|]. split; [by eexists|done].
Qed.

Lemma run_state_wf (flow_table : ovn_desired_flow_table) (s s' : ofctrl) :
  ofctrl_wf flow_table s → run_state s = Some s' → ofctrl_wf flow_table s'.
Proof.
  intros Hwf. unfold run_state. destruct (state s).
  - intros [= <-]. eapply ofctrl_wf_frame; [| | | |exact Hwf];
      by destruct s.
  - by intros [= <-].
  - by intros [= <-].
  - by apply run_S_CLEAR_FLOWS_wf.
  - by intros [= <-].
Qed.

Lemma ofctrl_run_loop_wf (flow_table : ovn_desired_flow_table) (n : nat) :
  ∀ rx pending_ct_zones seqno s r,
    ofctrl_wf flow_table s →
    ofctrl_run_loop n rx pending_ct_zones seqno s = Some r →
    ofctrl_wf flow_table (run_engine r).
Proof.
  induction n as [|n IH]; intros rx pending_ct_zones seqno s r Hwf.
  { by intros [= <-]. }
  cbn [ofctrl_run_loop].
  destruct (run_state s) as [s1|] eqn:Hs1; [|done].
  cbn [mbind option_bind].
  pose proof (run_state_wf flow_table s s1 Hwf Hs1) as Hwf1.
  set (msg := default None (head rx)).
  assert (∀ r2 : ofctrl * gmap string ct_zone_pending_entry,
            match msg with
            | Some (oh, Some type) => recv_state oh type pending_ct_zones s1
            | _ => Some (s1, pending_ct_zones)
            end = Some r2 → ofctrl_wf flow_table r2.1) as Hrecv.
  { intros r2. destruct msg as [[oh [type|]]|]; try by intros [= <-].
    intros Hr2. eapply ofctrl_wf_same_tables; [|exact Hwf1].
    by eapply recv_state_tables. }
  destruct (match msg with
            | Some (oh, Some type) => recv_state oh type pending_ct_zones s1
            | _ => Some (s1, pending_ct_zones)
            end) as [[s2 z2]|] eqn:Hr2.
  2: { by destruct msg as [[oh [type|]]|]. }
  specialize (Hrecv _ eq_refl). cbn [fst] in Hrecv.
  cbn [mbind option_bind].
  destruct (_ || _); [by apply IH|by intros [= <-]].
Qed.

(** [ofctrl_run] keeps the invariant of the module. *)
Lemma ofctrl_run_wf (flow_table : ovn_desired_flow_table)
    (input : rconn_input)
    (pending_ct_zones : gmap string ct_zone_pending_entry) (seqno : Z)
    (s : ofctrl) :
  ofctrl_wf flow_table s →
  ∃ r, ofctrl_run input pending_ct_zones seqno s = Some r
       ∧ ofctrl_wf flow_table (run_engine r).
Proof.
  intros Hwf. unfold ofctrl_run.
  destruct (connected input); cbn [negb]; [|by eexists].
  match goal with
  | |- context [ofctrl_run_loop 50 ?rx ?z ?q ?s0] =>
      assert (ofctrl_wf flow_table s0) as Hwf0;
        [|destruct (ofctrl_run_loop_keeps 50 rx z q s0) as (r & Hr & _)]
  end.
  { case_bool_decide; [|done].
    eapply ofctrl_wf_frame; [| | | |exact Hwf]; by destruct s. }
  { destruct Hwf0 as ((_ & _ & _ & Hnd & _ & Hinst) & _). split; [done|].
    intros i Hi. by apply Hinst. }
  exists r. split; [done|]. by eapply ofctrl_run_loop_wf.
Qed.

(** X26.  [ofctrl_run] keeps the invariant of the module: on an engine
    that satisfies it for a desired table, whatever the connection
    delivers, the call returns, and the engine it leaves satisfies the
    invariant for the same table. *)
Theorem ofctrl_run_keeps_wf (flow_table : ovn_desired_flow_table)
    (input : rconn_input)
    (pending_ct_zones : gmap string ct_zone_pending_entry) (seqno : Z)
    (s : ofctrl) :
  ofctrl_wf flow_table s →
  ∃ r, ofctrl_run input pending_ct_zones seqno s = Some r
       ∧ ofctrl_wf flow_table (run_engine r).
Proof. apply ofctrl_run_wf. Qed.

(** Linking the desired flow [f] to one more source keeps the invariant of
    the module, whether [f] is new in the index or was there before. *)
Lemma link_keeps_wf (flow_table flow_table' : ovn_desired_flow_table)
    (s : ofctrl) (f : ptr) (fd' : desired_flow) (u : uuid)
    (refs : list sb_flow_ref) :
  let sfr := {| sfr_flow := f; sfr_sb_uuid := u |} in
  ofctrl_wf flow_table s →
  (∀ d, d ∈ match_flow_table flow_table'
        ↔ d = f ∨ d ∈ match_flow_table flow_table) →
  NoDup (match_flow_table flow_table') →
  NoDup (stf_sb_uuid <$> uuid_flow_table flow_table') →
  (∀ u', stf_flows <$> sb_to_flow_find (uuid_flow_table flow_table') u'
         = if decide (u' = u) then
             Some (default [] (stf_flows <$> sb_to_flow_find
                                 (uuid_flow_table flow_table) u)
                   ++ [sfr])
           else stf_flows <$> sb_to_flow_find
                                (uuid_flow_table flow_table) u') →
  ovn_flow_hashed (d_flow fd') →
  d_references fd' = refs ++ [sfr] →
  u ∉ sfr_sb_uuid <$> refs →
  (if decide (f ∈ match_flow_table flow_table)
   then ∃ fd, desired_at (mem s) !! f = Some fd ∧ d_references fd = refs
              ∧ d_installed_flow fd' = d_installed_flow fd
              ∧ ovn_flow_key_eq (d_flow fd') (d_flow fd)
   else refs = [] ∧ desired_at (mem s) !! f = None
        ∧ d_installed_flow fd' = None) →
  ofctrl_wf flow_table' (set_mem (set_desired_at (insert f fd') (mem s)) s).
Proof.
  intros sfr (Heng & Hlinks & Hback & Hsrc) Hidx Hnd' Hndu Hfind Hh Hrefs Hu
         Hold.
  destruct Heng as (Hg & Hm & Hwf & Hndi & Huniq & Hinst).
  set (m := mem s) in *.
  set (m' := set_desired_at (insert f fd') m).
  assert (Hlk : ∀ d, desired_at m' !! d
                     = if decide (d = f) then Some fd'
                       else desired_at m !! d).
  { intros d. unfold m'. cbn. destruct (decide (d = f)) as [->|Hne].
    - apply lookup_insert_eq.
    - by apply lookup_insert_ne. }
  assert (Hkeep : ∀ d fd, desired_at m !! d = Some fd →
            ∃ fd2, desired_at m' !! d = Some fd2
                   ∧ d_installed_flow fd2 = d_installed_flow fd
                   ∧ ovn_flow_key_eq (d_flow fd2) (d_flow fd)).
  { intros d fd Hfd. rewrite Hlk. destruct (decide (d = f)) as [->|Hne].
    - exists fd'. split; [done|].
      destruct (decide (f ∈ match_flow_table flow_table)).
      + destruct Hold as (fd0 & Hfd0 & _ & Hi0 & Hk0).
        rewrite Hfd in Hfd0. by injection Hfd0 as <-.
      + destruct Hold as (_ & Hnone & _). by rewrite Hnone in Hfd.
    - by exists fd. }
  assert (Hi' : installed_at m' = installed_at m) by done.
  clearbody m'.
  assert (ofctrl_wf flow_table' (set_mem m' s)) as Hgoal; [|done].
  destruct s as [cn st fu cc x x2 tc ifl g mtr mff nr sk onb mm].
  cbn in Hg, Hm, Hndi, Huniq, Hinst. subst m. cbn [mem] in *.
  unfold ofctrl_wf, engine_wf. cbn.
  split; [|split; [|split]].
  - split; [done|]. split; [done|]. split; [|split; [done|split]].
    + split; [done|]. intros d Hd. rewrite Hlk.
      destruct (decide (d = f)) as [->|Hne]; [by exists fd'|].
      apply Hidx in Hd as [->|Hd]; [done|]. destruct Hwf as [_ Hall].
      by apply Hall.
    + unfold installed_keys_unique. by rewrite Hi'.
    + intros i Hi. destruct (Hinst i Hi) as [Hl Hk]. split.
      * destruct Hl as (fi & Hfi & Hndr & Hr & Hprim).
        exists fi. rewrite Hi'. split; [done|]. split; [done|].
        split; [|done]. intros d Hd. destruct (Hr d Hd) as (fd & Hfd & Hdi).
        destruct (Hkeep d fd Hfd) as (fd2 & Hfd2 & Hi2 & _).
        exists fd2. split; [done|congruence].
      * unfold installed_flow_keyed. rewrite Hi'. intros fi Hfi.
        destruct (Hk fi Hfi) as [Hhi Hr]. split; [done|].
        intros d Hd. destruct (Hr d Hd) as (fd & Hfd & Hkey).
        destruct (Hkeep d fd Hfd) as (fd2 & Hfd2 & _ & Hk2).
        exists fd2. split; [done|]. unfold ovn_flow_key_eq in *.
        congruence.
  - destruct Hlinks as [Hndu0 Hl]. split; [done|].
    set (F := λ u', stf_flows <$> sb_to_flow_find
                                    (uuid_flow_table flow_table) u') in *.
    assert (links_wf
              (λ u', if decide (u' = u)
                     then Some (default [] (F u) ++ [sfr]) else F u')
              (match_flow_table flow_table') m') as Hlink.
    { apply (links_wf_link F (match_flow_table flow_table) _ mm _ f fd' u
               refs).
      - done.
      - done.
      - intros d Hne. by rewrite Hlk, decide_False.
      - by rewrite Hlk, decide_True.
      - done.
      - destruct (decide (f ∈ match_flow_table flow_table)).
        + destruct Hold as (fd & Hfd & Hr & _). by exists fd.
        + by destruct Hold.
      - done. }
    eapply links_wf_ext; [|exact Hlink]. intros u'. cbn beta.
    symmetry. apply Hfind.
  - intros d fd2 i Hd. rewrite Hlk, Hi'.
    destruct (decide (d = f)) as [->|Hne].
    + intros [= <-] Hfi.
      destruct (decide (f ∈ match_flow_table flow_table)) as [Hin|Hout].
      * destruct Hold as (fd & Hfd & _ & Hi0 & _).
        apply (Hback f fd i Hin Hfd). congruence.
      * destruct Hold as (_ & _ & Hnone). congruence.
    + apply Hidx in Hd as [->|Hd]; [done|]. by apply Hback.
  - intros d fd2 Hd. rewrite Hlk.
    destruct (decide (d = f)) as [->|Hne].
    + intros [= <-]. rewrite Hrefs. by destruct refs.
    + apply Hidx in Hd as [->|Hd]; [done|]. by apply Hsrc.
Qed.

(** The two paths of [ofctrl_add_or_append_flow]: a flow with the key is
    in the table and gets the actions and the source, or a new flow is
    added. *)
Lemma ofctrl_add_or_append_flow_paths
    (flow_table : ovn_desired_flow_table) (t p c : Z) (mt : minimatch)
    (a : list Byte.byte) (u : uuid) (m : memory) :
  let f := xmalloc (desired_at m) in
  let find ft u' := stf_flows <$> sb_to_flow_find (uuid_flow_table ft) u' in
  desired_table_wf flow_table m →
  NoDup (stf_sb_uuid <$> uuid_flow_table flow_table) →
  ∃ flow_table' d fd',
    ofctrl_add_or_append_flow flow_table t p c mt a u m
    = Some (flow_table', set_desired_at (insert d fd') m)
    ∧ NoDup (stf_sb_uuid <$> uuid_flow_table flow_table')
    ∧ (∀ u', find flow_table' u'
             = if decide (u' = u) then
                 Some (default [] (find flow_table u)
                       ++ [ {| sfr_flow := d; sfr_sb_uuid := u |} ])
               else find flow_table u')
    ∧ ((∃ fe, d ∈ match_flow_table flow_table
              ∧ desired_at m !! d = Some fe
              ∧ ovn_flow_key_match (d_flow fe) (ovn_flow_init t p c mt a)
                = true
              ∧ match_flow_table flow_table' = match_flow_table flow_table
              ∧ fd' = {| d_flow := {| table_id := table_id (d_flow fe);
                                      priority := priority (d_flow fe);
                                      match_ := match_ (d_flow fe);
                                      hash := hash (d_flow fe);
                                      ofpacts := ofpacts (d_flow fe) ++ a;
                                      cookie := cookie (d_flow fe) |};
                         d_references :=
                           d_references fe
                           ++ [ {| sfr_flow := d; sfr_sb_uuid := u |} ];
                         d_installed_flow := d_installed_flow fe |})
       ∨ (d = f
          ∧ match_flow_table flow_table' = f :: match_flow_table flow_table
          ∧ fd' = {| d_flow := ovn_flow_init t p c mt a;
                     d_references := [ {| sfr_flow := f; sfr_sb_uuid := u |} ];
                     d_installed_flow := None |})).
Proof.
  intros f find Hwf Hnd.
  destruct (desired_flow_lookup_in_spec (match_flow_table flow_table)
              (ovn_flow_init t p c mt a) None m) as (r & Hr & Hspec).
  { intros d Hd. destruct Hwf as [_ Hall].
    destruct (Hall d Hd) as (fd & -> & _). by eexists. }
  unfold ofctrl_add_or_append_flow.
  rewrite desired_flow_alloc_eq. cbn beta iota. fold f.
  set (cand := {| d_flow := ovn_flow_init t p c mt a;
                  d_references := []; d_installed_flow := None |}).
  replace (desired_at (set_desired_at (insert f cand) m) !! f)
    with (Some cand) by (simpl; by rewrite lookup_insert_eq).
  cbn [mbind option_bind d_flow cand].
  subst f. rewrite desired_flow_lookup_alloc by done.
  unfold desired_flow_lookup. rewrite Hr. cbn [mbind option_bind].
  set (f := xmalloc (desired_at m)) in *.
  destruct r as [e|].
  - destruct Hspec as (He & fe & Hfe & Hkey & _).
    assert (Hef : f ≠ e).
    { intros <-. subst f. by rewrite xmalloc_fresh in Hfe. }
    replace (desired_at (set_desired_at (insert f cand) m) !! e)
      with (Some fe) by (simpl; by rewrite lookup_insert_ne).
    cbn [mbind option_bind].
    set (fe' := {| d_flow := _; d_references := d_references fe;
                   d_installed_flow := _ |}).
    assert (Hdestroy :
      desired_flow_destroy f
        (set_desired_at (insert e fe') (set_desired_at (insert f cand) m))
      = Some (set_desired_at (insert e fe') m)).
    { unfold desired_flow_destroy. simpl.
      rewrite lookup_insert_ne, lookup_insert_eq by done. simpl.
      f_equal. unfold set_desired_at. simpl. f_equal.
      rewrite delete_insert_ne, delete_insert_eq, delete_id by
        (done || apply xmalloc_fresh). done. }
    rewrite Hdestroy. cbn [mbind option_bind].
    destruct (link_flow_to_sb_table flow_table e u
                (set_desired_at (insert e fe') m) fe')
      as (ft' & Hlink & Hmt & Hnd' & Hfind).
    { simpl. by rewrite lookup_insert_eq. }
    { done. }
    exists ft', e. eexists. split; [|split; [done|split; [exact Hfind|]]].
    + rewrite Hlink. do 2 f_equal.
      unfold set_desired_at. simpl. by rewrite insert_insert_eq.
    + left. exists fe. done.
  - destruct (link_flow_to_sb_table
                {| match_flow_table :=
                     hmap_insert (match_flow_table flow_table) f;
                   uuid_flow_table := uuid_flow_table flow_table |}
                f u (set_desired_at (insert f cand) m) cand)
      as (ft' & Hlink & Hmt & Hnd' & Hfind).
    { simpl. by rewrite lookup_insert_eq. }
    { done. }
    exists ft', f. eexists. split; [|split; [done|split; [exact Hfind|]]].
    + rewrite Hlink. do 2 f_equal.
      unfold set_desired_at. simpl. by rewrite insert_insert_eq.
    + right. done.
Qed.

(** X27.  [ofctrl_add_or_append_flow] keeps the invariant of the module
    when the source is not yet a source of a flow of the table with the key
    asked for: the call returns a table that satisfies the invariant with
    the engine on the new heap, and the installed flows are as they
    were. *)
Theorem ofctrl_add_or_append_flow_keeps_wf
    (flow_table : ovn_desired_flow_table) (t p c : Z) (mt : minimatch)
    (a : list Byte.byte) (u : uuid) (s : ofctrl) :
  ofctrl_wf flow_table s →
  (∀ d fd, d ∈ match_flow_table flow_table →
           desired_at (mem s) !! d = Some fd →
           ovn_flow_key_match (d_flow fd) (ovn_flow_init t p c mt a) = true →
           u ∉ d_sources fd) →
  ∃ flow_table' m',
    ofctrl_add_or_append_flow flow_table t p c mt a u (mem s)
    = Some (flow_table', m')
    ∧ ofctrl_wf flow_table' (set_mem m' s)
    ∧ installed_at m' = installed_at (mem s).
Proof.
  intros Hwf Hnew.
  pose proof Hwf as ((_ & _ & Hdwf & _) & [Hndu _] & _).
  destruct (ofctrl_add_or_append_flow_paths flow_table t p c mt a u (mem s)
              Hdwf Hndu)
    as (flow_table' & d & fd' & Hrun & Hndu' & Hfind & Hpath).
  exists flow_table'. eexists. split; [exact Hrun|]. split; [|done].
  destruct Hdwf as [Hndi Hall].
  destruct Hpath as [(fe & Hd & Hfe & Hkey & Hidx & ->)|(-> & Hidx & ->)].
  - apply (link_keeps_wf flow_table flow_table' s d _ u (d_references fe));
      try done.
    + intros d'. rewrite Hidx. split; [by right|]. by intros [->|].
    + by rewrite Hidx.
    + destruct (Hall d Hd) as (fe0 & Hfe0 & Hh). rewrite Hfe in Hfe0.
      injection Hfe0 as <-. done.
    + by apply (Hnew d fe).
    + rewrite decide_True by done. by exists fe.
  - assert (Hfresh : xmalloc (desired_at (mem s))
                     ∉ match_flow_table flow_table).
    { intros Hin. destruct (Hall _ Hin) as (fd & Hfd & _).
      by rewrite xmalloc_fresh in Hfd. }
    apply (link_keeps_wf flow_table flow_table' s _ _ u []); try done.
    + intros d'. rewrite Hidx. apply elem_of_cons.
    + rewrite Hidx. by apply NoDup_cons.
    + apply not_elem_of_nil.
    + rewrite decide_False by done. split; [done|].
      split; [apply xmalloc_fresh|done].
Qed.

(** ** Every sequence of calls keeps the invariant *)

(** One call keeps the invariant of the module. *)
Lemma ofctrl_call_do_wf
    (remove_desired : ovn_extend_table → uuid → ovn_extend_table)
    (call : ofctrl_call) (cl : ofctrl_client) :
  ofctrl_wf (c_flow_table cl) (c_engine cl) →
  ∃ cl', ofctrl_call_do remove_desired call cl = Some cl'
         ∧ ofctrl_wf (c_flow_table cl') (c_engine cl').
Proof.
  intros Hwf. destruct call as [t p c mt a u|u| |mtab nb fc|input|n];
    cbn [ofctrl_call_do].
  - destruct (ofctrl_add_flow_wf (c_flow_table cl) t p c mt a u
                (c_engine cl) Hwf) as (ft' & m' & -> & Hwf' & _).
    by eexists.
  - destruct (ofctrl_remove_flows_wf remove_desired (c_flow_table cl) u
                (c_engine cl) Hwf) as (ft' & s' & -> & Hwf' & _).
    by eexists.
  - destruct (ovn_desired_flow_table_clear_wf (c_flow_table cl)
                (c_engine cl) Hwf) as (m' & -> & Hwf').
    by eexists.
  - destruct (ofctrl_put_wf (c_flow_table cl) (c_pending_ct_zones cl)
                mtab nb fc (c_engine cl) Hwf) as (s' & z' & -> & Hwf').
    by eexists.
  - destruct (ofctrl_run_wf (c_flow_table cl) input
                (c_pending_ct_zones cl) (c_seqno cl) (c_engine cl) Hwf)
      as (r & -> & Hwf').
    by eexists.
  - eexists. split; [done|]. cbn.
    eapply ofctrl_wf_frame; [| | | |exact Hwf]; by destruct (c_engine cl).
Qed.

Lemma ofctrl_calls_wf
    (remove_desired : ovn_extend_table → uuid → ovn_extend_table)
    (calls : list ofctrl_call) :
  ∀ cl,
    ofctrl_wf (c_flow_table cl) (c_engine cl) →
    ∃ cl', ofctrl_calls remove_desired calls cl = Some cl'
           ∧ ofctrl_wf (c_flow_table cl') (c_engine cl').
Proof.
  unfold ofctrl_calls. induction calls as [|call calls IH]; intros cl Hwf.
  - by exists cl.
  - destruct (ofctrl_call_do_wf remove_desired call cl Hwf)
      as (cl1 & Hstep & Hwf1).
    destruct (IH cl1 Hwf1) as (cl' & Hrest & Hwf').
    exists cl'. rewrite for_each_cons, Hstep. by split.
Qed.

(** X28.  From [ofctrl_init] and [ovn_desired_flow_table_init], every
    sequence of calls to [ofctrl_add_flow], [ofctrl_remove_flows],
    [ovn_desired_flow_table_clear], [ofctrl_put] and [ofctrl_run],
    interleaved in any way with the connection draining its queue, runs to
    its end, no call failing, and leaves an engine and a desired table that
    satisfy the invariant of the module. *)
Theorem ofctrl_calls_from_init
    (remove_desired : ovn_extend_table → uuid → ovn_extend_table)
    (group_table meter_table : ovn_extend_table) (c : rconn) (m : memory)
    (pending_ct_zones : gmap string ct_zone_pending_entry)
    (calls : list ofctrl_call) :
  ∃ cl,
    ofctrl_calls remove_desired calls
      {| c_flow_table := ovn_desired_flow_table_init;
         c_pending_ct_zones := pending_ct_zones; c_seqno := 0;
         c_engine := ofctrl_init group_table meter_table c m |}
    = Some cl
    ∧ ofctrl_wf (c_flow_table cl) (c_engine cl).
Proof.
  apply ofctrl_calls_wf. cbn.
  split; [|split; [|split]].
  - split; [by eexists|]. split; [by eexists|].
    split; [split; [apply NoDup_nil_2|by intros d Hd%not_elem_of_nil]|].
    split; [apply NoDup_nil_2|].
    split; [by intros i j fi fj Hi%not_elem_of_nil|].
    by intros i Hi%not_elem_of_nil.
  - split; [apply NoDup_nil_2|]. split.
    + by intros u l.
    + by intros d fd Hd%not_elem_of_nil.
  - by intros d fd i Hd%not_elem_of_nil.
  - by intros d fd Hd%not_elem_of_nil.
Qed.

End Properties.

(** * Concrete runs

    The model run on the fixtures, with [test_lib] for the library. *)

Lemma ip_table_wf : desired_table_wf ip_table ip_memory.
Proof.
  split; [apply NoDup_singleton|].
  intros d ->%list_elem_of_singleton. by eexists.
Qed.

(** ** The reconciler *)

(** C1, at a concrete input.  The engine is in a state in which
    [ofctrl_can_put] returns true, and the desired table holds the flow that
    [ofctrl_add_flow] put there, but [ofctrl_put] is called with
    [flow_changed] false and the [nb_cfg] of the call before, so it finds no
    update needed and returns before its loops: the match index has the key
    (0, 100, ip) and no flow is installed. *)
Lemma ofctrl_put_not_needed_counterexample :
  ofctrl_add_flow empty_flow_table 0 100 7 "ip" [] sb1 empty_memory
  = Some (ip_table, ip_memory)
  ∧ ofctrl_can_put (set_mem ip_memory (idle [] 0 0)) = true
  ∧ ∃ s', ofctrl_put ip_table ∅ [] 0 false (set_mem ip_memory (idle [] 0 0))
          = Some (s', ∅)
          ∧ match_flow_table ip_table = [1%positive]
          ∧ flow_key ∘ d_flow <$> desired_at (mem s') !! 1%positive
            = Some (0, 100, "ip")
          ∧ installed_flows s' = [].
Proof.
  split; [reflexivity|]. split; [reflexivity|].
  eexists. split; [reflexivity|]. repeat split.
Qed.

(** The amended C1.  On an engine that has a stale flow installed (match
    [tcp]) while the desired table holds the flow with match [ip], a call
    that finds an update needed leaves the two tables with the same keys;
    on the engine with one flow installed, a call with the [nb_cfg] of the
    call before and no change of the flows is not needed, and leaves the
    installed flow where it is. *)
Lemma ofctrl_put_reconciles_witness :
  (∃ s' pending_ct_zones',
     ofctrl_put ip_table ∅ [] 1 true stale_engine
     = Some (s', pending_ct_zones')
     ∧ (∀ i, i ∈ installed_flows s' →
          ∃ fi p fp,
            installed_at (mem s') !! i = Some fi
            ∧ i_desired_flow fi = Some p
            ∧ p ∈ match_flow_table ip_table
            ∧ desired_at (mem s') !! p = Some fp
            ∧ flow_key (i_flow fi) = flow_key (d_flow fp)
            ∧ ofpacts (i_flow fi) = ofpacts (d_flow fp)
            ∧ cookie (i_flow fi) = cookie (d_flow fp))
     ∧ (∀ d, d ∈ match_flow_table ip_table →
          ∃ fd i fi,
            desired_at (mem s') !! d = Some fd
            ∧ i ∈ installed_flows s'
            ∧ installed_at (mem s') !! i = Some fi
            ∧ flow_key (i_flow fi) = flow_key (d_flow fd)))
  ∧ (∃ s', ofctrl_put shared_table ∅ [] 1 false shared_engine = Some (s', ∅)
           ∧ installed_flows s' = [1%positive]
           ∧ mem s' = shared_memory).
Proof.
  split.
  - destruct (proj1 (ofctrl_put_reconciles ip_table ∅ [] 1 true stale_engine))
      as (s' & zones' & Hput & _ & Hinstalled & Hdesired).
    + reflexivity.
    + reflexivity.
    + split; [by eexists|]. split; [by eexists|]. split.
      { split; [apply NoDup_singleton|].
        intros d ->%list_elem_of_singleton. by eexists. }
      split; [apply NoDup_singleton|]. split.
      { by intros i j fi fj ->%list_elem_of_singleton
                            ->%list_elem_of_singleton _ _ _. }
      intros i ->%list_elem_of_singleton. split.
      * eexists. split; [reflexivity|]. split; [apply NoDup_nil_2|].
        split; [|reflexivity]. by intros d ?%not_elem_of_nil.
      * intros fi [= <-]. split; [reflexivity|].
        by intros d ?%not_elem_of_nil.
    + by exists s', zones'.
  - destruct (proj2 (ofctrl_put_reconciles shared_table ∅ [] 1 false
                       shared_engine))
      as (s' & Hput & Hl & Hm & _); [reflexivity|].
    exists s'. split; [exact Hput|]. split; [exact Hl|exact Hm].
Defined.

(** ** The configuration sequence number *)

(** C2, the code at a failing input.  From the initial state, a call of
    [ofctrl_put] with [nb_cfg] 5 and nothing to send brings
    [ofctrl_get_cur_cfg] to 5; the next call, with [nb_cfg] 3, brings it
    back to 3: [ofctrl_put] stores [nb_cfg] in [cur_cfg] without comparing
    the two, where the barrier path compares them. *)
Theorem ofctrl_put_cur_cfg_decreases :
  ∃ s1 s2,
    ofctrl_put empty_flow_table ∅ [] 5 false (idle [] 0 0) = Some (s1, ∅)
    ∧ ofctrl_put empty_flow_table ∅ [] 3 false s1 = Some (s2, ∅)
    ∧ ofctrl_get_cur_cfg s1 = 5
    ∧ ofctrl_get_cur_cfg s2 = 3.
Proof. eexists _, _. split; [reflexivity|]. repeat split. Qed.

(** C10, the code at a failing input.  Two updates are in flight, with
    [nb_cfg] 5 and 7: the queue is sorted.  A call of [ofctrl_put] with
    [nb_cfg] 3 that has no message to send writes 3 into the record at the
    tail: the queue is then 5, 3 from head to tail, no longer sorted.  The
    branch that has messages to send drops the records with a greater
    [nb_cfg] first. *)
Theorem ofctrl_put_flow_updates_unsorted :
  let s := idle [ {| fup_xid := 1; fup_nb_cfg := 5 |};
                  {| fup_xid := 2; fup_nb_cfg := 7 |} ] 4 7 in
  flow_updates_sorted s = true
  ∧ ofctrl_can_put s = true
  ∧ ∃ s', ofctrl_put empty_flow_table ∅ [] 3 true s = Some (s', ∅)
          ∧ flow_updates s' = [ {| fup_xid := 1; fup_nb_cfg := 5 |};
                                {| fup_xid := 2; fup_nb_cfg := 3 |} ]
          ∧ flow_updates_sorted s' = false.
Proof.
  split; [reflexivity|]. split; [reflexivity|].
  eexists. split; [reflexivity|]. split; reflexivity.
Qed.

(** ** The desired flow table *)

(** C3, at a concrete input.  The table holds the flow (0, 100, ip) from
    source [sb1]; adding the same key from [sb2] leaves two desired flows
    with that key in the match index, one for each source. *)
Lemma ofctrl_add_flow_two_sources_counterexample :
  ∃ flow_table m d1 d2 f1 f2,
    ofctrl_add_flow ip_table 0 100 7 "ip" [] sb2 ip_memory
    = Some (flow_table, m)
    ∧ d1 ≠ d2
    ∧ d1 ∈ match_flow_table flow_table
    ∧ d2 ∈ match_flow_table flow_table
    ∧ desired_at m !! d1 = Some f1
    ∧ desired_at m !! d2 = Some f2
    ∧ flow_key (d_flow f1) = flow_key (d_flow f2)
    ∧ d_sources f1 = [sb1] ∧ d_sources f2 = [sb2].
Proof.
  eexists _, _, 1%positive, 2%positive, _, _. split; [reflexivity|].
  split; [discriminate|].
  split; [apply list_elem_of_further, list_elem_of_here|].
  split; [apply list_elem_of_here|].
  split; [reflexivity|]. split; [reflexivity|]. repeat split.
Qed.

(** The amended C3 on the same table: the flow from [sb1] again is
    discarded, the flow from [sb2] is inserted as a new desired flow. *)
Lemma ofctrl_check_and_add_flow_cases_witness :
  ofctrl_check_and_add_flow ip_table 0 100 7 "ip" [] sb1 false ip_memory
  = Some (ip_table, ip_memory)
  ∧ ∃ f flow_table' m',
      ofctrl_check_and_add_flow ip_table 0 100 7 "ip" [] sb2 false ip_memory
      = Some (flow_table', m')
      ∧ desired_at ip_memory !! f = None
      ∧ match_flow_table flow_table' ≡ₚ f :: match_flow_table ip_table
      ∧ desired_at m'
        = <[f := {| d_flow := flow_ip;
                    d_references := [ {| sfr_flow := f; sfr_sb_uuid := sb2 |} ];
                    d_installed_flow := None |}]> (desired_at ip_memory).
Proof.
  split.
  - apply (ofctrl_check_and_add_flow_cases (H := test_lib) ip_table 0 100 7
             "ip" [] sb1 false ip_memory ip_table_wf).
    exists 1%positive. eexists. split; [by apply list_elem_of_singleton|].
    split; [reflexivity|]. split; [reflexivity|].
    by apply list_elem_of_singleton.
  - destruct (ofctrl_check_and_add_flow_cases (H := test_lib) ip_table 0 100
                7 "ip" [] sb2 false ip_memory ip_table_wf)
      as (_ & _ & Hnew).
    destruct Hnew as (f & ft' & m' & Hr & Hfree & Hidx & Hm & _).
    + intros (d & fd & ->%list_elem_of_singleton & [= <-] & _ & Hin).
      by apply list_elem_of_singleton in Hin.
    + by exists f, ft', m'.
Defined.

(** C4, at a concrete input.  The table holds the flow (0, 100, ip) from
    source [sb1]; an add-or-append on that key from [sb1] again links [sb1]
    a second time, in the references of the flow and in the table of
    sources. *)
Lemma ofctrl_add_or_append_flow_same_source_counterexample :
  ∃ flow_table m f,
    ofctrl_add_or_append_flow ip_table 0 100 7 "ip" [] sb1 ip_memory
    = Some (flow_table, m)
    ∧ desired_at m !! 1%positive = Some f
    ∧ d_sources f = [sb1; sb1]
    ∧ sb_to_flow_find (uuid_flow_table flow_table) sb1
      = Some {| stf_sb_uuid := sb1;
                stf_flows := [ {| sfr_flow := 1; sfr_sb_uuid := sb1 |};
                               {| sfr_flow := 1; sfr_sb_uuid := sb1 |} ] |}.
Proof.
  eexists _, _, _. split; [reflexivity|]. split; [reflexivity|].
  split; reflexivity.
Qed.

(** The amended C4 on the same table, with an add-or-append from [sb2]: the
    actions are appended, and [sb2] is linked behind [sb1] on the flow and
    gets a node with this link in the table of sources. *)
Lemma ofctrl_add_or_append_flow_appends_witness :
  ∃ e fe desired_flows' m',
    desired_at ip_memory !! e = Some fe
    ∧ ofctrl_add_or_append_flow ip_table 0 100 8 "ip" [Byte.x01] sb2
                                ip_memory
      = Some (desired_flows', m')
    ∧ match_flow_table desired_flows' = match_flow_table ip_table
    ∧ (ofpacts ∘ d_flow <$> desired_at m' !! e)
      = Some (ofpacts (d_flow fe) ++ [Byte.x01])
    ∧ (d_sources <$> desired_at m' !! e) = Some (d_sources fe ++ [sb2])
    ∧ stf_flows <$> sb_to_flow_find (uuid_flow_table desired_flows') sb2
      = Some [ {| sfr_flow := e; sfr_sb_uuid := sb2 |} ]
    ∧ stf_flows <$> sb_to_flow_find (uuid_flow_table desired_flows') sb1
      = stf_flows <$> sb_to_flow_find (uuid_flow_table ip_table) sb1.
Proof.
  destruct (ofctrl_add_or_append_flow_appends (H := test_lib) ip_table 0 100
              "ip" ip_memory ip_table_wf) as [Happend _].
  destruct (Happend 8 [Byte.x01] sb2)
    as (e & fe & flows' & m' & _ & Hfe & _ & Hrun & Hidx & He & _ & Hlinks).
  - exists 1%positive. eexists. split; [by apply list_elem_of_singleton|].
    split; [reflexivity|]. by repeat split.
  - exists e, fe, flows', m'. rewrite He.
    split; [exact Hfe|]. split; [exact Hrun|]. split; [exact Hidx|].
    split; [reflexivity|].
    split; [simpl; unfold d_sources; simpl; by rewrite fmap_app|].
    split; [exact (Hlinks sb2)|exact (Hlinks sb1)].
Defined.

(** ** The state machine *)

(** C5, at a concrete input.  No flow update is in flight, and a conntrack
    flush is pending in state OF_SENT with the xid of the barrier reply: the
    handler leaves it in OF_SENT, since it looks at the pending flushes only
    when the queue of flow updates is not empty. *)
Lemma recv_S_UPDATE_FLOWS_empty_queue_counterexample :
  let oh := {| oh_xid := 11; oh_tlv_table_reply := None;
               oh_error := OFPERR_OTHER |} in
  ctzpe_state sent_zone = CT_ZONE_OF_SENT
  ∧ of_xid sent_zone = oh_xid oh
  ∧ (recv_S_UPDATE_FLOWS oh OFPTYPE_BARRIER_REPLY {[ "ct" := sent_zone ]}
                         (idle [] 0 0)).2 !! "ct"
    = Some sent_zone.
Proof. repeat split. Qed.

(** C7, at a concrete input.  The reply carries the outstanding xid and a
    mapping with the expected class, type and length at index 64, past the
    64 slots: the index is not recorded, tunnel metadata is disabled. *)
Lemma recv_S_TLV_TABLE_REQUESTED_index_counterexample :
  let s' := recv_S_TLV_TABLE_REQUESTED (tlv_reply 64)
              OFPTYPE_NXT_TLV_TABLE_REPLY tlv_requested in
  oh_xid (tlv_reply 64) = xid tlv_requested
  ∧ find is_ovn_geneve <$> oh_tlv_table_reply (tlv_reply 64)
    = Some (Some {| option_class := OVN_GENEVE_CLASS;
                    option_type := OVN_GENEVE_TYPE;
                    option_len := OVN_GENEVE_LEN; index := 64 |})
  ∧ state s' = S_CLEAR_FLOWS
  ∧ mff_ovn_geneve s' = 0
  ∧ mff_ovn_geneve s' ≠ MFF_TUN_METADATA0 + 64.
Proof. by vm_compute. Qed.

(** The amended C7 on a reply with the mapping at index 3. *)
Lemma recv_S_TLV_TABLE_REQUESTED_reply_witness :
  let s' := recv_S_TLV_TABLE_REQUESTED (tlv_reply 3)
              OFPTYPE_NXT_TLV_TABLE_REPLY tlv_requested in
  state s' = S_CLEAR_FLOWS
  ∧ mff_ovn_geneve s' = MFF_TUN_METADATA0 + 3
  ∧ swconn s' = swconn tlv_requested.
Proof.
  destruct (recv_S_TLV_TABLE_REQUESTED_reply (H := test_lib) tlv_requested
              (tlv_reply 3)) as (Hreply & _ & _); [reflexivity|].
  exact (Hreply _ eq_refl).
Defined.

(** C8 on an engine with one installed flow, linked to two desired flows,
    and one update in flight. *)
Lemma run_S_CLEAR_FLOWS_clears_witness :
  ∃ s',
    run_S_CLEAR_FLOWS shared_engine = Some s'
    ∧ installed_flows s' = []
    ∧ installed_at (mem s') !! 1%positive = None
    ∧ flow_updates s' = []
    ∧ need_reinstall_flows s' = true
    ∧ state s' = S_UPDATE_FLOWS.
Proof.
  destruct (run_S_CLEAR_FLOWS_clears (H := test_lib) shared_engine)
    as (s' & Hrun & _ & Hnil & Hfreed & _ & _ & Hq & Hneed & Hstate).
  - apply NoDup_singleton.
  - intros i ->%list_elem_of_singleton. eexists. split; [reflexivity|].
    split.
    { apply NoDup_cons. split; [|apply NoDup_singleton].
      by intros [=]%list_elem_of_singleton. }
    split.
    { intros d [->| ->%list_elem_of_singleton]%elem_of_cons; by eexists. }
    apply elem_of_cons. by left.
  - exists s'. repeat split; try done.
    apply Hfreed. by apply list_elem_of_singleton.
Defined.

(** ** Links *)

(** C9, at a concrete input.  The installed flow has two links, the first
    its primary.  Linking the second desired flow again is not a no-op:
    [link_installed_to_desired] returns at once only for the primary, and
    here it inserts into [desired_refs] a node that is on the list
    already. *)
Lemma link_installed_to_desired_relink_counterexample :
  (i_desired_refs <$> installed_at shared_memory !! 1%positive)
  = Some [1%positive; 2%positive]
  ∧ (d_installed_flow <$> desired_at shared_memory !! 2%positive)
    = Some (Some 1%positive)
  ∧ link_installed_to_desired 1 2 shared_memory = None.
Proof. repeat split. Qed.

(** The amended C9 on the same heap: unlinking the primary promotes the
    other link. *)
Lemma link_unlink_installed_to_desired_witness :
  ∃ m',
    unlink_installed_to_desired 1 1 shared_memory = Some m'
    ∧ (i_desired_refs <$> installed_at m' !! 1%positive)
      = Some [2%positive]
    ∧ (i_desired_flow <$> installed_at m' !! 1%positive)
      = Some (Some 2%positive)
    ∧ (d_installed_flow <$> desired_at m' !! 1%positive) = Some None.
Proof.
  destruct (link_unlink_installed_to_desired (H := test_lib) shared_memory
              1 1
              {| i_flow := flow_ip;
                 i_desired_refs := [1%positive; 2%positive];
                 i_desired_flow := Some 1%positive |}
              {| d_flow := flow_ip;
                 d_references := [ {| sfr_flow := 1; sfr_sb_uuid := sb1 |} ];
                 d_installed_flow := Some 1%positive |})
    as (_ & _ & _ & Hunlink & _); [reflexivity|reflexivity|].
  destruct Hunlink as (m' & rest & Hrun & -> & Hi & Hd).
  - done.
  - apply elem_of_cons. by left.
  - reflexivity.
  - exists m'. rewrite Hi, Hd. by repeat split.
Defined.

(** ** The driver of the state machine *)

Lemma shared_engine_wf : installed_wf shared_engine.
Proof.
  split; [apply NoDup_singleton|].
  intros i ->%list_elem_of_singleton. eexists. split; [reflexivity|].
  split.
  { apply NoDup_cons. split; [|apply NoDup_singleton].
    by intros [=]%list_elem_of_singleton. }
  split.
  { intros d [->| ->%list_elem_of_singleton]%elem_of_cons; by eexists. }
  apply elem_of_cons. by left.
Qed.

Lemma ofctrl_run_returns_witness :
  ∃ r, ofctrl_run (switch_input [None; Some (barrier_reply_9, None)]) ∅ 1
                  shared_engine = Some r
       ∧ installed_wf (run_engine r).
Proof.
  apply (ofctrl_run_returns (H := test_lib)). exact shared_engine_wf.
Defined.

Lemma ofctrl_run_cur_cfg_mono_witness :
  ∃ r, ofctrl_run
         (switch_input [Some (barrier_reply_9, Some OFPTYPE_BARRIER_REPLY)])
         ∅ 1 shared_engine = Some r
       ∧ ofctrl_get_cur_cfg shared_engine
         ≤ ofctrl_get_cur_cfg (run_engine r)
       ∧ (flow_updates_sorted shared_engine = true →
          flow_updates_sorted (run_engine r) = true).
Proof.
  apply (ofctrl_run_cur_cfg_mono (H := test_lib)). exact shared_engine_wf.
Defined.

Lemma ofctrl_run_bounded_witness :
  ∃ r k, ofctrl_run
           (switch_input
              [Some (barrier_reply_9, Some OFPTYPE_BARRIER_REPLY)])
           ∅ 1 shared_engine = Some r
         ∧ (k ≤ 50)%nat
         ∧ run_rx r
           = drop k [Some (barrier_reply_9, Some OFPTYPE_BARRIER_REPLY)]
         ∧ (run_wake r = true → k = 50%nat)
         ∧ (run_wake r = false →
            (0 < k)%nat
            ∧ default None
                (head (drop (k - 1)
                         [Some (barrier_reply_9,
                                Some OFPTYPE_BARRIER_REPLY)])) = None).
Proof.
  apply (ofctrl_run_bounded (H := test_lib));
    [exact shared_engine_wf|reflexivity].
Defined.

Lemma ofctrl_run_reconnect_witness :
  ∃ r, ofctrl_run (switch_input []) {[ "ct" := sent_zone ]} 0 shared_engine
       = Some r
       ∧ run_seqno r = 1
       ∧ run_ct_zones r = ct_zone_resend <$> {[ "ct" := sent_zone ]}
       ∧ (txq (swconn shared_engine)
          ++ [ {| msg_xid := next_xid (swconn shared_engine);
                  msg_body := NXT_TLV_TABLE_REQUEST |} ])
         `prefix_of` txq (swconn (run_engine r)).
Proof.
  apply (ofctrl_run_reconnect (H := test_lib));
    [exact shared_engine_wf|reflexivity|done].
Defined.

Lemma ofctrl_run_negotiates_witness :
  ∃ r,
    ofctrl_run
      (switch_input [Some (tlv_reply 3, Some OFPTYPE_NXT_TLV_TABLE_REPLY)])
      ∅ 0 shared_engine = Some r
    ∧ state (run_engine r) = S_UPDATE_FLOWS
    ∧ ofctrl_get_mf_field_id true (run_engine r) = MFF_TUN_METADATA0 + 3
    ∧ installed_flows (run_engine r) = [].
Proof.
  destruct (ofctrl_run_negotiates (H := test_lib)
              (switch_input
                 [Some (tlv_reply 3, Some OFPTYPE_NXT_TLV_TABLE_REPLY)])
              (tlv_reply 3)
              [ {| option_class := OVN_GENEVE_CLASS;
                   option_type := OVN_GENEVE_TYPE;
                   option_len := OVN_GENEVE_LEN; index := 3 |} ]
              {| option_class := OVN_GENEVE_CLASS;
                 option_type := OVN_GENEVE_TYPE;
                 option_len := OVN_GENEVE_LEN; index := 3 |}
              ∅ 0 shared_engine)
    as (r & Hrun & _ & _ & Hst & Hmff & Hl & _);
    [exact shared_engine_wf|reflexivity|done|reflexivity|reflexivity
    |reflexivity|reflexivity|reflexivity|].
  exists r. split; [exact Hrun|]. split; [exact Hst|].
  split; [exact Hmff|exact Hl].
Defined.

(** ** What [ofctrl_put] sends *)

Lemma stale_engine_wf : engine_wf ip_table stale_engine.
Proof.
  split; [by eexists|]. split; [by eexists|]. split.
  { split; [apply NoDup_singleton|].
    intros d ->%list_elem_of_singleton. by eexists. }
  split; [apply NoDup_singleton|]. split.
  { by intros i j fi fj ->%list_elem_of_singleton
                        ->%list_elem_of_singleton _ _ _. }
  intros i ->%list_elem_of_singleton. split.
  - eexists. split; [reflexivity|]. split; [apply NoDup_nil_2|].
    split; [|reflexivity]. by intros d ?%not_elem_of_nil.
  - intros fi [= <-]. split; [reflexivity|].
    by intros d ?%not_elem_of_nil.
Qed.

Lemma shared_table_wf : engine_wf shared_table shared_engine.
Proof.
  assert (Hnd : NoDup [1%positive; 2%positive]).
  { apply NoDup_cons. split; [|apply NoDup_singleton].
    by intros [=]%list_elem_of_singleton. }
  split; [by eexists|]. split; [by eexists|]. split.
  { split.
    - apply NoDup_cons. split; [|apply NoDup_singleton].
      by intros [=]%list_elem_of_singleton.
    - intros d [->| ->%list_elem_of_singleton]%elem_of_cons; by eexists. }
  split; [apply NoDup_singleton|]. split.
  { by intros i j fi fj ->%list_elem_of_singleton
                        ->%list_elem_of_singleton _ _ _. }
  intros i ->%list_elem_of_singleton. split.
  - eexists. split; [reflexivity|]. split; [exact Hnd|]. split.
    { intros d [->| ->%list_elem_of_singleton]%elem_of_cons; by eexists. }
    apply elem_of_cons. by left.
  - intros fi [= <-]. split; [reflexivity|].
    intros d [->| ->%list_elem_of_singleton]%elem_of_cons; by eexists.
Qed.

Lemma ofctrl_put_skipped_retried_witness :
  ∃ s',
    ofctrl_put ip_table ∅ [] 1 true (set_tx_counter 2 stale_engine)
    = Some (s', ∅)
    ∧ swconn s' = swconn (set_tx_counter 2 stale_engine)
    ∧ tx_counter s' = tx_counter (set_tx_counter 2 stale_engine)
    ∧ installed_flows s' = installed_flows (set_tx_counter 2 stale_engine)
    ∧ mem s' = mem (set_tx_counter 2 stale_engine)
    ∧ cur_cfg s' = cur_cfg (set_tx_counter 2 stale_engine)
    ∧ flow_updates s' = flow_updates (set_tx_counter 2 stale_engine)
    ∧ ∀ nb_cfg' flow_changed',
        (put_needed nb_cfg' flow_changed' s').1 = true.
Proof.
  apply (ofctrl_put_skipped_retried (H := test_lib)); reflexivity.
Defined.

Lemma ofctrl_put_batch_witness :
  ∃ s' pending_ct_zones' sent,
    ofctrl_put ip_table ∅ [] 1 true stale_engine
    = Some (s', pending_ct_zones')
    ∧ txq (swconn s') = txq (swconn stale_engine) ++ sent
    ∧ tx_counter s' = Z.of_nat (length sent)
    ∧ (sent ≠ [] →
       ∃ x, last sent = Some {| msg_xid := x;
                                msg_body := OFPT_BARRIER_REQUEST |}
            ∧ last (flow_updates s')
              = Some {| fup_xid := x; fup_nb_cfg := 1 |}
            ∧ cur_cfg s' = cur_cfg stale_engine)
    ∧ (sent = [] →
       if bool_decide (flow_updates stale_engine = [])
       then cur_cfg s' = 1 ∧ flow_updates s' = []
       else fup_nb_cfg <$> last (flow_updates s') = Some 1
            ∧ fup_xid <$> flow_updates s'
              = fup_xid <$> flow_updates stale_engine
            ∧ cur_cfg s' = cur_cfg stale_engine).
Proof.
  apply (ofctrl_put_batch (H := test_lib));
    [reflexivity|reflexivity|exact stale_engine_wf].
Defined.

(** X9, at a concrete input: the pending zone 65541 is flushed as zone 5,
    its value as a [uint16_t]. *)
Lemma ofctrl_put_ct_flush_witness :
  ∃ s' pending_ct_zones' x,
    ofctrl_put ip_table {[ "ct" := wide_zone ]} [] 1 true stale_engine
    = Some (s', pending_ct_zones')
    ∧ NXT_CT_FLUSH_ZONE 5 ∈ msg_body <$> txq (swconn s')
    ∧ pending_ct_zones' !! "ct"
      = Some {| zone := 65541; of_xid := x;
                ctzpe_state := CT_ZONE_OF_SENT |}
    ∧ ∀ oh, oh_xid oh = x →
            (recv_S_UPDATE_FLOWS oh OFPTYPE_BARRIER_REPLY pending_ct_zones'
                                 s').2 !! "ct"
            = Some {| zone := 65541; of_xid := x;
                      ctzpe_state := CT_ZONE_DB_QUEUED |}.
Proof.
  destruct (ofctrl_put_ct_flush (H := test_lib) ip_table
              {[ "ct" := wide_zone ]} [] 1 true stale_engine "ct"
              wide_zone)
    as (s' & zones' & x & Hput & Hsent & _ & Hzone & Hreply);
    [reflexivity|reflexivity|exact stale_engine_wf|reflexivity|reflexivity|].
  exists s', zones', x.
  split; [exact Hput|]. split; [exact Hsent|]. split; [exact Hzone|].
  exact Hreply.
Defined.

Lemma ofctrl_put_no_regression_witness :
  ∃ s' pending_ct_zones',
    ofctrl_put shared_table ∅ [] 2 true shared_engine
    = Some (s', pending_ct_zones')
    ∧ ofctrl_get_cur_cfg shared_engine ≤ ofctrl_get_cur_cfg s'
    ∧ flow_updates_sorted s' = true
    ∧ (∀ fup, fup ∈ flow_updates s' → fup_nb_cfg fup ≤ 2).
Proof.
  apply (ofctrl_put_no_regression (H := test_lib));
    [exact shared_table_wf|reflexivity|by vm_compute|].
  intros fup ->%list_elem_of_singleton. by vm_compute.
Defined.


(** X12, at a concrete input.  The table holds the flow (0, 100, ip) from
    [sb1]; the flow (0, 100, tcp) is added for [sb2], and the removal of the
    flows of [sb2] gives the heap back, and a table with the nodes of the
    table before. *)
Lemma ofctrl_add_remove_flows_witness :
  ∃ flow_table' m' flow_table'',
    ofctrl_add_flow ip_table 0 100 9 "tcp" [] sb2 ip_memory
    = Some (flow_table', m')
    ∧ match_flow_table flow_table'
      ≡ₚ xmalloc (desired_at ip_memory) :: match_flow_table ip_table
    ∧ remove_flows_of_sb_uuid flow_table' sb2 m'
      = Some (flow_table'', ip_memory)
    ∧ match_flow_table flow_table'' ≡ₚ match_flow_table ip_table
    ∧ uuid_flow_table flow_table'' ≡ₚ uuid_flow_table ip_table.
Proof.
  apply (ofctrl_add_remove_flows (H := test_lib)).
  - exact ip_table_wf.
  - reflexivity.
  - intros d fd ->%list_elem_of_singleton [= <-].
    cbn. by intros [=]%list_elem_of_singleton.
Defined.

(** X13, at a concrete input.  The flow (0, 100, ip) is added once more,
    for [sb2]; the lookup of (0, 100, ip) for [sb2], with another cookie,
    finds a flow of that key. *)
Lemma desired_flow_lookup_after_add_witness :
  ∃ flow_table' m' d fd,
    ofctrl_add_flow ip_table 0 100 7 "ip" [] sb2 ip_memory
    = Some (flow_table', m')
    ∧ desired_table_wf flow_table' m'
    ∧ desired_flow_lookup flow_table' (ovn_flow_init 0 100 8 "ip" [])
        (Some sb2) m' = Some (Some d)
    ∧ d ∈ match_flow_table flow_table'
    ∧ desired_at m' !! d = Some fd
    ∧ flow_key (d_flow fd) = (0, 100, "ip")
    ∧ sb2 ∈ d_sources fd.
Proof.
  apply (desired_flow_lookup_after_add (H := test_lib)).
  exact ip_table_wf.
Defined.

(** ** The links of the desired table *)

Lemma shared_links_wf : sb_links_wf shared_table shared_memory.
Proof.
  split.
  { apply NoDup_cons. split; [|apply NoDup_singleton].
    by intros [=]%list_elem_of_singleton. }
  split.
  - intros u l. unfold sb_to_flow_find.
    cbn [shared_table uuid_flow_table find stf_sb_uuid].
    unfold uuid_equals.
    destruct (bool_decide_reflect (u = sb2)) as [->|_].
    { intros [= <-]. split; [apply NoDup_singleton|].
      intros sfr ->%list_elem_of_singleton. split; [done|].
      split; [apply elem_of_cons; by left|]. eexists. split; [reflexivity|].
      by apply list_elem_of_singleton. }
    destruct (bool_decide_reflect (u = sb1)) as [->|_]; [|done].
    intros [= <-]. split; [apply NoDup_singleton|].
    intros sfr ->%list_elem_of_singleton. split; [done|].
    split; [apply elem_of_cons; right; by apply list_elem_of_singleton|].
    eexists. split; [reflexivity|]. by apply list_elem_of_singleton.
  - intros d fd [->| ->%list_elem_of_singleton]%elem_of_cons [= <-];
      (split; [apply NoDup_singleton|]);
      intros sfr ->%list_elem_of_singleton; (split; [done|]);
      eexists; (split; [reflexivity|]); by apply list_elem_of_singleton.
Qed.

Lemma shared_back_linked : desired_back_linked shared_table shared_memory.
Proof.
  intros d fd i [->| ->%list_elem_of_singleton]%elem_of_cons [= <-] [= <-];
    (eexists; split; [reflexivity|]; split;
     [|intros _; eexists; split; [reflexivity|apply elem_of_cons; by left]]).
  - apply elem_of_cons. right. by apply list_elem_of_singleton.
  - apply elem_of_cons. by left.
Qed.

Lemma shared_sourced (d : ptr) (fd : desired_flow) :
  d ∈ match_flow_table shared_table → desired_at shared_memory !! d = Some fd →
  d_references fd ≠ [].
Proof.
  by intros [->| ->%list_elem_of_singleton]%elem_of_cons [= <-].
Qed.

(** X14, at a concrete input.  Two desired flows, of [sb1] and of [sb2],
    are linked to one installed flow, the flow of [sb1] being its primary.
    The flows of [sb1] are removed: the call returns a sound table in which
    [sb1] has no node, the flow of [sb1] is freed, and the installed flow
    no longer refers to it. *)
Lemma ofctrl_remove_flows_spec_witness :
  ∃ flow_table' m',
    ofctrl_remove_flows (λ t _, t) shared_table sb1 shared_engine
    = Some (flow_table',
            set_meters (Some empty_table)
              (set_groups (Some empty_table) (set_mem m' shared_engine)))
    ∧ (desired_table_wf flow_table' m' ∧ sb_links_wf flow_table' m'
       ∧ desired_back_linked flow_table' m')
    ∧ sb_to_flow_find (uuid_flow_table flow_table') sb1 = None
    ∧ desired_at m' !! 1%positive = None
    ∧ ∃ fi', installed_at m' !! 1%positive = Some fi'
             ∧ 1%positive ∉ i_desired_refs fi'.
Proof.
  destruct (ofctrl_remove_flows_spec (H := test_lib) (λ t _, t)
              shared_table sb1 shared_engine empty_table empty_table
              eq_refl eq_refl (proj1 (proj2 (proj2 shared_table_wf)))
              shared_links_wf shared_back_linked)
    as (flow_table' & m' & Hrun & Hinv & Hfind & _ & Hchar & _).
  exists flow_table', m'. split; [exact Hrun|]. split; [exact Hinv|].
  split; [exact (Hfind sb1)|].
  destruct (Hchar 1%positive _ (list_elem_of_further _ _ _ (list_elem_of_here _ _))
              eq_refl) as (_ & Hnone & Hinst).
  split; [exact Hnone|]. exact (Hinst 1%positive eq_refl).
Defined.

(** X15, at a concrete input.  The same table is cleared: both flows are
    freed and the installed flow refers to neither. *)
Lemma ovn_desired_flow_table_clear_spec_witness :
  ∃ m',
    ovn_desired_flow_table_clear shared_table shared_memory
    = Some ({| match_flow_table := []; uuid_flow_table := [] |}, m')
    ∧ desired_at m' !! 1%positive = None
    ∧ desired_at m' !! 2%positive = None
    ∧ ∃ fi', installed_at m' !! 1%positive = Some fi'
             ∧ 2%positive ∉ i_desired_refs fi'.
Proof.
  destruct (ovn_desired_flow_table_clear_spec (H := test_lib)
              shared_table shared_memory
              (proj1 (proj2 (proj2 shared_table_wf)))
              shared_links_wf shared_back_linked shared_sourced)
    as (m' & Hrun & Hfreed & _ & Hinst & _).
  exists m'. split; [exact Hrun|].
  split; [exact (Hfreed 1%positive
                   (list_elem_of_further _ _ _ (list_elem_of_here _ _)))|].
  split; [exact (Hfreed 2%positive (list_elem_of_here _ _))|].
  exact (Hinst 2%positive _ 1%positive (list_elem_of_here _ _)
           eq_refl eq_refl).
Defined.

(** X16, at a concrete input.  The flow (0, 100, tcp) is added to the same
    table for [sb2]. *)
Lemma ofctrl_add_flow_keeps_links_witness :
  ∃ flow_table' m',
    ofctrl_add_flow shared_table 0 100 9 "tcp" [] sb2 shared_memory
    = Some (flow_table', m')
    ∧ desired_table_wf flow_table' m'
    ∧ sb_links_wf flow_table' m'
    ∧ desired_back_linked flow_table' m'
    ∧ (∀ d fd, d ∈ match_flow_table flow_table' →
               desired_at m' !! d = Some fd → d_references fd ≠ [])
    ∧ installed_at m' = installed_at shared_memory.
Proof.
  apply (ofctrl_add_flow_keeps_links (H := test_lib)).
  - exact (proj1 (proj2 (proj2 shared_table_wf))).
  - exact shared_links_wf.
  - exact shared_back_linked.
  - exact shared_sourced.
Defined.

(** ** Acknowledgements, echo requests and an engine in sync *)

(** X17, at a concrete input.  The engine holds a stale installed flow and
    the table the flow (0, 100, ip); the put is for [nb_cfg] 1. *)
Lemma ofctrl_put_acknowledged_witness :
  ∃ s' pending_ct_zones' sent,
    ofctrl_put ip_table ∅ [] 1 true stale_engine
    = Some (s', pending_ct_zones')
    ∧ txq (swconn s') = txq (swconn stale_engine) ++ sent
    ∧ (sent = [] → ofctrl_get_cur_cfg s' = 1 ∧ flow_updates s' = [])
    ∧ (sent ≠ [] →
       ∃ x, last sent = Some {| msg_xid := x;
                                msg_body := OFPT_BARRIER_REQUEST |}
            ∧ ofctrl_get_cur_cfg s' = ofctrl_get_cur_cfg stale_engine
            ∧ ∀ input oh seqno,
                connected input = true →
                connection_seqno input = seqno →
                rx input = [Some (oh, Some OFPTYPE_BARRIER_REPLY)] →
                oh_xid oh = x →
                ∃ r, ofctrl_run input pending_ct_zones' seqno s' = Some r
                     ∧ ofctrl_get_cur_cfg (run_engine r) = 1
                     ∧ flow_updates (run_engine r) = []
                     ∧ txq (swconn (run_engine r)) = txq (swconn s')
                     ∧ run_rx r = [] ∧ run_wake r = false).
Proof.
  apply (ofctrl_put_acknowledged (H := test_lib));
    [reflexivity|reflexivity|exact stale_engine_wf|reflexivity|].
  cbn. lia.
Defined.

(** X18, at a concrete input: two echo requests. *)
Lemma ofctrl_run_echo_witness :
  ∃ s',
    ofctrl_run
      (switch_input [Some (barrier_reply_9, Some OFPTYPE_ECHO_REQUEST);
                     Some (barrier_reply_9, Some OFPTYPE_ECHO_REQUEST)])
      ∅ 1 shared_engine
    = Some {| run_seqno := 1; run_engine := s'; run_ct_zones := ∅;
              run_rx := []; run_wake := false |}
    ∧ txq (swconn s')
      = txq (swconn shared_engine)
        ++ ((λ oh, {| msg_xid := oh_xid oh; msg_body := OFPT_ECHO_REPLY |})
              <$> [barrier_reply_9; barrier_reply_9])
    ∧ tx_counter s' = tx_counter shared_engine + 2
    ∧ state s' = S_UPDATE_FLOWS
    ∧ installed_flows s' = installed_flows shared_engine
    ∧ mem s' = mem shared_engine
    ∧ cur_cfg s' = cur_cfg shared_engine
    ∧ flow_updates s' = flow_updates shared_engine.
Proof.
  apply (ofctrl_run_echo (H := test_lib)
           (switch_input [Some (barrier_reply_9, Some OFPTYPE_ECHO_REQUEST);
                          Some (barrier_reply_9, Some OFPTYPE_ECHO_REQUEST)])
           [barrier_reply_9; barrier_reply_9] ∅ 1 shared_engine);
    [reflexivity|reflexivity|reflexivity|reflexivity|].
  cbn. lia.
Defined.

Lemma shared_engine_in_sync : flows_in_sync shared_table shared_engine.
Proof.
  split.
  - intros i ->%list_elem_of_singleton fi [= <-].
    eexists _, _. split; [reflexivity|]. split; [reflexivity|]. by split.
  - intros d [->| ->%list_elem_of_singleton]%elem_of_cons fd [= <-];
      by eexists.
Qed.

(** X19, at a concrete input.  The installed flow of the engine is the flow
    of both desired flows; the extend tables are empty. *)
Lemma ofctrl_put_in_sync_witness :
  ∃ s',
    ofctrl_put shared_table ∅ [] 1 true shared_engine = Some (s', ∅)
    ∧ txq (swconn s') = txq (swconn shared_engine)
    ∧ installed_flows s' = installed_flows shared_engine
    ∧ same_flow_contents (mem shared_engine) (mem s')
    ∧ groups s' = Some empty_table ∧ meters s' = Some empty_table
    ∧ flows_in_sync shared_table s'
    ∧ (if bool_decide (flow_updates shared_engine = [])
       then ofctrl_get_cur_cfg s' = 1
       else ofctrl_get_cur_cfg s' = ofctrl_get_cur_cfg shared_engine).
Proof.
  apply (ofctrl_put_in_sync (H := test_lib)); try reflexivity.
  - exact shared_table_wf.
  - exact shared_engine_in_sync.
  - intros k ctzpe Hk. by rewrite lookup_empty in Hk.
Defined.

(** X20, at a concrete input: the engine with a stale installed flow. *)
Lemma ofctrl_put_keeps_engine_wf_witness :
  ∃ s' pending_ct_zones',
    ofctrl_put ip_table ∅ [] 1 true stale_engine
    = Some (s', pending_ct_zones')
    ∧ engine_wf ip_table s'.
Proof.
  apply (ofctrl_put_keeps_engine_wf (H := test_lib)). exact stale_engine_wf.
Defined.

(** X21, at a concrete input: the same put, with a zone queued for a
    flush. *)
Lemma ofctrl_put_settles_witness :
  ∃ s' pending_ct_zones',
    ofctrl_put ip_table {[ "z" := queued_zone ]} [] 1 true stale_engine
    = Some (s', pending_ct_zones')
    ∧ engine_wf ip_table s'
    ∧ flows_in_sync ip_table s'
    ∧ (∀ k ctzpe, pending_ct_zones' !! k = Some ctzpe →
                  ctzpe_state ctzpe ≠ CT_ZONE_OF_QUEUED).
Proof.
  apply (ofctrl_put_settles (H := test_lib));
    [reflexivity|reflexivity|exact stale_engine_wf].
Defined.

(** X22, at a concrete input.  The two desired flows of the table are
    linked to the installed flow of the engine. *)
Lemma ofctrl_put_keeps_wf_witness :
  ∃ s' pending_ct_zones',
    ofctrl_put shared_table ∅ [] 1 true shared_engine
    = Some (s', pending_ct_zones')
    ∧ ofctrl_wf shared_table s'.
Proof.
  apply (ofctrl_put_keeps_wf (H := test_lib)).
  split; [exact shared_table_wf|]. split; [exact shared_links_wf|].
  split; [exact shared_back_linked|exact shared_sourced].
Defined.

(** ** The invariant of the module *)

(** X23, at a concrete input: a flow of a second source is added to the
    table of the two linked flows. *)
Lemma ofctrl_add_flow_keeps_wf_witness :
  ∃ flow_table' m',
    ofctrl_add_flow shared_table 0 100 9 "tcp" [] sb2 (mem shared_engine)
    = Some (flow_table', m')
    ∧ ofctrl_wf flow_table' (set_mem m' shared_engine)
    ∧ installed_at m' = installed_at (mem shared_engine).
Proof.
  apply (ofctrl_add_flow_keeps_wf (H := test_lib)).
  split; [exact shared_table_wf|]. split; [exact shared_links_wf|].
  split; [exact shared_back_linked|exact shared_sourced].
Defined.

(** X24, at a concrete input: the flows of the first source are removed
    from the same table. *)
Lemma ofctrl_remove_flows_keeps_wf_witness :
  ∃ flow_table' s',
    ofctrl_remove_flows (λ t _, t) shared_table sb1 shared_engine
    = Some (flow_table', s')
    ∧ ofctrl_wf flow_table' s'
    ∧ installed_flows s' = installed_flows shared_engine
    ∧ sb_to_flow_find (uuid_flow_table flow_table') sb1 = None.
Proof.
  apply (ofctrl_remove_flows_keeps_wf (H := test_lib)).
  split; [exact shared_table_wf|]. split; [exact shared_links_wf|].
  split; [exact shared_back_linked|exact shared_sourced].
Defined.

(** X25, at a concrete input: the same table is cleared. *)
Lemma ovn_desired_flow_table_clear_keeps_wf_witness :
  ∃ m',
    ovn_desired_flow_table_clear shared_table (mem shared_engine)
    = Some ({| match_flow_table := []; uuid_flow_table := [] |}, m')
    ∧ ofctrl_wf {| match_flow_table := []; uuid_flow_table := [] |}
                (set_mem m' shared_engine).
Proof.
  apply (ovn_desired_flow_table_clear_keeps_wf (H := test_lib)).
  split; [exact shared_table_wf|]. split; [exact shared_links_wf|].
  split; [exact shared_back_linked|exact shared_sourced].
Defined.

(** X26, at a concrete input: the engine of the same table receives a
    barrier reply. *)
Lemma ofctrl_run_keeps_wf_witness :
  ∃ r, ofctrl_run
         (switch_input [Some (barrier_reply_9, Some OFPTYPE_BARRIER_REPLY)])
         ∅ 1 shared_engine = Some r
       ∧ ofctrl_wf shared_table (run_engine r).
Proof.
  apply (ofctrl_run_keeps_wf (H := test_lib)).
  split; [exact shared_table_wf|]. split; [exact shared_links_wf|].
  split; [exact shared_back_linked|exact shared_sourced].
Defined.

(** X27, at a concrete input: a third source asks for the key of the two
    linked flows, and its actions are appended to the first of them. *)
Lemma ofctrl_add_or_append_flow_keeps_wf_witness :
  ∃ flow_table' m',
    ofctrl_add_or_append_flow shared_table 0 100 7 "ip" [Byte.x01] (UUID 3 0 0 0)
                              (mem shared_engine)
    = Some (flow_table', m')
    ∧ ofctrl_wf flow_table' (set_mem m' shared_engine)
    ∧ installed_at m' = installed_at (mem shared_engine).
Proof.
  apply (ofctrl_add_or_append_flow_keeps_wf (H := test_lib)).
  - split; [exact shared_table_wf|]. split; [exact shared_links_wf|].
    split; [exact shared_back_linked|exact shared_sourced].
  - by intros d fd [->| ->%list_elem_of_singleton]%elem_of_cons [= <-] _
              [=]%list_elem_of_singleton.
Defined.
